(** * Supervisor core of the connection-pooling proxy (src/main/pgpool_main.c)

    A shallow embedding of the parts of [pgpool_main.c] that decide the
    behaviour of the request queue, the failover engine, the primary finder,
    the follow-primary lock, the quorum-change handler and the status file,
    followed by the synchronisation with the leader watchdog node, the whole
    SIGUSR1 processor, the command line of the failover commands and the
    reader of connection strings.

    Conventions of the embedding.
    - C [int] values are [Z]; no run is long enough for the queue counters to
      leave the range of [int], so no wrap-around is written.
    - [BACKEND_INFO(i)] is a lookup in a list.  An index outside the list is
      undefined behaviour in C; here such a read yields the defaults
      ([CON_UNUSED], [false], [ROLE_UNKNOWN]) and such a write changes
      nothing.  The theorems only speak about indexes inside the table.
    - Everything the supervisor does to the outside world (signals, shell
      commands, forks, watchdog calls) is appended to a trace of events.  The
      trace also logs three things that happen inside shared memory, so that
      statements about order can be made: a request stored in the queue
      ([EvEnqueue]), a request taken out ([EvDequeue], with the value of
      [Req_info->switching] at that moment) and every write to
      [Req_info->switching] ([EvSwitching], with the old and new value and
      the queue counters).
    - [status_changed_time] (a wall-clock stamp) is not modelled. *)

From Stdlib Require Import ZArith Lia Bool List Ascii String.
From Stdlib Require Import DecimalString.
From stdpp Require Import base list.
Import ListNotations.
Local Open Scope Z_scope.

(** ** Data model *)

Inductive BACKEND_STATUS : Type :=
| CON_UNUSED
| CON_CONNECT_WAIT
| CON_UP
| CON_DOWN.

(** Modelled from the spec: the declaration of the role type lies outside
    src/; the spec gives role ∈ {PRIMARY, STANDBY, UNKNOWN} and the source
    uses the names [ROLE_PRIMARY] and [ROLE_STANDBY]. *)
Inductive SERVER_ROLE : Type :=
| ROLE_PRIMARY
| ROLE_STANDBY
| ROLE_UNKNOWN.

Inductive POOL_REQUEST_KIND : Type :=
| NODE_UP_REQUEST
| NODE_DOWN_REQUEST
| CLOSE_IDLE_REQUEST
| PROMOTE_NODE_REQUEST
| NODE_QUARANTINE_REQUEST.

Inductive User1SignalReason : Type :=
| SIG_FAILOVER_INTERRUPT
| SIG_WATCHDOG_STATE_CHANGED
| SIG_BACKEND_SYNC_REQUIRED
| SIG_WATCHDOG_QUORUM_CHANGED
| SIG_INFORM_QURANTINE_NODES.

Inductive ProcessType : Type :=
| PT_MAIN
| PT_CHILD
| PT_WORKER
| PT_PCP
| PT_PCP_WORKER
| PT_HEALTH_CHECK
| PT_FOLLOWCHILD.

Inductive WD_STATES : Type :=
| WD_COORDINATOR
| WD_STANDBY
| WD_OTHER_STATE.

#[global] Instance BACKEND_STATUS_eq_dec : EqDecision BACKEND_STATUS.
Proof. solve_decision. Defined.
#[global] Instance SERVER_ROLE_eq_dec : EqDecision SERVER_ROLE.
Proof. solve_decision. Defined.
#[global] Instance POOL_REQUEST_KIND_eq_dec : EqDecision POOL_REQUEST_KIND.
Proof. solve_decision. Defined.
#[global] Instance User1SignalReason_eq_dec : EqDecision User1SignalReason.
Proof. solve_decision. Defined.
#[global] Instance ProcessType_eq_dec : EqDecision ProcessType.
Proof. solve_decision. Defined.
#[global] Instance WD_STATES_eq_dec : EqDecision WD_STATES.
Proof. solve_decision. Defined.

Record BackendInfo : Type := mkBackendInfo {
  backend_status : BACKEND_STATUS;
  quarantine : bool;
  role : SERVER_ROLE;
  flag : Z
}.

(** One slot of [Req_info->request[]].  [node_id] holds the [count] entries
    that [memcpy] copied in; entries past [count] are never read back. *)
Record POOL_REQUEST_NODE : Type := mkRequest {
  kind : POOL_REQUEST_KIND;
  request_details : Z;
  node_id : list Z;
  count : Z
}.

Record POOL_REQUEST_INFO : Type := mkReqInfo {
  main_node_id : Z;
  primary_node_id : Z;
  Req_switching : bool;
  request_queue_head : Z;
  request_queue_tail : Z;
  request : list POOL_REQUEST_NODE;
  follow_primary_ongoing : bool;
  follow_primary_count : Z;
  follow_primary_lock_held_remotely : bool;
  follow_primary_lock_pending : bool
}.

Inductive Signal : Type := SIGUSR1 | SIGUSR2 | SIGQUIT.

Inductive Command : Type := FAILOVER_COMMAND | FAILBACK_COMMAND.

(** What the supervisor did to the outside world, in order. *)
Inductive Event : Type :=
| EvSignalParent (sig : Signal)
| EvKillPcp (sig : Signal)
| EvKillWorker (sig : Signal)
| EvKillAllChildren (sig : Signal)
| EvKillChildrenUsing (node : Z)
| EvRestartChildren (partial : bool) (node : Z)
| EvNeedRestartAll
| EvWdFailoverStart
| EvWdFailoverEnd
| EvTriggerCommand (cmd : Command) (node old_main new_main old_primary : Z)
| EvFindPrimary (result : Z)
| EvForkFollowChild (old_main new_primary old_primary : Z)
| EvForkHealthCheck
| EvRestartPcp
| EvSwitching (old new : bool) (head tail : Z)
| EvEnqueue (r : POOL_REQUEST_NODE)
| EvDequeue (switching_now : bool) (r : POOL_REQUEST_NODE)
| EvSendFailbackRequest (node : Z) (flags : Z)
| EvDegenerateBackendSet (node : Z) (flags : Z).

(** Compile-time constants and configuration values that the source reads
    and whose declarations lie outside src/ ([pool.h], [pool_config.h]).
    [follow_primary_command_set] is the test
    [*pool_config->follow_primary_command != 0].  [legacy_record] stands for
    [fread(&backend_rec, 1, sizeof(backend_rec), fd) == sizeof(backend_rec)]:
    the layout of [BackendStatusRecord] is declared outside src/, so the
    function that turns the bytes of a file into the entries of
    [backend_rec.status[]] is taken as given.  It yields [None] when the file
    is shorter than the record and otherwise, for each index, the status
    whose code the entry holds (or [None] when it holds no status code). *)
Record POOL_CONFIG : Type := mkConfig {
  MAX_NUM_BACKENDS : Z;
  MAX_REQUEST_QUEUE_SIZE : Z;
  REQ_DETAIL_SWITCHOVER : Z;
  REQ_DETAIL_WATCHDOG : Z;
  REQ_DETAIL_CONFIRMED : Z;
  REQ_DETAIL_UPDATE : Z;
  POOL_ALWAYS_PRIMARY : Z;
  num_backends : Z;
  RAW_MODE : bool;
  STREAM : bool;
  SL_MODE : bool;
  detach_false_primary : bool;
  follow_primary_command_set : bool;
  legacy_record : string -> option (Z -> option BACKEND_STATUS)
}.

(** Shared memory ([Req_info], the backend table, the signal slot), the
    supervisor's own [switching] and [exiting] flags, the status file and the
    trace of events. *)
Record State : Type := mkState {
  Req_info : POOL_REQUEST_INFO;
  backend_info : list BackendInfo;
  signalFlags : User1SignalReason -> bool;
  switching : bool;
  exiting : bool;
  status_file : option string;
  trace : list Event
}.

(** ** Field updates *)

Definition set_Req (f : POOL_REQUEST_INFO -> POOL_REQUEST_INFO) (st : State) : State :=
  mkState (f (Req_info st)) (backend_info st) (signalFlags st) (switching st)
          (exiting st) (status_file st) (trace st).

Definition set_backend_info (l : list BackendInfo) (st : State) : State :=
  mkState (Req_info st) l (signalFlags st) (switching st) (exiting st)
          (status_file st) (trace st).

Definition set_signalFlags (f : User1SignalReason -> bool) (st : State) : State :=
  mkState (Req_info st) (backend_info st) f (switching st) (exiting st)
          (status_file st) (trace st).

Definition set_switching (b : bool) (st : State) : State :=
  mkState (Req_info st) (backend_info st) (signalFlags st) b (exiting st)
          (status_file st) (trace st).

Definition set_status_file (f : option string) (st : State) : State :=
  mkState (Req_info st) (backend_info st) (signalFlags st) (switching st)
          (exiting st) f (trace st).

Definition emit (e : Event) (st : State) : State :=
  mkState (Req_info st) (backend_info st) (signalFlags st) (switching st)
          (exiting st) (status_file st) (trace st ++ [e]).

Definition with_main_node_id (v : Z) (r : POOL_REQUEST_INFO) : POOL_REQUEST_INFO :=
  mkReqInfo v (primary_node_id r) (Req_switching r) (request_queue_head r)
            (request_queue_tail r) (request r) (follow_primary_ongoing r)
            (follow_primary_count r) (follow_primary_lock_held_remotely r)
            (follow_primary_lock_pending r).

Definition with_primary_node_id (v : Z) (r : POOL_REQUEST_INFO) : POOL_REQUEST_INFO :=
  mkReqInfo (main_node_id r) v (Req_switching r) (request_queue_head r)
            (request_queue_tail r) (request r) (follow_primary_ongoing r)
            (follow_primary_count r) (follow_primary_lock_held_remotely r)
            (follow_primary_lock_pending r).

Definition with_Req_switching (v : bool) (r : POOL_REQUEST_INFO) : POOL_REQUEST_INFO :=
  mkReqInfo (main_node_id r) (primary_node_id r) v (request_queue_head r)
            (request_queue_tail r) (request r) (follow_primary_ongoing r)
            (follow_primary_count r) (follow_primary_lock_held_remotely r)
            (follow_primary_lock_pending r).

Definition with_head (v : Z) (r : POOL_REQUEST_INFO) : POOL_REQUEST_INFO :=
  mkReqInfo (main_node_id r) (primary_node_id r) (Req_switching r) v
            (request_queue_tail r) (request r) (follow_primary_ongoing r)
            (follow_primary_count r) (follow_primary_lock_held_remotely r)
            (follow_primary_lock_pending r).

Definition with_tail (v : Z) (r : POOL_REQUEST_INFO) : POOL_REQUEST_INFO :=
  mkReqInfo (main_node_id r) (primary_node_id r) (Req_switching r)
            (request_queue_head r) v (request r) (follow_primary_ongoing r)
            (follow_primary_count r) (follow_primary_lock_held_remotely r)
            (follow_primary_lock_pending r).

Definition with_request (v : list POOL_REQUEST_NODE) (r : POOL_REQUEST_INFO) : POOL_REQUEST_INFO :=
  mkReqInfo (main_node_id r) (primary_node_id r) (Req_switching r)
            (request_queue_head r) (request_queue_tail r) v
            (follow_primary_ongoing r) (follow_primary_count r)
            (follow_primary_lock_held_remotely r) (follow_primary_lock_pending r).

Definition with_lock (cnt : Z) (remote pending : bool) (r : POOL_REQUEST_INFO) : POOL_REQUEST_INFO :=
  mkReqInfo (main_node_id r) (primary_node_id r) (Req_switching r)
            (request_queue_head r) (request_queue_tail r) (request r)
            (follow_primary_ongoing r) cnt remote pending.

(** ** The backend table *)

(** [BACKEND_INFO(i)]: the entry of backend [i], if [i] lies in the table. *)
Definition BACKEND_INFO (st : State) (i : Z) : option BackendInfo :=
  if i <? 0 then None else backend_info st !! Z.to_nat i.

Definition status_of (st : State) (i : Z) : BACKEND_STATUS :=
  match BACKEND_INFO st i with Some b => backend_status b | None => CON_UNUSED end.

Definition quarantine_of (st : State) (i : Z) : bool :=
  match BACKEND_INFO st i with Some b => quarantine b | None => false end.

Definition role_of (st : State) (i : Z) : SERVER_ROLE :=
  match BACKEND_INFO st i with Some b => role b | None => ROLE_UNKNOWN end.

Definition flag_of (st : State) (i : Z) : Z :=
  match BACKEND_INFO st i with Some b => flag b | None => 0 end.

Definition update_backend (i : Z) (f : BackendInfo -> BackendInfo) (st : State) : State :=
  if i <? 0 then st else set_backend_info (alter f (Z.to_nat i) (backend_info st)) st.

Definition with_status (s : BACKEND_STATUS) (b : BackendInfo) : BackendInfo :=
  mkBackendInfo s (quarantine b) (role b) (flag b).

Definition with_quarantine (q : bool) (b : BackendInfo) : BackendInfo :=
  mkBackendInfo (backend_status b) q (role b) (flag b).

Definition with_role (r : SERVER_ROLE) (b : BackendInfo) : BackendInfo :=
  mkBackendInfo (backend_status b) (quarantine b) r (flag b).

Definition set_status (i : Z) (s : BACKEND_STATUS) : State -> State :=
  update_backend i (with_status s).

Definition set_quarantine (i : Z) (q : bool) : State -> State :=
  update_backend i (with_quarantine q).

Definition set_role (i : Z) (r : SERVER_ROLE) : State -> State :=
  update_backend i (with_role r).

(** A C loop [for (i = start; steps remain; i++) if (p i) break;]: the value
    of [i] when the loop is left. *)
Fixpoint scan_from (p : Z -> bool) (i : Z) (steps : nat) : Z :=
  match steps with
  | O => i
  | S k => if p i then i else scan_from p (i + 1) k
  end.

Definition for_break (p : Z -> bool) (n : Z) : Z := scan_from p 0 (Z.to_nat n).

(** [flags & mask] used as a C condition. *)
Definition has_flag (flags mask : Z) : bool := negb (Z.land flags mask =? 0).

(** What the environment contributes to one iteration of the drain loop of
    [failover()]: the requests other processes manage to enqueue while the
    semaphore is free, the outcome of the probing loop of
    [find_primary_node_repeatedly()] (network and clock), and the
    indeterminate value found in [node_id_set[0]] when a request carries no
    node. *)
Record IterEnv : Type := mkIterEnv {
  arrivals : list POOL_REQUEST_NODE;
  search_outcome : Z;
  indeterminate : Z
}.

(** The locals of [failover()] that live across iterations of its loop. *)
Record Locals : Type := mkLocals {
  new_primary : Z;
  nodes : list Z;
  need_to_restart_children : bool;
  partial_restart : bool;
  need_to_restart_pcp : bool;
  all_backend_down : bool;
  sync_required : bool
}.

Definition initial_locals : Locals := mkLocals (-1) [] true false false true false.

Definition with_new_primary (v : Z) (l : Locals) : Locals :=
  mkLocals v (nodes l) (need_to_restart_children l) (partial_restart l)
           (need_to_restart_pcp l) (all_backend_down l) (sync_required l).

Definition with_nodes (v : list Z) (l : Locals) : Locals :=
  mkLocals (new_primary l) v (need_to_restart_children l) (partial_restart l)
           (need_to_restart_pcp l) (all_backend_down l) (sync_required l).

Definition with_restart (need partial : bool) (l : Locals) : Locals :=
  mkLocals (new_primary l) (nodes l) need partial
           (need_to_restart_pcp l) (all_backend_down l) (sync_required l).

Definition with_need_to_restart_pcp (v : bool) (l : Locals) : Locals :=
  mkLocals (new_primary l) (nodes l) (need_to_restart_children l) (partial_restart l)
           v (all_backend_down l) (sync_required l).

Definition with_all_backend_down (v : bool) (l : Locals) : Locals :=
  mkLocals (new_primary l) (nodes l) (need_to_restart_children l) (partial_restart l)
           (need_to_restart_pcp l) v (sync_required l).

Definition with_sync_required (v : bool) (l : Locals) : Locals :=
  mkLocals (new_primary l) (nodes l) (need_to_restart_children l) (partial_restart l)
           (need_to_restart_pcp l) (all_backend_down l) v.

Definition nodes_marked (l : Locals) (i : Z) : bool := bool_decide (i ∈ nodes l).

Inductive Dequeued : Type :=
| QueueEmpty (st : State)
| Taken (r : POOL_REQUEST_NODE) (st : State)
| OutsideTable.

(** The environment of one run of [failover()]: what happens around each
    iteration of the loop, and the requests that arrive after the loop has
    found the queue empty and before the function takes the semaphore for
    the last time. *)
Record Env : Type := mkEnv {
  iter : nat -> IterEnv;
  late_arrivals : list POOL_REQUEST_NODE
}.

Inductive Attempt : Type :=
| Acquired (q : POOL_REQUEST_INFO)
| Refused (q : POOL_REQUEST_INFO)
| Sleep (q : POOL_REQUEST_INFO).

Inductive POOL_NODE_STATUS : Type :=
| POOL_NODE_STATUS_UNUSED
| POOL_NODE_STATUS_PRIMARY
| POOL_NODE_STATUS_STANDBY
| POOL_NODE_STATUS_INVALID.

#[global] Instance POOL_NODE_STATUS_eq_dec : EqDecision POOL_NODE_STATUS.
Proof. solve_decision. Defined.

(** What a backend answers to [SELECT pg_is_in_recovery()]. *)
Inductive RecoveryAnswer : Type :=
| QueryFailed
| AnswerT
| AnswerF
| AnswerOther.

(** What one round of probing meets on the network: whether a connection
    slot exists for a node, its answer, its server version, and whether
    standby [j] reports (through pg_stat_wal_receiver, status "streaming",
    matching host and port) that it is connected to primary [i]. *)
Record Probe : Type := mkProbe {
  slot_exists : Z -> bool;
  pg_is_in_recovery : Z -> RecoveryAnswer;
  server_version : Z -> Z;
  wal_receiver_connects : Z -> Z -> bool
}.

(** The result of a function with a loop that need not end: [OutOfFuel]
    when the bound on the number of iterations was too small, [Undefined]
    when the C code would leave the request table. *)
Inductive Outcome (A : Type) : Type :=
| Done (a : A)
| OutOfFuel
| Undefined.
Arguments Done {A} a.
Arguments OutOfFuel {A}.
Arguments Undefined {A}.

Section Supervisor.

Variable cfg : POOL_CONFIG.

(** Modelled from the spec: the macros [VALID_BACKEND] and
    [VALID_BACKEND_RAW] are declared outside src/.  The spec calls a backend
    valid when its status is CONNECT_WAIT or UP and it is not quarantined.
    The definition does not look at the mode.  According to the comment in
    [get_next_main_node()] the macro [VALID_BACKEND] holds in raw mode for
    the main node only; that restriction is not modelled, so in raw mode the
    definition stands for the spec's notion of validity and not for the
    macro. *)
Definition VALID_BACKEND (st : State) (i : Z) : bool :=
  match BACKEND_INFO st i with
  | Some b =>
      (bool_decide (backend_status b = CON_UP)
       || bool_decide (backend_status b = CON_CONNECT_WAIT))
      && negb (quarantine b)
  | None => false
  end.

(** Modelled from the spec: the test on the status alone, which is what the
    comment in [get_next_main_node()] says [VALID_BACKEND_RAW] is; with the
    mode-blind [VALID_BACKEND] above the two coincide. *)
Definition VALID_BACKEND_RAW (st : State) (i : Z) : bool := VALID_BACKEND st i.

(** Modelled from the spec: [MAIN_NODE_ID], [PRIMARY_NODE_ID] and
    [REAL_PRIMARY_NODE_ID] are macros declared outside src/; the spec's
    GlobalRequestInfo names the fields [main_node_id] and [primary_node_id]. *)
Definition MAIN_NODE_ID (st : State) : Z := main_node_id (Req_info st).
Definition PRIMARY_NODE_ID (st : State) : Z := primary_node_id (Req_info st).
Definition REAL_PRIMARY_NODE_ID (st : State) : Z := primary_node_id (Req_info st).

(** [get_next_main_node()] *)
Definition get_next_main_node (st : State) : Z :=
  let i := for_break
             (fun i => if RAW_MODE cfg then VALID_BACKEND_RAW st i else VALID_BACKEND st i)
             (num_backends cfg) in
  if i =? num_backends cfg then -1 else i.

(** [check_all_backend_down()] *)
Definition check_all_backend_down (st : State) : bool :=
  forallb (fun i => bool_decide (status_of st i = CON_DOWN)
                    || bool_decide (status_of st i = CON_UNUSED))
          (seqZ 0 (num_backends cfg)).

(** [signal_user1_to_parent_with_reason()] *)
Definition signal_user1_to_parent_with_reason (reason : User1SignalReason) (st : State) : State :=
  emit (EvSignalParent SIGUSR1)
       (set_signalFlags (fun r => if decide (r = reason) then true else signalFlags st r) st).

(** ** Status file: writing *)

Definition newline : string := String (ascii_of_nat 10) EmptyString.

(** The line [write_status_file()] prints for one backend (without the
    newline). *)
Definition status_word (s : BACKEND_STATUS) : string :=
  match s with
  | CON_UP | CON_CONNECT_WAIT => "up"
  | CON_DOWN => "down"
  | CON_UNUSED => "unused"
  end.

Definition status_lines (st : State) : string :=
  fold_right (fun i acc => status_word (status_of st i) ++ newline ++ acc)%string
             EmptyString (seqZ 0 (num_backends cfg)).

(** [write_status_file()], on runs in which the file-system calls succeed.
    The file is left alone when every configured backend is down. *)
Definition write_status_file (st : State) : Z * State :=
  let i := for_break (fun i => negb (bool_decide (status_of st i = CON_DOWN)))
                     (num_backends cfg) in
  if negb (i =? 0) && (i =? num_backends cfg) then (0, st)
  else (0, set_status_file (Some (status_lines st)) st).

(** ** Failover engine *)

(** [trigger_failover_command()]: the call is recorded; the expansion of the
    command template and the shell are outside the model. *)
Definition trigger_failover_command (cmd : Command) (node old_main new_main old_primary : Z)
    (st : State) : State :=
  emit (EvTriggerCommand cmd node old_main new_main old_primary) st.

(** [find_primary_node_repeatedly()]: the three early returns, then the
    probing loop, whose outcome the environment supplies.  Each probing
    round takes and releases the follow-primary lock; the model covers runs
    in which that lock is free then and no remote request is pending, so the
    lock fields are the same afterwards. *)
Definition find_primary_node_repeatedly (e : IterEnv) (st : State) : Z * State :=
  let r :=
    if negb (SL_MODE cfg) then -1
    else if follow_primary_ongoing (Req_info st) then primary_node_id (Req_info st)
    else if for_break (VALID_BACKEND st) (num_backends cfg) =? num_backends cfg then -1
    else search_outcome e in
  (r, emit (EvFindPrimary r) st).

(** The three ways the body of the loop deals with the request kinds: each
    either leaves the iteration with [continue] ([inl]) or goes on with the
    value of [search_primary] ([inr]). *)

(** [reqkind == NODE_UP_REQUEST] *)
Definition failback_branch (r : POOL_REQUEST_NODE) (node : Z) (l : Locals) (st : State)
    : (Locals * State) + (Locals * State * bool) :=
  if (node <? 0) || (node >=? MAX_NUM_BACKENDS cfg)
     || (negb (RAW_MODE cfg && bool_decide (status_of st node = CON_DOWN))
         && VALID_BACKEND st node)
  then inl (l, st)
  else
    let l1 := with_all_backend_down (check_all_backend_down st) l in
    let st1 := set_status node CON_CONNECT_WAIT st in
    if has_flag (request_details r) (REQ_DETAIL_UPDATE cfg) then
      let st2 := set_quarantine node false st1 in
      let st3 := set_Req (with_main_node_id (get_next_main_node st2)) st2 in
      if (primary_node_id (Req_info st3) =? -1)
         && bool_decide (role_of st3 node = ROLE_PRIMARY)
      then inr (with_sync_required true (with_restart true false l1),
                set_Req (with_primary_node_id node) st3, false)
      else if negb (all_backend_down l1)
      then inr (with_sync_required true (with_restart false false l1), st3, false)
      else inr (with_sync_required true (with_restart true false l1), st3, false)
    else
      let st2 := snd (write_status_file st1) in
      let st3 := trigger_failover_command FAILBACK_COMMAND node (MAIN_NODE_ID st2)
                   (get_next_main_node st2) (PRIMARY_NODE_ID st2) st2 in
      inr (with_sync_required true l1, st3, true).

(** [reqkind == PROMOTE_NODE_REQUEST] *)
Definition promote_branch (node : Z) (l : Locals) (st : State)
    : (Locals * State) + (Locals * State * bool) :=
  if negb (node =? -1) && VALID_BACKEND st node
  then inr (l, st, true)
  else inl (l, st).

(** One turn of the loop over [node_id_set] for NODE_DOWN and QUARANTINE. *)
Definition degenerate_node (reqkind : POOL_REQUEST_KIND)
    (acc : Locals * State * bool * Z) (n : Z) : Locals * State * bool * Z :=
  let '(l, st, search_primary, cnt) := acc in
  if negb (n =? -1)
     && (quarantine_of st n
         || ((RAW_MODE cfg && VALID_BACKEND_RAW st n) || VALID_BACKEND st n))
  then
    let st1 := set_status n CON_DOWN st in
    let '(st2, sp) :=
      if bool_decide (reqkind = NODE_QUARANTINE_REQUEST)
      then (set_quarantine n true st1, search_primary)
      else
        let '(st2, sp) :=
          if (primary_node_id (Req_info st1) =? -1)
             && quarantine_of st1 n
             && bool_decide (role_of st1 n = ROLE_PRIMARY)
          then (set_Req (with_primary_node_id n) st1, false)
          else (st1, search_primary) in
        (snd (write_status_file (set_quarantine n false st2)), sp) in
    (with_nodes (n :: nodes l) l, st2, sp, cnt + 1)
  else acc.

(** NODE_DOWN_REQUEST and NODE_QUARANTINE_REQUEST *)
Definition degenerate_branch (r : POOL_REQUEST_NODE) (l : Locals) (st : State)
    : (Locals * State) + (Locals * State * bool) :=
  let '(l1, st1, sp, cnt) :=
    fold_left (degenerate_node (kind r)) (take (Z.to_nat (count r)) (node_id r))
              (l, st, true, 0) in
  if cnt =? 0 then inl (l1, st1) else inr (l1, st1, sp).

(** The choice between leaving the children alone, restarting those that
    use the node, and restarting all of them (first round of signals). *)
Definition decide_restart (r : POOL_REQUEST_NODE) (node : Z) (l : Locals) (st : State)
    : Locals * State :=
  if STREAM cfg && bool_decide (kind r = NODE_UP_REQUEST) && negb (all_backend_down l)
     && (primary_node_id (Req_info st) >=? 0)
     && negb (primary_node_id (Req_info st) =? node)
  then
    if negb (has_flag (request_details r) (REQ_DETAIL_UPDATE cfg))
    then (with_restart false false l, st)
    else (l, st)
  else if STREAM cfg
          && (bool_decide (kind r = NODE_DOWN_REQUEST)
              || bool_decide (kind r = NODE_QUARANTINE_REQUEST))
          && has_flag (request_details r) (REQ_DETAIL_SWITCHOVER cfg)
          && negb (node =? PRIMARY_NODE_ID st)
  then (with_restart true true l, emit (EvKillChildrenUsing node) st)
  else (with_restart true false l, emit (EvKillAllChildren SIGQUIT) st).

(** [failover_command] for every node marked in [nodes]. *)
Definition run_failover_commands (r : POOL_REQUEST_NODE) (new_main_node : Z)
    (l : Locals) (st : State) : Locals * State :=
  if bool_decide (kind r = NODE_DOWN_REQUEST) then
    fold_left
      (fun (acc : Locals * State) i =>
         if nodes_marked (fst acc) i
         then (with_sync_required true (fst acc),
               trigger_failover_command FAILOVER_COMMAND i (MAIN_NODE_ID (snd acc))
                 new_main_node (REAL_PRIMARY_NODE_ID (snd acc)) (snd acc))
         else acc)
      (seqZ 0 (num_backends cfg)) (l, st)
  else (l, st).

(** The choice of [new_primary]. *)
Definition decide_new_primary (e : IterEnv) (r : POOL_REQUEST_NODE) (node : Z)
    (search_primary : bool) (l : Locals) (st : State) : Locals * State :=
  if bool_decide (kind r = PROMOTE_NODE_REQUEST) && VALID_BACKEND st node
  then (with_new_primary node l, st)
  else if bool_decide (kind r = NODE_QUARANTINE_REQUEST) then
    if primary_node_id (Req_info st) =? node
    then (with_new_primary (-1) l, set_role node ROLE_PRIMARY st)
    else if SL_MODE cfg
    then (with_new_primary (primary_node_id (Req_info st)) l, st)
    else (l, st)
  else if SL_MODE cfg && bool_decide (kind r = NODE_DOWN_REQUEST) then
    if (primary_node_id (Req_info st) >=? 0)
       && negb (primary_node_id (Req_info st) =? node)
    then (with_new_primary (primary_node_id (Req_info st)) l, st)
    else
      let st1 := if primary_node_id (Req_info st) >=? 0
                 then set_role (primary_node_id (Req_info st)) ROLE_STANDBY st
                 else st in
      let '(p, st2) := find_primary_node_repeatedly e st1 in
      (with_new_primary p l, st2)
  else if negb search_primary
  then (with_new_primary (primary_node_id (Req_info st)) l, st)
  else
    let '(p, st1) := find_primary_node_repeatedly e st in
    (with_new_primary p l, st1).

(** Follow-primary degeneration: every backend but the new primary is set
    down.  Returns [follow_cnt] and the possibly recomputed new main node. *)
Definition follow_degenerate (r : POOL_REQUEST_NODE) (node new_main_node : Z)
    (l : Locals) (st : State) : Z * Z * State :=
  if STREAM cfg
     && (follow_primary_command_set cfg || bool_decide (kind r = PROMOTE_NODE_REQUEST))
     && ((bool_decide (kind r = NODE_DOWN_REQUEST)
          && (primary_node_id (Req_info st) >=? 0)
          && nodes_marked l (primary_node_id (Req_info st)))
         || (bool_decide (kind r = NODE_DOWN_REQUEST)
             && (primary_node_id (Req_info st) <? 0)
             && (new_primary l >=? 0))
         || ((node >=? 0) && bool_decide (kind r = PROMOTE_NODE_REQUEST)
             && VALID_BACKEND st node))
  then
    let '(cnt, st1) :=
      fold_left
        (fun (acc : Z * State) i =>
           if (new_primary l >=? 0) && negb (i =? new_primary l)
           then (fst acc + 1, snd (write_status_file (set_status i CON_DOWN (snd acc))))
           else acc)
        (seqZ 0 (num_backends cfg)) (0, st) in
    if cnt =? 0 then (cnt, new_main_node, st1)
    else (cnt, get_next_main_node st1, st1)
  else (0, new_main_node, st).

(** "Save primary node id" and "set new main node". *)
Definition save_primary_and_main (new_main_node : Z) (l : Locals) (st : State)
    : Locals * State :=
  let st1 :=
    if negb (primary_node_id (Req_info st) =? new_primary l) && (new_primary l >=? 0)
    then set_role (new_primary l) ROLE_PRIMARY st
    else st in
  let st2 := set_Req (with_primary_node_id (new_primary l)) st1 in
  if new_main_node >=? 0
  then (with_sync_required true l, set_Req (with_main_node_id new_main_node) st2)
  else (l, st2).

(** Second round of signals to the children, the worker and the watchdog,
    and the health-check forks after a failback. *)
Definition finish_request (r : POOL_REQUEST_NODE) (node : Z) (l : Locals) (st : State)
    : Locals * State :=
  let st1 := if need_to_restart_children l
             then emit (EvRestartChildren (partial_restart l) node) st
             else emit EvNeedRestartAll st in
  let st2 := emit (EvKillWorker SIGUSR1) st1 in
  let st3 := if sync_required l then emit EvWdFailoverEnd st2 else st2 in
  let st4 := if bool_decide (kind r = NODE_UP_REQUEST) then emit EvForkHealthCheck st3 else st3 in
  (with_need_to_restart_pcp true l, st4).

(** The body of the loop of [failover()] once the request has been accepted:
    from the computation of the new main node to the end of the body. *)
Definition failover_accepted (e : IterEnv) (r : POOL_REQUEST_NODE) (node : Z)
    (search_primary : bool) (l1 : Locals) (st1 : State) : Locals * State :=
  let new_main_node := get_next_main_node st1 in
  let '(l2, st2) := decide_restart r node l1 st1 in
  let '(l3, st3) := run_failover_commands r new_main_node l2 st2 in
  let '(l4, st4) := decide_new_primary e r node search_primary l3 st3 in
  let '(follow_cnt, new_main_node', st5) :=
    follow_degenerate r node new_main_node l4 st4 in
  let st6 :=
    if (follow_cnt >? 0) && follow_primary_command_set cfg
    then emit (EvForkFollowChild (primary_node_id (Req_info st5)) (new_primary l4)
                                 (primary_node_id (Req_info st5))) st5
    else st5 in
  let '(l7, st7) := save_primary_and_main new_main_node' l4 st6 in
  finish_request r node l7 st7.

(** Everything [failover()] does with one request after taking it from the
    queue: the body of its loop from the CLOSE_IDLE test to the end. *)
Definition failover_request (e : IterEnv) (r : POOL_REQUEST_NODE) (l : Locals) (st : State)
    : Locals * State :=
  if bool_decide (kind r = CLOSE_IDLE_REQUEST)
  then (l, emit (EvKillAllChildren SIGUSR1) st)
  else
    let st0 := emit EvWdFailoverStart st in
    let node := hd (indeterminate e) (take (Z.to_nat (count r)) (node_id r)) in
    let branch :=
      match kind r with
      | NODE_UP_REQUEST => failback_branch r node l st0
      | PROMOTE_NODE_REQUEST => promote_branch node l st0
      | _ => degenerate_branch r l st0
      end in
    match branch with
    | inl (l1, st1) => (l1, st1)
    | inr (l1, st1, search_primary) => failover_accepted e r node search_primary l1 st1
    end.

(** ** Request queue *)

(** The ring index [n % MAX_REQUEST_QUEUE_SIZE] (C remainder). *)
Definition queue_index (n : Z) : Z := Z.rem n (MAX_REQUEST_QUEUE_SIZE cfg).

Definition request_at (st : State) (i : Z) : option POOL_REQUEST_NODE :=
  if i <? 0 then None else request (Req_info st) !! Z.to_nat i.

(** The part of [register_node_operation_request()] that runs with
    REQUEST_INFO_SEM taken (and the unlocked test before it): [None] when the
    queue is full, otherwise the value read from [Req_info->switching] and the
    state with the request stored.  [node_id_set] is the list of the [count]
    node ids the caller passes and [flags] the value of its unsigned char
    parameter. *)
Definition enqueue (k : POOL_REQUEST_KIND) (node_id_set : list Z) (flags : Z) (st : State)
    : option (bool * State) :=
  let q := Req_info st in
  if request_queue_tail q - MAX_REQUEST_QUEUE_SIZE cfg =? request_queue_head q
  then None
  else
    let tail' := request_queue_tail q + 1 in
    let index := queue_index tail' in
    let slot := mkRequest k flags node_id_set (Z.of_nat (length node_id_set)) in
    let reqs := if index <? 0 then request q
                else <[Z.to_nat index := slot]> (request q) in
    Some (Req_switching q,
          emit (EvEnqueue slot)
               (set_Req (fun q => with_request reqs (with_tail tail' q)) st)).

(** [register_node_operation_request()] as run by a process other than the
    supervisor ([processType != PT_MAIN]). *)
Definition producer_request (k : POOL_REQUEST_KIND) (node_id_set : list Z) (flags : Z)
    (st : State) : bool * State :=
  match enqueue k node_id_set flags st with
  | None => (false, st)
  | Some (failover_in_progress, st1) =>
      if failover_in_progress then (true, st1)
      else (true, signal_user1_to_parent_with_reason SIG_FAILOVER_INTERRUPT st1)
  end.

(** Other processes enqueueing their requests one after another. *)
Definition producers (rs : list POOL_REQUEST_NODE) (st : State) : State :=
  fold_left (fun st r => snd (producer_request (kind r) (node_id r) (request_details r) st))
            rs st.

(** The top of the loop of [failover()], under REQUEST_INFO_SEM: when the
    queue is empty both switching flags are cleared and the loop is left;
    otherwise [head] is advanced and the request copied out.
    [OutsideTable] stands for a read outside [Req_info->request[]], which the
    C code cannot make when the table has MAX_REQUEST_QUEUE_SIZE slots. *)
Definition dequeue (st : State) : Dequeued :=
  let q := Req_info st in
  if request_queue_tail q =? request_queue_head q
  then QueueEmpty
         (set_Req (with_Req_switching false)
            (set_switching false
               (emit (EvSwitching (Req_switching q) false
                                  (request_queue_head q) (request_queue_tail q)) st)))
  else
    let head' := request_queue_head q + 1 in
    let st1 := set_Req (with_head head') st in
    match request_at st1 (queue_index head') with
    | Some r => Taken r (emit (EvDequeue (Req_switching q) r) st1)
    | None => OutsideTable
    end.

(** The loop [for (;;)] of [failover()], from iteration [k] on.  The other
    processes can store requests whenever the supervisor does not hold
    REQUEST_INFO_SEM; since the handling of a request never looks at the
    queue, what they store while a request is handled is the same as what
    they store just before the supervisor takes the semaphore again, and
    that is where [arrivals] is applied. *)
Fixpoint failover_loop (env : Env) (fuel : nat) (k : nat) (l : Locals) (st : State)
    : Outcome (Locals * State) :=
  match fuel with
  | O => OutOfFuel
  | S fuel' =>
      match dequeue (producers (arrivals (iter env k)) st) with
      | QueueEmpty st1 => Done (l, st1)
      | OutsideTable => Undefined
      | Taken r st1 =>
          let '(l', st2) := failover_request (iter env k) r l st1 in
          failover_loop env fuel' (S k) l' st2
      end
  end.

(** [failover()].  [is_parent] is the test [getpid() == mypid]. *)
Definition failover (env : Env) (fuel : nat) (is_parent : bool) (st : State) : Outcome State :=
  if negb is_parent then Done (emit (EvKillPcp SIGUSR2) st)
  else if exiting st then Done (emit (EvKillPcp SIGUSR2) st)
  else if switching st then Done (emit (EvKillPcp SIGUSR2) st)
  else
    let q := Req_info st in
    let st1 := set_switching true
                 (set_Req (with_Req_switching true)
                    (emit (EvSwitching (Req_switching q) true
                                       (request_queue_head q) (request_queue_tail q)) st)) in
    match failover_loop env fuel 0 initial_locals st1 with
    | Done (l, st2) =>
        let st3 := producers (late_arrivals env) st2 in
        let q3 := Req_info st3 in
        let st4 := set_Req (with_Req_switching false)
                     (set_switching false
                        (emit (EvSwitching (Req_switching q3) false
                                 (request_queue_head q3) (request_queue_tail q3)) st3)) in
        let st5 := emit (EvKillPcp SIGUSR2) st4 in
        Done (if need_to_restart_pcp l then emit EvRestartPcp st5 else st5)
    | OutOfFuel => OutOfFuel
    | Undefined => Undefined
    end.

(** [register_node_operation_request()], run by a process of type
    [processType]. *)
Definition register_node_operation_request (env : Env) (fuel : nat)
    (processType : ProcessType) (is_parent : bool)
    (k : POOL_REQUEST_KIND) (node_id_set : list Z) (flags : Z) (st : State)
    : Outcome (bool * State) :=
  match enqueue k node_id_set flags st with
  | None => Done (false, st)
  | Some (failover_in_progress, st1) =>
      if failover_in_progress then Done (true, st1)
      else if bool_decide (processType = PT_MAIN) then
        match failover env fuel is_parent st1 with
        | Done st2 => Done (true, st2)
        | OutOfFuel => OutOfFuel
        | Undefined => Undefined
        end
      else Done (true, signal_user1_to_parent_with_reason SIG_FAILOVER_INTERRUPT st1)
  end.

(** ** Follow-primary lock *)

(** One turn of the loop of [pool_acquire_follow_primary_lock()], under
    FOLLOW_PRIMARY_SEM. *)
Definition acquire_attempt (block remote_request : bool) (q : POOL_REQUEST_INFO) : Attempt :=
  if follow_primary_count q <=? 0
  then Acquired (with_lock 1 remote_request (follow_primary_lock_pending q) q)
  else if remote_request
  then Refused (if follow_primary_lock_held_remotely q then q
                else with_lock (follow_primary_count q)
                               (follow_primary_lock_held_remotely q) true q)
  else if negb block then Refused q
  else Sleep q.

(** [pool_acquire_follow_primary_lock()].  While the caller sleeps, the
    other processes change the lock as [others] says. *)
Fixpoint pool_acquire_follow_primary_lock
    (others : nat -> POOL_REQUEST_INFO -> POOL_REQUEST_INFO) (fuel : nat) (k : nat)
    (block remote_request : bool) (q : POOL_REQUEST_INFO)
    : Outcome (bool * POOL_REQUEST_INFO) :=
  match fuel with
  | O => OutOfFuel
  | S fuel' =>
      match acquire_attempt block remote_request q with
      | Acquired q' => Done (true, q')
      | Refused q' => Done (false, q')
      | Sleep q' =>
          pool_acquire_follow_primary_lock others fuel' (S k) block remote_request
                                           (others k q')
      end
  end.

(** [pool_release_follow_primary_lock()] *)
Definition pool_release_follow_primary_lock (remote_request : bool) (q : POOL_REQUEST_INFO)
    : POOL_REQUEST_INFO :=
  if remote_request then
    if follow_primary_lock_held_remotely q
    then with_lock 0 false false q
    else with_lock (follow_primary_count q) (follow_primary_lock_held_remotely q) false q
  else
    if follow_primary_lock_pending q
    then with_lock 1 true false q
    else with_lock 0 false (follow_primary_lock_pending q) q.

(** ** Quorum change *)

(** [update_backend_quarantine_status()].  [send_failback_request()] is
    defined outside src/; the call is recorded with its node and flags, and
    what the callee then does with the request (it may store it in the
    queue and, in the supervisor, have it drained at once) is not
    modelled. *)
Definition update_backend_quarantine_status (wd_state : WD_STATES) (st : State) : State :=
  fold_left
    (fun st i =>
       if quarantine_of st i && bool_decide (status_of st i = CON_DOWN)
       then
         if bool_decide (wd_state = WD_COORDINATOR)
         then emit (EvSendFailbackRequest i
                      (Z.lor (REQ_DETAIL_UPDATE cfg) (REQ_DETAIL_WATCHDOG cfg))) st
         else st
       else st)
    (seqZ 0 (num_backends cfg)) st.

(** The first block of [sigusr1_interupt_processor()]: the slot
    SIG_WATCHDOG_QUORUM_CHANGED.  [quorum_state] and [wd_state] are what
    [wd_internal_get_watchdog_quorum_state()] and
    [wd_internal_get_watchdog_local_node_state()] return. *)
Definition sigusr1_quorum_changed (quorum_state : Z) (wd_state : WD_STATES) (st : State)
    : State :=
  if signalFlags st SIG_WATCHDOG_QUORUM_CHANGED then
    let st1 := set_signalFlags
                 (fun r => if decide (r = SIG_WATCHDOG_QUORUM_CHANGED) then false
                           else signalFlags st r) st in
    if quorum_state >=? 0
    then update_backend_quarantine_status wd_state st1
    else st1
  else st.

(** ** Primary finder *)

(** First loop of [verify_backend_node_status()]. *)
Definition classify_node (pr : Probe) (st : State) (i : Z) : POOL_NODE_STATUS :=
  if negb (VALID_BACKEND st i) then POOL_NODE_STATUS_UNUSED
  else if negb (slot_exists pr i) then POOL_NODE_STATUS_UNUSED
  else match pg_is_in_recovery pr i with
       | AnswerT => POOL_NODE_STATUS_STANDBY
       | AnswerF => POOL_NODE_STATUS_PRIMARY
       | _ => POOL_NODE_STATUS_UNUSED
       end.

Definition classify (pr : Probe) (st : State) : list POOL_NODE_STATUS :=
  map (classify_node pr st) (seqZ 0 (num_backends cfg)).

Definition count_status (s : POOL_NODE_STATUS) (l : list POOL_NODE_STATUS) : Z :=
  Z.of_nat (length (filter (fun x => x = s) l)).

Definition false_primary_mark : POOL_NODE_STATUS :=
  if detach_false_primary cfg then POOL_NODE_STATUS_INVALID else POOL_NODE_STATUS_UNUSED.

(** The nested loop for several primaries and no standby: the first primary
    is left, every later one is marked. *)
Fixpoint keep_first_primary (l : list POOL_NODE_STATUS) : list POOL_NODE_STATUS :=
  match l with
  | [] => []
  | s :: t =>
      if bool_decide (s = POOL_NODE_STATUS_PRIMARY)
      then s :: map (fun x => if bool_decide (x = POOL_NODE_STATUS_PRIMARY)
                              then false_primary_mark else x) t
      else s :: keep_first_primary t
  end.

Definition node_status_at (l : list POOL_NODE_STATUS) (i : Z) : POOL_NODE_STATUS :=
  if i <? 0 then POOL_NODE_STATUS_UNUSED
  else default POOL_NODE_STATUS_UNUSED (l !! Z.to_nat i).

(** [primary[i]]: the number of standbys that report primary [i]. *)
Definition owned_standbys (pr : Probe) (st : State) (l : list POOL_NODE_STATUS) (i : Z) : Z :=
  if VALID_BACKEND st i && bool_decide (node_status_at l i = POOL_NODE_STATUS_PRIMARY)
  then Z.of_nat (length (filter
         (fun j => node_status_at l j = POOL_NODE_STATUS_STANDBY
                   ∧ wal_receiver_connects pr i j = true)
         (seqZ 0 (num_backends cfg))))
  else 0.

(** [true_primary]: the last primary that owns every standby, or -1. *)
Definition true_primary (pr : Probe) (st : State) (l : list POOL_NODE_STATUS) : Z :=
  fold_left
    (fun acc i =>
       if VALID_BACKEND st i
          && bool_decide (node_status_at l i = POOL_NODE_STATUS_PRIMARY)
          && (owned_standbys pr st l i =? count_status POOL_NODE_STATUS_STANDBY l)
       then i else acc)
    (seqZ 0 (num_backends cfg)) (-1).

(** [verify_backend_node_status()]: the entries 0 .. NUM_BACKENDS-1 of
    [pool_node_status]. *)
Definition verify_backend_node_status (pr : Probe) (st : State) : list POOL_NODE_STATUS :=
  let l := classify pr st in
  let num_primaries := count_status POOL_NODE_STATUS_PRIMARY l in
  let num_standbys := count_status POOL_NODE_STATUS_STANDBY l in
  if num_primaries =? 0 then l
  else if num_standbys =? 0 then
    if num_primaries =? 1 then l else keep_first_primary l
  else if negb (detach_false_primary cfg) then l
  else if negb (existsb (fun i => VALID_BACKEND st i && (server_version pr i >=? 90600))
                        (seqZ 0 (num_backends cfg)))
  then l
  else
    let tp := true_primary pr st l in
    map (fun i =>
           if bool_decide (node_status_at l i = POOL_NODE_STATUS_PRIMARY)
              && (owned_standbys pr st l i >=? 0)
              && (owned_standbys pr st l i <? num_standbys)
              && (tp >=? 0) && detach_false_primary cfg
           then POOL_NODE_STATUS_INVALID
           else node_status_at l i)
        (seqZ 0 (num_backends cfg)).

(** [find_primary_node()]: a backend flagged ALWAYS_PRIMARY wins; otherwise
    the backends are probed and the last entry left PRIMARY by
    [verify_backend_node_status()] is the primary, -1 if there is none.  The
    verification runs under the follow-primary lock, taken with [block] set
    and released right after. *)
Definition find_primary_node (pr : Probe) (st : State) : Z :=
  if negb (SL_MODE cfg) then -1
  else
    let i := for_break (fun i => has_flag (POOL_ALWAYS_PRIMARY cfg) (flag_of st i))
                       (num_backends cfg) in
    if i <? num_backends cfg then i
    else
      let status := verify_backend_node_status pr st in
      fold_left
        (fun primary i =>
           if bool_decide (node_status_at status i = POOL_NODE_STATUS_PRIMARY)
           then i else primary)
        (seqZ 0 (num_backends cfg)) (-1).

(** The "very early stage node checking" of [PgpoolMain()]: in streaming
    replication mode, with detach_false_primary on, every node that the last
    verification left INVALID is handed to [degenerate_backend_set()]
    (defined outside src/; the call is recorded). *)
Definition early_node_check (node_status : list POOL_NODE_STATUS) (st : State) : State :=
  if STREAM cfg then
    fold_left
      (fun st i =>
         if bool_decide (node_status_at node_status i = POOL_NODE_STATUS_INVALID)
            && detach_false_primary cfg
         then emit (EvDegenerateBackendSet i
                      (Z.lor (REQ_DETAIL_SWITCHOVER cfg) (REQ_DETAIL_CONFIRMED cfg))) st
         else st)
      (seqZ 0 (num_backends cfg)) st
  else st.

(** ** Status file: reading *)

Definition tolower (c : ascii) : ascii :=
  let n := nat_of_ascii c in
  if (65 <=? n)%nat && (n <=? 90)%nat then ascii_of_nat (n + 32) else c.

(** [strncasecmp(word, buf, strlen(word)) == 0] *)
Fixpoint starts_with_nocase (word buf : string) : bool :=
  match word with
  | EmptyString => true
  | String w word' =>
      match buf with
      | EmptyString => false
      | String b buf' =>
          if Ascii.eqb (tolower w) (tolower b) then starts_with_nocase word' buf' else false
      end
  end.

(** The characters [fgets] stores when it may read at most [n] of them, and
    what is left of the file. *)
Fixpoint fgets_chars (n : nat) (s : string) : string * string :=
  match n with
  | O => (EmptyString, s)
  | S n' =>
      match s with
      | EmptyString => (EmptyString, EmptyString)
      | String c s' =>
          if Ascii.eqb c (ascii_of_nat 10) then (String c EmptyString, s')
          else let '(b, r) := fgets_chars n' s' in (String c b, r)
      end
  end.

(** [fgets(buf, size, fd)]: [None] at the end of the file. *)
Definition fgets (size : nat) (s : string) : option (string * string) :=
  match s with
  | EmptyString => None
  | _ => Some (fgets_chars (size - 1) s)
  end.

(** The loop over the entries of an old binary status record: whether the
    record still looks like the old format, [someone_wakeup], the state. *)
Fixpoint read_old_format (rec : Z -> option BACKEND_STATUS) (idx : list Z)
    (someone_wakeup : bool) (st : State) : bool * bool * State :=
  match idx with
  | [] => (true, someone_wakeup, st)
  | i :: rest =>
      match rec i with
      | Some CON_DOWN =>
          read_old_format rec rest someone_wakeup
            (snd (write_status_file (set_status i CON_DOWN st)))
      | Some CON_CONNECT_WAIT | Some CON_UP =>
          read_old_format rec rest true
            (snd (write_status_file (set_status i CON_CONNECT_WAIT st)))
      | _ => (false, someone_wakeup, st)
      end
  end.

(** The loop [for (i = 0;; i++)] over the lines of a text status file. *)
Fixpoint read_ascii_lines (fuel : nat) (i : Z) (content : string)
    (someone_wakeup : bool) (st : State) : bool * State :=
  match fuel with
  | O => (someone_wakeup, st)
  | S fuel' =>
      match fgets 9 content with
      | None => (someone_wakeup, st)
      | Some (readbuf, rest) =>
          if starts_with_nocase "up" readbuf
          then read_ascii_lines fuel' (i + 1) rest true (set_status i CON_UP st)
          else if starts_with_nocase "down" readbuf
          then read_ascii_lines fuel' (i + 1) rest someone_wakeup (set_status i CON_DOWN st)
          else if starts_with_nocase "unused" readbuf
          then read_ascii_lines fuel' (i + 1) rest someone_wakeup (set_status i CON_UNUSED st)
          else read_ascii_lines fuel' (i + 1) rest someone_wakeup st
      end
  end.

Definition set_all_status (s : BACKEND_STATUS) (n : Z) (st : State) : State :=
  fold_left (fun st i => set_status i s st) (seqZ 0 n) st.

(** [read_status_file()], on runs in which [unlink] succeeds. *)
Definition read_status_file (discard_status : bool) (st : State) : Z * State :=
  match status_file st with
  | None => (-1, st)
  | Some content =>
      if discard_status then (0, set_status_file None st)
      else
        let '(is_old_format, wake, st1) :=
          match legacy_record cfg content with
          | Some rec => read_old_format rec (seqZ 0 (num_backends cfg)) false st
          | None => (false, false, st)
          end in
        let after_ascii :=
          if is_old_format then Some (wake, st1)
          else
            match status_file st1 with
            | None => None
            | Some content' =>
                Some (read_ascii_lines (S (String.length content')) 0 content' wake
                        (set_all_status CON_UNUSED (MAX_NUM_BACKENDS cfg) st1))
            end in
        match after_ascii with
        | None => (-1, st1)
        | Some (true, st2) => (0, st2)
        | Some (false, st2) =>
            (0, snd (write_status_file
                       (set_all_status CON_CONNECT_WAIT (num_backends cfg) st2)))
        end
  end.

End Supervisor.

(** * Helpers of the primary finder and of the failover commands *)

(** ** The host and the port in a connection string

    A C string is modelled as the [string] of its characters before the
    terminating NUL, so the test [*p] reads "[p] is not empty". *)

(** [strstr(s, pat)]: the rest of [s] from the first occurrence of [pat]
    on, [None] for a null pointer. *)
Fixpoint strstr (s pat : string) : option string :=
  if String.prefix pat s then Some s
  else match s with
       | EmptyString => None
       | String _ s' => strstr s' pat
       end.

(** The loop [while ( *p && *p++ != '=')] with an empty body: the value of
    [p] after it. *)
Fixpoint skip_past_equals (p : string) : string :=
  match p with
  | EmptyString => EmptyString
  | String c p' => if Ascii.eqb c "=" then p' else skip_past_equals p'
  end.

(** The loop [while ( *p && len-- && *p != ' ') *out++ = *p++]: the
    characters stored through [out].  A negative [len] never becomes zero on the way
    down (no string is long enough for it to wrap around). *)
Fixpoint copy_value (len : Z) (p : string) : string :=
  match p with
  | EmptyString => EmptyString
  | String c p' =>
      if len =? 0 then EmptyString
      else if Ascii.eqb c " " then EmptyString
      else String c (copy_value (len - 1) p')
  end.

(** [get_info_from_conninfo()]: the strings left in [host] and [port]. *)
Definition get_info_from_conninfo (conninfo : string) (hostlen portlen : Z)
    : string * string :=
  let host :=
    match strstr conninfo "host" with
    | Some p => copy_value hostlen (skip_past_equals p)
    | None => EmptyString
    end in
  let port :=
    match strstr conninfo "port" with
    | Some p => copy_value portlen (skip_past_equals p)
    | None => EmptyString
    end in
  (host, port).

(** ** The command line of a failover, failback or follow-primary command *)

(** The fields of a backend's entry that the command templates can name.
    They sit in the same [BackendInfo] structure as the status; the table of
    these fields is kept beside the state. *)
Record BackendDesc : Type := mkBackendDesc {
  backend_hostname : string;
  backend_port : Z;
  backend_data_directory : string
}.

(** What [printf] prints for the conversion d. *)
Definition print_int (v : Z) : string := NilZero.string_of_int (Z.to_int v).

(** [snprintf(port_buf, sizeof(port_buf), "%d", v)] with [char port_buf[6]]:
    the first five characters of the number. *)
Definition port_buf (v : Z) : string := substring 0 5 (print_int v).

(** The two characters the command line gets in the place of a backend that
    does not exist: a pair of double quotes. *)
Definition two_quotes : string :=
  String (ascii_of_nat 34) (String (ascii_of_nat 34) EmptyString).

Module CommandLine.

Section CommandLine.

Variable cfg : POOL_CONFIG.

(** The host names, ports and data directories of the backends. *)
Variable descs : list BackendDesc.

(** The return value of [system()] for a command line. *)
Variable system : string -> Z.

(** [pool_get_node_info()]: a null pointer for a node number outside
    0 .. NUM_BACKENDS-1.  An entry the list does not spell out reads as
    zeroed memory. *)
Definition pool_get_node_info (node_number : Z) : option BackendDesc :=
  if (node_number <? 0) || (node_number >=? num_backends cfg) then None
  else Some (default (mkBackendDesc EmptyString 0 EmptyString)
                     (descs !! Z.to_nat node_number)).

(** The [switch (val)] of [trigger_failover_command()]: what is appended to
    the command line for the character after a percent sign. *)
Definition escape (st : State) (info : BackendDesc)
    (node old_main_node new_main_node old_primary : Z) (val : ascii) : string :=
  match val with
  | "p"%char => port_buf (backend_port info)
  | "D"%char => backend_data_directory info
  | "d"%char => port_buf node
  | "h"%char => backend_hostname info
  | "H"%char =>
      match pool_get_node_info new_main_node with
      | Some newmain => backend_hostname newmain
      | None => two_quotes
      end
  | "m"%char => port_buf new_main_node
  | "r"%char =>
      match pool_get_node_info (get_next_main_node cfg st) with
      | Some newmain => port_buf (backend_port newmain)
      | None => two_quotes
      end
  | "R"%char =>
      match pool_get_node_info (get_next_main_node cfg st) with
      | Some newmain => backend_data_directory newmain
      | None => two_quotes
      end
  | "M"%char => port_buf old_main_node
  | "P"%char => port_buf old_primary
  | "N"%char =>
      match pool_get_node_info old_primary with
      | Some oldprimary => backend_hostname oldprimary
      | None => two_quotes
      end
  | "S"%char =>
      match pool_get_node_info old_primary with
      | Some oldprimary => port_buf (backend_port oldprimary)
      | None => two_quotes
      end
  | "%"%char => "%"%string
  | _ => EmptyString
  end.

(** The loop [while ( *command_line)]: the contents of [exec_cmd] after it.
    A percent sign that ends the template is passed over. *)
Fixpoint expand (st : State) (info : BackendDesc)
    (node old_main_node new_main_node old_primary : Z) (command_line : string) : string :=
  match command_line with
  | EmptyString => EmptyString
  | String c rest =>
      if Ascii.eqb c "%" then
        match rest with
        | EmptyString => EmptyString
        | String val rest' =>
            (escape st info node old_main_node new_main_node old_primary val
             ++ expand st info node old_main_node new_main_node old_primary rest')%string
        end
      else String c (expand st info node old_main_node new_main_node old_primary rest)
  end.

(** [trigger_failover_command()]: the value returned and the command line
    handed to [system()], if any.  [command_line] is [None] for a null
    pointer. *)
Definition trigger_failover_command (st : State) (node : Z) (command_line : option string)
    (old_main_node new_main_node old_primary : Z) : Z * option string :=
  match command_line with
  | None => (0, None)
  | Some EmptyString => (0, None)
  | Some template =>
      if (node <? 0) || (node >=? num_backends cfg) then (-1, None)
      else
        match pool_get_node_info node with
        | None => (-1, None)
        | Some info =>
            let exec_cmd :=
              expand st info node old_main_node new_main_node old_primary template in
            match exec_cmd with
            | EmptyString => (0, None)
            | _ => (system exec_cmd, Some exec_cmd)
            end
        end
  end.

End CommandLine.

End CommandLine.

(** * Synchronising with the leader watchdog node *)

(** ** The process table

    The supervisor's own table of child processes.  Signals sent with
    [kill()] to the processes of this table are logged in the table's own
    log, with the pid they went to. *)

Record ConnectionInfo : Type := mkConnectionInfo {
  connected : bool;
  load_balancing_node : Z
}.

Record ProcessInfo : Type := mkProcessInfo {
  pid : Z;
  need_to_restart : Z
}.

Record Children : Type := mkChildren {
  process_info : list ProcessInfo;
  worker_pid : Z;
  health_check_pids : list Z;
  signals : list (Z * Signal)
}.

(** What [get_pg_backend_status_from_leader_wd_node()] returns: the leader's
    primary node id, the number of backends it reports and their status. *)
Record WDPGBackendStatus : Type := mkWDPGBackendStatus {
  leader_primary_node_id : Z;
  node_count : Z;
  leader_backend_status : list BACKEND_STATUS
}.

(** The locals of [sync_backend_from_watchdog()] that its first loop sets. *)
Record SyncLocals : Type := mkSyncLocals {
  reload_maste_node_id : bool;
  node_status_was_changed_to_down : bool;
  node_status_was_changed_to_up : bool;
  down_node_ids : list Z
}.

(** [process_info[i]]; an entry the list does not spell out reads as zeroed
    memory. *)
Definition process_at (ch : Children) (i : Z) : ProcessInfo :=
  if i <? 0 then mkProcessInfo 0 0
  else default (mkProcessInfo 0 0) (process_info ch !! Z.to_nat i).

Definition update_process (i : Z) (f : ProcessInfo -> ProcessInfo) (ch : Children) : Children :=
  if i <? 0 then ch
  else mkChildren (alter f (Z.to_nat i) (process_info ch)) (worker_pid ch)
                  (health_check_pids ch) (signals ch).

(** [kill(p, sig)] *)
Definition kill (p : Z) (sig : Signal) (ch : Children) : Children :=
  mkChildren (process_info ch) (worker_pid ch) (health_check_pids ch)
             (signals ch ++ [(p, sig)]).

(** [health_check_pids[i]] *)
Definition health_check_pid (ch : Children) (i : Z) : Z :=
  if i <? 0 then 0 else default 0 (health_check_pids ch !! Z.to_nat i).

Definition set_health_check_pid (i : Z) (p : Z) (ch : Children) : Children :=
  if i <? 0 then ch
  else mkChildren (process_info ch) (worker_pid ch)
                  (<[Z.to_nat i := p]> (health_check_pids ch)) (signals ch).

Section WatchdogSync.

Variable cfg : POOL_CONFIG.

(** [pool_config->num_init_children] and [pool_config->max_pool]. *)
Variable num_init_children : Z.
Variable max_pool : Z.

(** [pool_coninfo(child, pool, backend)] *)
Variable pool_coninfo : Z -> Z -> Z -> ConnectionInfo.

(** The pids that [fork_a_child()] returns for a slot of the process table
    and [worker_fork_a_child()] for the health check of a backend. *)
Variable fork_a_child : Z -> Z.
Variable fork_health_check : Z -> Z.

(** [backendStatus->backend_status[i]] *)
Definition leader_status (leader : WDPGBackendStatus) (i : Z) : BACKEND_STATUS :=
  if i <? 0 then CON_UNUSED
  else default CON_UNUSED (leader_backend_status leader !! Z.to_nat i).

(** One turn of the loop that updates the local backend status.  The time
    stamp of the change and the pointer [my_backend_status[i]] are not
    modelled. *)
Definition sync_node (leader : WDPGBackendStatus) (acc : State * SyncLocals) (i : Z)
    : State * SyncLocals :=
  let '(st, loc) := acc in
  let st1 := set_quarantine i false st in
  if bool_decide (leader_status leader i = CON_DOWN) then
    if negb (bool_decide (status_of st1 i = CON_DOWN))
    then (set_status i CON_DOWN st1,
          mkSyncLocals true true (node_status_was_changed_to_up loc)
                       (down_node_ids loc ++ [i]))
    else (st1, loc)
  else if bool_decide (leader_status leader i = CON_CONNECT_WAIT)
          || bool_decide (leader_status leader i = CON_UP) then
    if negb (bool_decide (status_of st1 i = CON_CONNECT_WAIT))
    then (set_status i CON_CONNECT_WAIT st1,
          mkSyncLocals true (node_status_was_changed_to_down loc)
                       (node_status_was_changed_to_up loc
                        || bool_decide (status_of st1 i = CON_DOWN))
                       (down_node_ids loc))
    else (st1, loc)
  else (st1, loc).

(** The update of [Req_info->primary_node_id]: the state and
    [primary_changed]. *)
Definition sync_primary (leader : WDPGBackendStatus) (st : State) : State * bool :=
  if SL_MODE cfg
     && negb (primary_node_id (Req_info st) =? leader_primary_node_id leader)
  then
    if (primary_node_id (Req_info st) >=? 0)
       && (leader_primary_node_id leader =? -1)
       && negb (bool_decide (status_of st (primary_node_id (Req_info st)) = CON_DOWN))
    then (st, false)
    else (set_Req (with_primary_node_id (leader_primary_node_id leader)) st, true)
  else (st, false).

(** Whether some pool of child [i] is connected with one of the nodes in
    [down] as its load balancing node. *)
Definition uses_down_node (down : list Z) (i : Z) : bool :=
  existsb (fun j =>
    existsb (fun k =>
      existsb (fun node_id =>
                 connected (pool_coninfo i j k)
                 && (load_balancing_node (pool_coninfo i j k) =? node_id))
              down)
      (seqZ 0 (num_backends cfg)))
    (seqZ 0 max_pool).

(** One turn of the loop "kill children and restart them if needed". *)
Definition restart_child (partial_restart : bool) (down : list Z) (ch : Children) (i : Z)
    : Children :=
  let restart := if partial_restart then uses_down_node down i else true in
  if restart then
    if negb (pid (process_at ch i) =? 0)
    then update_process i (fun p => mkProcessInfo (fork_a_child i) (need_to_restart p))
                        (kill (pid (process_at ch i)) SIGQUIT ch)
    else ch
  else update_process i (fun p => mkProcessInfo (pid p) 1) ch.

(** The signals and forks at the end of [sync_backend_from_watchdog()]. *)
Definition sync_children (need_to_restart_children partial_restart : bool) (down : list Z)
    (ch : Children) : Children :=
  let ch1 :=
    if need_to_restart_children
    then fold_left (restart_child partial_restart down) (seqZ 0 num_init_children) ch
    else fold_left (fun ch i => update_process i (fun p => mkProcessInfo (pid p) 1) ch)
                   (seqZ 0 num_init_children) ch in
  let ch2 := kill (worker_pid ch1) SIGUSR1 ch1 in
  fold_left (fun ch i =>
               if health_check_pid ch i =? 0
               then set_health_check_pid i (fork_health_check i) ch
               else ch)
            (seqZ 0 (num_backends cfg)) ch2.

(** [sync_backend_from_watchdog()].  [initializing] is the test
    [processState == INITIALIZING], [backendStatus] what the watchdog
    returned ([None] for a null pointer). *)
Definition sync_backend_from_watchdog (initializing : bool)
    (backendStatus : option WDPGBackendStatus) (st : State) (ch : Children)
    : State * Children :=
  match backendStatus with
  | None => (st, ch)
  | Some leader =>
      if node_count leader <=? 0 then (st, ch)
      else
        let '(st1, loc) :=
          fold_left (sync_node leader) (seqZ 0 (node_count leader))
                    (st, mkSyncLocals false false false []) in
        let '(st2, primary_changed) := sync_primary leader st1 in
        let st3 :=
          if reload_maste_node_id loc
          then set_Req (with_main_node_id (get_next_main_node cfg st2)) st2
          else st2 in
        if initializing then (st3, ch)
        else if negb (node_status_was_changed_to_up loc)
                && negb (node_status_was_changed_to_down loc)
                && negb primary_changed
        then (st3, ch)
        else
          let '(need_to_restart_children, partial_restart) :=
            if negb (STREAM cfg) then (true, false)
            else if primary_changed then (true, false)
            else if negb (node_status_was_changed_to_down loc) then (false, false)
            else (true, negb (check_all_backend_down cfg st3)) in
          (st3, sync_children need_to_restart_children partial_restart
                              (down_node_ids loc) ch)
  end.

End WatchdogSync.

(** * The whole SIGUSR1 processor *)

Section Sigusr1.

Variable cfg : POOL_CONFIG.
Variable num_init_children : Z.
Variable max_pool : Z.
Variable pool_coninfo : Z -> Z -> Z -> ConnectionInfo.
Variable fork_a_child : Z -> Z.
Variable fork_health_check : Z -> Z.

(** [degenerate_all_quarantine_nodes()] is defined outside src/; what it
    does to the shared state is taken as given. *)
Variable degenerate_all_quarantine_nodes : State -> State.

(** [user1SignalSlot->signalFlags[reason] = false] *)
Definition clear_signal (reason : User1SignalReason) (st : State) : State :=
  set_signalFlags (fun r => if decide (r = reason) then false else signalFlags st r) st.

(** [sigusr1_interupt_processor()].  [quorum_state] is what
    [wd_internal_get_watchdog_quorum_state()] returns; [wd_quorum],
    [wd_sync] and [wd_changed] are what
    [wd_internal_get_watchdog_local_node_state()] returns when it is asked
    in the three blocks that ask; [leader_sync] and [leader_changed] are the
    reports the leader gives to the two calls of
    [sync_backend_from_watchdog()]; [initializing] is the test
    [processState == INITIALIZING]. *)
Definition sigusr1_interupt_processor (env : Env) (fuel : nat) (is_parent : bool)
    (quorum_state : Z) (wd_quorum wd_sync wd_changed : WD_STATES)
    (leader_sync leader_changed : option WDPGBackendStatus) (initializing : bool)
    (st : State) (ch : Children) : Outcome (State * Children) :=
  let st1 := sigusr1_quorum_changed cfg quorum_state wd_quorum st in
  let st2 :=
    if signalFlags st1 SIG_INFORM_QURANTINE_NODES
    then degenerate_all_quarantine_nodes (clear_signal SIG_INFORM_QURANTINE_NODES st1)
    else st1 in
  let '(st3, ch3) :=
    if signalFlags st2 SIG_BACKEND_SYNC_REQUIRED then
      let st2' := clear_signal SIG_BACKEND_SYNC_REQUIRED st2 in
      if bool_decide (wd_sync = WD_STANDBY)
      then sync_backend_from_watchdog cfg num_init_children max_pool pool_coninfo
             fork_a_child fork_health_check initializing leader_sync st2' ch
      else (st2', ch)
    else (st2, ch) in
  let '(st4, ch4) :=
    if signalFlags st3 SIG_WATCHDOG_STATE_CHANGED then
      let st3' := clear_signal SIG_WATCHDOG_STATE_CHANGED st3 in
      if bool_decide (wd_changed = WD_STANDBY)
      then
        let '(s, c) :=
          sync_backend_from_watchdog cfg num_init_children max_pool pool_coninfo
            fork_a_child fork_health_check initializing leader_changed st3' ch3 in
        (set_Req (pool_release_follow_primary_lock true) s, c)
      else (st3', ch3)
    else (st3, ch3) in
  if signalFlags st4 SIG_FAILOVER_INTERRUPT then
    let st4' := clear_signal SIG_FAILOVER_INTERRUPT st4 in
    if initializing then Done (st4', ch4)
    else
      match failover cfg env fuel is_parent st4' with
      | Done st5 => Done (st5, ch4)
      | OutOfFuel => OutOfFuel
      | Undefined => Undefined
      end
  else Done (st4, ch4).

End Sigusr1.

(** * Vocabulary of the statements *)

(** The flags of the failback requests sent after a quorum change. *)
Definition failback_flags (cfg : POOL_CONFIG) : Z :=
  Z.lor (REQ_DETAIL_UPDATE cfg) (REQ_DETAIL_WATCHDOG cfg).

Definition quarantined_and_down (st : State) (i : Z) : bool :=
  quarantine_of st i && bool_decide (status_of st i = CON_DOWN).

(** Number of requests in the queue. *)
Definition queue_size (st : State) : Z :=
  request_queue_tail (Req_info st) - request_queue_head (Req_info st).

(** The requests waiting in the ring, oldest first. *)
Definition pending (cfg : POOL_CONFIG) (st : State) : list POOL_REQUEST_NODE :=
  omap (fun i => request_at st (queue_index cfg i))
       (seqZ (request_queue_head (Req_info st) + 1) (queue_size st)).

(** The shape [initialize_shared_mem_objects()] gives the queue and the two
    operations on it keep: a table of MAX_REQUEST_QUEUE_SIZE slots, counters
    that start at -1, and between zero and MAX_REQUEST_QUEUE_SIZE requests. *)
Definition queue_ok (cfg : POOL_CONFIG) (st : State) : Prop :=
  0 < MAX_REQUEST_QUEUE_SIZE cfg
  /\ length (request (Req_info st)) = Z.to_nat (MAX_REQUEST_QUEUE_SIZE cfg)
  /\ -1 <= request_queue_head (Req_info st)
  /\ 0 <= queue_size st <= MAX_REQUEST_QUEUE_SIZE cfg.

(** Events that concern the queue and the switching flag. *)
Definition queue_event (e : Event) : bool :=
  match e with
  | EvSwitching _ _ _ _ | EvEnqueue _ | EvDequeue _ _ => true
  | _ => false
  end.

Definition dequeued (evs : list Event) : list POOL_REQUEST_NODE :=
  omap (fun e => match e with EvDequeue _ r => Some r | _ => None end) evs.

Definition enqueued (evs : list Event) : list POOL_REQUEST_NODE :=
  omap (fun e => match e with EvEnqueue r => Some r | _ => None end) evs.

(** A request taken from the queue while [Req_info->switching] was false. *)
Definition dequeue_outside_drain (e : Event) : bool :=
  match e with
  | EvDequeue false _ => true
  | _ => false
  end.

(** A write that turns [Req_info->switching] from true to false while the
    queue holds a request. *)
Definition cleared_with_backlog (e : Event) : bool :=
  match e with
  | EvSwitching true false h t => negb (h =? t)
  | _ => false
  end.

Definition writes_switching (e : Event) : bool :=
  match e with
  | EvSwitching _ _ _ _ => true
  | _ => false
  end.

(** Events that may be logged while a drain is going on: no write to
    [Req_info->switching] and no request taken while it is false. *)
Definition inside_drain (evs : list Event) : Prop :=
  forallb (fun e => negb (writes_switching e) && negb (dequeue_outside_drain e)) evs = true.

(** [st'] comes from [st] by steps that leave the queue, both switching
    flags and [exiting] alone and log no queue event. *)
Definition quiet (st st' : State) : Prop :=
  request_queue_head (Req_info st') = request_queue_head (Req_info st)
  /\ request_queue_tail (Req_info st') = request_queue_tail (Req_info st)
  /\ request (Req_info st') = request (Req_info st)
  /\ Req_switching (Req_info st') = Req_switching (Req_info st)
  /\ switching st' = switching st
  /\ exiting st' = exiting st
  /\ exists evs, trace st' = trace st ++ evs
                 /\ forallb (fun e => negb (queue_event e)) evs = true.

(** Number of requests the other processes try to enqueue during the
    iterations [k], ..., [k + m - 1]. *)
Fixpoint arrivals_from (env : Env) (k : nat) (m : nat) : nat :=
  match m with
  | O => O
  | S m' => (length (arrivals (iter env k)) + arrivals_from env (S k) m')%nat
  end.

(** The request a producer passes to [register_node_operation_request()],
    as it sits in a slot. *)
Definition slot_of (k : POOL_REQUEST_KIND) (node_id_set : list Z) (flags : Z)
    : POOL_REQUEST_NODE :=
  mkRequest k flags node_id_set (Z.of_nat (length node_id_set)).

(** A state after some more events have been logged. *)
Definition emits (evs : list Event) (st : State) : State :=
  mkState (Req_info st) (backend_info st) (signalFlags st) (switching st)
          (exiting st) (status_file st) (trace st ++ evs).

(** A call of [find_primary_node_repeatedly()]. *)
Definition is_finder (e : Event) : bool :=
  match e with
  | EvFindPrimary _ => true
  | _ => false
  end.

(** A call of [trigger_failover_command()] with the failback command. *)
Definition is_failback_command (e : Event) : bool :=
  match e with
  | EvTriggerCommand FAILBACK_COMMAND _ _ _ _ => true
  | _ => false
  end.

(** Events other than the search for a primary and the failback command. *)
Definition plain (evs : list Event) : Prop :=
  forallb (fun e => negb (is_finder e) && negb (is_failback_command e)) evs = true.

(** The node a request is about: [node_id_set[0]] in [failover()]. *)
Definition first_node (e : IterEnv) (r : POOL_REQUEST_NODE) : Z :=
  hd (indeterminate e) (take (Z.to_nat (count r)) (node_id r)).

(** [st'] differs from [st] at most in the roles of the backends, the
    status file and the trace. *)
Definition role_step (st st' : State) : Prop :=
  Req_info st' = Req_info st
  /\ (forall j, status_of st' j = status_of st j)
  /\ (forall j, quarantine_of st' j = quarantine_of st j)
  /\ (forall j, is_Some (BACKEND_INFO st' j) <-> is_Some (BACKEND_INFO st j)).

(** The text [write_status_file()] prints for a list of statuses. *)
Definition status_text (ws : list BACKEND_STATUS) : string :=
  fold_right (fun s acc => status_word s ++ newline ++ acc)%string EmptyString ws.

(** The status [read_status_file()] gives a backend whose line was printed
    for status [s]. *)
Definition restored (s : BACKEND_STATUS) : BACKEND_STATUS :=
  match s with
  | CON_UP | CON_CONNECT_WAIT => CON_UP
  | CON_DOWN => CON_DOWN
  | CON_UNUSED => CON_UNUSED
  end.

(** Whether the line printed for status [s] is "up". *)
Definition prints_up (s : BACKEND_STATUS) : bool :=
  match s with
  | CON_UP | CON_CONNECT_WAIT => true
  | _ => false
  end.

(** The backends [k], [k+1], ... given the statuses restored from [ws]. *)
Fixpoint restore_from (k : Z) (ws : list BACKEND_STATUS) (st : State) : State :=
  match ws with
  | [] => st
  | s :: ws' => restore_from (k + 1) ws' (set_status k (restored s) st)
  end.

(** The text of a status file is not taken for an old binary record: either
    the file is shorter than the record or its first entry holds no status
    code other than that of CON_UNUSED. *)
Definition not_legacy (cfg : POOL_CONFIG) (content : string) : Prop :=
  forall rec, legacy_record cfg content = Some rec ->
              rec 0 = None \/ rec 0 = Some CON_UNUSED.

(** The shape every operation on the follow-primary lock keeps: the lock is
    free with nothing recorded, or it is held once and then not both held
    remotely and awaited by a remote request. *)
Definition lock_ok (q : POOL_REQUEST_INFO) : Prop :=
  (follow_primary_count q = 0
   /\ follow_primary_lock_held_remotely q = false
   /\ follow_primary_lock_pending q = false)
  \/ (follow_primary_count q = 1
      /\ (follow_primary_lock_held_remotely q && follow_primary_lock_pending q = false)).

(** The lock as a caller of [pool_acquire_follow_primary_lock()] finds it at
    its [n]-th look, when it has slept [n] times since look [k] and the other
    processes acted as [others] says in between. *)
Fixpoint lock_at_poll (others : nat -> POOL_REQUEST_INFO -> POOL_REQUEST_INFO)
    (k n : nat) (q : POOL_REQUEST_INFO) : POOL_REQUEST_INFO :=
  match n with
  | O => q
  | S n' => lock_at_poll others (S k) n' (others k q)
  end.

(** A request as [register_node_operation_request()] stores it. *)
Definition stored (r : POOL_REQUEST_NODE) : POOL_REQUEST_NODE :=
  slot_of (kind r) (node_id r) (request_details r).

(** What the body of the loop of [failover()] does first with request [r]
    once it has taken it from the queue: it sends SIGUSR1 to every child for
    a CLOSE_IDLE_REQUEST and calls [wd_failover_start()] for a request of any
    other kind. *)
Definition handling_starts (r : POOL_REQUEST_NODE) (e : Event) : bool :=
  match e with
  | EvKillAllChildren SIGUSR1 => bool_decide (kind r = CLOSE_IDLE_REQUEST)
  | EvWdFailoverStart => negb (bool_decide (kind r = CLOSE_IDLE_REQUEST))
  | _ => false
  end.

(** Every request taken from the queue in [evs] is handled on the spot: the
    event that follows its removal is the first step of its handling. *)
Fixpoint handled_when_taken (evs : list Event) : bool :=
  match evs with
  | [] => true
  | EvDequeue _ r :: rest =>
      match rest with
      | e :: _ => handling_starts r e
      | [] => false
      end && handled_when_taken rest
  | _ :: rest => handled_when_taken rest
  end.

(** [drain_steps cfg env k l st rs l' st']: started at iteration [k] with the
    locals [l] in state [st], the loop of [failover()] takes the requests
    [rs] from the queue one after another, passes each of them to the body
    of the loop, goes on from the locals and the state the body leaves, and
    finds the queue empty after the last of them, with the locals [l'] and
    in state [st']. *)
Inductive drain_steps (cfg : POOL_CONFIG) (env : Env)
    : nat -> Locals -> State -> list POOL_REQUEST_NODE -> Locals -> State -> Prop :=
| drain_ends (k : nat) (l : Locals) (st st1 : State) :
    dequeue cfg (producers cfg (arrivals (iter env k)) st) = QueueEmpty st1 ->
    drain_steps cfg env k l st [] l st1
| drain_handles (k : nat) (l : Locals) (st st1 : State) (r : POOL_REQUEST_NODE)
      (rs : list POOL_REQUEST_NODE) (l' : Locals) (st' : State) :
    dequeue cfg (producers cfg (arrivals (iter env k)) st) = Taken r st1 ->
    drain_steps cfg env (S k)
                (fst (failover_request cfg (iter env k) r l st1))
                (snd (failover_request cfg (iter env k) r l st1)) rs l' st' ->
    drain_steps cfg env k l st (r :: rs) l' st'.

(** The state in which [failover()] enters its loop: both switching flags
    are set and the write to [Req_info->switching] is logged. *)
Definition drain_entry (st : State) : State :=
  set_switching true
    (set_Req (with_Req_switching true)
       (emit (EvSwitching (Req_switching (Req_info st)) true
                          (request_queue_head (Req_info st))
                          (request_queue_tail (Req_info st))) st)).


(** [st'] has the backend table and the main and primary node ids of [st]. *)
Definition same_cluster_view (st st' : State) : Prop :=
  backend_info st' = backend_info st
  /\ main_node_id (Req_info st') = main_node_id (Req_info st)
  /\ primary_node_id (Req_info st') = primary_node_id (Req_info st).

(** Whether the character [c] occurs in [s]. *)
Fixpoint has_char (c : ascii) (s : string) : bool :=
  match s with
  | EmptyString => false
  | String x s' => Ascii.eqb x c || has_char c s'
  end.

(** [pre] is what may stand before a keyword in a connection string for the
    keyword to be found where it is meant: [pre] does not contain the
    keyword and is empty or ends with a space. *)
Definition before_keyword (key pre : string) : Prop :=
  strstr pre key = None
  /\ (pre = EmptyString \/ exists pre', pre = (pre' ++ " ")%string).

(** [v] is a value and [rest] what follows it: [v] holds no space, and
    [rest] is empty or starts with a space. *)
Definition value_then (v rest : string) : Prop :=
  has_char " " v = false
  /\ (rest = EmptyString \/ exists rest', rest = String " " rest').

(** A text with every percent sign doubled, as one writes it in a command
    template to have it taken literally. *)
Fixpoint quote_percent (s : string) : string :=
  match s with
  | EmptyString => EmptyString
  | String c s' =>
      if Ascii.eqb c "%" then String "%" (String "%" (quote_percent s'))
      else String c (quote_percent s')
  end.

(** Whether a piece of a command template ends in the middle of an escape:
    with a percent sign that is not the second character of an escape. *)
Fixpoint open_escape (a : string) : bool :=
  match a with
  | EmptyString => false
  | String c rest =>
      if Ascii.eqb c "%" then
        match rest with
        | EmptyString => true
        | String _ rest' => open_escape rest'
        end
      else open_escape rest
  end.

(** The status a backend has after the synchronisation with the leader: DOWN
    if the leader says DOWN, CONNECT_WAIT if the leader says CONNECT_WAIT or
    UP, and the local status [s] if the leader says UNUSED. *)
Definition synced_status (theirs s : BACKEND_STATUS) : BACKEND_STATUS :=
  match theirs with
  | CON_DOWN => CON_DOWN
  | CON_CONNECT_WAIT | CON_UP => CON_CONNECT_WAIT
  | CON_UNUSED => s
  end.

(** [health_check_pids[]] after the loop "fork health check process if
    needed": a health-check process is forked for every backend below
    NUM_BACKENDS whose entry is 0, and the other entries are kept. *)
Definition started_health_checks (cfg : POOL_CONFIG) (fork_health_check : Z -> Z)
    (pids : list Z) : list Z :=
  imap (fun i p => if (Z.of_nat i <? num_backends cfg) && (p =? 0)
                   then fork_health_check (Z.of_nat i) else p) pids.

(** [st'] has the request queue and the signal slot of [st]. *)
Definition same_queue (st st' : State) : Prop :=
  request_queue_head (Req_info st') = request_queue_head (Req_info st)
  /\ request_queue_tail (Req_info st') = request_queue_tail (Req_info st)
  /\ request (Req_info st') = request (Req_info st)
  /\ signalFlags st' = signalFlags st.

(** [st'] has the follow-primary lock of [st]. *)
Definition same_lock (st st' : State) : Prop :=
  follow_primary_count (Req_info st') = follow_primary_count (Req_info st)
  /\ follow_primary_lock_held_remotely (Req_info st')
     = follow_primary_lock_held_remotely (Req_info st)
  /\ follow_primary_lock_pending (Req_info st')
     = follow_primary_lock_pending (Req_info st).

(** * Concrete configurations and states

    Small inputs on which the definitions above are run. *)

Module Examples.

(** Streaming replication, two backends, queue of ten slots. *)
Definition cfg2 : POOL_CONFIG :=
  mkConfig 128 10 1 2 4 8 1 2 false true true false false (fun _ => None).

(** Three backends, detach_false_primary off. *)
Definition cfg3 : POOL_CONFIG :=
  mkConfig 128 10 1 2 4 8 1 3 false true true false false (fun _ => None).

(** Three backends, detach_false_primary on. *)
Definition cfg3_detach : POOL_CONFIG :=
  mkConfig 128 10 1 2 4 8 1 3 false true true true false (fun _ => None).

Definition backend (s : BACKEND_STATUS) (q : bool) (r : SERVER_ROLE) : BackendInfo :=
  mkBackendInfo s q r 0.

Definition empty_slot : POOL_REQUEST_NODE := mkRequest CLOSE_IDLE_REQUEST 0 [] 0.

(** [Req_info] after [initialize_shared_mem_objects()], with the given
    primary. *)
Definition req_init (primary : Z) : POOL_REQUEST_INFO :=
  mkReqInfo 0 primary false (-1) (-1) (replicate 10 empty_slot) false 0 false false.

Definition no_signal : User1SignalReason -> bool := fun _ => false.

Definition state_of (q : POOL_REQUEST_INFO) (bs : list BackendInfo)
    (flags : User1SignalReason -> bool) : State :=
  mkState q bs flags false false None [].

(** Node 0 primary, node 1 standby, both up. *)
Definition st_up_up : State :=
  state_of (req_init 0)
           [backend CON_UP false ROLE_PRIMARY; backend CON_UP false ROLE_STANDBY]
           no_signal.

(** The same while a drain is going on. *)
Definition st_switching : State :=
  mkState (with_Req_switching true (req_init 0))
          [backend CON_UP false ROLE_PRIMARY; backend CON_UP false ROLE_STANDBY]
          no_signal true false None [].

(** Three backends up. *)
Definition st_three : State :=
  state_of (req_init (-1))
           [backend CON_UP false ROLE_UNKNOWN; backend CON_UP false ROLE_UNKNOWN;
            backend CON_UP false ROLE_UNKNOWN]
           no_signal.

Definition quorum_signalled : User1SignalReason -> bool :=
  fun r => bool_decide (r = SIG_WATCHDOG_QUORUM_CHANGED).

(** Node 0 quarantined and down, the quorum slot raised. *)
Definition st_quarantined : State :=
  state_of (req_init (-1))
           [backend CON_DOWN true ROLE_PRIMARY; backend CON_UP false ROLE_STANDBY]
           quorum_signalled.

(** Node 0 still flagged as quarantined but waiting for connections. *)
Definition st_quarantined_waiting : State :=
  state_of (req_init (-1))
           [backend CON_CONNECT_WAIT true ROLE_PRIMARY; backend CON_UP false ROLE_STANDBY]
           quorum_signalled.

(** Nodes 0 and 1 answer "f", node 2 answers "t". *)
Definition probe_two_primaries_one_standby : Probe :=
  mkProbe (fun _ => true) (fun i => if i =? 2 then AnswerT else AnswerF)
          (fun _ => 170000) (fun _ _ => true).

(** Nodes 0 and 2 answer "f", node 1 does not answer. *)
Definition probe_two_primaries : Probe :=
  mkProbe (fun _ => true) (fun i => if i =? 1 then QueryFailed else AnswerF)
          (fun _ => 170000) (fun _ _ => true).

(** The follow-primary lock held by a local process. *)
Definition req_locked : POOL_REQUEST_INFO :=
  mkReqInfo 0 0 false (-1) (-1) (replicate 10 empty_slot) false 1 false false.

Definition no_interference : nat -> POOL_REQUEST_INFO -> POOL_REQUEST_INFO :=
  fun _ q => q.

(** No other process produces anything; the probing loop finds nothing. *)
Definition env_idle : Env :=
  mkEnv (fun _ => mkIterEnv [] (-1) 0) [].

(** While the first request is handled, another process asks for node 1 to
    be attached again. *)
Definition env_one_arrival : Env :=
  mkEnv (fun k => match k with
                  | O => mkIterEnv [mkRequest NODE_UP_REQUEST 0 [1] 1] (-1) 0
                  | S _ => mkIterEnv [] (-1) 0
                  end) [].

(** One request waiting: node 1 is to be detached. *)
Definition st_one_pending : State :=
  state_of (mkReqInfo 0 0 false (-1) 0
              (<[0%nat := mkRequest NODE_DOWN_REQUEST 1 [1] 1]> (replicate 10 empty_slot))
              false 0 false false)
           [backend CON_UP false ROLE_PRIMARY; backend CON_UP false ROLE_STANDBY]
           no_signal.

(** A full queue: ten requests waiting. *)
Definition st_full : State :=
  state_of (mkReqInfo 0 0 false (-1) 9
              (replicate 10 (mkRequest NODE_DOWN_REQUEST 1 [1] 1))
              false 0 false false)
           [backend CON_UP false ROLE_PRIMARY; backend CON_UP false ROLE_STANDBY]
           no_signal.

(** What the environment does around a single request: nothing, and the
    probing loop reports node 1 as primary. *)
Definition iter_quiet : IterEnv := mkIterEnv [] 1 0.

(** Node 0 up, node 1 waiting for connections. *)
Definition st_up_waiting : State :=
  state_of (req_init 0)
           [backend CON_UP false ROLE_PRIMARY; backend CON_CONNECT_WAIT false ROLE_STANDBY]
           no_signal.

(** The supervisor after a restart: both backends waiting, the status file
    as [st_up_waiting] left it. *)
Definition st_restarted : State :=
  mkState (req_init (-2))
          [backend CON_CONNECT_WAIT false ROLE_UNKNOWN;
           backend CON_CONNECT_WAIT false ROLE_UNKNOWN]
          no_signal false false
          (status_file (snd (write_status_file cfg2 st_up_waiting))) [].

(** A reader of old binary status records for the usual layout: one
    four-byte little-endian entry per backend slot, holding 0, 1, 2 or 3 for
    CON_UNUSED, CON_CONNECT_WAIT, CON_UP and CON_DOWN. *)
Definition byte_value (c : ascii) : Z := Z.of_nat (nat_of_ascii c).

Definition status_of_code (c : Z) : option BACKEND_STATUS :=
  if c =? 0 then Some CON_UNUSED
  else if c =? 1 then Some CON_CONNECT_WAIT
  else if c =? 2 then Some CON_UP
  else if c =? 3 then Some CON_DOWN
  else None.

Fixpoint drop_chars (n : nat) (s : string) : string :=
  match n, s with
  | S n', String _ s' => drop_chars n' s'
  | _, _ => s
  end.

Definition entry_le32 (s : string) : option Z :=
  match s with
  | String b0 (String b1 (String b2 (String b3 _))) =>
      Some (byte_value b0 + 256 * byte_value b1 + 65536 * byte_value b2
            + 16777216 * byte_value b3)
  | _ => None
  end.

Definition legacy_le32 (slots : Z) (content : string)
    : option (Z -> option BACKEND_STATUS) :=
  if Z.of_nat (String.length content) <? 4 * slots then None
  else Some (fun i =>
               match entry_le32 (drop_chars (Z.to_nat (4 * i)) content) with
               | Some c => status_of_code c
               | None => None
               end).

(** Two backends and a record of one slot only, so that even this short
    status file is long enough to be tried as an old record. *)
Definition cfg2_short_record : POOL_CONFIG :=
  mkConfig 128 10 1 2 4 8 1 2 false true true false false (legacy_le32 1).

(** The local holder of the follow-primary lock gives it back between the
    second and the third look of a waiting process. *)
Definition holder_releases : nat -> POOL_REQUEST_INFO -> POOL_REQUEST_INFO :=
  fun k q => match k with
             | 1%nat => pool_release_follow_primary_lock false q
             | _ => q
             end.

(** Both backends down. *)
Definition st_down_down : State :=
  state_of (req_init (-1))
           [backend CON_DOWN false ROLE_PRIMARY; backend CON_DOWN false ROLE_STANDBY]
           no_signal.

(** The supervisor after a restart, with a status file that says "down" for
    both backends. *)
Definition st_restarted_all_down : State :=
  mkState (req_init (-2))
          [backend CON_CONNECT_WAIT false ROLE_UNKNOWN;
           backend CON_CONNECT_WAIT false ROLE_UNKNOWN]
          no_signal false false
          (Some (status_text [CON_DOWN; CON_DOWN])) [].

(** Node 1 carries the ALWAYS_PRIMARY flag. *)
Definition st_always_primary : State :=
  state_of (req_init (-1))
           [backend CON_UP false ROLE_UNKNOWN; mkBackendInfo CON_UP false ROLE_UNKNOWN 1]
           no_signal.

(** The leader watchdog node reports node 0 up, node 1 down, primary 0. *)
Definition leader_node1_down : WDPGBackendStatus :=
  mkWDPGBackendStatus 0 2 [CON_UP; CON_DOWN].

(** The leader reports both nodes up but no primary: it holds the primary
    in quarantine. *)
Definition leader_no_primary : WDPGBackendStatus :=
  mkWDPGBackendStatus (-1) 2 [CON_UP; CON_UP].

(** The leader reports no primary and node 0 as unused. *)
Definition leader_primary_unused : WDPGBackendStatus :=
  mkWDPGBackendStatus (-1) 2 [CON_UNUSED; CON_UP].

(** The leader reports no primary and node 0 as down. *)
Definition leader_primary_down : WDPGBackendStatus :=
  mkWDPGBackendStatus (-1) 2 [CON_DOWN; CON_UP].

(** The leader reports both nodes up and node 1 as the primary. *)
Definition leader_primary1 : WDPGBackendStatus :=
  mkWDPGBackendStatus 1 2 [CON_UP; CON_UP].

(** Two child processes, a worker and two health-check processes. *)
Definition children2 : Children :=
  mkChildren [mkProcessInfo 101 0; mkProcessInfo 102 0] 90 [201; 202] [].

(** The same with no health-check process for node 1. *)
Definition children_health_check1_missing : Children :=
  mkChildren [mkProcessInfo 101 0; mkProcessInfo 102 0] 90 [201; 0] [].

(** Child 1 has a pool connected with node 1 as its load balancing node. *)
Definition child1_uses_node1 : Z -> Z -> Z -> ConnectionInfo :=
  fun i j k => mkConnectionInfo ((i =? 1) && (j =? 0)) 1.

Definition new_child_pid (i : Z) : Z := 300 + i.

Definition new_health_check_pid (i : Z) : Z := 400 + i.

(** The leader reports both nodes up and node 0 as the primary. *)
Definition leader_all_up : WDPGBackendStatus :=
  mkWDPGBackendStatus 0 2 [CON_UP; CON_UP].

(** Node 0 up, node 1 down, node 0 primary. *)
Definition st_up_down : State :=
  state_of (req_init 0)
           [backend CON_UP false ROLE_PRIMARY; backend CON_DOWN false ROLE_STANDBY]
           no_signal.

Definition failover_signalled : User1SignalReason -> bool :=
  fun r => bool_decide (r = SIG_FAILOVER_INTERRUPT).

(** One request waiting and the failover slot raised. *)
Definition st_pending_signalled : State :=
  mkState (Req_info st_one_pending) (backend_info st_one_pending) failover_signalled
          false false None [].

Definition state_change_signalled : User1SignalReason -> bool :=
  fun r => bool_decide (r = SIG_WATCHDOG_STATE_CHANGED).

(** The follow-primary lock held for a remote node, and the slot for a
    change of the watchdog state raised. *)
Definition st_remote_lock : State :=
  mkState (mkReqInfo 0 0 false (-1) (-1) (replicate 10 empty_slot) false 1 true false)
          [backend CON_UP false ROLE_PRIMARY; backend CON_UP false ROLE_STANDBY]
          state_change_signalled false false None [].

End Examples.

(** * Properties *)

(** ** Reading the backend table after an update *)

Lemma BACKEND_INFO_update_backend (i j : Z) (f : BackendInfo -> BackendInfo) (st : State) :
  BACKEND_INFO (update_backend i f st) j
  = if i =? j then f <$> BACKEND_INFO st j else BACKEND_INFO st j.
Proof.
  unfold update_backend, BACKEND_INFO.
  destruct (i =? j) eqn:Hij.
  - apply Z.eqb_eq in Hij. subst j.
    destruct (i <? 0) eqn:Hi; simpl; [reflexivity|].
    apply list_lookup_alter_eq.
  - apply Z.eqb_neq in Hij.
    destruct (i <? 0) eqn:Hi; simpl; [reflexivity|].
    destruct (j <? 0) eqn:Hj; [reflexivity|].
    apply list_lookup_alter_ne. lia.
Qed.

Lemma status_of_set_status (i j : Z) (s : BACKEND_STATUS) (st : State) :
  status_of (set_status i s st) j
  = if (i =? j) && bool_decide (is_Some (BACKEND_INFO st j)) then s else status_of st j.
Proof.
  unfold status_of, set_status. rewrite BACKEND_INFO_update_backend.
  destruct (i =? j), (BACKEND_INFO st j) as [b|]; simpl; try reflexivity.
Qed.

Lemma status_of_set_status_eq (i : Z) (s : BACKEND_STATUS) (st : State) :
  is_Some (BACKEND_INFO st i) -> status_of (set_status i s st) i = s.
Proof.
  intros H. rewrite status_of_set_status, Z.eqb_refl.
  rewrite bool_decide_eq_true_2 by assumption. reflexivity.
Qed.

Lemma status_of_set_status_ne (i j : Z) (s : BACKEND_STATUS) (st : State) :
  i <> j -> status_of (set_status i s st) j = status_of st j.
Proof.
  intros H. rewrite status_of_set_status.
  apply Z.eqb_neq in H. rewrite H. reflexivity.
Qed.

Lemma status_of_set_quarantine (i j : Z) (q : bool) (st : State) :
  status_of (set_quarantine i q st) j = status_of st j.
Proof.
  unfold status_of, set_quarantine. rewrite BACKEND_INFO_update_backend.
  destruct (i =? j), (BACKEND_INFO st j); reflexivity.
Qed.

Lemma status_of_set_role (i j : Z) (r : SERVER_ROLE) (st : State) :
  status_of (set_role i r st) j = status_of st j.
Proof.
  unfold status_of, set_role. rewrite BACKEND_INFO_update_backend.
  destruct (i =? j), (BACKEND_INFO st j); reflexivity.
Qed.

Lemma quarantine_of_set_status (i j : Z) (s : BACKEND_STATUS) (st : State) :
  quarantine_of (set_status i s st) j = quarantine_of st j.
Proof.
  unfold quarantine_of, set_status. rewrite BACKEND_INFO_update_backend.
  destruct (i =? j), (BACKEND_INFO st j); reflexivity.
Qed.

Lemma quarantine_of_set_role (i j : Z) (r : SERVER_ROLE) (st : State) :
  quarantine_of (set_role i r st) j = quarantine_of st j.
Proof.
  unfold quarantine_of, set_role. rewrite BACKEND_INFO_update_backend.
  destruct (i =? j), (BACKEND_INFO st j); reflexivity.
Qed.

Lemma quarantine_of_set_quarantine (i j : Z) (q : bool) (st : State) :
  quarantine_of (set_quarantine i q st) j
  = if (i =? j) && bool_decide (is_Some (BACKEND_INFO st j)) then q else quarantine_of st j.
Proof.
  unfold quarantine_of, set_quarantine. rewrite BACKEND_INFO_update_backend.
  destruct (i =? j), (BACKEND_INFO st j); reflexivity.
Qed.

Lemma role_of_set_status (i j : Z) (s : BACKEND_STATUS) (st : State) :
  role_of (set_status i s st) j = role_of st j.
Proof.
  unfold role_of, set_status. rewrite BACKEND_INFO_update_backend.
  destruct (i =? j), (BACKEND_INFO st j); reflexivity.
Qed.

Lemma role_of_set_quarantine (i j : Z) (q : bool) (st : State) :
  role_of (set_quarantine i q st) j = role_of st j.
Proof.
  unfold role_of, set_quarantine. rewrite BACKEND_INFO_update_backend.
  destruct (i =? j), (BACKEND_INFO st j); reflexivity.
Qed.

Lemma role_of_set_role (i j : Z) (r : SERVER_ROLE) (st : State) :
  role_of (set_role i r st) j
  = if (i =? j) && bool_decide (is_Some (BACKEND_INFO st j)) then r else role_of st j.
Proof.
  unfold role_of, set_role. rewrite BACKEND_INFO_update_backend.
  destruct (i =? j), (BACKEND_INFO st j); reflexivity.
Qed.

Lemma is_Some_BACKEND_INFO_update (i j : Z) (f : BackendInfo -> BackendInfo) (st : State) :
  is_Some (BACKEND_INFO (update_backend i f st) j) <-> is_Some (BACKEND_INFO st j).
Proof.
  rewrite BACKEND_INFO_update_backend.
  destruct (i =? j); [|reflexivity].
  rewrite fmap_is_Some. reflexivity.
Qed.

Lemma VALID_BACKEND_is_Some (st : State) (i : Z) :
  VALID_BACKEND st i = true -> is_Some (BACKEND_INFO st i).
Proof.
  unfold VALID_BACKEND. destruct (BACKEND_INFO st i); [eauto | discriminate].
Qed.

(** ** Follow-primary lock *)

(** C9.  A remote request for the follow-primary lock that finds it held by
    a local holder (count > 0, not held remotely) returns at once, whatever
    [block] is, with [false] and with [follow_primary_lock_pending] set and
    the other lock fields as they were; the local release that follows hands
    the lock to the remote node: count 1, held remotely, nothing pending. *)
Theorem follow_primary_lock_handover
    (others : nat -> POOL_REQUEST_INFO -> POOL_REQUEST_INFO) (fuel : nat)
    (block : bool) (q : POOL_REQUEST_INFO) :
  (0 < fuel)%nat ->
  0 < follow_primary_count q ->
  follow_primary_lock_held_remotely q = false ->
  exists q1,
    pool_acquire_follow_primary_lock others fuel 0 block true q = Done (false, q1)
    /\ follow_primary_lock_pending q1 = true
    /\ follow_primary_count q1 = follow_primary_count q
    /\ follow_primary_lock_held_remotely q1 = false
    /\ follow_primary_count (pool_release_follow_primary_lock false q1) = 1
    /\ follow_primary_lock_held_remotely (pool_release_follow_primary_lock false q1) = true
    /\ follow_primary_lock_pending (pool_release_follow_primary_lock false q1) = false.
Proof.
  intros Hfuel Hcnt Hheld.
  destruct fuel as [|fuel]; [lia|].
  simpl. unfold acquire_attempt.
  destruct (follow_primary_count q <=? 0) eqn:Hle; [apply Z.leb_le in Hle; lia|].
  rewrite Hheld.
  eexists. split; [reflexivity|].
  simpl. repeat split; reflexivity.
Qed.

(** ** Quorum change *)

Lemma update_backend_quarantine_status_fold (cfg : POOL_CONFIG) (b : bool)
    (l : list Z) (st : State) :
  let st' :=
    fold_left
      (fun st i =>
         if quarantine_of st i && bool_decide (status_of st i = CON_DOWN)
         then if b then emit (EvSendFailbackRequest i (failback_flags cfg)) st else st
         else st) l st in
  backend_info st' = backend_info st
  /\ signalFlags st' = signalFlags st
  /\ Req_info st' = Req_info st
  /\ trace st' = trace st
       ++ (if b
           then map (fun i => EvSendFailbackRequest i (failback_flags cfg))
                    (List.filter (quarantined_and_down st) l)
           else []).
Proof.
  revert st. induction l as [|a l IH]; intros st; simpl.
  - destruct b; rewrite app_nil_r; repeat split.
  - match goal with |- context [fold_left _ l ?s] => specialize (IH s) end.
    simpl in IH. destruct IH as (Hb & Hs & Hr & Ht).
    rewrite Hb, Hs, Hr, Ht.
    unfold quarantined_and_down at 2.
    destruct (quarantine_of st a && bool_decide (status_of st a = CON_DOWN)) eqn:Hq;
      destruct b; simpl; repeat split.
    rewrite <- app_assoc. reflexivity.
Qed.

(** C8 (amended).  When the slot SIG_WATCHDOG_QUORUM_CHANGED is processed,
    the watchdog cluster holds the quorum and the local watchdog node is the
    coordinator, a failback request with the flags UPDATE and WATCHDOG is
    issued, in the order of the node ids, for exactly the backends that are
    quarantined and whose status is DOWN; the slot is cleared and the backend
    table is left as it was. *)
Theorem quorum_change_failback_requests (cfg : POOL_CONFIG) (quorum_state : Z) (st : State) :
  signalFlags st SIG_WATCHDOG_QUORUM_CHANGED = true ->
  0 <= quorum_state ->
  let st' := sigusr1_quorum_changed cfg quorum_state WD_COORDINATOR st in
  trace st' = trace st
    ++ map (fun i => EvSendFailbackRequest i
                       (Z.lor (REQ_DETAIL_UPDATE cfg) (REQ_DETAIL_WATCHDOG cfg)))
           (List.filter (quarantined_and_down st) (seqZ 0 (num_backends cfg)))
  /\ signalFlags st' SIG_WATCHDOG_QUORUM_CHANGED = false
  /\ backend_info st' = backend_info st.
Proof.
  intros Hflag Hq. unfold sigusr1_quorum_changed. rewrite Hflag.
  destruct (quorum_state >=? 0) eqn:Hge; [|lia].
  unfold update_backend_quarantine_status.
  match goal with |- context [fold_left _ _ ?s] =>
    pose proof (update_backend_quarantine_status_fold cfg
                  (bool_decide (WD_COORDINATOR = WD_COORDINATOR))
                  (seqZ 0 (num_backends cfg)) s) as H end.
  simpl in H. destruct H as (Hb & Hs & Hr & Ht).
  simpl. unfold failback_flags in *.
  split; [exact Ht|]. split; [|exact Hb].
  rewrite Hs. reflexivity.
Qed.

(** Without the coordinator role nothing is sent. *)
Lemma quorum_change_not_coordinator (cfg : POOL_CONFIG) (quorum_state : Z)
    (wd : WD_STATES) (st : State) :
  wd <> WD_COORDINATOR ->
  trace (sigusr1_quorum_changed cfg quorum_state wd st) = trace st.
Proof.
  intros Hwd. unfold sigusr1_quorum_changed.
  destruct (signalFlags st SIG_WATCHDOG_QUORUM_CHANGED); [|reflexivity].
  destruct (quorum_state >=? 0); [|reflexivity].
  unfold update_backend_quarantine_status.
  match goal with |- context [fold_left _ _ ?s] =>
    pose proof (update_backend_quarantine_status_fold cfg
                  (bool_decide (wd = WD_COORDINATOR))
                  (seqZ 0 (num_backends cfg)) s) as H end.
  simpl in H. destruct H as (_ & _ & _ & Ht).
  unfold failback_flags in *. rewrite Ht.
  rewrite bool_decide_eq_false_2 by assumption. apply app_nil_r.
Qed.

(** ** Primary finder *)

Lemma keep_first_primary_length (cfg : POOL_CONFIG) (l : list POOL_NODE_STATUS) :
  length (keep_first_primary cfg l) = length l.
Proof.
  induction l as [|s t IH]; simpl; [reflexivity|].
  destruct (bool_decide (s = POOL_NODE_STATUS_PRIMARY)); simpl.
  - rewrite length_map. reflexivity.
  - rewrite IH. reflexivity.
Qed.

(** What the nested loop leaves: the first primary stays, every later
    primary gets the mark, everything else is untouched. *)
Lemma keep_first_primary_spec (cfg : POOL_CONFIG) (l : list POOL_NODE_STATUS) :
  In POOL_NODE_STATUS_PRIMARY l ->
  exists k : nat,
    l !! k = Some POOL_NODE_STATUS_PRIMARY
    /\ (forall j, (j < k)%nat -> l !! j <> Some POOL_NODE_STATUS_PRIMARY)
    /\ keep_first_primary cfg l !! k = Some POOL_NODE_STATUS_PRIMARY
    /\ (forall j, j <> k -> l !! j = Some POOL_NODE_STATUS_PRIMARY ->
                  keep_first_primary cfg l !! j = Some (false_primary_mark cfg))
    /\ (forall j s, l !! j = Some s -> s <> POOL_NODE_STATUS_PRIMARY ->
                    keep_first_primary cfg l !! j = Some s).
Proof.
  induction l as [|s t IH]; intros Hin; [destruct Hin|].
  simpl. destruct (bool_decide (s = POOL_NODE_STATUS_PRIMARY)) eqn:Hs.
  - apply bool_decide_eq_true in Hs. subst s.
    exists 0%nat. repeat split; try reflexivity.
    + intros j Hj. lia.
    + intros [|j] Hj Hl; [congruence|]. simpl in *.
      rewrite list_lookup_fmap, Hl. reflexivity.
    + intros [|j] s Hl Hne; simpl in *; [congruence|].
      rewrite list_lookup_fmap, Hl. cbn [fmap option_fmap option_map].
      rewrite bool_decide_eq_false_2 by assumption. reflexivity.
  - apply bool_decide_eq_false in Hs.
    destruct Hin as [Hin|Hin]; [congruence|].
    destruct (IH Hin) as (k & Hk & Hlow & Hkeep & Hoth & Hrest).
    exists (S k). repeat split; simpl; try assumption.
    + intros [|j] Hj; simpl; [congruence|]. apply Hlow. lia.
    + intros [|j] Hj Hl; simpl in *; [congruence|]. apply Hoth; [lia|assumption].
    + intros [|j] s' Hl Hne; simpl in *; [assumption|]. apply Hrest; assumption.
Qed.

Lemma count_status_pos_In (s : POOL_NODE_STATUS) (l : list POOL_NODE_STATUS) :
  0 < count_status s l -> In s l.
Proof.
  unfold count_status. intros H.
  destruct (filter (fun x => x = s) l) as [|x r] eqn:Hf; [simpl in H; lia|].
  assert (Hx : x ∈ filter (fun x => x = s) l) by (rewrite Hf; left).
  apply list_elem_of_filter in Hx. destruct Hx as [-> Hx].
  apply list_elem_of_In. assumption.
Qed.

(** C7 (amended).  When the probes classify two or more backends as PRIMARY
    and none as STANDBY, the lowest-indexed primary keeps the status PRIMARY
    and every other primary is marked INVALID if detach_false_primary is
    enabled and UNUSED if it is not; the other entries are left as
    classified. *)
Theorem several_primaries_no_standby (cfg : POOL_CONFIG) (pr : Probe) (st : State) :
  2 <= count_status POOL_NODE_STATUS_PRIMARY (classify cfg pr st) ->
  count_status POOL_NODE_STATUS_STANDBY (classify cfg pr st) = 0 ->
  exists k : nat,
    classify cfg pr st !! k = Some POOL_NODE_STATUS_PRIMARY
    /\ (forall j, (j < k)%nat -> classify cfg pr st !! j <> Some POOL_NODE_STATUS_PRIMARY)
    /\ verify_backend_node_status cfg pr st !! k = Some POOL_NODE_STATUS_PRIMARY
    /\ (forall j, j <> k -> classify cfg pr st !! j = Some POOL_NODE_STATUS_PRIMARY ->
          verify_backend_node_status cfg pr st !! j
          = Some (if detach_false_primary cfg then POOL_NODE_STATUS_INVALID
                  else POOL_NODE_STATUS_UNUSED))
    /\ (forall j s, classify cfg pr st !! j = Some s -> s <> POOL_NODE_STATUS_PRIMARY ->
          verify_backend_node_status cfg pr st !! j = Some s).
Proof.
  intros Hp Hs. unfold verify_backend_node_status.
  destruct (count_status POOL_NODE_STATUS_PRIMARY (classify cfg pr st) =? 0) eqn:H0;
    [apply Z.eqb_eq in H0; lia|].
  rewrite Hs. simpl.
  destruct (count_status POOL_NODE_STATUS_PRIMARY (classify cfg pr st) =? 1) eqn:H1;
    [apply Z.eqb_eq in H1; lia|].
  apply keep_first_primary_spec. apply count_status_pos_In. lia.
Qed.

(** ** The statements above on concrete inputs *)

Import Examples.

Lemma follow_primary_lock_handover_witness :
  exists q1,
    pool_acquire_follow_primary_lock no_interference 1 0 true true req_locked
    = Done (false, q1)
    /\ follow_primary_lock_pending q1 = true
    /\ follow_primary_count q1 = follow_primary_count req_locked
    /\ follow_primary_lock_held_remotely q1 = false
    /\ follow_primary_count (pool_release_follow_primary_lock false q1) = 1
    /\ follow_primary_lock_held_remotely (pool_release_follow_primary_lock false q1) = true
    /\ follow_primary_lock_pending (pool_release_follow_primary_lock false q1) = false.
Proof.
  apply (follow_primary_lock_handover no_interference 1 true req_locked).
  - lia.
  - reflexivity.
  - reflexivity.
Defined.

Lemma quorum_change_failback_requests_witness :
  trace (sigusr1_quorum_changed cfg2 0 WD_COORDINATOR st_quarantined)
  = [EvSendFailbackRequest 0 10].
Proof.
  pose proof (quorum_change_failback_requests cfg2 0 st_quarantined eq_refl) as H.
  destruct H as (H & _); [lia|]. exact H.
Defined.

(** C8 as stated fails on the code: with the quorum held, a backend whose
    quarantine flag is set gets no failback request when the local watchdog
    node is a standby, and none when the local node is the coordinator but
    the backend's status is not DOWN. *)
Lemma quorum_change_no_request :
  quarantine_of st_quarantined 0 = true
  /\ trace (sigusr1_quorum_changed cfg2 0 WD_STANDBY st_quarantined) = []
  /\ quarantine_of st_quarantined_waiting 0 = true
  /\ trace (sigusr1_quorum_changed cfg2 0 WD_COORDINATOR st_quarantined_waiting) = [].
Proof. repeat split. Qed.

Lemma several_primaries_no_standby_witness :
  exists k : nat,
    classify cfg3_detach probe_two_primaries st_three !! k = Some POOL_NODE_STATUS_PRIMARY
    /\ (forall j, (j < k)%nat ->
          classify cfg3_detach probe_two_primaries st_three !! j
          <> Some POOL_NODE_STATUS_PRIMARY)
    /\ verify_backend_node_status cfg3_detach probe_two_primaries st_three !! k
       = Some POOL_NODE_STATUS_PRIMARY
    /\ (forall j, j <> k ->
          classify cfg3_detach probe_two_primaries st_three !! j
          = Some POOL_NODE_STATUS_PRIMARY ->
          verify_backend_node_status cfg3_detach probe_two_primaries st_three !! j
          = Some POOL_NODE_STATUS_INVALID)
    /\ (forall j s,
          classify cfg3_detach probe_two_primaries st_three !! j = Some s ->
          s <> POOL_NODE_STATUS_PRIMARY ->
          verify_backend_node_status cfg3_detach probe_two_primaries st_three !! j = Some s).
Proof.
  apply (several_primaries_no_standby cfg3_detach probe_two_primaries st_three).
  - vm_compute. discriminate.
  - reflexivity.
Defined.

(** C7 as stated fails on the code: nodes 0 and 1 are classified PRIMARY and
    node 2 STANDBY, detach_false_primary is off, and node 1, which is not the
    lowest-indexed primary, is still PRIMARY in the result, not UNUSED. *)
Lemma several_primaries_with_standby_untouched :
  classify cfg3 probe_two_primaries_one_standby st_three
  = [POOL_NODE_STATUS_PRIMARY; POOL_NODE_STATUS_PRIMARY; POOL_NODE_STATUS_STANDBY]
  /\ detach_false_primary cfg3 = false
  /\ verify_backend_node_status cfg3 probe_two_primaries_one_standby st_three !! 1%nat
     = Some POOL_NODE_STATUS_PRIMARY
  /\ verify_backend_node_status cfg3 probe_two_primaries_one_standby st_three !! 1%nat
     <> Some POOL_NODE_STATUS_UNUSED.
Proof. repeat split. vm_compute. discriminate. Qed.

(** ** Steps that leave the queue alone *)

Lemma quiet_refl (st : State) : quiet st st.
Proof.
  unfold quiet. repeat split. exists []. rewrite app_nil_r. split; reflexivity.
Qed.

Lemma quiet_trans (st1 st2 st3 : State) : quiet st1 st2 -> quiet st2 st3 -> quiet st1 st3.
Proof.
  intros (H1 & H2 & H3 & H4 & H5 & H6 & e1 & H7 & H8)
         (G1 & G2 & G3 & G4 & G5 & G6 & e2 & G7 & G8).
  unfold quiet. repeat split; try congruence.
  exists (e1 ++ e2). split.
  - rewrite G7, H7, app_assoc. reflexivity.
  - rewrite forallb_app, H8, G8. reflexivity.
Qed.

Lemma quiet_emit (e : Event) (st0 st : State) :
  queue_event e = false -> quiet st0 st -> quiet st0 (emit e st).
Proof.
  intros He H. apply (quiet_trans _ _ _ H).
  unfold quiet. simpl. repeat split.
  exists [e]. split; [reflexivity|]. simpl. rewrite He. reflexivity.
Qed.

Lemma quiet_update_backend (i : Z) (f : BackendInfo -> BackendInfo) (st0 st : State) :
  quiet st0 st -> quiet st0 (update_backend i f st).
Proof.
  intros H. apply (quiet_trans _ _ _ H).
  unfold update_backend. destruct (i <? 0); [apply quiet_refl|].
  unfold quiet. simpl. repeat split.
  exists []. rewrite app_nil_r. split; reflexivity.
Qed.

Lemma quiet_set_status (i : Z) (s : BACKEND_STATUS) (st0 st : State) :
  quiet st0 st -> quiet st0 (set_status i s st).
Proof. apply quiet_update_backend. Qed.

Lemma quiet_set_quarantine (i : Z) (q : bool) (st0 st : State) :
  quiet st0 st -> quiet st0 (set_quarantine i q st).
Proof. apply quiet_update_backend. Qed.

Lemma quiet_set_role (i : Z) (r : SERVER_ROLE) (st0 st : State) :
  quiet st0 st -> quiet st0 (set_role i r st).
Proof. apply quiet_update_backend. Qed.

Lemma quiet_set_primary (v : Z) (st0 st : State) :
  quiet st0 st -> quiet st0 (set_Req (with_primary_node_id v) st).
Proof.
  intros H. apply (quiet_trans _ _ _ H).
  unfold quiet. simpl. repeat split.
  exists []. rewrite app_nil_r. split; reflexivity.
Qed.

Lemma quiet_set_main (v : Z) (st0 st : State) :
  quiet st0 st -> quiet st0 (set_Req (with_main_node_id v) st).
Proof.
  intros H. apply (quiet_trans _ _ _ H).
  unfold quiet. simpl. repeat split.
  exists []. rewrite app_nil_r. split; reflexivity.
Qed.

Lemma quiet_write_status_file (cfg : POOL_CONFIG) (st0 st : State) :
  quiet st0 st -> quiet st0 (snd (write_status_file cfg st)).
Proof.
  intros H. apply (quiet_trans _ _ _ H).
  unfold write_status_file.
  match goal with |- context [if ?c then _ else _] => destruct c end;
    simpl; [apply quiet_refl|].
  unfold quiet. simpl. repeat split.
  exists []. rewrite app_nil_r. split; reflexivity.
Qed.

Lemma quiet_trigger_failover_command (cmd : Command) (a b c d : Z) (st0 st : State) :
  quiet st0 st -> quiet st0 (trigger_failover_command cmd a b c d st).
Proof. intros H. unfold trigger_failover_command. apply quiet_emit; [reflexivity|exact H]. Qed.

Lemma quiet_find_primary (cfg : POOL_CONFIG) (e : IterEnv) (st0 st : State) :
  quiet st0 st -> quiet st0 (snd (find_primary_node_repeatedly cfg e st)).
Proof. intros H. unfold find_primary_node_repeatedly. simpl. apply quiet_emit; [reflexivity|exact H]. Qed.

Create HintDb quiet.
#[local] Hint Resolve quiet_refl quiet_emit quiet_set_status quiet_set_quarantine
  quiet_set_role quiet_set_primary quiet_set_main quiet_write_status_file
  quiet_trigger_failover_command quiet_find_primary : quiet.

Lemma quiet_failback_branch (cfg : POOL_CONFIG) (r : POOL_REQUEST_NODE) (node : Z)
    (l : Locals) (st0 st : State) :
  quiet st0 st ->
  match failback_branch cfg r node l st with
  | inl (_, st') => quiet st0 st'
  | inr (_, st', _) => quiet st0 st'
  end.
Proof.
  intros H. unfold failback_branch.
  repeat match goal with |- context [if ?c then _ else _] => destruct c end;
    auto 10 with quiet.
Qed.

Lemma quiet_promote_branch (node : Z) (l : Locals) (st0 st : State) :
  quiet st0 st ->
  match promote_branch node l st with
  | inl (_, st') => quiet st0 st'
  | inr (_, st', _) => quiet st0 st'
  end.
Proof.
  intros H. unfold promote_branch.
  destruct (negb (node =? -1) && VALID_BACKEND st node); assumption.
Qed.

Lemma quiet_degenerate_node (cfg : POOL_CONFIG) (k : POOL_REQUEST_KIND)
    (acc : Locals * State * bool * Z) (n : Z) (st0 : State) :
  quiet st0 (snd (fst (fst acc))) ->
  quiet st0 (snd (fst (fst (degenerate_node cfg k acc n)))).
Proof.
  destruct acc as [[[l st] sp] cnt]. simpl. intros H.
  unfold degenerate_node.
  repeat match goal with |- context [if ?c then _ else _] => destruct c end;
    simpl; auto 10 with quiet.
Qed.

Lemma quiet_degenerate_fold (cfg : POOL_CONFIG) (k : POOL_REQUEST_KIND) (ns : list Z)
    (acc : Locals * State * bool * Z) (st0 : State) :
  quiet st0 (snd (fst (fst acc))) ->
  quiet st0 (snd (fst (fst (fold_left (degenerate_node cfg k) ns acc)))).
Proof.
  revert acc. induction ns as [|n ns IH]; intros acc H; simpl; [exact H|].
  apply IH. apply quiet_degenerate_node. exact H.
Qed.

Lemma quiet_degenerate_branch (cfg : POOL_CONFIG) (r : POOL_REQUEST_NODE)
    (l : Locals) (st0 st : State) :
  quiet st0 st ->
  match degenerate_branch cfg r l st with
  | inl (_, st') => quiet st0 st'
  | inr (_, st', _) => quiet st0 st'
  end.
Proof.
  intros H. unfold degenerate_branch.
  pose proof (quiet_degenerate_fold cfg (kind r) (take (Z.to_nat (count r)) (node_id r))
                (l, st, true, 0) st0 H) as Hq.
  destruct (fold_left _ _ _) as [[[l1 st1] sp] cnt]. simpl in Hq.
  destruct (cnt =? 0); exact Hq.
Qed.

Lemma quiet_decide_restart (cfg : POOL_CONFIG) (r : POOL_REQUEST_NODE) (node : Z)
    (l : Locals) (st0 st : State) :
  quiet st0 st -> quiet st0 (snd (decide_restart cfg r node l st)).
Proof.
  intros H. unfold decide_restart.
  repeat match goal with |- context [if ?c then _ else _] => destruct c end;
    simpl; auto 10 with quiet.
Qed.

Lemma quiet_run_failover_commands (cfg : POOL_CONFIG) (r : POOL_REQUEST_NODE) (nm : Z)
    (l : Locals) (st0 st : State) :
  quiet st0 st -> quiet st0 (snd (run_failover_commands cfg r nm l st)).
Proof.
  intros H. unfold run_failover_commands.
  destruct (bool_decide (kind r = NODE_DOWN_REQUEST)); [|exact H].
  change st with (snd (l, st)) in H.
  generalize dependent (l, st). clear l st.
  induction (seqZ 0 (num_backends cfg)) as [|i rest IH]; intros acc H; simpl; [exact H|].
  apply IH. destruct (nodes_marked (fst acc) i); simpl; auto with quiet.
Qed.

Lemma quiet_decide_new_primary (cfg : POOL_CONFIG) (e : IterEnv) (r : POOL_REQUEST_NODE)
    (node : Z) (sp : bool) (l : Locals) (st0 st : State) :
  quiet st0 st -> quiet st0 (snd (decide_new_primary cfg e r node sp l st)).
Proof.
  intros H. unfold decide_new_primary, find_primary_node_repeatedly.
  repeat match goal with |- context [if ?c then _ else _] => destruct c end;
    simpl; auto 10 with quiet.
Qed.

Lemma quiet_follow_degenerate (cfg : POOL_CONFIG) (r : POOL_REQUEST_NODE) (node nm : Z)
    (l : Locals) (st0 st : State) :
  quiet st0 st -> quiet st0 (snd (follow_degenerate cfg r node nm l st)).
Proof.
  intros H. unfold follow_degenerate.
  match goal with |- context [if ?c then _ else _] => destruct c end; [|exact H].
  assert (Hf : forall idx (acc : Z * State), quiet st0 (snd acc) ->
            quiet st0 (snd (fold_left
              (fun (acc : Z * State) i =>
                 if (new_primary l >=? 0) && negb (i =? new_primary l)
                 then (fst acc + 1,
                       snd (write_status_file cfg (set_status i CON_DOWN (snd acc))))
                 else acc) idx acc))).
  { induction idx as [|i rest IH]; intros acc Ha; simpl; [exact Ha|].
    apply IH. destruct ((new_primary l >=? 0) && negb (i =? new_primary l));
      simpl; auto with quiet. }
  specialize (Hf (seqZ 0 (num_backends cfg)) (0, st) H).
  destruct (fold_left _ _ _) as [cnt st1]. simpl in Hf.
  destruct (cnt =? 0); exact Hf.
Qed.

Lemma quiet_save_primary_and_main (nm : Z) (l : Locals) (st0 st : State) :
  quiet st0 st -> quiet st0 (snd (save_primary_and_main nm l st)).
Proof.
  intros H. unfold save_primary_and_main.
  repeat match goal with |- context [if ?c then _ else _] => destruct c end;
    simpl; auto 10 with quiet.
Qed.

Lemma quiet_finish_request (r : POOL_REQUEST_NODE) (node : Z) (l : Locals) (st0 st : State) :
  quiet st0 st -> quiet st0 (snd (finish_request r node l st)).
Proof.
  intros H. unfold finish_request.
  repeat match goal with |- context [if ?c then _ else _] => destruct c end;
    simpl; auto 10 with quiet.
Qed.

(** Handling one request touches neither the queue nor the switching
    flags. *)
Lemma quiet_failover_request (cfg : POOL_CONFIG) (e : IterEnv) (r : POOL_REQUEST_NODE)
    (l : Locals) (st : State) :
  quiet st (snd (failover_request cfg e r l st)).
Proof.
  unfold failover_request.
  destruct (bool_decide (kind r = CLOSE_IDLE_REQUEST)); simpl; [auto with quiet|].
  set (st0 := emit EvWdFailoverStart st).
  assert (H0 : quiet st st0) by (subst st0; auto with quiet).
  set (node := hd _ _).
  assert (Hb : match (match kind r with
                      | NODE_UP_REQUEST => failback_branch cfg r node l st0
                      | PROMOTE_NODE_REQUEST => promote_branch node l st0
                      | _ => degenerate_branch cfg r l st0
                      end) with
               | inl (_, st') => quiet st st'
               | inr (_, st', _) => quiet st st'
               end).
  { destruct (kind r);
      first [ apply quiet_failback_branch | apply quiet_promote_branch
            | apply quiet_degenerate_branch ]; exact H0. }
  destruct (match kind r with
            | NODE_UP_REQUEST => _ | PROMOTE_NODE_REQUEST => _ | _ => _ end)
    as [[l1 st1]|[[l1 st1] sp]]; simpl; [exact Hb|].
  unfold failover_accepted.
  pose proof (quiet_decide_restart cfg r node l1 st st1 Hb) as H2.
  destruct (decide_restart cfg r node l1 st1) as [l2 st2]. simpl in H2.
  pose proof (quiet_run_failover_commands cfg r (get_next_main_node cfg st1) l2 st st2 H2) as H3.
  destruct (run_failover_commands cfg r _ l2 st2) as [l3 st3]. simpl in H3.
  pose proof (quiet_decide_new_primary cfg e r node sp l3 st st3 H3) as H4.
  destruct (decide_new_primary cfg e r node sp l3 st3) as [l4 st4]. simpl in H4.
  pose proof (quiet_follow_degenerate cfg r node (get_next_main_node cfg st1) l4 st st4 H4) as H5.
  destruct (follow_degenerate cfg r node _ l4 st4) as [[fc nm'] st5]. simpl in H5.
  match goal with |- context [save_primary_and_main nm' l4 ?s] =>
    assert (H6 : quiet st s) by
      (destruct ((fc >? 0) && follow_primary_command_set cfg); auto with quiet);
    pose proof (quiet_save_primary_and_main nm' l4 st s H6) as H7;
    destruct (save_primary_and_main nm' l4 s) as [l7 st7]
  end.
  simpl in H7. apply quiet_finish_request. exact H7.
Qed.

(** ** The ring of requests *)

Lemma rem_in_table (q n : Z) : 0 < q -> 0 <= n -> 0 <= Z.rem n q < q.
Proof. intros Hq Hn. apply Z.rem_bound_pos; lia. Qed.

Lemma rem_distinct (q a b : Z) :
  0 < q -> 0 <= a -> a < b -> b - a < q -> Z.rem a q <> Z.rem b q.
Proof.
  intros Hq Ha Hab Hd.
  rewrite !Z.rem_mod_nonneg by lia.
  intros Heq.
  pose proof (Z.div_mod a q ltac:(lia)) as Ea.
  pose proof (Z.div_mod b q ltac:(lia)) as Eb.
  rewrite Heq in Ea.
  assert (Hk : b - a = q * (b / q - a / q)) by lia.
  remember (b / q - a / q) as k.
  destruct (Z_le_gt_dec k 0); nia.
Qed.

Lemma omap_ext_elem {A B : Type} (f g : A -> option B) (l : list A) :
  (forall x, x ∈ l -> f x = g x) -> omap f l = omap g l.
Proof.
  induction l as [|x l IH]; intros H; [reflexivity|].
  csimpl. rewrite (H x) by left.
  rewrite IH by (intros y Hy; apply H; right; exact Hy). reflexivity.
Qed.

Lemma enqueue_full (cfg : POOL_CONFIG) (k : POOL_REQUEST_KIND) (ns : list Z) (f : Z)
    (st : State) :
  queue_size st = MAX_REQUEST_QUEUE_SIZE cfg -> enqueue cfg k ns f st = None.
Proof.
  unfold queue_size, enqueue. intros H.
  replace (request_queue_tail (Req_info st) - MAX_REQUEST_QUEUE_SIZE cfg
           =? request_queue_head (Req_info st)) with true
    by (symmetry; apply Z.eqb_eq; lia).
  reflexivity.
Qed.

Lemma enqueue_room (cfg : POOL_CONFIG) (k : POOL_REQUEST_KIND) (ns : list Z) (f : Z)
    (st : State) :
  queue_ok cfg st ->
  queue_size st < MAX_REQUEST_QUEUE_SIZE cfg ->
  exists st',
    enqueue cfg k ns f st = Some (Req_switching (Req_info st), st')
    /\ queue_ok cfg st'
    /\ pending cfg st' = pending cfg st ++ [slot_of k ns f]
    /\ trace st' = trace st ++ [EvEnqueue (slot_of k ns f)]
    /\ queue_size st' = queue_size st + 1
    /\ Req_switching (Req_info st') = Req_switching (Req_info st)
    /\ switching st' = switching st
    /\ exiting st' = exiting st
    /\ backend_info st' = backend_info st
    /\ signalFlags st' = signalFlags st.
Proof.
  intros (Hq & Hlen & Hhead & Hsz) Hroom.
  unfold queue_size in *. unfold enqueue.
  destruct (request_queue_tail (Req_info st) - MAX_REQUEST_QUEUE_SIZE cfg
            =? request_queue_head (Req_info st)) eqn:Hfull;
    [apply Z.eqb_eq in Hfull; lia|].
  set (tail' := request_queue_tail (Req_info st) + 1).
  assert (Hidx : 0 <= queue_index cfg tail' < MAX_REQUEST_QUEUE_SIZE cfg)
    by (apply rem_in_table; subst tail'; lia).
  destruct (queue_index cfg tail' <? 0) eqn:Hneg; [lia|].
  eexists. split; [reflexivity|].
  fold (slot_of k ns f).
  repeat split; unfold queue_size; simpl; try lia; try (unfold tail' in *; lia);
    try reflexivity.
  - rewrite length_insert. exact Hlen.
  - unfold pending, queue_size. simpl.
    replace (tail' - request_queue_head (Req_info st))
      with ((request_queue_tail (Req_info st) - request_queue_head (Req_info st)) + 1)
      by (subst tail'; lia).
    rewrite seqZ_app by lia. rewrite omap_app. f_equal.
    + apply omap_ext_elem. intros i Hi. apply elem_of_seqZ in Hi.
      unfold request_at. simpl.
      assert (Hi' : 0 <= queue_index cfg i < MAX_REQUEST_QUEUE_SIZE cfg)
        by (apply rem_in_table; lia).
      destruct (queue_index cfg i <? 0); [reflexivity|].
      apply list_lookup_insert_ne.
      assert (queue_index cfg i <> queue_index cfg tail')
        by (apply rem_distinct; subst tail'; lia).
      lia.
    + rewrite seqZ_cons by lia. rewrite seqZ_nil by lia. simpl.
      replace (request_queue_head (Req_info st) + 1
               + (request_queue_tail (Req_info st) - request_queue_head (Req_info st)))
        with tail' by (subst tail'; lia).
      unfold request_at. simpl. rewrite Hneg.
      rewrite list_lookup_insert_eq by lia. reflexivity.
Qed.

Lemma dequeue_empty (cfg : POOL_CONFIG) (st : State) :
  queue_size st = 0 ->
  dequeue cfg st
  = QueueEmpty
      (set_Req (with_Req_switching false)
         (set_switching false
            (emit (EvSwitching (Req_switching (Req_info st)) false
                     (request_queue_head (Req_info st))
                     (request_queue_tail (Req_info st))) st))).
Proof.
  unfold queue_size, dequeue. intros H.
  replace (request_queue_tail (Req_info st) =? request_queue_head (Req_info st))
    with true by (symmetry; apply Z.eqb_eq; lia).
  reflexivity.
Qed.

Lemma dequeue_taken (cfg : POOL_CONFIG) (st : State) :
  queue_ok cfg st ->
  0 < queue_size st ->
  exists r st',
    dequeue cfg st = Taken r st'
    /\ pending cfg st = r :: pending cfg st'
    /\ queue_ok cfg st'
    /\ trace st' = trace st ++ [EvDequeue (Req_switching (Req_info st)) r]
    /\ queue_size st' = queue_size st - 1
    /\ Req_switching (Req_info st') = Req_switching (Req_info st)
    /\ switching st' = switching st
    /\ exiting st' = exiting st.
Proof.
  intros (Hq & Hlen & Hhead & Hsz) Hpos.
  unfold queue_size in *. unfold dequeue.
  destruct (request_queue_tail (Req_info st) =? request_queue_head (Req_info st)) eqn:He;
    [apply Z.eqb_eq in He; lia|].
  set (head' := request_queue_head (Req_info st) + 1).
  assert (Hidx : 0 <= queue_index cfg head' < MAX_REQUEST_QUEUE_SIZE cfg)
    by (apply rem_in_table; subst head'; lia).
  unfold request_at. simpl.
  destruct (queue_index cfg head' <? 0) eqn:Hneg; [lia|].
  destruct (request (Req_info st) !! Z.to_nat (queue_index cfg head')) as [r|] eqn:Hr.
  2:{ apply lookup_ge_None in Hr. lia. }
  exists r. eexists. split; [reflexivity|].
  repeat split; unfold queue_size; simpl; try lia; try (unfold head' in *; lia);
    try reflexivity.
  unfold pending, queue_size. simpl.
  rewrite (seqZ_cons (request_queue_head (Req_info st) + 1)) by lia.
  simpl. fold head'. unfold request_at at 1. rewrite Hneg, Hr.
  f_equal.
  replace (Z.succ head') with (head' + 1) by lia.
  replace (Z.pred (request_queue_tail (Req_info st) - request_queue_head (Req_info st)))
    with (request_queue_tail (Req_info st) - head') by (subst head'; lia).
  reflexivity.
Qed.

(** ** Producers and the drain *)

Lemma inside_drain_app (a b : list Event) :
  inside_drain (a ++ b) <-> inside_drain a /\ inside_drain b.
Proof. unfold inside_drain. rewrite forallb_app, andb_true_iff. reflexivity. Qed.

Lemma dequeued_app (a b : list Event) : dequeued (a ++ b) = dequeued a ++ dequeued b.
Proof. apply omap_app. Qed.

Lemma enqueued_app (a b : list Event) : enqueued (a ++ b) = enqueued a ++ enqueued b.
Proof. apply omap_app. Qed.

Lemma no_queue_event (evs : list Event) :
  forallb (fun e => negb (queue_event e)) evs = true ->
  inside_drain evs /\ dequeued evs = [] /\ enqueued evs = [].
Proof.
  unfold inside_drain. induction evs as [|e evs IH]; intros H; [repeat split|].
  simpl in H. apply andb_true_iff in H. destruct H as [He H].
  destruct (IH H) as (I1 & I2 & I3).
  destruct e; try discriminate He; simpl; repeat split; assumption.
Qed.

Lemma pending_quiet (cfg : POOL_CONFIG) (st st' : State) :
  quiet st st' -> pending cfg st' = pending cfg st /\ queue_size st' = queue_size st
                  /\ (queue_ok cfg st -> queue_ok cfg st').
Proof.
  intros (H1 & H2 & H3 & _).
  unfold pending, queue_ok, queue_size, request_at. rewrite H1, H2, H3.
  repeat split; try reflexivity; tauto.
Qed.

Lemma producer_request_spec (cfg : POOL_CONFIG) (k : POOL_REQUEST_KIND) (ns : list Z)
    (f : Z) (st : State) :
  queue_ok cfg st ->
  let st' := snd (producer_request cfg k ns f st) in
  queue_ok cfg st'
  /\ Req_switching (Req_info st') = Req_switching (Req_info st)
  /\ switching st' = switching st
  /\ exiting st' = exiting st
  /\ queue_size st <= queue_size st' <= queue_size st + 1
  /\ exists evs, trace st' = trace st ++ evs
       /\ inside_drain evs
       /\ dequeued evs = []
       /\ pending cfg st' = pending cfg st ++ enqueued evs.
Proof.
  intros Hok. unfold producer_request.
  destruct (Z.eq_dec (queue_size st) (MAX_REQUEST_QUEUE_SIZE cfg)) as [Hfull|Hroom].
  - rewrite enqueue_full by assumption. simpl.
    repeat split; try lia; try apply Hok.
    exists []. rewrite !app_nil_r. repeat split.
  - destruct (enqueue_room cfg k ns f st Hok) as
        (st1 & He & Hok1 & Hp & Ht & Hs & Hsw & Hl & Hx & _).
    { destruct Hok as (_ & _ & _ & Hsz). lia. }
    rewrite He.
    destruct (Req_switching (Req_info st)) eqn:Hreq; simpl.
    + repeat split; try lia; try assumption; try apply Hok1.
      exists [EvEnqueue (slot_of k ns f)]. repeat split; assumption.
    + unfold signal_user1_to_parent_with_reason.
      repeat split; simpl; try lia; try assumption; try apply Hok1.
      * unfold queue_size in *. simpl. lia.
      * unfold queue_size in *. simpl. lia.
      * exists [EvEnqueue (slot_of k ns f); EvSignalParent SIGUSR1].
        repeat split.
        -- rewrite Ht, <- app_assoc. reflexivity.
        -- unfold pending, queue_size, request_at in *. simpl in *. exact Hp.
Qed.

Lemma producers_spec (cfg : POOL_CONFIG) (rs : list POOL_REQUEST_NODE) (st : State) :
  queue_ok cfg st ->
  let st' := producers cfg rs st in
  queue_ok cfg st'
  /\ Req_switching (Req_info st') = Req_switching (Req_info st)
  /\ switching st' = switching st
  /\ exiting st' = exiting st
  /\ queue_size st <= queue_size st' <= queue_size st + Z.of_nat (length rs)
  /\ exists evs, trace st' = trace st ++ evs
       /\ inside_drain evs
       /\ dequeued evs = []
       /\ pending cfg st' = pending cfg st ++ enqueued evs.
Proof.
  revert st. induction rs as [|r rs IH]; intros st Hok; simpl.
  - repeat split; try lia; try apply Hok.
    exists []. rewrite !app_nil_r. repeat split.
  - pose proof (producer_request_spec cfg (kind r) (node_id r) (request_details r) st Hok)
      as (Hok1 & Hs1 & Hl1 & Hx1 & Hz1 & e1 & Ht1 & Hi1 & Hd1 & Hp1).
    specialize (IH _ Hok1).
    destruct IH as (Hok2 & Hs2 & Hl2 & Hx2 & Hz2 & e2 & Ht2 & Hi2 & Hd2 & Hp2).
    unfold producers in *. simpl in *.
    repeat split; try congruence; try lia; try apply Hok2.
    exists (e1 ++ e2). repeat split.
    + rewrite Ht2, Ht1, app_assoc. reflexivity.
    + apply inside_drain_app. split; assumption.
    + rewrite dequeued_app, Hd1, Hd2. reflexivity.
    + rewrite Hp2, Hp1, enqueued_app, app_assoc. reflexivity.
Qed.

(** Once [wd_failover_start()] has been called for a request, the rest of
    its handling touches neither the queue nor the switching flags. *)
Lemma quiet_after_start (cfg : POOL_CONFIG) (e : IterEnv) (r : POOL_REQUEST_NODE)
    (l : Locals) (st : State) :
  kind r <> CLOSE_IDLE_REQUEST ->
  quiet (emit EvWdFailoverStart st) (snd (failover_request cfg e r l st)).
Proof.
  intros Hk. unfold failover_request.
  rewrite bool_decide_eq_false_2 by exact Hk.
  set (st0 := emit EvWdFailoverStart st).
  assert (H0 : quiet st0 st0) by apply quiet_refl.
  set (node := hd _ _).
  assert (Hb : match (match kind r with
                      | NODE_UP_REQUEST => failback_branch cfg r node l st0
                      | PROMOTE_NODE_REQUEST => promote_branch node l st0
                      | _ => degenerate_branch cfg r l st0
                      end) with
               | inl (_, st') => quiet st0 st'
               | inr (_, st', _) => quiet st0 st'
               end).
  { destruct (kind r);
      first [ apply quiet_failback_branch | apply quiet_promote_branch
            | apply quiet_degenerate_branch ]; exact H0. }
  destruct (match kind r with
            | NODE_UP_REQUEST => _ | PROMOTE_NODE_REQUEST => _ | _ => _ end)
    as [[l1 st1]|[[l1 st1] sp]]; simpl; [exact Hb|].
  unfold failover_accepted.
  pose proof (quiet_decide_restart cfg r node l1 st0 st1 Hb) as H2.
  destruct (decide_restart cfg r node l1 st1) as [l2 st2]. simpl in H2.
  pose proof (quiet_run_failover_commands cfg r (get_next_main_node cfg st1) l2 st0 st2 H2)
    as H3.
  destruct (run_failover_commands cfg r _ l2 st2) as [l3 st3]. simpl in H3.
  pose proof (quiet_decide_new_primary cfg e r node sp l3 st0 st3 H3) as H4.
  destruct (decide_new_primary cfg e r node sp l3 st3) as [l4 st4]. simpl in H4.
  pose proof (quiet_follow_degenerate cfg r node (get_next_main_node cfg st1) l4 st0 st4 H4)
    as H5.
  destruct (follow_degenerate cfg r node _ l4 st4) as [[fc nm'] st5]. simpl in H5.
  match goal with |- context [save_primary_and_main nm' l4 ?s] =>
    assert (H6 : quiet st0 s) by
      (destruct ((fc >? 0) && follow_primary_command_set cfg); auto with quiet);
    pose proof (quiet_save_primary_and_main nm' l4 st0 s H6) as H7;
    destruct (save_primary_and_main nm' l4 s) as [l7 st7]
  end.
  simpl in H7. apply quiet_finish_request. exact H7.
Qed.

(** The handling of a request begins with the step that [handling_starts]
    describes, and nothing after that step concerns the queue. *)
Lemma failover_request_starts (cfg : POOL_CONFIG) (e : IterEnv) (r : POOL_REQUEST_NODE)
    (l : Locals) (st : State) :
  exists ev evs,
    trace (snd (failover_request cfg e r l st)) = trace st ++ ev :: evs
    /\ handling_starts r ev = true
    /\ forallb (fun e => negb (queue_event e)) evs = true.
Proof.
  destruct (decide (kind r = CLOSE_IDLE_REQUEST)) as [Hk|Hk].
  - exists (EvKillAllChildren SIGUSR1), [].
    unfold failover_request, handling_starts.
    rewrite !bool_decide_eq_true_2 by exact Hk. repeat split.
  - destruct (quiet_after_start cfg e r l st Hk) as (_ & _ & _ & _ & _ & _ & evs & Ht & He).
    exists EvWdFailoverStart, evs. unfold handling_starts.
    rewrite bool_decide_eq_false_2 by exact Hk.
    split; [|split; [reflexivity|exact He]].
    rewrite Ht. cbn [emit trace]. rewrite <- app_assoc. reflexivity.
Qed.

Lemma handled_when_taken_skip (a b : list Event) :
  dequeued a = [] -> handled_when_taken (a ++ b) = handled_when_taken b.
Proof.
  induction a as [|e a IH]; intros Hd; [reflexivity|].
  destruct e; try discriminate Hd; cbn [app handled_when_taken]; apply IH; exact Hd.
Qed.

Lemma handled_when_taken_step (b : bool) (r : POOL_REQUEST_NODE) (e : Event)
    (rest : list Event) :
  handled_when_taken (EvDequeue b r :: e :: rest)
  = handling_starts r e && handled_when_taken (e :: rest).
Proof. reflexivity. Qed.

(** The loop of [failover()] ends once the other processes stop producing,
    and by then it has taken out, in the order of arrival, every request
    that was waiting or was stored while it ran, and has handled each of
    them as soon as it was taken out. *)
Lemma failover_loop_drains (cfg : POOL_CONFIG) (env : Env) :
  forall (fuel k m : nat) (l : Locals) (st : State),
    queue_ok cfg st ->
    Req_switching (Req_info st) = true ->
    (forall j, (k + m <= j)%nat -> arrivals (iter env j) = []) ->
    (Z.to_nat (queue_size st) + arrivals_from env k m < fuel)%nat ->
    exists l' st' evs h,
      failover_loop cfg env fuel k l st = Done (l', st')
      /\ trace st' = trace st ++ evs ++ [EvSwitching true false h h]
      /\ inside_drain evs
      /\ dequeued evs = pending cfg st ++ enqueued evs
      /\ queue_ok cfg st'
      /\ queue_size st' = 0
      /\ request_queue_head (Req_info st') = h
      /\ Req_switching (Req_info st') = false
      /\ switching st' = false
      /\ exiting st' = exiting st
      /\ handled_when_taken evs = true
      /\ drain_steps cfg env k l st (dequeued evs) l' st'.
Proof.
  induction fuel as [|fuel IH]; intros k m l st Hok Hsw Hquiet Hfuel; [lia|].
  simpl.
  pose proof (producers_spec cfg (arrivals (iter env k)) st Hok)
    as (Hok1 & Hs1 & Hl1 & Hx1 & Hz1 & e1 & Ht1 & Hi1 & Hd1 & Hp1).
  set (st1 := producers cfg (arrivals (iter env k)) st) in *.
  destruct (Z.eq_dec (queue_size st1) 0) as [Hempty|Hne].
  - rewrite (dequeue_empty cfg st1 Hempty).
    exists l. eexists. exists e1, (request_queue_head (Req_info st1)).
    split; [reflexivity|].
    assert (Hpe : pending cfg st1 = []).
    { unfold pending. rewrite Hempty. reflexivity. }
    rewrite Hpe in Hp1.
    symmetry in Hp1. apply app_eq_nil in Hp1. destruct Hp1 as [Hp Hq].
    simpl.
    assert (Htail : request_queue_tail (Req_info st1) = request_queue_head (Req_info st1))
      by (unfold queue_size in Hempty; lia).
    repeat split; try assumption; try apply Hok1;
      try (unfold queue_size in *; simpl; lia).
    + rewrite Ht1, <- app_assoc, Hs1, Hsw, Htail. reflexivity.
    + rewrite Hp, Hq, Hd1. reflexivity.
    + rewrite <- (app_nil_r e1). apply handled_when_taken_skip. exact Hd1.
    + rewrite Hd1. apply drain_ends. apply (dequeue_empty cfg st1 Hempty).
  - assert (Hpos : 0 < queue_size st1) by (destruct Hok1 as (_ & _ & _ & ?); lia).
    destruct (dequeue_taken cfg st1 Hok1 Hpos)
      as (r & st2 & Hdq & Hp2 & Hok2 & Ht2 & Hz2 & Hs2 & Hl2 & Hx2).
    rewrite Hdq.
    pose proof (quiet_failover_request cfg (iter env k) r l st2) as Hq.
    pose proof (failover_request_starts cfg (iter env k) r l st2)
      as (ev & e3' & Hst & Hev & _).
    pose proof (drain_handles cfg env k l st st2 r) as Hstep.
    fold st1 in Hstep. specialize (fun rs l' st' => Hstep rs l' st' Hdq).
    destruct (failover_request cfg (iter env k) r l st2) as [l3 st3].
    cbn [fst snd] in Hq, Hst, Hstep.
    pose proof (pending_quiet cfg st2 st3 Hq) as (Hp3 & Hz3 & Hok3).
    destruct Hq as (_ & _ & _ & Hs3 & Hl3 & Hx3 & e3 & Ht3 & He3).
    apply no_queue_event in He3. destruct He3 as (Hi3 & Hd3 & Hn3).
    assert (He3 : e3 = ev :: e3').
    { rewrite Ht3 in Hst. apply app_inv_head in Hst. exact Hst. }
    destruct (IH (S k) (pred m) l3 st3 (Hok3 Hok2)) as
      (l' & st' & e4 & h & Hrun & Ht4 & Hi4 & Hd4 & Hok4 & Hz4 & Hh4 & Hs4 & Hl4 & Hx4
       & Hha4 & Hds4).
    { congruence. }
    { intros j Hj. apply Hquiet. lia. }
    { destruct m as [|m'].
      - simpl in *. rewrite (Hquiet k) in Hz1 by lia. simpl in Hz1. lia.
      - simpl in *. lia. }
    exists l', st', (e1 ++ [EvDequeue true r] ++ e3 ++ e4), h.
    split; [exact Hrun|].
    repeat split; try assumption; try congruence; try apply Hok4.
    + rewrite Ht4, Ht3, Ht2, Ht1, Hs1, Hsw.
      rewrite <- !app_assoc. reflexivity.
    + apply inside_drain_app. split; [assumption|].
      apply inside_drain_app. split; [reflexivity|].
      apply inside_drain_app. split; assumption.
    + rewrite !dequeued_app, !enqueued_app, Hd1, Hd3, Hn3, Hd4, Hp3. simpl.
      change (dequeued [EvDequeue true r]) with [r].
      change (enqueued [EvDequeue true r]) with (@nil POOL_REQUEST_NODE).
      simpl. rewrite app_assoc, <- Hp1, Hp2. reflexivity.
    + rewrite (handled_when_taken_skip e1 _ Hd1).
      rewrite He3 in Hd3 |- *.
      change ([EvDequeue true r] ++ (ev :: e3') ++ e4)
        with (EvDequeue true r :: ev :: e3' ++ e4).
      rewrite handled_when_taken_step, Hev.
      change (ev :: e3' ++ e4) with ((ev :: e3') ++ e4).
      rewrite (handled_when_taken_skip (ev :: e3') e4 Hd3). exact Hha4.
    + rewrite !dequeued_app, Hd1, Hd3.
      change (dequeued [EvDequeue true r]) with [r].
      apply Hstep. exact Hds4.
Qed.

Lemma inside_drain_no_backlog_clear (evs : list Event) :
  inside_drain evs -> forallb (fun e => negb (cleared_with_backlog e)) evs = true.
Proof.
  unfold inside_drain. induction evs as [|e evs IH]; intros H; [reflexivity|].
  simpl in H. apply andb_true_iff in H. destruct H as [He H].
  simpl. rewrite (IH H), andb_true_r.
  destruct e; try reflexivity. discriminate He.
Qed.

(** A run of [failover()] by the supervisor itself, outside any other drain
    and outside shutdown. *)
Lemma failover_drains (cfg : POOL_CONFIG) (env : Env) (n fuel : nat) (st : State) :
  queue_ok cfg st ->
  switching st = false ->
  exiting st = false ->
  (forall j, (n <= j)%nat -> arrivals (iter env j) = []) ->
  (Z.to_nat (queue_size st) + arrivals_from env 0 n < fuel)%nat ->
  exists st' loop h post,
    failover cfg env fuel true st = Done st'
    /\ trace st'
       = trace st
         ++ [EvSwitching (Req_switching (Req_info st)) true
                         (request_queue_head (Req_info st))
                         (request_queue_tail (Req_info st))]
         ++ loop ++ [EvSwitching true false h h] ++ post
    /\ inside_drain loop
    /\ dequeued loop = pending cfg st ++ enqueued loop
    /\ dequeued post = []
    /\ forallb (fun e => negb (cleared_with_backlog e)) post = true
    /\ pending cfg st' = enqueued post
    /\ queue_ok cfg st'
    /\ Req_switching (Req_info st') = false
    /\ switching st' = false
    /\ handled_when_taken loop = true
    /\ exists l2 st2,
         drain_steps cfg env 0 initial_locals (drain_entry st) (dequeued loop) l2 st2
         /\ trace st2 = trace (drain_entry st) ++ loop ++ [EvSwitching true false h h].
Proof.
  intros Hok Hsw Hex Hquiet Hfuel.
  unfold failover. simpl. rewrite Hex, Hsw.
  set (st1 := set_switching true _).
  assert (Hok1 : queue_ok cfg st1) by exact Hok.
  destruct (failover_loop_drains cfg env fuel 0 n initial_locals st1 Hok1 eq_refl)
    as (l' & st2 & loop & h & Hrun & Ht2 & Hi2 & Hd2 & Hok2 & Hz2 & Hh2 & Hs2 & Hl2 & Hx2
        & Hha2 & Hds2).
  { intros j Hj. apply Hquiet. lia. }
  { exact Hfuel. }
  rewrite Hrun.
  pose proof (producers_spec cfg (late_arrivals env) st2 Hok2)
    as (Hok3 & Hs3 & Hl3 & Hx3 & Hz3 & e3 & Ht3 & Hi3 & Hd3 & Hp3).
  set (st3 := producers cfg (late_arrivals env) st2) in *.
  assert (Hp2 : pending cfg st2 = []) by (unfold pending; rewrite Hz2; reflexivity).
  rewrite Hp2 in Hp3. simpl in Hp3.
  set (tailev := [EvSwitching false false (request_queue_head (Req_info st3))
                              (request_queue_tail (Req_info st3));
                  EvKillPcp SIGUSR2]).
  eexists. exists loop, h.
  exists (e3 ++ tailev ++ (if need_to_restart_pcp l' then [EvRestartPcp] else [])).
  split; [reflexivity|].
  assert (Hno : enqueued (tailev ++ (if need_to_restart_pcp l' then [EvRestartPcp] else []))
                = [] /\
                dequeued (tailev ++ (if need_to_restart_pcp l' then [EvRestartPcp] else []))
                = [] /\
                forallb (fun e => negb (cleared_with_backlog e))
                        (tailev ++ (if need_to_restart_pcp l' then [EvRestartPcp] else []))
                = true)
    by (destruct (need_to_restart_pcp l'); repeat split).
  destruct Hno as (Hn1 & Hn2 & Hn3).
  repeat split.
  - destruct (need_to_restart_pcp l'); simpl; rewrite Ht3, Ht2, Hs3, Hs2;
      subst st1 tailev; simpl; rewrite <- !app_assoc; reflexivity.
  - exact Hi2.
  - exact Hd2.
  - rewrite dequeued_app, Hd3, Hn2. reflexivity.
  - rewrite forallb_app, Hn3, (inside_drain_no_backlog_clear e3 Hi3). reflexivity.
  - rewrite enqueued_app, Hn1, app_nil_r, <- Hp3.
    destruct (need_to_restart_pcp l'); reflexivity.
  - destruct (need_to_restart_pcp l'); apply Hok3.
  - destruct (need_to_restart_pcp l'); apply Hok3.
  - destruct (need_to_restart_pcp l'); apply Hok3.
  - destruct (need_to_restart_pcp l'); apply Hok3.
  - destruct (need_to_restart_pcp l'); apply Hok3.
  - destruct (need_to_restart_pcp l'); reflexivity.
  - destruct (need_to_restart_pcp l'); reflexivity.
  - exact Hha2.
  - exists l', st2. split; [exact Hds2|exact Ht2].
Qed.

(** ** Request queue *)

Lemma failover_loop_keeps_queue_ok (cfg : POOL_CONFIG) (env : Env) :
  forall (fuel k : nat) (l l' : Locals) (st st' : State),
    queue_ok cfg st ->
    failover_loop cfg env fuel k l st = Done (l', st') ->
    queue_ok cfg st'.
Proof.
  induction fuel as [|fuel IH]; intros k l l' st st' Hok Hrun; [discriminate|].
  simpl in Hrun.
  pose proof (producers_spec cfg (arrivals (iter env k)) st Hok) as (Hok1 & _).
  set (st1 := producers cfg (arrivals (iter env k)) st) in *.
  destruct (Z.eq_dec (queue_size st1) 0) as [Hempty|Hne].
  - rewrite (dequeue_empty cfg st1 Hempty) in Hrun.
    injection Hrun as _ <-. exact Hok1.
  - assert (Hpos : 0 < queue_size st1) by (destruct Hok1 as (_ & _ & _ & ?); lia).
    destruct (dequeue_taken cfg st1 Hok1 Hpos) as (r & st2 & Hdq & _ & Hok2 & _).
    rewrite Hdq in Hrun.
    pose proof (quiet_failover_request cfg (iter env k) r l st2) as Hq.
    destruct (failover_request cfg (iter env k) r l st2) as [l3 st3]. simpl in Hq.
    pose proof (pending_quiet cfg st2 st3 Hq) as (_ & _ & Hok3).
    exact (IH _ _ _ _ _ (Hok3 Hok2) Hrun).
Qed.

Lemma failover_keeps_queue_ok (cfg : POOL_CONFIG) (env : Env) (fuel : nat)
    (is_parent : bool) (st st' : State) :
  queue_ok cfg st ->
  failover cfg env fuel is_parent st = Done st' ->
  queue_ok cfg st'.
Proof.
  intros Hok. unfold failover.
  destruct (negb is_parent); [intros [= <-]; exact Hok|].
  destruct (exiting st); [intros [= <-]; exact Hok|].
  destruct (switching st); [intros [= <-]; exact Hok|].
  set (st1 := set_switching true _).
  destruct (failover_loop cfg env fuel 0 initial_locals st1) as [[l st2]| |] eqn:Hrun;
    try discriminate.
  assert (Hok2 : queue_ok cfg st2)
    by (apply (failover_loop_keeps_queue_ok cfg env fuel 0 initial_locals l st1 st2);
        [exact Hok|exact Hrun]).
  pose proof (producers_spec cfg (late_arrivals env) st2 Hok2) as (Hok3 & _).
  intros [= <-]. destruct (need_to_restart_pcp l); exact Hok3.
Qed.

(** C1.  On a full queue (tail - head = MAX_REQUEST_QUEUE_SIZE),
    [register_node_operation_request()] returns false whatever the request,
    the calling process and the environment are, and the whole state (the
    table of requests, head, tail and everything else) is as before.
    Consequently a queue that holds between zero and MAX_REQUEST_QUEUE_SIZE
    requests still does so whenever the function returns. *)
Theorem register_on_full_queue (cfg : POOL_CONFIG) (env : Env) (fuel : nat)
    (processType : ProcessType) (is_parent : bool)
    (k : POOL_REQUEST_KIND) (node_id_set : list Z) (flags : Z) (st : State) :
  (queue_size st = MAX_REQUEST_QUEUE_SIZE cfg ->
   register_node_operation_request cfg env fuel processType is_parent k node_id_set flags st
   = Done (false, st))
  /\ (queue_ok cfg st ->
      forall b st',
        register_node_operation_request cfg env fuel processType is_parent
                                        k node_id_set flags st = Done (b, st') ->
        queue_ok cfg st' /\ queue_size st' <= MAX_REQUEST_QUEUE_SIZE cfg).
Proof.
  split.
  - intros Hfull. unfold register_node_operation_request.
    rewrite enqueue_full by assumption. reflexivity.
  - intros Hok b st' Hrun.
    assert (queue_ok cfg st'); [|split; [assumption|apply H]].
    unfold register_node_operation_request in Hrun.
    destruct (Z.eq_dec (queue_size st) (MAX_REQUEST_QUEUE_SIZE cfg)) as [Hfull|Hroom].
    + rewrite enqueue_full in Hrun by assumption. injection Hrun as _ <-. exact Hok.
    + destruct (enqueue_room cfg k node_id_set flags st Hok) as (st1 & He & Hok1 & _).
      { destruct Hok as (_ & _ & _ & Hsz). lia. }
      rewrite He in Hrun.
      destruct (Req_switching (Req_info st)); [injection Hrun as _ <-; exact Hok1|].
      destruct (bool_decide (processType = PT_MAIN)).
      * destruct (failover cfg env fuel is_parent st1) as [st2| |] eqn:Hf; try discriminate.
        injection Hrun as _ <-.
        exact (failover_keeps_queue_ok cfg env fuel is_parent st1 st2 Hok1 Hf).
      * injection Hrun as _ <-. exact Hok1.
Qed.

Lemma register_on_full_queue_witness :
  queue_size st_full = MAX_REQUEST_QUEUE_SIZE cfg2
  /\ register_node_operation_request cfg2 env_idle 5 PT_CHILD true
       NODE_UP_REQUEST [1] 0 st_full = Done (false, st_full)
  /\ queue_ok cfg2 st_up_up
  /\ forall b st',
       register_node_operation_request cfg2 env_idle 5 PT_MAIN true
         NODE_DOWN_REQUEST [1] 1 st_up_up = Done (b, st') ->
       queue_ok cfg2 st' /\ queue_size st' <= MAX_REQUEST_QUEUE_SIZE cfg2.
Proof.
  assert (Hok : queue_ok cfg2 st_up_up) by (repeat split; vm_compute; congruence).
  split; [reflexivity|]. split; [|split; [exact Hok|]].
  - apply (register_on_full_queue cfg2 env_idle 5 PT_CHILD true NODE_UP_REQUEST [1] 0 st_full).
    reflexivity.
  - apply (register_on_full_queue cfg2 env_idle 5 PT_MAIN true NODE_DOWN_REQUEST [1] 1
             st_up_up).
    exact Hok.
Defined.

(** C2.  A drain by [failover()] (run by the supervisor, outside shutdown
    and outside another drain) writes true to [Req_info->switching] at
    entry and, once the other processes stop producing, ends.  Between the
    entry and the moment the loop finds head == tail nothing writes to the
    flag and every request is taken out while the flag is true; the flag
    goes from true to false in a state with head == tail, and no later
    write turns it from true to false while a request is waiting.  The
    requests taken out during the drain are, in this order, the requests
    that were waiting at entry followed by the requests stored while the
    drain ran.  Each of them is processed in this drain: the event that
    follows its removal from the queue is the first step of its handling
    (SIGUSR1 to the children for CLOSE_IDLE_REQUEST, [wd_failover_start()]
    otherwise), and the loop passes the requests one by one to its body,
    each in the state the body left for the previous one, until it finds the
    queue empty at the write that lowers the flag. *)
Theorem drain_holds_switching (cfg : POOL_CONFIG) (env : Env) (n fuel : nat) (st : State) :
  queue_ok cfg st ->
  switching st = false ->
  exiting st = false ->
  (forall j, (n <= j)%nat -> arrivals (iter env j) = []) ->
  (Z.to_nat (queue_size st) + arrivals_from env 0 n < fuel)%nat ->
  exists st' loop h post,
    failover cfg env fuel true st = Done st'
    /\ trace st'
       = trace st
         ++ [EvSwitching (Req_switching (Req_info st)) true
                         (request_queue_head (Req_info st))
                         (request_queue_tail (Req_info st))]
         ++ loop ++ [EvSwitching true false h h] ++ post
    /\ inside_drain loop
    /\ dequeued loop = pending cfg st ++ enqueued loop
    /\ dequeued post = []
    /\ forallb (fun e => negb (cleared_with_backlog e)) post = true
    /\ Req_switching (Req_info st') = false
    /\ switching st' = false
    /\ handled_when_taken loop = true
    /\ exists l2 st2,
         drain_steps cfg env 0 initial_locals (drain_entry st) (dequeued loop) l2 st2
         /\ trace st2 = trace (drain_entry st) ++ loop ++ [EvSwitching true false h h].
Proof.
  intros Hok Hsw Hex Hquiet Hfuel.
  destruct (failover_drains cfg env n fuel st Hok Hsw Hex Hquiet Hfuel)
    as (st' & loop & h & post & H1 & H2 & H3 & H4 & H5 & H6 & _ & _ & H9 & H10 & H11 & H12).
  exists st', loop, h, post. repeat (split; [assumption|]). exact H12.
Qed.

Lemma drain_holds_switching_witness :
  exists st' loop h post,
    failover cfg2 env_one_arrival 3 true st_one_pending = Done st'
    /\ trace st'
       = trace st_one_pending
         ++ [EvSwitching (Req_switching (Req_info st_one_pending)) true
                         (request_queue_head (Req_info st_one_pending))
                         (request_queue_tail (Req_info st_one_pending))]
         ++ loop ++ [EvSwitching true false h h] ++ post
    /\ inside_drain loop
    /\ dequeued loop = pending cfg2 st_one_pending ++ enqueued loop
    /\ dequeued post = []
    /\ forallb (fun e => negb (cleared_with_backlog e)) post = true
    /\ Req_switching (Req_info st') = false
    /\ switching st' = false
    /\ handled_when_taken loop = true
    /\ exists l2 st2,
         drain_steps cfg2 env_one_arrival 0 initial_locals (drain_entry st_one_pending)
                     (dequeued loop) l2 st2
         /\ trace st2
            = trace (drain_entry st_one_pending) ++ loop ++ [EvSwitching true false h h].
Proof.
  apply (drain_holds_switching cfg2 env_one_arrival 1 3 st_one_pending).
  - repeat split; vm_compute; congruence.
  - reflexivity.
  - reflexivity.
  - intros [|j] Hj; [lia|reflexivity].
  - vm_compute. lia.
Defined.

(** On the same input the drain takes out the request that was waiting and
    then the one that arrived meanwhile. *)
Example drain_order :
  match failover cfg2 env_one_arrival 3 true st_one_pending with
  | Done st' => dequeued (trace st')
  | _ => []
  end
  = [mkRequest NODE_DOWN_REQUEST 1 [1] 1; mkRequest NODE_UP_REQUEST 0 [1] 1].
Proof. vm_compute. reflexivity. Qed.

(** C3 (amended).  After a successful enqueue the caller looks at the value
    of [Req_info->switching] it read under the semaphore.  If it is false
    and the caller is the supervisor, the caller runs [failover()] at once,
    which (outside shutdown and with enough iterations) takes the new
    request out of the queue in that very run.  If it is false and the
    caller is another process, the caller raises SIG_FAILOVER_INTERRUPT and
    signals the supervisor.  If it is true the caller does neither: the
    request is left to the drain that is going on. *)
Theorem register_then_drain_or_signal (cfg : POOL_CONFIG) (env : Env) (fuel : nat)
    (processType : ProcessType) (is_parent : bool)
    (k : POOL_REQUEST_KIND) (node_id_set : list Z) (flags : Z)
    (st st1 : State) (in_progress : bool) :
  enqueue cfg k node_id_set flags st = Some (in_progress, st1) ->
  (in_progress = false -> processType = PT_MAIN ->
     register_node_operation_request cfg env fuel processType is_parent
                                     k node_id_set flags st
     = match failover cfg env fuel is_parent st1 with
       | Done st2 => Done (true, st2)
       | OutOfFuel => OutOfFuel
       | Undefined => Undefined
       end
     /\ (forall n : nat,
           is_parent = true -> queue_ok cfg st -> switching st = false ->
           exiting st = false ->
           (forall j, (n <= j)%nat -> arrivals (iter env j) = []) ->
           (Z.to_nat (queue_size st1) + arrivals_from env 0 n < fuel)%nat ->
           exists st2 evs,
             register_node_operation_request cfg env fuel processType is_parent
                                             k node_id_set flags st = Done (true, st2)
             /\ trace st2 = trace st1 ++ evs
             /\ In (slot_of k node_id_set flags) (dequeued evs)
             /\ Req_switching (Req_info st2) = false))
  /\ (in_progress = false -> processType <> PT_MAIN ->
        register_node_operation_request cfg env fuel processType is_parent
                                        k node_id_set flags st
        = Done (true, signal_user1_to_parent_with_reason SIG_FAILOVER_INTERRUPT st1)
        /\ signalFlags (signal_user1_to_parent_with_reason SIG_FAILOVER_INTERRUPT st1)
                       SIG_FAILOVER_INTERRUPT = true
        /\ trace (signal_user1_to_parent_with_reason SIG_FAILOVER_INTERRUPT st1)
           = trace st1 ++ [EvSignalParent SIGUSR1])
  /\ (in_progress = true ->
        register_node_operation_request cfg env fuel processType is_parent
                                        k node_id_set flags st = Done (true, st1)
        /\ signalFlags st1 = signalFlags st
        /\ trace st1 = trace st ++ [EvEnqueue (slot_of k node_id_set flags)]).
Proof.
  intros He. unfold register_node_operation_request. rewrite He.
  split; [|split].
  - intros -> ->. rewrite bool_decide_eq_true_2 by reflexivity.
    split; [reflexivity|].
    intros n -> Hok Hsw Hex Hquiet Hfuel.
    destruct (Z.eq_dec (queue_size st) (MAX_REQUEST_QUEUE_SIZE cfg)) as [Hfull|Hroom];
      [rewrite enqueue_full in He by assumption; discriminate|].
    destruct (enqueue_room cfg k node_id_set flags st Hok)
      as (st1' & He' & Hok1 & Hp1 & Ht1 & Hz1 & Hs1 & Hl1 & Hx1 & _).
    { destruct Hok as (_ & _ & _ & Hsz). lia. }
    rewrite He in He'. injection He' as _ <-.
    assert (Hsw1 : switching st1 = false) by congruence.
    assert (Hex1 : exiting st1 = false) by congruence.
    destruct (failover_drains cfg env n fuel st1 Hok1 Hsw1 Hex1 Hquiet Hfuel) as
      (st2 & loop & h & post & Hrun & Ht2 & Hi & Hd & _ & _ & _ & _ & Hs2 & _).
    rewrite Hrun. exists st2. eexists. split; [reflexivity|].
    split; [exact Ht2|]. split; [|exact Hs2].
    rewrite !dequeued_app, Hd, Hp1.
    apply in_or_app. right. apply in_or_app. left.
    apply in_or_app. left. apply in_or_app. right. left. reflexivity.
  - intros -> Hpt. rewrite bool_decide_eq_false_2 by assumption.
    split; [reflexivity|]. split; [|reflexivity].
    reflexivity.
  - intros ->. split; [reflexivity|].
    unfold enqueue in He.
    destruct (request_queue_tail (Req_info st) - MAX_REQUEST_QUEUE_SIZE cfg
              =? request_queue_head (Req_info st)); [discriminate|].
    injection He as _ <-. split; reflexivity.
Qed.

Lemma register_then_drain_or_signal_witness :
  exists st1,
    enqueue cfg2 NODE_DOWN_REQUEST [1] 1 st_up_up = Some (false, st1)
    /\ register_node_operation_request cfg2 env_idle 5 PT_CHILD true
         NODE_DOWN_REQUEST [1] 1 st_up_up
       = Done (true, signal_user1_to_parent_with_reason SIG_FAILOVER_INTERRUPT st1)
    /\ signalFlags (signal_user1_to_parent_with_reason SIG_FAILOVER_INTERRUPT st1)
                   SIG_FAILOVER_INTERRUPT = true
    /\ trace (signal_user1_to_parent_with_reason SIG_FAILOVER_INTERRUPT st1)
       = trace st1 ++ [EvSignalParent SIGUSR1].
Proof.
  eexists. split; [reflexivity|].
  apply (register_then_drain_or_signal cfg2 env_idle 5 PT_CHILD true
           NODE_DOWN_REQUEST [1] 1 st_up_up _ false eq_refl).
  - reflexivity.
  - discriminate.
Defined.

(** C3 as stated fails on the code: a process other than the supervisor
    that enqueues a request while [Req_info->switching] is true does not
    signal the supervisor; the slot SIG_FAILOVER_INTERRUPT stays down and the
    only thing logged is the enqueue. *)
Lemma register_while_switching_no_signal :
  Req_switching (Req_info st_switching) = true
  /\ exists st',
       register_node_operation_request cfg2 env_idle 5 PT_CHILD true
         NODE_DOWN_REQUEST [1] 1 st_switching = Done (true, st')
       /\ signalFlags st' SIG_FAILOVER_INTERRUPT = false
       /\ trace st' = [EvEnqueue (mkRequest NODE_DOWN_REQUEST 1 [1] 1)]
       /\ ~ In (EvSignalParent SIGUSR1) (trace st').
Proof.
  split; [reflexivity|]. eexists. split; [reflexivity|].
  repeat split. simpl. intros [H|[]]. discriminate H.
Qed.

(** ** Reading the state after a step of the failover engine *)

Lemma emits_nil (st : State) : emits [] st = st.
Proof. destruct st. unfold emits. simpl. rewrite app_nil_r. reflexivity. Qed.

Lemma emits_emit (e : Event) (evs : list Event) (st : State) :
  emit e (emits evs st) = emits (evs ++ [e]) st.
Proof. unfold emit, emits. simpl. rewrite app_assoc. reflexivity. Qed.

Lemma emits_emits (a b : list Event) (st : State) :
  emits a (emits b st) = emits (b ++ a) st.
Proof. unfold emits. simpl. rewrite app_assoc. reflexivity. Qed.

Lemma plain_app (a b : list Event) : plain (a ++ b) <-> plain a /\ plain b.
Proof. unfold plain. rewrite forallb_app, andb_true_iff. reflexivity. Qed.

Lemma write_status_file_cases (cfg : POOL_CONFIG) (st : State) :
  snd (write_status_file cfg st) = st
  \/ snd (write_status_file cfg st) = set_status_file (Some (status_lines cfg st)) st.
Proof.
  unfold write_status_file.
  match goal with |- context [if ?c then _ else _] => destruct c end; simpl; auto.
Qed.

Lemma backend_info_write_status_file (cfg : POOL_CONFIG) (st : State) :
  backend_info (snd (write_status_file cfg st)) = backend_info st.
Proof. destruct (write_status_file_cases cfg st) as [-> | ->]; reflexivity. Qed.

Lemma Req_info_write_status_file (cfg : POOL_CONFIG) (st : State) :
  Req_info (snd (write_status_file cfg st)) = Req_info st.
Proof. destruct (write_status_file_cases cfg st) as [-> | ->]; reflexivity. Qed.

Lemma trace_write_status_file (cfg : POOL_CONFIG) (st : State) :
  trace (snd (write_status_file cfg st)) = trace st.
Proof. destruct (write_status_file_cases cfg st) as [-> | ->]; reflexivity. Qed.

Lemma Req_info_update_backend (i : Z) (f : BackendInfo -> BackendInfo) (st : State) :
  Req_info (update_backend i f st) = Req_info st.
Proof. unfold update_backend. destruct (i <? 0); reflexivity. Qed.

Lemma trace_update_backend (i : Z) (f : BackendInfo -> BackendInfo) (st : State) :
  trace (update_backend i f st) = trace st.
Proof. unfold update_backend. destruct (i <? 0); reflexivity. Qed.

(** Functions of the backend table alone. *)
Lemma status_of_ext (st st' : State) (j : Z) :
  backend_info st' = backend_info st -> status_of st' j = status_of st j.
Proof. unfold status_of, BACKEND_INFO. intros ->. reflexivity. Qed.

Lemma quarantine_of_ext (st st' : State) (j : Z) :
  backend_info st' = backend_info st -> quarantine_of st' j = quarantine_of st j.
Proof. unfold quarantine_of, BACKEND_INFO. intros ->. reflexivity. Qed.

Lemma role_of_ext (st st' : State) (j : Z) :
  backend_info st' = backend_info st -> role_of st' j = role_of st j.
Proof. unfold role_of, BACKEND_INFO. intros ->. reflexivity. Qed.

Lemma VALID_BACKEND_ext (st st' : State) (j : Z) :
  backend_info st' = backend_info st -> VALID_BACKEND st' j = VALID_BACKEND st j.
Proof. unfold VALID_BACKEND, BACKEND_INFO. intros ->. reflexivity. Qed.

Lemma VALID_BACKEND_status (st : State) (j : Z) :
  VALID_BACKEND st j = true ->
  status_of st j = CON_UP \/ status_of st j = CON_CONNECT_WAIT.
Proof.
  unfold VALID_BACKEND, status_of. destruct (BACKEND_INFO st j) as [b|]; [|discriminate].
  intros H. apply andb_true_iff in H. destruct H as [H _].
  apply orb_true_iff in H. destruct H as [H|H]; apply bool_decide_eq_true in H; auto.
Qed.

Lemma VALID_BACKEND_down (st : State) (j : Z) :
  status_of st j = CON_DOWN -> VALID_BACKEND st j = false.
Proof.
  intros Hd. destruct (VALID_BACKEND st j) eqn:Hv; [|reflexivity].
  apply VALID_BACKEND_status in Hv. destruct Hv; congruence.
Qed.

(** *** The steps that only log events *)

Lemma decide_restart_emits (cfg : POOL_CONFIG) (r : POOL_REQUEST_NODE) (node : Z)
    (l : Locals) (st : State) :
  exists evs, snd (decide_restart cfg r node l st) = emits evs st /\ plain evs
              /\ new_primary (fst (decide_restart cfg r node l st)) = new_primary l
              /\ nodes (fst (decide_restart cfg r node l st)) = nodes l.
Proof.
  unfold decide_restart.
  repeat match goal with |- context [if ?c then _ else _] => destruct c end; simpl;
    first [ solve [exists []; rewrite emits_nil; repeat split]
          | solve [eexists [_]; repeat split] ].
Qed.

Lemma run_failover_commands_emits (cfg : POOL_CONFIG) (r : POOL_REQUEST_NODE) (nm : Z)
    (l : Locals) (st : State) :
  exists evs, snd (run_failover_commands cfg r nm l st) = emits evs st /\ plain evs
              /\ new_primary (fst (run_failover_commands cfg r nm l st)) = new_primary l
              /\ nodes (fst (run_failover_commands cfg r nm l st)) = nodes l.
Proof.
  unfold run_failover_commands.
  destruct (bool_decide (kind r = NODE_DOWN_REQUEST));
    [|exists []; rewrite emits_nil; repeat split].
  assert (H : forall idx (acc : Locals * State),
            exists evs,
              snd (fold_left
                (fun (acc : Locals * State) i =>
                   if nodes_marked (fst acc) i
                   then (with_sync_required true (fst acc),
                         trigger_failover_command FAILOVER_COMMAND i (MAIN_NODE_ID (snd acc))
                           nm (REAL_PRIMARY_NODE_ID (snd acc)) (snd acc))
                   else acc) idx acc) = emits evs (snd acc)
              /\ plain evs
              /\ new_primary (fst (fold_left
                (fun (acc : Locals * State) i =>
                   if nodes_marked (fst acc) i
                   then (with_sync_required true (fst acc),
                         trigger_failover_command FAILOVER_COMMAND i (MAIN_NODE_ID (snd acc))
                           nm (REAL_PRIMARY_NODE_ID (snd acc)) (snd acc))
                   else acc) idx acc)) = new_primary (fst acc)
              /\ nodes (fst (fold_left
                (fun (acc : Locals * State) i =>
                   if nodes_marked (fst acc) i
                   then (with_sync_required true (fst acc),
                         trigger_failover_command FAILOVER_COMMAND i (MAIN_NODE_ID (snd acc))
                           nm (REAL_PRIMARY_NODE_ID (snd acc)) (snd acc))
                   else acc) idx acc)) = nodes (fst acc)).
  { induction idx as [|i idx IH]; intros acc; simpl.
    - exists []. rewrite emits_nil. repeat split.
    - match goal with |- context [fold_left _ idx ?a] => destruct (IH a) as (evs & E & P & N & M) end.
      rewrite E, N, M.
      destruct (nodes_marked (fst acc) i); simpl.
      + unfold trigger_failover_command.
        change (emit ?e (snd acc)) with (emits [e] (snd acc)).
        rewrite emits_emits. eexists. split; [reflexivity|].
        split; [|split; reflexivity]. apply plain_app. split; [reflexivity|exact P].
      + exists evs. repeat split. exact P. }
  apply (H (seqZ 0 (num_backends cfg)) (l, st)).
Qed.

Lemma finish_request_emits (r : POOL_REQUEST_NODE) (node : Z) (l : Locals) (st : State) :
  exists evs, snd (finish_request r node l st) = emits evs st /\ plain evs.
Proof.
  unfold finish_request.
  repeat match goal with |- context [if ?c then _ else _] => destruct c end; simpl;
    repeat (change (emit ?e st) with (emits [e] st) || rewrite emits_emit);
    eexists; split; try reflexivity.
Qed.

(** *** The choice of the new primary *)

Lemma role_step_refl (st : State) : role_step st st.
Proof. unfold role_step. repeat split; auto. Qed.

Lemma role_step_set_role (i : Z) (r : SERVER_ROLE) (st0 st : State) :
  role_step st0 st -> role_step st0 (set_role i r st).
Proof.
  intros (H1 & H2 & H3 & H4). unfold role_step.
  split; [unfold set_role; rewrite Req_info_update_backend; exact H1|].
  split; [intros j; rewrite status_of_set_role; apply H2|].
  split; [intros j; rewrite quarantine_of_set_role; apply H3|].
  intros j. unfold set_role. rewrite is_Some_BACKEND_INFO_update. apply H4.
Qed.

Lemma role_step_emit (e : Event) (st0 st : State) :
  role_step st0 st -> role_step st0 (emit e st).
Proof. intros H. exact H. Qed.

Lemma role_step_set_primary (v : Z) (st0 st : State) :
  role_step st0 st ->
  (forall j, status_of (set_Req (with_primary_node_id v) st) j = status_of st0 j)
  /\ (forall j, quarantine_of (set_Req (with_primary_node_id v) st) j = quarantine_of st0 j).
Proof. intros (H1 & H2 & H3 & H4). split; assumption. Qed.

Lemma decide_new_primary_frame (cfg : POOL_CONFIG) (e : IterEnv) (r : POOL_REQUEST_NODE)
    (node : Z) (sp : bool) (l : Locals) (st : State) :
  role_step st (snd (decide_new_primary cfg e r node sp l st))
  /\ nodes (fst (decide_new_primary cfg e r node sp l st)) = nodes l.
Proof.
  unfold decide_new_primary, find_primary_node_repeatedly.
  repeat match goal with |- context [if ?c then _ else _] => destruct c end; simpl;
    split; try reflexivity;
    auto using role_step_refl, role_step_set_role, role_step_emit.
Qed.

Lemma decide_new_primary_standby (cfg : POOL_CONFIG) (e : IterEnv) (r : POOL_REQUEST_NODE)
    (node : Z) (sp : bool) (l : Locals) (st : State) :
  SL_MODE cfg = true ->
  kind r = NODE_DOWN_REQUEST ->
  0 <= primary_node_id (Req_info st) ->
  node <> primary_node_id (Req_info st) ->
  decide_new_primary cfg e r node sp l st
  = (with_new_primary (primary_node_id (Req_info st)) l, st).
Proof.
  intros Hsl Hk Hp Hn. unfold decide_new_primary. rewrite Hk, Hsl. simpl.
  destruct (primary_node_id (Req_info st) >=? 0) eqn:Hge; [|lia].
  destruct (primary_node_id (Req_info st) =? node) eqn:He;
    [apply Z.eqb_eq in He; congruence|].
  reflexivity.
Qed.

Lemma decide_new_primary_no_search (cfg : POOL_CONFIG) (e : IterEnv) (r : POOL_REQUEST_NODE)
    (node : Z) (l : Locals) (st : State) :
  kind r = NODE_UP_REQUEST ->
  decide_new_primary cfg e r node false l st
  = (with_new_primary (primary_node_id (Req_info st)) l, st).
Proof.
  intros Hk. unfold decide_new_primary. rewrite Hk. simpl.
  destruct (SL_MODE cfg); reflexivity.
Qed.

(** *** Follow-primary degeneration *)

Lemma follow_fold_frame (cfg : POOL_CONFIG) (l : Locals) (idx : list Z) (acc : Z * State) :
  let res :=
    fold_left
      (fun (acc : Z * State) i =>
         if (new_primary l >=? 0) && negb (i =? new_primary l)
         then (fst acc + 1, snd (write_status_file cfg (set_status i CON_DOWN (snd acc))))
         else acc) idx acc in
  Req_info (snd res) = Req_info (snd acc)
  /\ trace (snd res) = trace (snd acc)
  /\ (forall j, status_of (snd res) j = status_of (snd acc) j
                \/ status_of (snd res) j = CON_DOWN)
  /\ (forall j, quarantine_of (snd res) j = quarantine_of (snd acc) j).
Proof.
  revert acc. induction idx as [|i idx IH]; intros acc; simpl; [auto|].
  match goal with |- context [fold_left _ idx ?a] =>
    destruct (IH a) as (Hr & Ht & Hs & Hq) end.
  simpl in *. rewrite Hr, Ht.
  destruct ((new_primary l >=? 0) && negb (i =? new_primary l)); simpl in *.
  - rewrite Req_info_write_status_file, trace_write_status_file.
    unfold set_status at 1 2. rewrite Req_info_update_backend, trace_update_backend.
    repeat split.
    + intros j. destruct (Hs j) as [H|H]; [|right; exact H].
      rewrite H.
      rewrite (status_of_ext _ _ j (backend_info_write_status_file cfg _)).
      rewrite status_of_set_status.
      destruct ((i =? j) && bool_decide (is_Some (BACKEND_INFO (snd acc) j))); auto.
    + intros j. rewrite Hq.
      rewrite (quarantine_of_ext _ _ j (backend_info_write_status_file cfg _)).
      apply quarantine_of_set_status.
  - repeat split; assumption.
Qed.

Lemma follow_degenerate_frame (cfg : POOL_CONFIG) (r : POOL_REQUEST_NODE) (node nm : Z)
    (l : Locals) (st : State) :
  let res := follow_degenerate cfg r node nm l st in
  Req_info (snd res) = Req_info st
  /\ trace (snd res) = trace st
  /\ (forall j, status_of (snd res) j = status_of st j \/ status_of (snd res) j = CON_DOWN)
  /\ (forall j, quarantine_of (snd res) j = quarantine_of st j).
Proof.
  unfold follow_degenerate.
  match goal with |- context [if ?c then _ else _] => destruct c end; simpl; [|auto].
  pose proof (follow_fold_frame cfg l (seqZ 0 (num_backends cfg)) (0, st)) as H.
  simpl in H.
  destruct (fold_left _ _ _) as [cnt st1]. simpl in H.
  destruct (cnt =? 0); exact H.
Qed.

Lemma follow_degenerate_failback (cfg : POOL_CONFIG) (r : POOL_REQUEST_NODE) (node nm : Z)
    (l : Locals) (st : State) :
  kind r = NODE_UP_REQUEST ->
  follow_degenerate cfg r node nm l st = (0, nm, st).
Proof.
  intros Hk. unfold follow_degenerate. rewrite Hk. simpl.
  destruct (STREAM cfg), (follow_primary_command_set cfg), (node >=? 0); reflexivity.
Qed.

(** *** Saving the primary *)

Lemma save_primary_and_main_frame (nm : Z) (l : Locals) (st : State) :
  let res := save_primary_and_main nm l st in
  primary_node_id (Req_info (snd res)) = new_primary l
  /\ trace (snd res) = trace st
  /\ (forall j, status_of (snd res) j = status_of st j)
  /\ (forall j, quarantine_of (snd res) j = quarantine_of st j).
Proof.
  unfold save_primary_and_main.
  repeat match goal with |- context [if ?c then _ else _] => destruct c end; simpl;
    unfold set_role; rewrite ?Req_info_update_backend, ?trace_update_backend;
    repeat split; intros;
    try (rewrite <- (status_of_set_role (new_primary l) j ROLE_PRIMARY st);
         apply status_of_ext; reflexivity);
    try (rewrite <- (quarantine_of_set_role (new_primary l) j ROLE_PRIMARY st);
         apply quarantine_of_ext; reflexivity).
Qed.

(** *** Degeneration and quarantine *)

Lemma degenerate_node_frame (cfg : POOL_CONFIG) (k : POOL_REQUEST_KIND)
    (acc : Locals * State * bool * Z) (n : Z) :
  let st := snd (fst (fst acc)) in
  let st' := snd (fst (fst (degenerate_node cfg k acc n))) in
  trace st' = trace st
  /\ (primary_node_id (Req_info st) <> -1 -> Req_info st' = Req_info st).
Proof.
  destruct acc as [[[l st] sp] cnt]. simpl. unfold degenerate_node.
  destruct (negb (n =? -1) && _); [|simpl; auto].
  destruct (bool_decide (k = NODE_QUARANTINE_REQUEST)); simpl.
  - unfold set_quarantine, set_status.
    rewrite !trace_update_backend, !Req_info_update_backend. auto.
  - match goal with |- context [if ?c then (set_Req _ _, false) else _] =>
      destruct c eqn:Hc end; simpl.
    + apply andb_true_iff in Hc. destruct Hc as [Hc _].
      apply andb_true_iff in Hc. destruct Hc as [Hc _].
      unfold set_status in Hc. rewrite Req_info_update_backend in Hc.
      apply Z.eqb_eq in Hc.
      split; [|intros; congruence].
      rewrite trace_write_status_file. unfold set_quarantine, set_status.
      repeat (rewrite ?trace_update_backend; simpl). reflexivity.
    + rewrite trace_write_status_file, Req_info_write_status_file.
      unfold set_quarantine, set_status.
      rewrite !trace_update_backend, !Req_info_update_backend. auto.
Qed.

Lemma degenerate_fold_frame (cfg : POOL_CONFIG) (k : POOL_REQUEST_KIND) (ns : list Z)
    (acc : Locals * State * bool * Z) :
  let st := snd (fst (fst acc)) in
  let st' := snd (fst (fst (fold_left (degenerate_node cfg k) ns acc))) in
  trace st' = trace st
  /\ (primary_node_id (Req_info st) <> -1 -> Req_info st' = Req_info st).
Proof.
  revert acc. induction ns as [|n ns IH]; intros acc; simpl; [auto|].
  destruct (IH (degenerate_node cfg k acc n)) as [Ht Hr].
  destruct (degenerate_node_frame cfg k acc n) as [Ht' Hr'].
  simpl in *. split; [congruence|].
  intros Hp. rewrite Hr; [apply Hr'; exact Hp|]. rewrite Hr'; assumption.
Qed.

Lemma degenerate_branch_frame (cfg : POOL_CONFIG) (r : POOL_REQUEST_NODE) (l : Locals)
    (st : State) :
  match degenerate_branch cfg r l st with
  | inl (_, st') | inr (_, st', _) =>
      trace st' = trace st
      /\ (primary_node_id (Req_info st) <> -1 -> Req_info st' = Req_info st)
  end.
Proof.
  unfold degenerate_branch.
  pose proof (degenerate_fold_frame cfg (kind r) (take (Z.to_nat (count r)) (node_id r))
                (l, st, true, 0)) as H.
  destruct (fold_left _ _ _) as [[[l1 st1] sp] cnt]. simpl in H.
  destruct (cnt =? 0); exact H.
Qed.

(** ** Failure of a standby *)

(** C6.  In streaming replication mode (the test SL_MODE of the source), a
    NODE_DOWN request whose node is not the current primary, handled while a
    primary exists (primary_node_id >= 0), leaves primary_node_id as it was
    and makes no call of [find_primary_node_repeatedly()]. *)
Theorem standby_down_keeps_primary (cfg : POOL_CONFIG) (e : IterEnv)
    (r : POOL_REQUEST_NODE) (l : Locals) (st : State) :
  SL_MODE cfg = true ->
  kind r = NODE_DOWN_REQUEST ->
  0 <= primary_node_id (Req_info st) ->
  first_node e r <> primary_node_id (Req_info st) ->
  primary_node_id (Req_info (snd (failover_request cfg e r l st)))
  = primary_node_id (Req_info st)
  /\ exists evs,
       trace (snd (failover_request cfg e r l st)) = trace st ++ evs
       /\ forallb (fun e => negb (is_finder e)) evs = true.
Proof.
  intros Hsl Hk Hp Hn.
  unfold failover_request. rewrite Hk. simpl.
  fold (first_node e r). set (node := first_node e r) in *.
  set (st0 := emit EvWdFailoverStart st).
  pose proof (degenerate_branch_frame cfg r l st0) as Hb.
  destruct (degenerate_branch cfg r l st0) as [[l1 st1]|[[l1 st1] sp]];
    destruct Hb as [Ht1 Hr1]; simpl.
  - rewrite Hr1 by (simpl; lia). split; [reflexivity|].
    exists [EvWdFailoverStart]. rewrite Ht1. split; reflexivity.
  - assert (Hreq1 : Req_info st1 = Req_info st) by (rewrite Hr1; [reflexivity|simpl; lia]).
    unfold failover_accepted.
    destruct (decide_restart_emits cfg r node l1 st1) as (ev2 & E2 & P2 & _).
    destruct (decide_restart cfg r node l1 st1) as [l2 st2]. simpl in E2. subst st2.
    destruct (run_failover_commands_emits cfg r (get_next_main_node cfg st1) l2
                (emits ev2 st1)) as (ev3 & E3 & P3 & _).
    destruct (run_failover_commands cfg r _ l2 _) as [l3 st3]. simpl in E3. subst st3.
    rewrite emits_emits.
    rewrite (decide_new_primary_standby cfg e r node sp l3 (emits (ev2 ++ ev3) st1))
      by (simpl; rewrite ?Hreq1; assumption).
    cbn [Req_info emits].
    pose proof (follow_degenerate_frame cfg r node (get_next_main_node cfg st1)
                  (with_new_primary (primary_node_id (Req_info st1)) l3)
                  (emits (ev2 ++ ev3) st1)) as (Hr5 & Ht5 & _).
    destruct (follow_degenerate cfg r node _ _ _) as [[fc nm'] st5]. simpl in Hr5, Ht5.
    match goal with |- context [save_primary_and_main nm' ?ll ?s] =>
      pose proof (save_primary_and_main_frame nm' ll s) as (Hp7 & Ht7 & _);
      assert (Ht6 : exists ev6, trace s = trace st5 ++ ev6
                                /\ forallb (fun e => negb (is_finder e)) ev6 = true)
        by (destruct ((fc >? 0) && follow_primary_command_set cfg);
            [eexists [_]; split; reflexivity | exists []; rewrite app_nil_r; split; reflexivity]);
      destruct (save_primary_and_main nm' ll s) as [l7 st7]
    end.
    destruct Ht6 as (ev6 & Ht6 & P6). simpl in Hp7, Ht7, Ht6.
    destruct (finish_request_emits r node l7 st7) as (ev8 & E8 & P8).
    rewrite E8.
    change (Req_info (emits ev8 st7)) with (Req_info st7).
    change (trace (emits ev8 st7)) with (trace st7 ++ ev8).
    rewrite Hp7. split; [simpl; rewrite Hreq1; reflexivity|].
    exists ([EvWdFailoverStart] ++ ev2 ++ ev3 ++ ev6 ++ ev8).
    split.
    + rewrite Ht7, Ht6, Ht5. simpl. rewrite Ht1. subst st0. simpl.
      rewrite <- !app_assoc. reflexivity.
    + unfold plain in *. rewrite !forallb_app. simpl.
      rewrite P6.
      assert (Hplain : forall evs,
                forallb (fun e => negb (is_finder e) && negb (is_failback_command e)) evs = true ->
                forallb (fun e => negb (is_finder e)) evs = true).
      { induction evs as [|a evs IH]; simpl; [reflexivity|].
        intros H. apply andb_true_iff in H. destruct H as [Ha H].
        apply andb_true_iff in Ha. destruct Ha as [Ha _].
        rewrite Ha, (IH H). reflexivity. }
      rewrite (Hplain _ P2), (Hplain _ P3), (Hplain _ P8). reflexivity.
Qed.

Lemma standby_down_keeps_primary_witness :
  primary_node_id
    (Req_info (snd (failover_request cfg2 iter_quiet (mkRequest NODE_DOWN_REQUEST 1 [1] 1)
                      initial_locals st_up_up)))
  = primary_node_id (Req_info st_up_up)
  /\ exists evs,
       trace (snd (failover_request cfg2 iter_quiet (mkRequest NODE_DOWN_REQUEST 1 [1] 1)
                     initial_locals st_up_up))
       = trace st_up_up ++ evs
       /\ forallb (fun e => negb (is_finder e)) evs = true.
Proof.
  apply (standby_down_keeps_primary cfg2 iter_quiet (mkRequest NODE_DOWN_REQUEST 1 [1] 1)
           initial_locals st_up_up).
  - reflexivity.
  - reflexivity.
  - simpl. lia.
  - vm_compute. discriminate.
Defined.

(** Scenario 1 of the spec: the standby goes down, the primary stays, the
    failover command is run for node 1. *)
Example standby_failure_trace :
  let st' := snd (failover_request cfg2 iter_quiet (mkRequest NODE_DOWN_REQUEST 1 [1] 1)
                    initial_locals st_up_up) in
  status_of st' 1 = CON_DOWN
  /\ primary_node_id (Req_info st') = 0
  /\ trace st' = [EvWdFailoverStart; EvKillChildrenUsing 1;
                  EvTriggerCommand FAILOVER_COMMAND 1 0 0 0;
                  EvRestartChildren true 1; EvKillWorker SIGUSR1; EvWdFailoverEnd].
Proof. vm_compute. repeat split. Qed.

(** ** Failover followed by failback *)

Lemma degenerate_single (cfg : POOL_CONFIG) (r : POOL_REQUEST_NODE) (l : Locals)
    (st : State) (x : Z) :
  kind r = NODE_DOWN_REQUEST \/ kind r = NODE_QUARANTINE_REQUEST ->
  take (Z.to_nat (count r)) (node_id r) = [x] ->
  0 <= x ->
  VALID_BACKEND st x = true ->
  exists l1 st1 sp,
    degenerate_branch cfg r l st = inr (l1, st1, sp)
    /\ status_of st1 x = CON_DOWN
    /\ quarantine_of st1 x = bool_decide (kind r = NODE_QUARANTINE_REQUEST)
    /\ role_of st1 x = role_of st x
    /\ trace st1 = trace st
    /\ is_Some (BACKEND_INFO st1 x)
    /\ (kind r = NODE_QUARANTINE_REQUEST -> Req_info st1 = Req_info st).
Proof.
  intros Hk Hns Hx Hv.
  pose proof (VALID_BACKEND_is_Some st x Hv) as Hsome.
  assert (Hq0 : quarantine_of st x = false).
  { unfold VALID_BACKEND in Hv. unfold quarantine_of.
    destruct (BACKEND_INFO st x); [|discriminate].
    apply andb_true_iff in Hv. destruct Hv as [_ Hv].
    apply negb_true_iff in Hv. exact Hv. }
  unfold degenerate_branch. rewrite Hns. simpl. unfold degenerate_node.
  replace (x =? -1) with false by (symmetry; apply Z.eqb_neq; lia).
  rewrite Hv, orb_true_r, orb_true_r. cbn [negb andb].
  assert (Hsome1 : is_Some (BACKEND_INFO (set_status x CON_DOWN st) x))
    by (unfold set_status; apply is_Some_BACKEND_INFO_update; exact Hsome).
  destruct Hk as [Hk|Hk]; rewrite Hk; simpl.
  - rewrite quarantine_of_set_status, Hq0, andb_false_r. simpl.
    do 3 eexists. split; [reflexivity|].
    rewrite (status_of_ext _ _ x (backend_info_write_status_file cfg _)).
    rewrite (quarantine_of_ext _ _ x (backend_info_write_status_file cfg _)).
    rewrite (role_of_ext _ _ x (backend_info_write_status_file cfg _)).
    rewrite trace_write_status_file.
    rewrite status_of_set_quarantine, status_of_set_status_eq by exact Hsome.
    rewrite quarantine_of_set_quarantine, Z.eqb_refl.
    rewrite bool_decide_eq_true_2 by exact Hsome1.
    rewrite role_of_set_quarantine, role_of_set_status.
    unfold set_quarantine, set_status. rewrite !trace_update_backend.
    repeat split.
    + unfold BACKEND_INFO. rewrite backend_info_write_status_file.
      fold (BACKEND_INFO (update_backend x (with_quarantine false)
                            (update_backend x (with_status CON_DOWN) st)) x).
      rewrite !is_Some_BACKEND_INFO_update. exact Hsome.
    + discriminate.
  - do 3 eexists. split; [reflexivity|].
    rewrite status_of_set_quarantine, status_of_set_status_eq by exact Hsome.
    rewrite quarantine_of_set_quarantine, Z.eqb_refl.
    rewrite bool_decide_eq_true_2 by exact Hsome1.
    rewrite role_of_set_quarantine, role_of_set_status.
    unfold set_quarantine, set_status.
    rewrite !trace_update_backend, !Req_info_update_backend.
    repeat split.
    rewrite !is_Some_BACKEND_INFO_update. exact Hsome.
Qed.

(** Reads of the backend table see through the steps that do not touch
    it. *)
Ltac see_through :=
  repeat first
    [ progress change (status_of (set_Req ?f ?s) ?j) with (status_of s j)
    | progress change (status_of (emit ?e ?s) ?j) with (status_of s j)
    | progress change (status_of (emits ?e ?s) ?j) with (status_of s j)
    | progress change (status_of (trigger_failover_command ?c ?a ?b ?d ?g ?s) ?j)
        with (status_of s j)
    | progress change (quarantine_of (set_Req ?f ?s) ?j) with (quarantine_of s j)
    | progress change (quarantine_of (emit ?e ?s) ?j) with (quarantine_of s j)
    | progress change (quarantine_of (emits ?e ?s) ?j) with (quarantine_of s j)
    | progress change (role_of (set_Req ?f ?s) ?j) with (role_of s j)
    | progress change (role_of (emit ?e ?s) ?j) with (role_of s j)
    | progress change (role_of (emits ?e ?s) ?j) with (role_of s j)
    | progress change (VALID_BACKEND (emit ?e ?s) ?j) with (VALID_BACKEND s j)
    | progress change (VALID_BACKEND (emits ?e ?s) ?j) with (VALID_BACKEND s j)
    | progress change (BACKEND_INFO (emit ?e ?s) ?j) with (BACKEND_INFO s j)
    | progress change (BACKEND_INFO (emits ?e ?s) ?j) with (BACKEND_INFO s j)
    | progress change (BACKEND_INFO (set_Req ?f ?s) ?j) with (BACKEND_INFO s j)
    | rewrite (status_of_ext _ _ _ (backend_info_write_status_file _ _))
    | rewrite (quarantine_of_ext _ _ _ (backend_info_write_status_file _ _))
    | rewrite (role_of_ext _ _ _ (backend_info_write_status_file _ _)) ].

Lemma failback_accepted (cfg : POOL_CONFIG) (r : POOL_REQUEST_NODE) (x : Z) (l : Locals)
    (st : State) :
  0 <= x < MAX_NUM_BACKENDS cfg ->
  is_Some (BACKEND_INFO st x) ->
  status_of st x = CON_DOWN ->
  exists l1 st1 sp,
    failback_branch cfg r x l st = inr (l1, st1, sp)
    /\ status_of st1 x = CON_CONNECT_WAIT.
Proof.
  intros Hx Hsome Hd. unfold failback_branch.
  replace (x <? 0) with false by (symmetry; apply Z.ltb_ge; lia).
  replace (x >=? MAX_NUM_BACKENDS cfg) with false by (symmetry; rewrite Z.geb_leb; apply Z.leb_gt; lia).
  rewrite (VALID_BACKEND_down st x Hd), andb_false_r. simpl.
  assert (Hcw : status_of (set_status x CON_CONNECT_WAIT st) x = CON_CONNECT_WAIT)
    by (apply status_of_set_status_eq; exact Hsome).
  repeat match goal with |- context [if ?c then _ else _] => destruct c end;
    do 3 eexists; (split; [reflexivity|]); see_through;
    rewrite ?status_of_set_quarantine; exact Hcw.
Qed.

(** What handling an accepted request can do to the backend table: set
    backends down (follow-primary degeneration) and change roles. *)
Lemma failover_accepted_frame (cfg : POOL_CONFIG) (e : IterEnv) (r : POOL_REQUEST_NODE)
    (node : Z) (sp : bool) (l1 : Locals) (st1 : State) :
  let st' := snd (failover_accepted cfg e r node sp l1 st1) in
  (forall j, status_of st' j = status_of st1 j \/ status_of st' j = CON_DOWN)
  /\ (kind r = NODE_UP_REQUEST -> forall j, status_of st' j = status_of st1 j)
  /\ (forall j, quarantine_of st' j = quarantine_of st1 j).
Proof.
  unfold failover_accepted.
  destruct (decide_restart_emits cfg r node l1 st1) as (ev2 & E2 & _).
  destruct (decide_restart cfg r node l1 st1) as [l2 st2]. simpl in E2. subst st2.
  destruct (run_failover_commands_emits cfg r (get_next_main_node cfg st1) l2
              (emits ev2 st1)) as (ev3 & E3 & _).
  destruct (run_failover_commands cfg r _ l2 _) as [l3 st3]. simpl in E3. subst st3.
  rewrite emits_emits.
  pose proof (decide_new_primary_frame cfg e r node sp l3 (emits (ev2 ++ ev3) st1))
    as ((_ & Hs4 & Hq4 & _) & _).
  destruct (decide_new_primary cfg e r node sp l3 _) as [l4 st4]. simpl in Hs4, Hq4.
  pose proof (follow_degenerate_frame cfg r node (get_next_main_node cfg st1) l4 st4)
    as (_ & _ & Hs5 & Hq5).
  pose proof (follow_degenerate_failback cfg r node (get_next_main_node cfg st1) l4 st4)
    as Hup.
  destruct (follow_degenerate cfg r node _ l4 st4) as [[fc nm'] st5]. simpl in Hs5, Hq5.
  match goal with |- context [save_primary_and_main nm' l4 ?s] =>
    pose proof (save_primary_and_main_frame nm' l4 s) as (_ & _ & Hs7 & Hq7);
    assert (Hs6 : forall j, status_of s j = status_of st5 j)
      by (intros j; destruct ((fc >? 0) && follow_primary_command_set cfg); reflexivity);
    assert (Hq6 : forall j, quarantine_of s j = quarantine_of st5 j)
      by (intros j; destruct ((fc >? 0) && follow_primary_command_set cfg); reflexivity);
    destruct (save_primary_and_main nm' l4 s) as [l7 st7]
  end.
  simpl in Hs7, Hq7.
  destruct (finish_request_emits r node l7 st7) as (ev8 & E8 & _).
  rewrite E8. see_through.
  repeat split.
  - intros j. rewrite Hs7, Hs6.
    destruct (Hs5 j) as [H|H]; [left; rewrite H, Hs4; reflexivity | right; exact H].
  - intros Hk j. specialize (Hup Hk). injection Hup as _ _ ->.
    rewrite Hs7, Hs6, Hs4. reflexivity.
  - intros j. rewrite Hq7, Hq6, Hq5, Hq4. reflexivity.
Qed.

(** C5.  For a valid node x inside the table, handling NODE_DOWN(x) leaves
    status[x] = DOWN, and handling NODE_UP(x) right after it (whatever the
    flags of the two requests, the mode and the answers of the environment
    are) leaves status[x] = CONNECT_WAIT: the failback does not raise the
    node to UP. *)
Theorem down_then_up_waits (cfg : POOL_CONFIG) (e1 e2 : IterEnv) (flags1 flags2 : Z)
    (l : Locals) (st : State) (x : Z) :
  0 <= x < MAX_NUM_BACKENDS cfg ->
  VALID_BACKEND st x = true ->
  let down := failover_request cfg e1 (mkRequest NODE_DOWN_REQUEST flags1 [x] 1) l st in
  let up := failover_request cfg e2 (mkRequest NODE_UP_REQUEST flags2 [x] 1)
                             (fst down) (snd down) in
  status_of (snd down) x = CON_DOWN
  /\ status_of (snd up) x = CON_CONNECT_WAIT
  /\ status_of (snd up) x <> CON_UP.
Proof.
  intros Hx Hv down up.
  assert (Hdown : status_of (snd down) x = CON_DOWN).
  { subst down. unfold failover_request. simpl.
    destruct (degenerate_single cfg (mkRequest NODE_DOWN_REQUEST flags1 [x] 1) l
                (emit EvWdFailoverStart st) x)
      as (l1 & st1 & sp & Hb & Hs & _); auto; [lia|].
    rewrite Hb.
    destruct (failover_accepted_frame cfg e1 (mkRequest NODE_DOWN_REQUEST flags1 [x] 1)
                x sp l1 st1) as (Hfr & _).
    destruct (Hfr x) as [H|H]; congruence. }
  assert (Hsome : is_Some (BACKEND_INFO (snd down) x)).
  { unfold status_of in Hdown. destruct (BACKEND_INFO (snd down) x); [eauto|discriminate]. }
  assert (Hup : status_of (snd up) x = CON_CONNECT_WAIT).
  { subst up. unfold failover_request. simpl.
    destruct (failback_accepted cfg (mkRequest NODE_UP_REQUEST flags2 [x] 1) x (fst down)
                (emit EvWdFailoverStart (snd down)) Hx Hsome Hdown)
      as (l1 & st1 & sp & Hb & Hs).
    rewrite Hb.
    destruct (failover_accepted_frame cfg e2 (mkRequest NODE_UP_REQUEST flags2 [x] 1)
                x sp l1 st1) as (_ & Hfr & _).
    rewrite Hfr by reflexivity. exact Hs. }
  repeat split; [exact Hdown | exact Hup | congruence].
Qed.

Lemma down_then_up_waits_witness :
  let down := failover_request cfg2 iter_quiet (mkRequest NODE_DOWN_REQUEST 0 [0] 1)
                               initial_locals st_up_up in
  let up := failover_request cfg2 iter_quiet (mkRequest NODE_UP_REQUEST 0 [0] 1)
                             (fst down) (snd down) in
  status_of (snd down) 0 = CON_DOWN
  /\ status_of (snd up) 0 = CON_CONNECT_WAIT
  /\ status_of (snd up) 0 <> CON_UP.
Proof.
  apply (down_then_up_waits cfg2 iter_quiet iter_quiet 0 0 initial_locals st_up_up 0).
  - simpl. lia.
  - reflexivity.
Defined.

(** ** Quarantine of the primary and its return *)

Lemma follow_degenerate_quarantine (cfg : POOL_CONFIG) (r : POOL_REQUEST_NODE) (node nm : Z)
    (l : Locals) (st : State) :
  kind r = NODE_QUARANTINE_REQUEST ->
  follow_degenerate cfg r node nm l st = (0, nm, st).
Proof.
  intros Hk. unfold follow_degenerate. rewrite Hk. simpl.
  destruct (STREAM cfg), (follow_primary_command_set cfg), (node >=? 0); reflexivity.
Qed.

Lemma save_primary_none (nm : Z) (l : Locals) (st : State) :
  new_primary l < 0 ->
  backend_info (snd (save_primary_and_main nm l st)) = backend_info st.
Proof.
  intros Hn. unfold save_primary_and_main.
  replace (new_primary l >=? 0) with false
    by (symmetry; rewrite Z.geb_leb; apply Z.leb_gt; lia).
  rewrite andb_false_r. destruct (nm >=? 0); reflexivity.
Qed.

Lemma save_primary_same (nm : Z) (l : Locals) (st : State) :
  primary_node_id (Req_info st) = new_primary l ->
  backend_info (snd (save_primary_and_main nm l st)) = backend_info st.
Proof.
  intros Hn. unfold save_primary_and_main.
  rewrite Hn, Z.eqb_refl. simpl. destruct (nm >=? 0); reflexivity.
Qed.

(** Handling QUARANTINE(x) while x is the valid primary. *)
Lemma quarantine_of_primary (cfg : POOL_CONFIG) (e : IterEnv) (flags : Z) (l : Locals)
    (st : State) (x : Z) :
  0 <= x ->
  VALID_BACKEND st x = true ->
  primary_node_id (Req_info st) = x ->
  let st' := snd (failover_request cfg e (mkRequest NODE_QUARANTINE_REQUEST flags [x] 1) l st) in
  quarantine_of st' x = true
  /\ status_of st' x = CON_DOWN
  /\ role_of st' x = ROLE_PRIMARY
  /\ primary_node_id (Req_info st') = -1
  /\ is_Some (BACKEND_INFO st' x).
Proof.
  intros Hx Hv Hp. set (r := mkRequest NODE_QUARANTINE_REQUEST flags [x] 1).
  unfold failover_request. simpl.
  destruct (degenerate_single cfg r l (emit EvWdFailoverStart st) x)
    as (l1 & st1 & sp & Hb & Hs1 & Hq1 & Hr1 & Ht1 & Hsome1 & Hreq1); auto.
  rewrite Hb. specialize (Hreq1 eq_refl). simpl in Hreq1.
  pose proof (failover_accepted_frame cfg e r x sp l1 st1) as (Hst & _ & Hqu).
  assert (Hrole : role_of (snd (failover_accepted cfg e r x sp l1 st1)) x = ROLE_PRIMARY
                  /\ primary_node_id (Req_info (snd (failover_accepted cfg e r x sp l1 st1)))
                     = -1
                  /\ is_Some (BACKEND_INFO (snd (failover_accepted cfg e r x sp l1 st1)) x)).
  { unfold failover_accepted.
    destruct (decide_restart_emits cfg r x l1 st1) as (ev2 & E2 & _).
    destruct (decide_restart cfg r x l1 st1) as [l2 st2]. simpl in E2. subst st2.
    destruct (run_failover_commands_emits cfg r (get_next_main_node cfg st1) l2
                (emits ev2 st1)) as (ev3 & E3 & _).
    destruct (run_failover_commands cfg r _ l2 _) as [l3 st3]. simpl in E3. subst st3.
    rewrite emits_emits.
    assert (Hdec : decide_new_primary cfg e r x sp l3 (emits (ev2 ++ ev3) st1)
                   = (with_new_primary (-1) l3,
                      set_role x ROLE_PRIMARY (emits (ev2 ++ ev3) st1))).
    { unfold decide_new_primary. simpl. rewrite Hreq1, Hp, Z.eqb_refl. reflexivity. }
    rewrite Hdec.
    rewrite (follow_degenerate_quarantine cfg r x) by reflexivity.
    simpl ((0 >? 0) && _).
    cbv iota beta.
    match goal with |- context [save_primary_and_main ?nm ?ll ?s] =>
      pose proof (save_primary_and_main_frame nm ll s) as (Hp7 & _);
      pose proof (save_primary_none nm ll s) as Hb7;
      destruct (save_primary_and_main nm ll s) as [l7 st7]
    end.
    simpl in Hp7, Hb7. specialize (Hb7 ltac:(lia)).
    destruct (finish_request_emits r x l7 st7) as (ev8 & E8 & _).
    rewrite E8. see_through.
    change (Req_info (emits ev8 st7)) with (Req_info st7).
    rewrite (role_of_ext _ _ x Hb7).
    unfold BACKEND_INFO at 1. rewrite Hb7.
    fold (BACKEND_INFO (set_role x ROLE_PRIMARY (emits (ev2 ++ ev3) st1)) x).
    rewrite role_of_set_role, Z.eqb_refl.
    see_through. rewrite bool_decide_eq_true_2 by exact Hsome1.
    split; [reflexivity|]. split; [exact Hp7|].
    unfold set_role. rewrite is_Some_BACKEND_INFO_update. exact Hsome1. }
  destruct Hrole as (H1 & H2 & H3).
  repeat split; try assumption.
  - rewrite Hqu, Hq1. reflexivity.
  - destruct (Hst x) as [H|H]; congruence.
Qed.

(** The failback branch for a request with the UPDATE flag, on a node that
    was primary when it was quarantined. *)
Lemma failback_update_restores (cfg : POOL_CONFIG) (r : POOL_REQUEST_NODE) (x : Z)
    (l : Locals) (st : State) :
  0 <= x < MAX_NUM_BACKENDS cfg ->
  is_Some (BACKEND_INFO st x) ->
  status_of st x = CON_DOWN ->
  role_of st x = ROLE_PRIMARY ->
  primary_node_id (Req_info st) = -1 ->
  has_flag (request_details r) (REQ_DETAIL_UPDATE cfg) = true ->
  exists l1 st1,
    failback_branch cfg r x l st = inr (l1, st1, false)
    /\ status_of st1 x = CON_CONNECT_WAIT
    /\ quarantine_of st1 x = false
    /\ primary_node_id (Req_info st1) = x
    /\ trace st1 = trace st.
Proof.
  intros Hx Hsome Hd Hrole Hp Hflag. unfold failback_branch.
  replace (x <? 0) with false by (symmetry; apply Z.ltb_ge; lia).
  replace (x >=? MAX_NUM_BACKENDS cfg) with false
    by (symmetry; rewrite Z.geb_leb; apply Z.leb_gt; lia).
  rewrite (VALID_BACKEND_down st x Hd), andb_false_r. simpl.
  rewrite Hflag.
  assert (Hsome1 : is_Some (BACKEND_INFO (set_status x CON_CONNECT_WAIT st) x))
    by (unfold set_status; apply is_Some_BACKEND_INFO_update; exact Hsome).
  match goal with
  | |- context [if ?c then inr (_, set_Req (with_primary_node_id x) _, false) else _] =>
      assert (Hcond : c = true)
  end.
  { see_through. rewrite role_of_set_quarantine, role_of_set_status, Hrole.
    simpl. unfold set_quarantine, set_status. rewrite !Req_info_update_backend, Hp.
    reflexivity. }
  rewrite Hcond.
  do 2 eexists. split; [reflexivity|].
  see_through.
  rewrite status_of_set_quarantine, status_of_set_status_eq by exact Hsome.
  rewrite quarantine_of_set_quarantine, Z.eqb_refl.
  rewrite bool_decide_eq_true_2 by exact Hsome1.
  simpl. unfold set_quarantine, set_status. rewrite !trace_update_backend.
  repeat split.
Qed.

(** What handling NODE_UP with the UPDATE flag does once the failback branch
    has accepted the request: the primary is the one found in [Req_info],
    and nothing but plain events is logged. *)
Lemma failover_accepted_update (cfg : POOL_CONFIG) (e : IterEnv) (r : POOL_REQUEST_NODE)
    (node : Z) (l1 : Locals) (st1 : State) :
  kind r = NODE_UP_REQUEST ->
  let st' := snd (failover_accepted cfg e r node false l1 st1) in
  primary_node_id (Req_info st') = primary_node_id (Req_info st1)
  /\ exists evs, trace st' = trace st1 ++ evs /\ plain evs.
Proof.
  intros Hk. unfold failover_accepted.
  destruct (decide_restart_emits cfg r node l1 st1) as (ev2 & E2 & P2 & _).
  destruct (decide_restart cfg r node l1 st1) as [l2 st2]. simpl in E2. subst st2.
  destruct (run_failover_commands_emits cfg r (get_next_main_node cfg st1) l2
              (emits ev2 st1)) as (ev3 & E3 & P3 & _).
  destruct (run_failover_commands cfg r _ l2 _) as [l3 st3]. simpl in E3. subst st3.
  rewrite emits_emits.
  rewrite (decide_new_primary_no_search cfg e r node l3 _ Hk).
  rewrite (follow_degenerate_failback cfg r node _ _ _ Hk).
  simpl ((0 >? 0) && _). cbv iota beta.
  match goal with |- context [save_primary_and_main ?nm ?ll ?s] =>
    pose proof (save_primary_and_main_frame nm ll s) as (Hp7 & Ht7 & _);
    destruct (save_primary_and_main nm ll s) as [l7 st7]
  end.
  simpl in Hp7, Ht7.
  destruct (finish_request_emits r node l7 st7) as (ev8 & E8 & P8).
  rewrite E8.
  change (Req_info (emits ev8 st7)) with (Req_info st7).
  change (trace (emits ev8 st7)) with (trace st7 ++ ev8).
  split; [exact Hp7|].
  exists (ev2 ++ ev3 ++ ev8). split.
  - rewrite Ht7, <- !app_assoc. reflexivity.
  - apply plain_app. split; [exact P2|]. apply plain_app. split; assumption.
Qed.

(** C4 (amended).  If QUARANTINE(x) is handled while x is the valid primary,
    then x is quarantined and down, its role is recorded as PRIMARY and
    primary_node_id is -1.  From any later state in which x is still down
    with role PRIMARY and primary_node_id is still -1, handling a NODE_UP(x)
    request that carries the UPDATE flag clears the quarantine flag of x,
    sets status[x] to CONNECT_WAIT and primary_node_id to x, and logs neither
    a call of the failback command nor a search for the primary. *)
Theorem quarantined_primary_returns (cfg : POOL_CONFIG) (e1 e2 : IterEnv) (flags1 : Z)
    (r2 : POOL_REQUEST_NODE) (l l' : Locals) (st : State) (x : Z) :
  0 <= x < MAX_NUM_BACKENDS cfg ->
  VALID_BACKEND st x = true ->
  primary_node_id (Req_info st) = x ->
  kind r2 = NODE_UP_REQUEST ->
  first_node e2 r2 = x ->
  has_flag (request_details r2) (REQ_DETAIL_UPDATE cfg) = true ->
  let st1 :=
    snd (failover_request cfg e1 (mkRequest NODE_QUARANTINE_REQUEST flags1 [x] 1) l st) in
  (quarantine_of st1 x = true
   /\ status_of st1 x = CON_DOWN
   /\ role_of st1 x = ROLE_PRIMARY
   /\ primary_node_id (Req_info st1) = -1
   /\ is_Some (BACKEND_INFO st1 x))
  /\ forall st2,
       status_of st2 x = CON_DOWN ->
       role_of st2 x = ROLE_PRIMARY ->
       primary_node_id (Req_info st2) = -1 ->
       is_Some (BACKEND_INFO st2 x) ->
       let st3 := snd (failover_request cfg e2 r2 l' st2) in
       quarantine_of st3 x = false
       /\ status_of st3 x = CON_CONNECT_WAIT
       /\ primary_node_id (Req_info st3) = x
       /\ exists evs, trace st3 = trace st2 ++ evs /\ plain evs.
Proof.
  intros Hx Hv Hp Hk Hnode Hflag st1. split.
  - apply quarantine_of_primary; [lia|assumption|assumption].
  - intros st2 Hd Hrole Hp2 Hsome st3. subst st3.
    unfold failover_request. rewrite Hk. simpl.
    fold (first_node e2 r2). rewrite Hnode.
    destruct (failback_update_restores cfg r2 x l' (emit EvWdFailoverStart st2))
      as (l1 & st1' & Hb & Hs1 & Hq1 & Hp1 & Ht1); auto.
    rewrite Hb.
    pose proof (failover_accepted_frame cfg e2 r2 x false l1 st1') as (_ & Hst & Hqu).
    pose proof (failover_accepted_update cfg e2 r2 x l1 st1' Hk) as (Hpr & evs & Htr & Hpl).
    simpl in Hpr, Htr.
    repeat split.
    + rewrite Hqu. exact Hq1.
    + rewrite (Hst Hk). exact Hs1.
    + rewrite Hpr. exact Hp1.
    + exists ([EvWdFailoverStart] ++ evs). split.
      * rewrite Htr, Ht1. simpl. rewrite <- app_assoc. reflexivity.
      * apply plain_app. split; [reflexivity|exact Hpl].
Qed.

Lemma quarantined_primary_returns_witness :
  let st1 :=
    snd (failover_request cfg2 iter_quiet (mkRequest NODE_QUARANTINE_REQUEST 0 [0] 1)
                          initial_locals st_up_up) in
  (quarantine_of st1 0 = true
   /\ status_of st1 0 = CON_DOWN
   /\ role_of st1 0 = ROLE_PRIMARY
   /\ primary_node_id (Req_info st1) = -1
   /\ is_Some (BACKEND_INFO st1 0))
  /\ forall st2,
       status_of st2 0 = CON_DOWN ->
       role_of st2 0 = ROLE_PRIMARY ->
       primary_node_id (Req_info st2) = -1 ->
       is_Some (BACKEND_INFO st2 0) ->
       let st3 := snd (failover_request cfg2 iter_quiet (mkRequest NODE_UP_REQUEST 10 [0] 1)
                                        initial_locals st2) in
       quarantine_of st3 0 = false
       /\ status_of st3 0 = CON_CONNECT_WAIT
       /\ primary_node_id (Req_info st3) = 0
       /\ exists evs, trace st3 = trace st2 ++ evs /\ plain evs.
Proof.
  apply (quarantined_primary_returns cfg2 iter_quiet iter_quiet 0
           (mkRequest NODE_UP_REQUEST 10 [0] 1) initial_locals initial_locals st_up_up 0).
  - simpl. lia.
  - reflexivity.
  - reflexivity.
  - reflexivity.
  - reflexivity.
  - reflexivity.
Defined.

(** C4 as stated fails on the code: node 0 is quarantined while it is the
    primary, then node 1 is promoted, and the NODE_UP(0) request with the
    UPDATE flag that is processed after that finds primary_node_id = 1, not
    -1.  It clears the quarantine flag of node 0 and sets its status to
    CONNECT_WAIT, but primary_node_id stays 1: it is not restored to 0. *)
Lemma quarantined_primary_not_restored_after_promotion :
  let st1 :=
    snd (failover_request cfg2 iter_quiet (mkRequest NODE_QUARANTINE_REQUEST 0 [0] 1)
                          initial_locals st_up_up) in
  let st2 :=
    snd (failover_request cfg2 iter_quiet (mkRequest PROMOTE_NODE_REQUEST 0 [1] 1)
                          initial_locals st1) in
  let st3 :=
    snd (failover_request cfg2 iter_quiet (mkRequest NODE_UP_REQUEST 10 [0] 1)
                          initial_locals st2) in
  (VALID_BACKEND st_up_up 0 = true /\ primary_node_id (Req_info st_up_up) = 0)
  /\ (quarantine_of st1 0 = true
      /\ role_of st1 0 = ROLE_PRIMARY
      /\ primary_node_id (Req_info st1) = -1)
  /\ (quarantine_of st2 0 = true
      /\ status_of st2 0 = CON_DOWN
      /\ role_of st2 0 = ROLE_PRIMARY
      /\ primary_node_id (Req_info st2) = 1)
  /\ has_flag 10 (REQ_DETAIL_UPDATE cfg2) = true
  /\ quarantine_of st3 0 = false
  /\ status_of st3 0 = CON_CONNECT_WAIT
  /\ primary_node_id (Req_info st3) = 1
  /\ primary_node_id (Req_info st3) <> 0.
Proof. vm_compute. repeat split; discriminate. Qed.

(** Scenario 3 of the spec, run on the state [st_quarantined]. *)
Example quarantined_primary_failback_trace :
  let st' := snd (failover_request cfg2 iter_quiet (mkRequest NODE_UP_REQUEST 10 [0] 1)
                    initial_locals st_quarantined) in
  quarantine_of st' 0 = false
  /\ status_of st' 0 = CON_CONNECT_WAIT
  /\ primary_node_id (Req_info st') = 0
  /\ trace st' = [EvWdFailoverStart; EvKillAllChildren SIGQUIT; EvRestartChildren false 0;
                  EvKillWorker SIGUSR1; EvWdFailoverEnd; EvForkHealthCheck].
Proof. vm_compute. repeat split. Qed.

(** ** Status file *)

Lemma fgets_status_line (s : BACKEND_STATUS) (rest : string) :
  fgets 9 (status_word s ++ newline ++ rest)
  = Some ((status_word s ++ newline)%string, rest).
Proof. destruct s; reflexivity. Qed.

Lemma read_ascii_line (fuel : nat) (i : Z) (s : BACKEND_STATUS) (rest : string)
    (wake : bool) (st : State) :
  read_ascii_lines (S fuel) i (status_word s ++ newline ++ rest) wake st
  = read_ascii_lines fuel (i + 1) rest (wake || prints_up s)
                     (set_status i (restored s) st).
Proof.
  cbn [read_ascii_lines]. rewrite fgets_status_line.
  destruct s; simpl; rewrite ?orb_true_r, ?orb_false_r; reflexivity.
Qed.

Lemma read_ascii_end (fuel : nat) (i : Z) (wake : bool) (st : State) :
  read_ascii_lines fuel i EmptyString wake st = (wake, st).
Proof. destruct fuel; reflexivity. Qed.

Lemma read_status_text (ws : list BACKEND_STATUS) :
  forall (fuel : nat) (k : Z) (wake : bool) (st : State),
    (length ws < fuel)%nat ->
    read_ascii_lines fuel k (status_text ws) wake st
    = (wake || existsb prints_up ws, restore_from k ws st).
Proof.
  induction ws as [|s ws IH]; intros fuel k wake st Hfuel.
  - simpl. rewrite read_ascii_end, orb_false_r. reflexivity.
  - destruct fuel as [|fuel]; [simpl in Hfuel; lia|].
    change (status_text (s :: ws))
      with (status_word s ++ newline ++ status_text ws)%string.
    rewrite read_ascii_line, IH by (simpl in Hfuel; lia).
    simpl. rewrite orb_assoc. reflexivity.
Qed.

Lemma status_text_length (ws : list BACKEND_STATUS) :
  (length ws <= String.length (status_text ws))%nat.
Proof.
  induction ws as [|s ws IH]; simpl; [lia|].
  destruct s; simpl; lia.
Qed.

Lemma status_lines_text (cfg : POOL_CONFIG) (st : State) :
  status_lines cfg st = status_text (map (status_of st) (seqZ 0 (num_backends cfg))).
Proof.
  unfold status_lines, status_text.
  induction (seqZ 0 (num_backends cfg)) as [|i idx IH]; [reflexivity|].
  cbn [fold_right map list_fmap fmap]. rewrite IH. reflexivity.
Qed.

Lemma is_Some_set_status (i j : Z) (s : BACKEND_STATUS) (st : State) :
  is_Some (BACKEND_INFO (set_status i s st) j) <-> is_Some (BACKEND_INFO st j).
Proof. unfold set_status. apply is_Some_BACKEND_INFO_update. Qed.

Lemma restore_from_other (ws : list BACKEND_STATUS) :
  forall (k j : Z) (st : State),
    j < k -> status_of (restore_from k ws st) j = status_of st j.
Proof.
  induction ws as [|s ws IH]; intros k j st Hj; simpl; [reflexivity|].
  rewrite IH by lia. apply status_of_set_status_ne. lia.
Qed.

Lemma restore_from_lookup (ws : list BACKEND_STATUS) :
  forall (k : Z) (n : nat) (s : BACKEND_STATUS) (st : State),
    ws !! n = Some s ->
    is_Some (BACKEND_INFO st (k + Z.of_nat n)) ->
    status_of (restore_from k ws st) (k + Z.of_nat n) = restored s.
Proof.
  induction ws as [|w ws IH]; intros k n s st Hn Hsome; [discriminate|].
  destruct n as [|n]; cbn [restore_from].
  - injection Hn as ->. change (Z.of_nat 0) with 0 in *. rewrite Z.add_0_r in *.
    rewrite restore_from_other by lia.
    apply status_of_set_status_eq. exact Hsome.
  - replace (k + Z.of_nat (S n)) with ((k + 1) + Z.of_nat n) in * by lia.
    apply IH; [exact Hn|]. apply is_Some_set_status. exact Hsome.
Qed.

Lemma is_Some_set_all_status (s : BACKEND_STATUS) (n j : Z) (st : State) :
  is_Some (BACKEND_INFO (set_all_status s n st) j) <-> is_Some (BACKEND_INFO st j).
Proof.
  unfold set_all_status. revert st.
  induction (seqZ 0 n) as [|i idx IH]; intros st; simpl; [reflexivity|].
  rewrite IH. apply is_Some_set_status.
Qed.

Lemma status_file_set_all_status (s : BACKEND_STATUS) (n : Z) (st : State) :
  status_file (set_all_status s n st) = status_file st.
Proof.
  unfold set_all_status. revert st.
  induction (seqZ 0 n) as [|i idx IH]; intros st; simpl; [reflexivity|].
  rewrite IH. unfold set_status, update_backend. destruct (i <? 0); reflexivity.
Qed.

Lemma read_old_format_rejects (cfg : POOL_CONFIG) (rec : Z -> option BACKEND_STATUS)
    (st : State) :
  0 < num_backends cfg ->
  rec 0 = None \/ rec 0 = Some CON_UNUSED ->
  read_old_format cfg rec (seqZ 0 (num_backends cfg)) false st = (false, false, st).
Proof.
  intros Hn Hrec. rewrite seqZ_cons by lia. simpl.
  destruct Hrec as [-> | ->]; reflexivity.
Qed.

(** Writing the statuses of [st] and reading the file back into [st_new]. *)
Lemma write_then_read (cfg : POOL_CONFIG) (st st_new : State) (i : Z) :
  0 <= i < num_backends cfg ->
  prints_up (status_of st i) = true ->
  status_file st_new = Some (status_lines cfg st) ->
  not_legacy cfg (status_lines cfg st) ->
  forall j, 0 <= j < num_backends cfg ->
            is_Some (BACKEND_INFO st_new j) ->
            status_of (snd (read_status_file cfg false st_new)) j = restored (status_of st j).
Proof.
  intros Hi Hup Hfile Hleg j Hj Hsome.
  unfold read_status_file. rewrite Hfile.
  assert (Hold : match legacy_record cfg (status_lines cfg st) with
                 | Some rec => read_old_format cfg rec (seqZ 0 (num_backends cfg)) false st_new
                 | None => (false, false, st_new)
                 end = (false, false, st_new)).
  { destruct (legacy_record cfg (status_lines cfg st)) as [rec|] eqn:Hrec; [|reflexivity].
    apply read_old_format_rejects; [lia|]. apply Hleg. exact Hrec. }
  rewrite Hold. rewrite Hfile.
  rewrite status_lines_text.
  set (ws := map (status_of st) (seqZ 0 (num_backends cfg))).
  rewrite read_status_text by (pose proof (status_text_length ws); lia).
  assert (Hwake : existsb prints_up ws = true).
  { apply existsb_exists. exists (status_of st i). split; [|exact Hup].
    subst ws. apply in_map. apply list_elem_of_In. apply elem_of_seqZ. lia. }
  rewrite Hwake. simpl.
  replace j with (0 + Z.of_nat (Z.to_nat j)) by lia.
  apply restore_from_lookup.
  - subst ws. rewrite list_lookup_fmap, lookup_seqZ_lt by lia. simpl.
    f_equal.
  - apply is_Some_set_all_status. replace (0 + Z.of_nat (Z.to_nat j)) with j by lia.
    exact Hsome.
Qed.

Lemma scan_from_le (p : Z -> bool) (steps : nat) :
  forall i0 i, i0 <= i < i0 + Z.of_nat steps -> p i = true -> scan_from p i0 steps <= i.
Proof.
  induction steps as [|steps IH]; intros i0 i Hi Hp; [lia|].
  simpl. destruct (p i0) eqn:H0; [lia|].
  apply IH; [|exact Hp].
  assert (i <> i0) by congruence. lia.
Qed.

Lemma write_status_file_written (cfg : POOL_CONFIG) (st : State) (i : Z) :
  0 <= i < num_backends cfg ->
  status_of st i <> CON_DOWN ->
  status_file (snd (write_status_file cfg st)) = Some (status_lines cfg st).
Proof.
  intros Hi Hs. unfold write_status_file.
  match goal with |- context [for_break ?p ?n] =>
    assert (Hle : for_break p n <= i)
  end.
  { unfold for_break. apply scan_from_le; [lia|].
    rewrite bool_decide_eq_false_2 by exact Hs. reflexivity. }
  match goal with |- context [for_break ?p ?n] =>
    replace (for_break p n =? n) with false by (symmetry; apply Z.eqb_neq; lia)
  end.
  rewrite andb_false_r. reflexivity.
Qed.

(** C10.  The status file does not keep UP and CONNECT_WAIT apart:
    [write_status_file()] prints the same line, "up", for both, and a backend
    that is in CONNECT_WAIT when the file is written has status UP once
    [read_status_file()] has loaded that file (into any state whose table
    holds the backend), provided the text is not taken for an old binary
    record.  More generally every backend comes back with the status that
    stands for its line. *)
Theorem connect_wait_restored_as_up (cfg : POOL_CONFIG) (st st_new : State) (i : Z) :
  0 <= i < num_backends cfg ->
  status_of st i = CON_CONNECT_WAIT ->
  status_file st_new = status_file (snd (write_status_file cfg st)) ->
  is_Some (BACKEND_INFO st_new i) ->
  not_legacy cfg (status_lines cfg st) ->
  status_word CON_CONNECT_WAIT = status_word CON_UP
  /\ status_word (status_of st i) = "up"%string
  /\ status_file (snd (write_status_file cfg st)) = Some (status_lines cfg st)
  /\ status_of (snd (read_status_file cfg false st_new)) i = CON_UP
  /\ (forall j, 0 <= j < num_backends cfg -> is_Some (BACKEND_INFO st_new j) ->
        status_of (snd (read_status_file cfg false st_new)) j = restored (status_of st j)).
Proof.
  intros Hi Hs Hfile Hsome Hleg.
  assert (Hw : status_file (snd (write_status_file cfg st)) = Some (status_lines cfg st))
    by (apply (write_status_file_written cfg st i Hi); congruence).
  rewrite Hw in Hfile.
  assert (Hup : prints_up (status_of st i) = true) by (rewrite Hs; reflexivity).
  pose proof (write_then_read cfg st st_new i Hi Hup Hfile Hleg) as Hall.
  split; [reflexivity|]. split; [rewrite Hs; reflexivity|].
  split; [exact Hw|]. split; [|exact Hall].
  rewrite (Hall i Hi Hsome), Hs. reflexivity.
Qed.

Lemma connect_wait_restored_as_up_witness :
  status_word CON_CONNECT_WAIT = status_word CON_UP
  /\ status_word (status_of st_up_waiting 1) = "up"%string
  /\ status_file (snd (write_status_file cfg2 st_up_waiting))
     = Some (status_lines cfg2 st_up_waiting)
  /\ status_of (snd (read_status_file cfg2 false st_restarted)) 1 = CON_UP
  /\ (forall j, 0 <= j < num_backends cfg2 -> is_Some (BACKEND_INFO st_restarted j) ->
        status_of (snd (read_status_file cfg2 false st_restarted)) j
        = restored (status_of st_up_waiting j)).
Proof.
  apply (connect_wait_restored_as_up cfg2 st_up_waiting st_restarted 1).
  - simpl. lia.
  - reflexivity.
  - reflexivity.
  - vm_compute. eauto.
  - intros rec Hrec. discriminate Hrec.
Defined.

(** The file written for one backend up and one waiting, and the statuses
    read back from it. *)
Example status_file_round_trip :
  status_file (snd (write_status_file cfg2 st_up_waiting))
  = Some (String "u" (String "p" (String (ascii_of_nat 10)
            (String "u" (String "p" (String (ascii_of_nat 10) EmptyString))))))
  /\ map backend_status (backend_info (snd (read_status_file cfg2 false st_restarted)))
     = [CON_UP; CON_UP].
Proof. vm_compute. split; reflexivity. Qed.

(** With the usual layout of the old record, no text written by
    [write_status_file()] is taken for such a record: its first entry starts
    with the letter u or d. *)
Lemma status_text_not_legacy_le32 (cfg : POOL_CONFIG) (slots : Z) (st : State) :
  legacy_record cfg = legacy_le32 slots ->
  0 < num_backends cfg ->
  not_legacy cfg (status_lines cfg st).
Proof.
  intros Hleg Hn rec Hrec. left.
  rewrite Hleg in Hrec. unfold legacy_le32 in Hrec.
  destruct (Z.of_nat (String.length (status_lines cfg st)) <? 4 * slots); [discriminate|].
  injection Hrec as <-.
  change (Z.to_nat (4 * 0)) with 0%nat.
  rewrite status_lines_text, seqZ_cons by lia.
  cbn [map list_fmap fmap drop_chars].
  match goal with |- context [status_text (?s :: ?ws)] =>
    change (status_text (s :: ws)) with (status_word s ++ newline ++ status_text ws)%string;
    generalize (status_text ws); intros rest
  end.
  assert (Hnone : forall c, 100 <= c -> status_of_code c = None).
  { intros c Hc. unfold status_of_code.
    repeat match goal with |- context [c =? ?k] =>
      replace (c =? k) with false by (symmetry; apply Z.eqb_neq; lia) end.
    reflexivity. }
  destruct (status_of st 0); simpl;
    try (destruct rest as [|b3 rest]; simpl; [reflexivity|]);
    apply Hnone; unfold byte_value;
    change (Z.of_nat (nat_of_ascii "u")) with 117;
    change (Z.of_nat (nat_of_ascii "d")) with 100; lia.
Qed.

Example short_record_round_trip :
  not_legacy cfg2_short_record (status_lines cfg2_short_record st_up_waiting)
  /\ map backend_status
         (backend_info (snd (read_status_file cfg2_short_record false st_restarted)))
     = [CON_UP; CON_UP].
Proof.
  split.
  - apply (status_text_not_legacy_le32 cfg2_short_record 1); [reflexivity|simpl; lia].
  - vm_compute. reflexivity.
Qed.

(** Scenario 4 of the spec, with three nodes: nodes 0 and 2 answer as
    primaries, node 1 does not answer, detach_false_primary is on.  Node 0
    is trusted, node 2 is marked INVALID, and the early node check asks for
    node 2 to be detached with the flags SWITCHOVER and CONFIRMED. *)
Example split_brain_detected :
  let status := verify_backend_node_status cfg3_detach probe_two_primaries st_three in
  status = [POOL_NODE_STATUS_PRIMARY; POOL_NODE_STATUS_UNUSED; POOL_NODE_STATUS_INVALID]
  /\ find_primary_node cfg3_detach probe_two_primaries st_three = 0
  /\ trace (early_node_check cfg3_detach status st_three) = [EvDegenerateBackendSet 2 5].
Proof. vm_compute. repeat split. Qed.

(** A backend can be flagged as quarantined without being down: an
    ordinary failback request (no UPDATE flag) for the quarantined node 0
    sets its status to CONNECT_WAIT and leaves the flag set. *)
Example quarantined_node_attached :
  let st' := snd (failover_request cfg2 iter_quiet (mkRequest NODE_UP_REQUEST 0 [0] 1)
                    initial_locals st_quarantined) in
  status_of st' 0 = CON_CONNECT_WAIT /\ quarantine_of st' 0 = true.
Proof. vm_compute. split; reflexivity. Qed.

(** * More properties of the code *)

(** ** More about the scanning loops *)

Lemma scan_from_spec (p : Z -> bool) (steps : nat) :
  forall i0,
    i0 <= scan_from p i0 steps <= i0 + Z.of_nat steps
    /\ (forall j, i0 <= j < scan_from p i0 steps -> p j = false)
    /\ (scan_from p i0 steps < i0 + Z.of_nat steps -> p (scan_from p i0 steps) = true).
Proof.
  induction steps as [|k IH]; intros i0; cbn [scan_from].
  - repeat split; lia.
  - destruct (p i0) eqn:Hp.
    + repeat split; try lia. intros _. exact Hp.
    + destruct (IH (i0 + 1)) as (Hr & Hlow & Hhit).
      repeat split; try lia.
      * intros j Hj. destruct (Z.eq_dec j i0) as [->|Hne]; [exact Hp|].
        apply Hlow. lia.
      * intros Hlt. apply Hhit. lia.
Qed.

Lemma for_break_spec (p : Z -> bool) (n : Z) :
  0 <= n ->
  0 <= for_break p n <= n
  /\ (forall j, 0 <= j < for_break p n -> p j = false)
  /\ (for_break p n < n -> p (for_break p n) = true).
Proof.
  intros Hn. unfold for_break.
  destruct (scan_from_spec p (Z.to_nat n) 0) as (Hr & Hlow & Hhit).
  rewrite Z2Nat.id in * by lia. repeat split; try lia; auto.
Qed.

(** X1. [get_next_main_node()] returns the lowest-numbered valid backend,
    and -1 exactly when no configured backend is valid. *)
Theorem get_next_main_node_lowest_valid (cfg : POOL_CONFIG) (st : State) :
  0 <= num_backends cfg ->
  (get_next_main_node cfg st = -1
   /\ forall j, 0 <= j < num_backends cfg -> VALID_BACKEND st j = false)
  \/ (0 <= get_next_main_node cfg st < num_backends cfg
      /\ VALID_BACKEND st (get_next_main_node cfg st) = true
      /\ forall j, 0 <= j < get_next_main_node cfg st -> VALID_BACKEND st j = false).
Proof.
  intros Hn. unfold get_next_main_node.
  set (p := fun i : Z => if RAW_MODE cfg then VALID_BACKEND_RAW st i else VALID_BACKEND st i).
  assert (Hp : forall i, p i = VALID_BACKEND st i).
  { intros i. unfold p, VALID_BACKEND_RAW. destruct (RAW_MODE cfg); reflexivity. }
  destruct (for_break_spec p (num_backends cfg) Hn) as (Hr & Hlow & Hhit).
  destruct (for_break p (num_backends cfg) =? num_backends cfg) eqn:He.
  - apply Z.eqb_eq in He. left. split; [reflexivity|].
    intros j Hj. rewrite <- Hp. apply Hlow. lia.
  - apply Z.eqb_neq in He. right. repeat split; try lia.
    + rewrite <- Hp. apply Hhit. lia.
    + intros j Hj. rewrite <- Hp. apply Hlow. lia.
Qed.

Lemma get_next_main_node_lowest_valid_witness :
  0 <= num_backends cfg2
  /\ ((get_next_main_node cfg2 st_up_up = -1
       /\ forall j, 0 <= j < num_backends cfg2 -> VALID_BACKEND st_up_up j = false)
      \/ (0 <= get_next_main_node cfg2 st_up_up < num_backends cfg2
          /\ VALID_BACKEND st_up_up (get_next_main_node cfg2 st_up_up) = true
          /\ forall j, 0 <= j < get_next_main_node cfg2 st_up_up ->
                       VALID_BACKEND st_up_up j = false)).
Proof.
  split; [vm_compute; discriminate|].
  apply (get_next_main_node_lowest_valid cfg2 st_up_up). vm_compute. discriminate.
Defined.
(** ** More about the follow-primary lock *)

Lemma acquire_attempt_keeps_lock_ok (block remote_request : bool) (q : POOL_REQUEST_INFO) :
  lock_ok q ->
  match acquire_attempt block remote_request q with
  | Acquired q' =>
      lock_ok q' /\ follow_primary_count q' = 1
      /\ follow_primary_lock_held_remotely q' = remote_request
  | Refused q' => lock_ok q' /\ 0 < follow_primary_count q'
  | Sleep q' => q' = q
  end.
Proof.
  intros Hq. unfold acquire_attempt.
  destruct (follow_primary_count q <=? 0) eqn:Hc.
  - apply Z.leb_le in Hc. destruct Hq as [(H0 & Hh & Hp)|(H1 & Hhp)]; [|lia].
    cbn. repeat split; try reflexivity. right. cbn. rewrite Hp.
    split; [reflexivity|apply andb_false_r].
  - apply Z.leb_gt in Hc. destruct Hq as [(H0 & Hh & Hp)|(H1 & Hhp)]; [lia|].
    destruct remote_request.
    + destruct (follow_primary_lock_held_remotely q) eqn:Hh.
      * split; [right; split; [exact H1|rewrite Hh; exact Hhp]|lia].
      * cbn. split; [|lia]. right. cbn. auto.
    + destruct block; cbn; [reflexivity|]. split; [right; auto|lia].
Qed.

Lemma release_keeps_lock_ok (remote_request : bool) (q : POOL_REQUEST_INFO) :
  lock_ok q -> lock_ok (pool_release_follow_primary_lock remote_request q).
Proof.
  intros Hq. unfold pool_release_follow_primary_lock.
  destruct remote_request.
  - destruct (follow_primary_lock_held_remotely q) eqn:Hh.
    + left. cbn. auto.
    + destruct Hq as [(H0 & _ & Hp)|(H1 & Hhp)].
      * left. cbn. auto.
      * right. cbn. auto.
  - destruct (follow_primary_lock_pending q) eqn:Hp.
    + right. cbn. auto.
    + left. cbn. auto.
Qed.

(** X2. The follow-primary lock keeps its shape: starting from a lock that is
    free (count 0, nothing recorded) or held once, every release and every
    finished acquisition leaves it free or held once, never both held
    remotely and awaited by a remote request; a successful acquisition
    leaves the count at 1 and records whether the holder is remote. *)
Theorem follow_primary_lock_keeps_shape
    (others : nat -> POOL_REQUEST_INFO -> POOL_REQUEST_INFO)
    (block remote_request : bool) :
  (forall k q, lock_ok q -> lock_ok (others k q)) ->
  forall (fuel k : nat) (q : POOL_REQUEST_INFO),
    lock_ok q ->
    lock_ok (pool_release_follow_primary_lock remote_request q)
    /\ forall b q',
         pool_acquire_follow_primary_lock others fuel k block remote_request q
         = Done (b, q') ->
         lock_ok q'
         /\ 0 < follow_primary_count q'
         /\ (b = true ->
             follow_primary_count q' = 1
             /\ follow_primary_lock_held_remotely q' = remote_request).
Proof.
  intros Hothers fuel k q Hq. split; [apply release_keeps_lock_ok; exact Hq|].
  revert k q Hq. induction fuel as [|fuel IH]; intros k q Hq b q' Hrun.
  - discriminate.
  - cbn [pool_acquire_follow_primary_lock] in Hrun.
    pose proof (acquire_attempt_keeps_lock_ok block remote_request q Hq) as Ha.
    destruct (acquire_attempt block remote_request q) as [q1|q1|q1].
    + inversion Hrun; subst. destruct Ha as (H1 & H2 & H3).
      repeat split; auto. lia.
    + inversion Hrun; subst. destruct Ha as (H1 & H2).
      repeat split; auto; discriminate.
    + subst q1. apply (IH (S k) (others k q)); [apply Hothers; exact Hq|exact Hrun].
Qed.

Lemma follow_primary_lock_keeps_shape_witness :
  lock_ok (pool_release_follow_primary_lock true req_locked)
  /\ forall b q',
       pool_acquire_follow_primary_lock no_interference 3 0 false true req_locked
       = Done (b, q') ->
       lock_ok q'
       /\ 0 < follow_primary_count q'
       /\ (b = true ->
           follow_primary_count q' = 1
           /\ follow_primary_lock_held_remotely q' = true).
Proof.
  apply (follow_primary_lock_keeps_shape no_interference false true).
  - intros k q Hq. exact Hq.
  - right. split; reflexivity.
Defined.

(** X3. Taking the free lock and giving it back is a round trip: after an
    acquisition (local or remote) followed by the matching release, the
    shared lock fields are exactly what they were. *)
Theorem follow_primary_lock_round_trip
    (others : nat -> POOL_REQUEST_INFO -> POOL_REQUEST_INFO) (fuel k : nat)
    (block remote_request : bool) (q : POOL_REQUEST_INFO) :
  (0 < fuel)%nat ->
  follow_primary_count q = 0 ->
  follow_primary_lock_held_remotely q = false ->
  follow_primary_lock_pending q = false ->
  exists q1,
    pool_acquire_follow_primary_lock others fuel k block remote_request q = Done (true, q1)
    /\ follow_primary_count q1 = 1
    /\ pool_release_follow_primary_lock remote_request q1 = q.
Proof.
  intros Hfuel Hc Hh Hp. destruct fuel as [|fuel]; [lia|].
  cbn [pool_acquire_follow_primary_lock]. unfold acquire_attempt.
  rewrite Hc. cbn. eexists. split; [reflexivity|]. split; [reflexivity|].
  unfold pool_release_follow_primary_lock. destruct q; cbn in *. subst.
  destruct remote_request; reflexivity.
Qed.

Lemma follow_primary_lock_round_trip_witness :
  exists q1,
    pool_acquire_follow_primary_lock no_interference 1 0 true false (req_init 0)
    = Done (true, q1)
    /\ follow_primary_count q1 = 1
    /\ pool_release_follow_primary_lock false q1 = req_init 0.
Proof.
  apply (follow_primary_lock_round_trip no_interference 1 0 true false (req_init 0));
    [lia|reflexivity|reflexivity|reflexivity].
Defined.

(** X4. A remote request that found the lock held locally and is then
    withdrawn by a remote release gets nothing: the local holder keeps the
    lock through the remote release, and the local release that follows
    frees the lock instead of handing it over. *)
Theorem withdrawn_remote_request_gets_nothing
    (others : nat -> POOL_REQUEST_INFO -> POOL_REQUEST_INFO) (fuel k : nat)
    (block : bool) (q : POOL_REQUEST_INFO) :
  (0 < fuel)%nat ->
  0 < follow_primary_count q ->
  follow_primary_lock_held_remotely q = false ->
  exists q1,
    pool_acquire_follow_primary_lock others fuel k block true q = Done (false, q1)
    /\ follow_primary_lock_pending q1 = true
    /\ let q2 := pool_release_follow_primary_lock true q1 in
       follow_primary_count q2 = follow_primary_count q
       /\ follow_primary_lock_held_remotely q2 = false
       /\ follow_primary_lock_pending q2 = false
       /\ let q3 := pool_release_follow_primary_lock false q2 in
          follow_primary_count q3 = 0
          /\ follow_primary_lock_held_remotely q3 = false
          /\ follow_primary_lock_pending q3 = false.
Proof.
  intros Hfuel Hc Hh. destruct fuel as [|fuel]; [lia|].
  cbn [pool_acquire_follow_primary_lock]. unfold acquire_attempt.
  replace (follow_primary_count q <=? 0) with false by (symmetry; apply Z.leb_gt; lia).
  rewrite Hh. eexists. split; [reflexivity|]. split; [reflexivity|].
  unfold pool_release_follow_primary_lock. cbn. repeat split.
Qed.

Lemma withdrawn_remote_request_gets_nothing_witness :
  exists q1,
    pool_acquire_follow_primary_lock no_interference 1 0 true true req_locked
    = Done (false, q1)
    /\ follow_primary_lock_pending q1 = true
    /\ let q2 := pool_release_follow_primary_lock true q1 in
       follow_primary_count q2 = follow_primary_count req_locked
       /\ follow_primary_lock_held_remotely q2 = false
       /\ follow_primary_lock_pending q2 = false
       /\ let q3 := pool_release_follow_primary_lock false q2 in
          follow_primary_count q3 = 0
          /\ follow_primary_lock_held_remotely q3 = false
          /\ follow_primary_lock_pending q3 = false.
Proof.
  apply (withdrawn_remote_request_gets_nothing no_interference 1 0 true req_locked);
    [lia|reflexivity|reflexivity].
Defined.

(** X5. A blocking local acquisition polls until the lock is free: when the
    lock is held at the caller's first [n] looks and free at the next one,
    the call returns true with the lock as found at that look, now held
    locally with count 1, provided the bound on the number of looks allows
    [n + 1] of them. *)
Theorem blocking_acquire_waits_for_release
    (others : nat -> POOL_REQUEST_INFO -> POOL_REQUEST_INFO) :
  forall (n fuel k : nat) (q : POOL_REQUEST_INFO),
    (n < fuel)%nat ->
    (forall j, (j < n)%nat -> 0 < follow_primary_count (lock_at_poll others k j q)) ->
    follow_primary_count (lock_at_poll others k n q) <= 0 ->
    pool_acquire_follow_primary_lock others fuel k true false q
    = Done (true,
            with_lock 1 false
              (follow_primary_lock_pending (lock_at_poll others k n q))
              (lock_at_poll others k n q)).
Proof.
  induction n as [|n IH]; intros fuel k q Hfuel Hheld Hfree.
  - destruct fuel as [|fuel]; [lia|]. cbn in *.
    unfold acquire_attempt.
    replace (follow_primary_count q <=? 0) with true by (symmetry; apply Z.leb_le; lia).
    reflexivity.
  - destruct fuel as [|fuel]; [lia|].
    cbn [pool_acquire_follow_primary_lock]. unfold acquire_attempt.
    pose proof (Hheld O ltac:(lia)) as H0. cbn in H0.
    replace (follow_primary_count q <=? 0) with false by (symmetry; apply Z.leb_gt; lia).
    cbn. cbn [lock_at_poll] in Hfree.
    apply IH; [lia| |exact Hfree].
    intros j Hj. apply (Hheld (S j)). lia.
Qed.

Lemma blocking_acquire_waits_for_release_witness :
  pool_acquire_follow_primary_lock holder_releases 3 0 true false req_locked
  = Done (true,
          with_lock 1 false
            (follow_primary_lock_pending (lock_at_poll holder_releases 0 2 req_locked))
            (lock_at_poll holder_releases 0 2 req_locked)).
Proof.
  apply (blocking_acquire_waits_for_release holder_releases 2 3 0 req_locked).
  - lia.
  - intros j Hj. destruct j as [|[|j]]; [reflexivity|reflexivity|lia].
  - vm_compute. discriminate.
Defined.
(** ** More about the request queue *)

Lemma pending_signal (cfg : POOL_CONFIG) (reason : User1SignalReason) (st : State) :
  pending cfg (signal_user1_to_parent_with_reason reason st) = pending cfg st.
Proof. reflexivity. Qed.

Lemma producer_request_room (cfg : POOL_CONFIG) (k : POOL_REQUEST_KIND) (ns : list Z)
    (f : Z) (st : State) :
  queue_ok cfg st ->
  queue_size st < MAX_REQUEST_QUEUE_SIZE cfg ->
  let st' := snd (producer_request cfg k ns f st) in
  fst (producer_request cfg k ns f st) = true
  /\ queue_ok cfg st'
  /\ pending cfg st' = pending cfg st ++ [slot_of k ns f]
  /\ queue_size st' = queue_size st + 1
  /\ backend_info st' = backend_info st.
Proof.
  intros Hok Hroom.
  destruct (enqueue_room cfg k ns f st Hok Hroom)
    as (st1 & He & Hok1 & Hp & _ & Hs & _ & _ & _ & Hb & _).
  unfold producer_request. rewrite He.
  destruct (Req_switching (Req_info st)); cbn [fst snd];
    (split; [reflexivity|]); (split; [exact Hok1|]); (split; [exact Hp|]);
    (split; [exact Hs|exact Hb]).
Qed.

Lemma producer_request_full (cfg : POOL_CONFIG) (k : POOL_REQUEST_KIND) (ns : list Z)
    (f : Z) (st : State) :
  queue_size st = MAX_REQUEST_QUEUE_SIZE cfg ->
  producer_request cfg k ns f st = (false, st).
Proof.
  intros Hfull. unfold producer_request. rewrite (enqueue_full cfg k ns f st Hfull).
  reflexivity.
Qed.

Lemma producers_pending (cfg : POOL_CONFIG) (rs : list POOL_REQUEST_NODE) :
  forall st,
    queue_ok cfg st ->
    let st' := producers cfg rs st in
    queue_ok cfg st'
    /\ pending cfg st'
       = pending cfg st
         ++ take (Z.to_nat (MAX_REQUEST_QUEUE_SIZE cfg - queue_size st)) (map stored rs)
    /\ queue_size st'
       = Z.min (MAX_REQUEST_QUEUE_SIZE cfg) (queue_size st + Z.of_nat (length rs))
    /\ backend_info st' = backend_info st.
Proof.
  induction rs as [|r rs IH]; intros st Hok; cbn [producers fold_left map length].
  - assert (Hs : 0 <= queue_size st <= MAX_REQUEST_QUEUE_SIZE cfg) by apply Hok.
    split; [exact Hok|]. split; [|split; [cbn; lia|reflexivity]].
    rewrite firstn_nil, app_nil_r. reflexivity.
  - change (fold_left _ rs ?s) with (producers cfg rs s).
    assert (Hs : 0 <= queue_size st <= MAX_REQUEST_QUEUE_SIZE cfg) by apply Hok.
    destruct (Z.eq_dec (queue_size st) (MAX_REQUEST_QUEUE_SIZE cfg)) as [Hfull|Hroom].
    + rewrite producer_request_full by exact Hfull. cbn [snd].
      destruct (IH st Hok) as (Hok' & Hp & Hsz & Hb).
      split; [exact Hok'|]. rewrite Hp, Hsz, Hfull, Z.sub_diag.
      split; [reflexivity|]. split; [lia|exact Hb].
    + destruct (producer_request_room cfg (kind r) (node_id r) (request_details r) st Hok)
        as (_ & Hok1 & Hp1 & Hs1 & Hb1); [lia|].
      destruct (IH _ Hok1) as (Hok' & Hp & Hsz & Hb).
      split; [exact Hok'|]. rewrite Hp, Hsz, Hp1, Hs1, Hb, Hb1.
      split; [|split; [lia|reflexivity]].
      rewrite <- app_assoc. f_equal.
      replace (Z.to_nat (MAX_REQUEST_QUEUE_SIZE cfg - queue_size st))
        with (S (Z.to_nat (MAX_REQUEST_QUEUE_SIZE cfg - (queue_size st + 1)))) by lia.
      reflexivity.
Qed.

(** X6. Requests offered to the queue one after another are stored in the
    order offered for as long as there is room; the ones that find the queue
    full are refused and leave no trace in it, those already waiting are
    kept, and the backend table is not touched. *)
Theorem producers_store_what_fits (cfg : POOL_CONFIG) (rs : list POOL_REQUEST_NODE)
    (st : State) :
  queue_ok cfg st ->
  pending cfg (producers cfg rs st)
  = pending cfg st
    ++ take (Z.to_nat (MAX_REQUEST_QUEUE_SIZE cfg - queue_size st)) (map stored rs)
  /\ queue_size (producers cfg rs st)
     = Z.min (MAX_REQUEST_QUEUE_SIZE cfg) (queue_size st + Z.of_nat (length rs))
  /\ backend_info (producers cfg rs st) = backend_info st.
Proof.
  intros Hok. destruct (producers_pending cfg rs st Hok) as (_ & Hp & Hs & Hb).
  auto.
Qed.

Lemma producers_store_what_fits_witness :
  pending cfg2 (producers cfg2 [mkRequest NODE_UP_REQUEST 0 [1] 1] st_full)
  = pending cfg2 st_full
    ++ take (Z.to_nat (MAX_REQUEST_QUEUE_SIZE cfg2 - queue_size st_full))
            (map stored [mkRequest NODE_UP_REQUEST 0 [1] 1])
  /\ queue_size (producers cfg2 [mkRequest NODE_UP_REQUEST 0 [1] 1] st_full)
     = Z.min (MAX_REQUEST_QUEUE_SIZE cfg2)
             (queue_size st_full + Z.of_nat (length [mkRequest NODE_UP_REQUEST 0 [1] 1]))
  /\ backend_info (producers cfg2 [mkRequest NODE_UP_REQUEST 0 [1] 1] st_full)
     = backend_info st_full.
Proof.
  apply (producers_store_what_fits cfg2 [mkRequest NODE_UP_REQUEST 0 [1] 1] st_full).
  vm_compute. repeat split; discriminate.
Defined.


(** ** More about the status file *)

Lemma for_break_none (p : Z -> bool) (n : Z) :
  0 <= n -> (forall i, 0 <= i < n -> p i = false) -> for_break p n = n.
Proof.
  intros Hn Hall. destruct (for_break_spec p n Hn) as (Hr & _ & Hhit).
  destruct (Z.eq_dec (for_break p n) n) as [He|Hne]; [exact He|].
  assert (Hlt : for_break p n < n) by lia.
  rewrite Hall in Hhit by lia. specialize (Hhit Hlt). discriminate.
Qed.

(** X8. [write_status_file()] never records that every backend is down:
    when all configured backends are DOWN it returns 0 without touching the
    file, so the file written last (or the absence of a file) stays. *)
Theorem write_status_file_all_down (cfg : POOL_CONFIG) (st : State) :
  0 < num_backends cfg ->
  (forall i, 0 <= i < num_backends cfg -> status_of st i = CON_DOWN) ->
  write_status_file cfg st = (0, st).
Proof.
  intros Hn Hall. unfold write_status_file.
  rewrite for_break_none; [|lia|].
  - rewrite Z.eqb_refl. replace (num_backends cfg =? 0) with false
      by (symmetry; apply Z.eqb_neq; lia).
    reflexivity.
  - intros i Hi. rewrite (Hall i Hi). reflexivity.
Qed.

Lemma write_status_file_all_down_witness :
  write_status_file cfg2 st_down_down = (0, st_down_down).
Proof.
  apply (write_status_file_all_down cfg2 st_down_down).
  - reflexivity.
  - intros i Hi. assert (Hc : i = 0 \/ i = 1) by (simpl in Hi; lia).
    destruct Hc as [-> | ->]; reflexivity.
Defined.

Lemma status_of_set_all_status (s : BACKEND_STATUS) (n : Z) (st : State) (j : Z) :
  0 <= j < n -> is_Some (BACKEND_INFO st j) ->
  status_of (set_all_status s n st) j = s.
Proof.
  intros Hj Hsome. unfold set_all_status.
  assert (Hgen : forall idx st0,
             is_Some (BACKEND_INFO st0 j) ->
             (j ∈ idx \/ status_of st0 j = s) ->
             status_of (fold_left (fun st i => set_status i s st) idx st0) j = s).
  { induction idx as [|i idx IH]; intros st0 Hs0 Hin; cbn [fold_left].
    - destruct Hin as [Hin|Heq]; [inversion Hin|exact Heq].
    - apply IH; [apply is_Some_set_status; exact Hs0|].
      destruct (Z.eq_dec i j) as [->|Hne].
      + right. apply status_of_set_status_eq. exact Hs0.
      + destruct Hin as [Hin|Heq].
        * left. apply elem_of_cons in Hin. destruct Hin as [Hin|Hin]; [congruence|exact Hin].
        * right. rewrite status_of_set_status_ne by exact Hne. exact Heq. }
  apply Hgen; [exact Hsome|]. left. apply elem_of_seqZ. lia.
Qed.

Lemma is_Some_restore_from (ws : list BACKEND_STATUS) :
  forall (k j : Z) (st : State),
    is_Some (BACKEND_INFO (restore_from k ws st) j) <-> is_Some (BACKEND_INFO st j).
Proof.
  induction ws as [|s ws IH]; intros k j st; cbn [restore_from]; [reflexivity|].
  rewrite IH. apply is_Some_set_status.
Qed.

(** X9. A status file in which no line says "up" is not believed: after
    [read_status_file()] has read such a file (only "down" and "unused"
    lines, or no line at all) every configured backend is in CONNECT_WAIT,
    and the call returns 0. *)
Theorem read_status_file_nobody_up (cfg : POOL_CONFIG) (ws : list BACKEND_STATUS)
    (st : State) :
  0 < num_backends cfg ->
  status_file st = Some (status_text ws) ->
  existsb prints_up ws = false ->
  not_legacy cfg (status_text ws) ->
  fst (read_status_file cfg false st) = 0
  /\ forall j, 0 <= j < num_backends cfg -> is_Some (BACKEND_INFO st j) ->
               status_of (snd (read_status_file cfg false st)) j = CON_CONNECT_WAIT.
Proof.
  intros Hn Hfile Hnoup Hleg.
  unfold read_status_file. rewrite Hfile.
  assert (Hold : match legacy_record cfg (status_text ws) with
                 | Some rec => read_old_format cfg rec (seqZ 0 (num_backends cfg)) false st
                 | None => (false, false, st)
                 end = (false, false, st)).
  { destruct (legacy_record cfg (status_text ws)) as [rec|] eqn:Hrec; [|reflexivity].
    apply read_old_format_rejects; [lia|]. apply Hleg. exact Hrec. }
  rewrite Hold. rewrite Hfile.
  rewrite read_status_text by (pose proof (status_text_length ws); lia).
  rewrite Hnoup. cbn [orb].
  split; [reflexivity|].
  intros j Hj Hsome. cbn [snd].
  rewrite (status_of_ext _ _ _ (backend_info_write_status_file _ _)).
  apply status_of_set_all_status; [exact Hj|].
  apply is_Some_restore_from, is_Some_set_all_status. exact Hsome.
Qed.

Lemma read_status_file_nobody_up_witness :
  fst (read_status_file cfg2 false st_restarted_all_down) = 0
  /\ forall j, 0 <= j < num_backends cfg2 ->
               is_Some (BACKEND_INFO st_restarted_all_down j) ->
               status_of (snd (read_status_file cfg2 false st_restarted_all_down)) j
               = CON_CONNECT_WAIT.
Proof.
  apply (read_status_file_nobody_up cfg2 [CON_DOWN; CON_DOWN] st_restarted_all_down).
  - reflexivity.
  - reflexivity.
  - reflexivity.
  - intros rec Hrec. discriminate Hrec.
Defined.
(** ** More about the primary finder *)

Lemma classify_length (cfg : POOL_CONFIG) (pr : Probe) (st : State) :
  length (classify cfg pr st) = Z.to_nat (num_backends cfg).
Proof. unfold classify. rewrite length_map. apply length_seqZ. Qed.

Lemma classify_lookup (cfg : POOL_CONFIG) (pr : Probe) (st : State) (j : nat)
    (s : POOL_NODE_STATUS) :
  classify cfg pr st !! j = Some s ->
  0 <= Z.of_nat j < num_backends cfg /\ s = classify_node pr st (Z.of_nat j).
Proof.
  intros Hj.
  assert (Hlt : (j < Z.to_nat (num_backends cfg))%nat).
  { rewrite <- (classify_length cfg pr st). apply lookup_lt_is_Some. eauto. }
  split; [lia|].
  unfold classify in Hj.
  change (map (classify_node pr st)) with (fmap (M := list) (classify_node pr st)) in Hj.
  rewrite list_lookup_fmap, lookup_seqZ_lt in Hj by lia.
  cbn in Hj. injection Hj as <-. reflexivity.
Qed.

Lemma node_status_at_lookup (l : list POOL_NODE_STATUS) (j : nat) (s : POOL_NODE_STATUS) :
  l !! j = Some s -> node_status_at l (Z.of_nat j) = s.
Proof.
  intros Hj. unfold node_status_at.
  replace (Z.of_nat j <? 0) with false by (symmetry; apply Z.ltb_ge; lia).
  rewrite Nat2Z.id, Hj. reflexivity.
Qed.

Lemma keep_first_primary_lookup (cfg : POOL_CONFIG) (l : list POOL_NODE_STATUS) :
  forall (j : nat) (s : POOL_NODE_STATUS),
    l !! j = Some s ->
    keep_first_primary cfg l !! j = Some s
    \/ (s = POOL_NODE_STATUS_PRIMARY
        /\ keep_first_primary cfg l !! j = Some (false_primary_mark cfg)).
Proof.
  induction l as [|x l IH]; intros j s Hj; [discriminate|].
  cbn [keep_first_primary].
  destruct (bool_decide (x = POOL_NODE_STATUS_PRIMARY)) eqn:Hx.
  - destruct j as [|j]; [left; exact Hj|].
    change ((x :: l) !! S j) with (l !! j) in Hj.
    repeat match goal with |- context [(x :: ?t) !! S j] =>
      change ((x :: t) !! S j) with (t !! j) end.
    change (map ?f l) with (fmap (M := list) f l).
    rewrite list_lookup_fmap, Hj. cbn.
    destruct (bool_decide (s = POOL_NODE_STATUS_PRIMARY)) eqn:Hs.
    + right. apply bool_decide_eq_true in Hs. auto.
    + left. reflexivity.
  - destruct j as [|j]; [left; exact Hj|].
    change ((x :: l) !! S j) with (l !! j) in Hj.
    repeat match goal with |- context [(x :: ?t) !! S j] =>
      change ((x :: t) !! S j) with (t !! j) end.
    apply IH. exact Hj.
Qed.

Lemma true_primary_spec (cfg : POOL_CONFIG) (pr : Probe) (st : State)
    (l : list POOL_NODE_STATUS) :
  true_primary cfg pr st l = -1
  \/ (0 <= true_primary cfg pr st l < num_backends cfg
      /\ node_status_at l (true_primary cfg pr st l) = POOL_NODE_STATUS_PRIMARY
      /\ owned_standbys cfg pr st l (true_primary cfg pr st l)
         = count_status POOL_NODE_STATUS_STANDBY l).
Proof.
  unfold true_primary.
  set (good := fun i : Z =>
         0 <= i < num_backends cfg
         /\ node_status_at l i = POOL_NODE_STATUS_PRIMARY
         /\ owned_standbys cfg pr st l i = count_status POOL_NODE_STATUS_STANDBY l).
  assert (Hgen : forall idx acc,
             (forall i, i ∈ idx -> 0 <= i < num_backends cfg) ->
             acc = -1 \/ good acc ->
             let r := fold_left
                        (fun acc i =>
                           if VALID_BACKEND st i
                              && bool_decide (node_status_at l i = POOL_NODE_STATUS_PRIMARY)
                              && (owned_standbys cfg pr st l i
                                  =? count_status POOL_NODE_STATUS_STANDBY l)
                           then i else acc) idx acc in
             r = -1 \/ good r).
  { induction idx as [|i idx IH]; intros acc Hidx Hacc; cbn [fold_left]; [exact Hacc|].
    apply IH; [intros k Hk; apply Hidx; right; exact Hk|].
    destruct (VALID_BACKEND st i
              && bool_decide (node_status_at l i = POOL_NODE_STATUS_PRIMARY)
              && (owned_standbys cfg pr st l i
                  =? count_status POOL_NODE_STATUS_STANDBY l)) eqn:Hc; [|exact Hacc].
    right. apply andb_prop in Hc. destruct Hc as (Hc & Ho).
    apply andb_prop in Hc. destruct Hc as (_ & Hp).
    apply bool_decide_eq_true in Hp. apply Z.eqb_eq in Ho.
    split; [apply Hidx; left|auto]. }
  apply Hgen; [|left; reflexivity].
  intros i Hi. apply elem_of_seqZ in Hi. lia.
Qed.

Lemma verify_lookup (cfg : POOL_CONFIG) (pr : Probe) (st : State) (j : nat)
    (s : POOL_NODE_STATUS) :
  classify cfg pr st !! j = Some s ->
  verify_backend_node_status cfg pr st !! j = Some s
  \/ (s = POOL_NODE_STATUS_PRIMARY
      /\ verify_backend_node_status cfg pr st !! j = Some (false_primary_mark cfg)).
Proof.
  intros Hj. unfold verify_backend_node_status.
  set (l := classify cfg pr st) in *.
  destruct (count_status POOL_NODE_STATUS_PRIMARY l =? 0); [left; exact Hj|].
  destruct (count_status POOL_NODE_STATUS_STANDBY l =? 0).
  { destruct (count_status POOL_NODE_STATUS_PRIMARY l =? 1); [left; exact Hj|].
    apply keep_first_primary_lookup. exact Hj. }
  destruct (detach_false_primary cfg) eqn:Hd; cbn [negb]; [|left; exact Hj].
  destruct (negb (existsb _ _)); [left; exact Hj|].
  destruct (classify_lookup cfg pr st j s Hj) as (Hrange & _).
  change (map ?f (seqZ 0 (num_backends cfg)))
    with (fmap (M := list) f (seqZ 0 (num_backends cfg))).
  rewrite list_lookup_fmap, lookup_seqZ_lt by lia. cbn [fmap option_fmap option_map].
  rewrite Z.add_0_l, (node_status_at_lookup l j s Hj).
  match goal with |- context [if ?c then _ else _] => destruct c eqn:Hc end.
  - right. split.
    + repeat (apply andb_prop in Hc; destruct Hc as (Hc & _)).
      apply bool_decide_eq_true in Hc. exact Hc.
    + unfold false_primary_mark. rewrite Hd. reflexivity.
  - left. reflexivity.
Qed.

(** X10. The verification of the probed roles changes the entries of
    primaries only: it returns one entry per configured backend, an entry
    that was not classified PRIMARY keeps its classification, and an entry
    classified PRIMARY either stays PRIMARY or becomes INVALID
    (detach_false_primary on) or UNUSED (off). *)
Theorem verification_changes_only_primaries (cfg : POOL_CONFIG) (pr : Probe) (st : State) :
  length (verify_backend_node_status cfg pr st) = length (classify cfg pr st)
  /\ forall (j : nat) (s : POOL_NODE_STATUS),
       classify cfg pr st !! j = Some s ->
       verify_backend_node_status cfg pr st !! j = Some s
       \/ (s = POOL_NODE_STATUS_PRIMARY
           /\ verify_backend_node_status cfg pr st !! j
              = Some (if detach_false_primary cfg then POOL_NODE_STATUS_INVALID
                      else POOL_NODE_STATUS_UNUSED)).
Proof.
  split; [|intros j s Hj; exact (verify_lookup cfg pr st j s Hj)].
  apply Nat.le_antisymm.
  - destruct (Nat.le_gt_cases (length (verify_backend_node_status cfg pr st))
                              (length (classify cfg pr st))) as [H|H]; [exact H|].
    exfalso.
    destruct (lookup_lt_is_Some_2 (verify_backend_node_status cfg pr st)
                (length (classify cfg pr st)) H) as (x & Hx).
    revert Hx. unfold verify_backend_node_status.
    assert (Hk := keep_first_primary_length cfg (classify cfg pr st)).
    assert (Hnone : forall l : list POOL_NODE_STATUS,
               length l = length (classify cfg pr st) ->
               l !! length (classify cfg pr st) = Some x -> False).
    { intros l Hl Hx. apply lookup_lt_Some in Hx. lia. }
    repeat match goal with |- context [if ?c then _ else _] => destruct c end;
      apply Hnone; auto.
    rewrite length_map, length_seqZ. symmetry. apply classify_length.
  - destruct (Nat.le_gt_cases (length (classify cfg pr st))
                              (length (verify_backend_node_status cfg pr st)))
      as [H|H]; [exact H|].
    exfalso.
    destruct (lookup_lt_is_Some_2 (classify cfg pr st)
                (length (verify_backend_node_status cfg pr st)) H) as (x & Hx).
    destruct (verify_lookup cfg pr st _ x Hx) as [Hv|(_ & Hv)];
      apply lookup_lt_Some in Hv; lia.
Qed.

(** X11. The verification never leaves the cluster without a primary: if
    some backend was classified PRIMARY, some backend is still PRIMARY
    after [verify_backend_node_status()]. *)
Theorem verification_keeps_a_primary (cfg : POOL_CONFIG) (pr : Probe) (st : State) :
  In POOL_NODE_STATUS_PRIMARY (classify cfg pr st) ->
  In POOL_NODE_STATUS_PRIMARY (verify_backend_node_status cfg pr st).
Proof.
  intros Hin. unfold verify_backend_node_status.
  set (l := classify cfg pr st) in *.
  destruct (count_status POOL_NODE_STATUS_PRIMARY l =? 0); [exact Hin|].
  destruct (count_status POOL_NODE_STATUS_STANDBY l =? 0).
  { destruct (count_status POOL_NODE_STATUS_PRIMARY l =? 1); [exact Hin|].
    destruct (keep_first_primary_spec cfg l Hin) as (k & _ & _ & Hk & _).
    apply list_elem_of_In. apply list_elem_of_lookup. exists k. exact Hk. }
  destruct (detach_false_primary cfg) eqn:Hd; cbn [negb]; [|exact Hin].
  destruct (negb (existsb _ _)); [exact Hin|].
  apply list_elem_of_In, list_elem_of_lookup in Hin. destruct Hin as (k & Hk).
  destruct (classify_lookup cfg pr st k _ Hk) as (Hrange & _).
  pose proof (node_status_at_lookup l k _ Hk) as Hat.
  destruct (true_primary_spec cfg pr st l) as [Htp|(Hr & Hp & Ho)].
  - apply in_map_iff. exists (Z.of_nat k). split.
    + rewrite Htp, Hat. cbn. rewrite andb_false_r. reflexivity.
    + apply list_elem_of_In, elem_of_seqZ. lia.
  - apply in_map_iff. exists (true_primary cfg pr st l). split.
    + rewrite Hp, Ho, Z.ltb_irrefl. rewrite andb_false_r. reflexivity.
    + apply list_elem_of_In, elem_of_seqZ. lia.
Qed.

Lemma verification_keeps_a_primary_witness :
  In POOL_NODE_STATUS_PRIMARY
     (verify_backend_node_status cfg3_detach probe_two_primaries_one_standby st_three).
Proof.
  apply (verification_keeps_a_primary cfg3_detach probe_two_primaries_one_standby st_three).
  vm_compute. left. reflexivity.
Defined.

Lemma verification_changes_only_primaries_witness :
  length (verify_backend_node_status cfg3_detach probe_two_primaries st_three)
  = length (classify cfg3_detach probe_two_primaries st_three)
  /\ forall (j : nat) (s : POOL_NODE_STATUS),
       classify cfg3_detach probe_two_primaries st_three !! j = Some s ->
       verify_backend_node_status cfg3_detach probe_two_primaries st_three !! j = Some s
       \/ (s = POOL_NODE_STATUS_PRIMARY
           /\ verify_backend_node_status cfg3_detach probe_two_primaries st_three !! j
              = Some (if detach_false_primary cfg3_detach then POOL_NODE_STATUS_INVALID
                      else POOL_NODE_STATUS_UNUSED)).
Proof.
  apply (verification_changes_only_primaries cfg3_detach probe_two_primaries st_three).
Defined.

Lemma last_primary_spec (n : Z) (status : list POOL_NODE_STATUS) :
  let r := fold_left
             (fun primary i =>
                if bool_decide (node_status_at status i = POOL_NODE_STATUS_PRIMARY)
                then i else primary)
             (seqZ 0 n) (-1) in
  r = -1
  \/ (0 <= r < n /\ node_status_at status r = POOL_NODE_STATUS_PRIMARY).
Proof.
  set (good := fun i : Z =>
         0 <= i < n /\ node_status_at status i = POOL_NODE_STATUS_PRIMARY).
  assert (Hgen : forall idx acc,
             (forall i, i ∈ idx -> 0 <= i < n) ->
             acc = -1 \/ good acc ->
             let r := fold_left
                        (fun primary i =>
                           if bool_decide (node_status_at status i = POOL_NODE_STATUS_PRIMARY)
                           then i else primary) idx acc in
             r = -1 \/ good r).
  { induction idx as [|i idx IH]; intros acc Hidx Hacc; cbn [fold_left]; [exact Hacc|].
    apply IH; [intros k Hk; apply Hidx; right; exact Hk|].
    destruct (bool_decide (node_status_at status i = POOL_NODE_STATUS_PRIMARY)) eqn:Hc;
      [|exact Hacc].
    right. apply bool_decide_eq_true in Hc. split; [apply Hidx; left|exact Hc]. }
  apply Hgen; [|left; reflexivity].
  intros i Hi. apply elem_of_seqZ in Hi. lia.
Qed.

Lemma classify_node_primary (pr : Probe) (st : State) (i : Z) :
  classify_node pr st i = POOL_NODE_STATUS_PRIMARY ->
  VALID_BACKEND st i = true /\ slot_exists pr i = true /\ pg_is_in_recovery pr i = AnswerF.
Proof.
  unfold classify_node.
  destruct (VALID_BACKEND st i); cbn; [|discriminate].
  destruct (slot_exists pr i); cbn; [|discriminate].
  destruct (pg_is_in_recovery pr i); try discriminate. auto.
Qed.

(** X12. What [find_primary_node()] returns is -1 or the number of a
    configured backend; that backend either carries the ALWAYS_PRIMARY flag
    or is valid, could be connected to, and answered "f" to the question
    whether it is in recovery. *)
Theorem find_primary_node_result (cfg : POOL_CONFIG) (pr : Probe) (st : State) :
  find_primary_node cfg pr st = -1
  \/ (0 <= find_primary_node cfg pr st < num_backends cfg
      /\ (has_flag (POOL_ALWAYS_PRIMARY cfg) (flag_of st (find_primary_node cfg pr st)) = true
          \/ (VALID_BACKEND st (find_primary_node cfg pr st) = true
              /\ slot_exists pr (find_primary_node cfg pr st) = true
              /\ pg_is_in_recovery pr (find_primary_node cfg pr st) = AnswerF))).
Proof.
  unfold find_primary_node.
  destruct (SL_MODE cfg); cbn [negb]; [|left; reflexivity].
  match goal with |- context [for_break ?p ?n] => set (i := for_break p n); set (flagged := p) in * end.
  destruct (i <? num_backends cfg) eqn:Hi.
  - apply Z.ltb_lt in Hi. right.
    destruct (Z_lt_le_dec (num_backends cfg) 0) as [Hneg|Hn].
    + exfalso. subst i. unfold for_break in Hi.
      rewrite Z2Nat.nonpos in Hi by lia. cbn in Hi. lia.
    + destruct (for_break_spec flagged (num_backends cfg) Hn) as (Hr & _ & Hhit).
      fold i in Hr, Hhit. split; [lia|]. left. apply Hhit. exact Hi.
  - match goal with |- context [fold_left ?f ?idx ?a] => set (r := fold_left f idx a) end.
    destruct (last_primary_spec (num_backends cfg) (verify_backend_node_status cfg pr st))
      as [Hr|(Hr & Hp)]; fold r in Hr |- *; [left; exact Hr|].
    fold r in Hp. right. split; [exact Hr|]. right.
    assert (Hlook : classify cfg pr st !! Z.to_nat r = Some (classify_node pr st r)).
    { unfold classify.
      change (map (classify_node pr st)) with (fmap (M := list) (classify_node pr st)).
      rewrite list_lookup_fmap, lookup_seqZ_lt by lia. cbn. f_equal. f_equal. lia. }
    apply classify_node_primary.
    destruct (verify_lookup cfg pr st _ _ Hlook) as [Hv|(Hs & _)]; [|exact Hs].
    apply node_status_at_lookup in Hv. rewrite Z2Nat.id in Hv by lia.
    congruence.
Qed.

(** X13. A backend flagged ALWAYS_PRIMARY settles the question without any
    probing: in streaming or logical replication mode, if some configured
    backend carries the flag, [find_primary_node()] returns the lowest
    flagged backend whatever the backends would answer. *)
Theorem always_primary_wins (cfg : POOL_CONFIG) (st : State) (i : Z) :
  SL_MODE cfg = true ->
  0 <= i < num_backends cfg ->
  has_flag (POOL_ALWAYS_PRIMARY cfg) (flag_of st i) = true ->
  exists r,
    0 <= r <= i
    /\ has_flag (POOL_ALWAYS_PRIMARY cfg) (flag_of st r) = true
    /\ (forall j, 0 <= j < r -> has_flag (POOL_ALWAYS_PRIMARY cfg) (flag_of st j) = false)
    /\ forall pr, find_primary_node cfg pr st = r.
Proof.
  intros Hsl Hi Hflag.
  set (flagged := fun i : Z => has_flag (POOL_ALWAYS_PRIMARY cfg) (flag_of st i)).
  destruct (for_break_spec flagged (num_backends cfg)) as (Hr & Hlow & Hhit); [lia|].
  assert (Hle : for_break flagged (num_backends cfg) <= i).
  { unfold for_break. apply scan_from_le; [lia|exact Hflag]. }
  exists (for_break flagged (num_backends cfg)).
  split; [lia|]. split; [apply Hhit; lia|]. split; [exact Hlow|].
  intros pr. unfold find_primary_node. rewrite Hsl. cbn [negb].
  fold flagged.
  replace (for_break flagged (num_backends cfg) <? num_backends cfg) with true
    by (symmetry; apply Z.ltb_lt; lia).
  reflexivity.
Qed.

Lemma always_primary_wins_witness :
  exists r,
    0 <= r <= 1
    /\ has_flag (POOL_ALWAYS_PRIMARY cfg2) (flag_of st_always_primary r) = true
    /\ (forall j, 0 <= j < r ->
                  has_flag (POOL_ALWAYS_PRIMARY cfg2) (flag_of st_always_primary j) = false)
    /\ forall pr, find_primary_node cfg2 pr st_always_primary = r.
Proof.
  apply (always_primary_wins cfg2 st_always_primary 1).
  - reflexivity.
  - simpl. lia.
  - reflexivity.
Defined.
(** ** More about the failover engine *)

Lemma VALID_BACKEND_eq (st : State) (i : Z) :
  VALID_BACKEND st i
  = (bool_decide (status_of st i = CON_UP)
     || bool_decide (status_of st i = CON_CONNECT_WAIT))
    && negb (quarantine_of st i).
Proof.
  unfold VALID_BACKEND, status_of, quarantine_of.
  destruct (BACKEND_INFO st i); reflexivity.
Qed.




Lemma degenerate_fold_untouched (cfg : POOL_CONFIG) (k : POOL_REQUEST_KIND) (ns : list Z) :
  forall acc : Locals * State * bool * Z,
    snd acc <= snd (fold_left (degenerate_node cfg k) ns acc)
    /\ (snd (fold_left (degenerate_node cfg k) ns acc) = snd acc ->
        fold_left (degenerate_node cfg k) ns acc = acc).
Proof.
  induction ns as [|n ns IH]; intros acc; cbn [fold_left]; [split; [lia|reflexivity]|].
  destruct (IH (degenerate_node cfg k acc n)) as (Hle & Hsame).
  assert (Hstep : snd acc <= snd (degenerate_node cfg k acc n)
                  /\ (snd (degenerate_node cfg k acc n) = snd acc ->
                      degenerate_node cfg k acc n = acc)).
  { unfold degenerate_node. destruct acc as [[[l st] sp] cnt].
    match goal with |- context [if ?c then _ else _] => destruct c end.
    - destruct (bool_decide (k = NODE_QUARANTINE_REQUEST));
        [|match goal with |- context [if ?c then _ else _] => destruct c end];
        cbn [snd]; split; lia.
    - cbn [snd]. split; [lia|reflexivity]. }
  destruct Hstep as (Hle1 & Hsame1).
  split; [lia|]. intros Heq.
  assert (Hmid : snd (degenerate_node cfg k acc n) = snd acc) by lia.
  rewrite Hsame by lia. apply Hsame1. exact Hmid.
Qed.

Lemma degenerate_branch_rejected (cfg : POOL_CONFIG) (r : POOL_REQUEST_NODE) (l : Locals)
    (st : State) (l1 : Locals) (st1 : State) :
  degenerate_branch cfg r l st = inl (l1, st1) -> l1 = l /\ st1 = st.
Proof.
  unfold degenerate_branch.
  destruct (degenerate_fold_untouched cfg (kind r) (take (Z.to_nat (count r)) (node_id r))
              (l, st, true, 0)) as (_ & Hsame).
  destruct (fold_left _ _ _) as [[[l2 st2] sp] cnt]. cbn [snd] in Hsame.
  destruct (cnt =? 0) eqn:Hc; [|discriminate].
  apply Z.eqb_eq in Hc. intros Hinl. injection Hinl as <- <-.
  specialize (Hsame Hc). injection Hsame as -> -> _ _. auto.
Qed.









Lemma same_cluster_view_refl (st : State) : same_cluster_view st st.
Proof. repeat split. Qed.

Lemma same_cluster_view_trans (st1 st2 st3 : State) :
  same_cluster_view st1 st2 -> same_cluster_view st2 st3 -> same_cluster_view st1 st3.
Proof.
  intros (Hb1 & Hm1 & Hp1) (Hb2 & Hm2 & Hp2).
  repeat split; congruence.
Qed.

Lemma producer_request_view (cfg : POOL_CONFIG) (k : POOL_REQUEST_KIND) (ns : list Z)
    (f : Z) (st : State) :
  same_cluster_view st (snd (producer_request cfg k ns f st)).
Proof.
  unfold producer_request, enqueue.
  destruct (_ =? _); [apply same_cluster_view_refl|].
  destruct (Req_switching (Req_info st)); repeat split.
Qed.

Lemma producers_view (cfg : POOL_CONFIG) (rs : list POOL_REQUEST_NODE) :
  forall st, same_cluster_view st (producers cfg rs st).
Proof.
  induction rs as [|r rs IH]; intros st; [apply same_cluster_view_refl|].
  cbn [producers fold_left].
  eapply same_cluster_view_trans; [apply producer_request_view|].
  apply IH.
Qed.

Lemma dequeue_view (cfg : POOL_CONFIG) (st : State) :
  match dequeue cfg st with
  | QueueEmpty st1 => same_cluster_view st st1
  | Taken _ st1 => same_cluster_view st st1
  | OutsideTable => True
  end.
Proof.
  unfold dequeue.
  destruct (_ =? _); [repeat split|].
  destruct (request_at _ _); [repeat split|exact I].
Qed.

(** An invariant of the cluster view that the handling of one request keeps
    is kept by the whole drain. *)
Lemma failover_loop_invariant (cfg : POOL_CONFIG) (env : Env) (P : State -> Prop) :
  (forall st st', same_cluster_view st st' -> P st -> P st') ->
  (forall e r l st, P st -> P (snd (failover_request cfg e r l st))) ->
  forall (fuel k : nat) (l l' : Locals) (st st' : State),
    P st ->
    failover_loop cfg env fuel k l st = Done (l', st') ->
    P st'.
Proof.
  intros Hview Hreq.
  induction fuel as [|fuel IH]; intros k l l' st st' HP Hrun; [discriminate|].
  cbn [failover_loop] in Hrun.
  pose proof (producers_view cfg (arrivals (iter env k)) st) as Hv1.
  pose proof (dequeue_view cfg (producers cfg (arrivals (iter env k)) st)) as Hv2.
  destruct (dequeue cfg (producers cfg (arrivals (iter env k)) st)) as [st1|r st1|];
    [| |discriminate].
  - injection Hrun as <- <-.
    apply (Hview st); [eapply same_cluster_view_trans; eassumption|exact HP].
  - assert (HP1 : P st1)
      by (apply (Hview st); [eapply same_cluster_view_trans; eassumption|exact HP]).
    specialize (Hreq (iter env k) r l st1 HP1).
    destruct (failover_request cfg (iter env k) r l st1) as [l2 st2].
    apply (IH (S k) l2 l' st2 st'); assumption.
Qed.

Lemma failover_invariant (cfg : POOL_CONFIG) (env : Env) (P : State -> Prop) :
  (forall st st', same_cluster_view st st' -> P st -> P st') ->
  (forall e r l st, P st -> P (snd (failover_request cfg e r l st))) ->
  forall (fuel : nat) (is_parent : bool) (st st' : State),
    P st ->
    failover cfg env fuel is_parent st = Done st' ->
    P st'.
Proof.
  intros Hview Hreq fuel is_parent st st' HP Hrun.
  unfold failover in Hrun.
  destruct (negb is_parent);
    [injection Hrun as <-; apply (Hview st); [repeat split|exact HP]|].
  destruct (exiting st);
    [injection Hrun as <-; apply (Hview st); [repeat split|exact HP]|].
  destruct (switching st);
    [injection Hrun as <-; apply (Hview st); [repeat split|exact HP]|].
  match type of Hrun with context [failover_loop cfg env fuel 0 initial_locals ?s] =>
    assert (HP1 : P s) by (apply (Hview st); [repeat split|exact HP]);
    destruct (failover_loop cfg env fuel 0 initial_locals s) as [[l2 st2]| |] eqn:Hloop;
    [|discriminate|discriminate]
  end.
  pose proof (failover_loop_invariant cfg env P Hview Hreq _ _ _ _ _ _ HP1 Hloop) as HP2.
  injection Hrun as <-.
  pose proof (producers_view cfg (late_arrivals env) st2) as Hv.
  apply (Hview st2); [|exact HP2].
  eapply same_cluster_view_trans; [exact Hv|].
  destruct (need_to_restart_pcp l2); repeat split.
Qed.



Lemma degenerate_node_status (cfg : POOL_CONFIG) (k : POOL_REQUEST_KIND)
    (acc : Locals * State * bool * Z) (n : Z) (j : Z) :
  let st := snd (fst (fst acc)) in
  let st' := snd (fst (fst (degenerate_node cfg k acc n))) in
  status_of st' j = status_of st j \/ status_of st' j = CON_DOWN.
Proof.
  destruct acc as [[[l st] sp] cnt]. unfold degenerate_node. cbn [fst snd].
  match goal with |- context [if ?c then _ else _] => destruct c end;
    [|left; reflexivity].
  assert (Hd : forall s, (forall i, status_of s i = status_of (set_status n CON_DOWN st) i) ->
                         status_of s j = status_of st j \/ status_of s j = CON_DOWN).
  { intros s Hs. rewrite Hs, status_of_set_status.
    destruct ((n =? j) && bool_decide (is_Some (BACKEND_INFO st j))); auto. }
  destruct (bool_decide (k = NODE_QUARANTINE_REQUEST)).
  - cbn [fst snd]. apply Hd. intros i. apply status_of_set_quarantine.
  - match goal with |- context [if ?c then _ else _] => destruct c end;
      cbn [fst snd]; apply Hd; intros i;
      rewrite (status_of_ext _ _ _ (backend_info_write_status_file _ _));
      rewrite status_of_set_quarantine; reflexivity.
Qed.

Lemma degenerate_fold_status (cfg : POOL_CONFIG) (k : POOL_REQUEST_KIND) (ns : list Z)
    (j : Z) :
  forall acc : Locals * State * bool * Z,
    let st := snd (fst (fst acc)) in
    let st' := snd (fst (fst (fold_left (degenerate_node cfg k) ns acc))) in
    status_of st' j = status_of st j \/ status_of st' j = CON_DOWN.
Proof.
  induction ns as [|n ns IH]; intros acc; cbn [fold_left]; [left; reflexivity|].
  cbv zeta.
  destruct (IH (degenerate_node cfg k acc n)) as [H|H]; [|right; exact H].
  rewrite H. apply degenerate_node_status.
Qed.

Lemma failback_branch_status (cfg : POOL_CONFIG) (r : POOL_REQUEST_NODE) (node : Z)
    (l : Locals) (st : State) (l1 : Locals) (st1 : State) (sp : bool) (j : Z) :
  failback_branch cfg r node l st = inr (l1, st1, sp) ->
  status_of st1 j = status_of st j \/ status_of st1 j = CON_CONNECT_WAIT.
Proof.
  unfold failback_branch.
  match goal with |- context [if ?c then inl _ else _] => destruct c end; [discriminate|].
  assert (Hd : forall s,
             (forall i, status_of s i = status_of (set_status node CON_CONNECT_WAIT st) i) ->
             status_of s j = status_of st j \/ status_of s j = CON_CONNECT_WAIT).
  { intros s Hs. rewrite Hs, status_of_set_status.
    destruct ((node =? j) && bool_decide (is_Some (BACKEND_INFO st j))); auto. }
  destruct (has_flag (request_details r) (REQ_DETAIL_UPDATE cfg)).
  - repeat match goal with |- context [if ?c then _ else _] => destruct c end;
      intros Heq; injection Heq as _ <- _; apply Hd; intros i;
      apply status_of_set_quarantine.
  - intros Heq; injection Heq as _ <- _. apply Hd. intros i.
    unfold trigger_failover_command.
    change (status_of (emit ?e ?s) i) with (status_of s i).
    rewrite (status_of_ext _ _ _ (backend_info_write_status_file _ _)). reflexivity.
Qed.

Lemma failover_request_status (cfg : POOL_CONFIG) (e : IterEnv) (r : POOL_REQUEST_NODE)
    (l : Locals) (st : State) (j : Z) :
  let st' := snd (failover_request cfg e r l st) in
  status_of st' j = status_of st j
  \/ status_of st' j = CON_DOWN
  \/ status_of st' j = CON_CONNECT_WAIT.
Proof.
  unfold failover_request. fold (first_node e r).
  destruct (bool_decide (kind r = CLOSE_IDLE_REQUEST)); [left; reflexivity|].
  assert (Hbranch :
    forall br : (Locals * State) + (Locals * State * bool),
      (forall l1 st1, br = inl (l1, st1) -> st1 = emit EvWdFailoverStart st) ->
      (forall l1 st1 sp, br = inr (l1, st1, sp) ->
         status_of st1 j = status_of st j \/ status_of st1 j = CON_DOWN
         \/ status_of st1 j = CON_CONNECT_WAIT) ->
      let st' := snd match br with
                     | inl (l1, st1) => (l1, st1)
                     | inr (l1, st1, sp) =>
                         failover_accepted cfg e r (first_node e r) sp l1 st1
                     end in
      status_of st' j = status_of st j \/ status_of st' j = CON_DOWN
      \/ status_of st' j = CON_CONNECT_WAIT).
  { intros [[l1 st1]|[[l1 st1] sp]] Hl Hr; cbv zeta.
    - rewrite (Hl l1 st1 eq_refl). left. reflexivity.
    - destruct (failover_accepted_frame cfg e r (first_node e r) sp l1 st1) as (Hs & _).
      destruct (Hs j) as [H|H]; [rewrite H; exact (Hr l1 st1 sp eq_refl)|auto]. }
  apply Hbranch.
  - intros l1 st1 Hb. destruct (kind r).
    + unfold failback_branch in Hb.
      match type of Hb with (if ?c then _ else _) = _ => destruct c end;
        [injection Hb as _ <-; reflexivity|].
      repeat match type of Hb with context [if ?c then _ else _] => destruct c end;
        discriminate.
    + apply degenerate_branch_rejected in Hb. destruct Hb as [_ ->]. reflexivity.
    + apply degenerate_branch_rejected in Hb. destruct Hb as [_ ->]. reflexivity.
    + unfold promote_branch in Hb.
      destruct (_ && _); [discriminate|]. injection Hb as _ <-. reflexivity.
    + apply degenerate_branch_rejected in Hb. destruct Hb as [_ ->]. reflexivity.
  - intros l1 st1 sp Hb.
    assert (Hdeg : degenerate_branch cfg r l (emit EvWdFailoverStart st) = inr (l1, st1, sp) ->
                   status_of st1 j = status_of st j \/ status_of st1 j = CON_DOWN
                   \/ status_of st1 j = CON_CONNECT_WAIT).
    { unfold degenerate_branch. intros Hd.
      pose proof (degenerate_fold_status cfg (kind r)
                    (take (Z.to_nat (count r)) (node_id r)) j
                    (l, emit EvWdFailoverStart st, true, 0)) as Hf.
      cbv zeta in Hf. cbn [fst snd] in Hf.
      destruct (fold_left _ _ _) as [[[l2 st2] sp2] cnt].
      destruct (cnt =? 0); [discriminate|]. injection Hd as _ <- _.
      cbn [fst snd] in Hf. destruct Hf as [Hf|Hf]; auto. }
    destruct (kind r); auto.
    + destruct (failback_branch_status cfg r _ _ _ _ _ _ j Hb) as [H|H]; auto.
    + unfold promote_branch in Hb. destruct (_ && _); [|discriminate].
      injection Hb as _ <- _. left. reflexivity.
Qed.

(** X15. [failover()] never marks a backend UP: when the drain has ended,
    every backend has the status it had before, or DOWN, or CONNECT_WAIT.  A
    backend that is attached again is left waiting for its first
    connection. *)
Theorem failover_never_marks_up (cfg : POOL_CONFIG) (env : Env) (n fuel : nat)
    (st : State) :
  queue_ok cfg st ->
  switching st = false ->
  exiting st = false ->
  (forall j, (n <= j)%nat -> arrivals (iter env j) = []) ->
  (Z.to_nat (queue_size st) + arrivals_from env 0 n < fuel)%nat ->
  exists st',
    failover cfg env fuel true st = Done st'
    /\ forall j, status_of st' j = status_of st j
                 \/ status_of st' j = CON_DOWN
                 \/ status_of st' j = CON_CONNECT_WAIT.
Proof.
  intros Hok Hsw Hex Harr Hfuel.
  destruct (failover_drains cfg env n fuel st Hok Hsw Hex Harr Hfuel)
    as (st' & _ & _ & _ & Hrun & _).
  exists st'. split; [exact Hrun|].
  set (P := fun s : State =>
              forall j, status_of s j = status_of st j
                        \/ status_of s j = CON_DOWN
                        \/ status_of s j = CON_CONNECT_WAIT).
  apply (failover_invariant cfg env P) with (fuel := fuel) (is_parent := true) (st := st);
    [| |intros j; left; reflexivity|exact Hrun].
  - intros s s' (Hb & _) Hs j. rewrite (status_of_ext s s' j Hb). apply Hs.
  - intros e r l s Hs j.
    destruct (failover_request_status cfg e r l s j) as [H|H]; [|exact (or_intror H)].
    rewrite H. apply Hs.
Qed.

Lemma failover_never_marks_up_witness :
  exists st',
    failover cfg2 env_one_arrival 3 true st_one_pending = Done st'
    /\ forall j, status_of st' j = status_of st_one_pending j
                 \/ status_of st' j = CON_DOWN
                 \/ status_of st' j = CON_CONNECT_WAIT.
Proof.
  apply (failover_never_marks_up cfg2 env_one_arrival 1 3 st_one_pending).
  - vm_compute. repeat split; discriminate.
  - reflexivity.
  - reflexivity.
  - intros j Hj. destruct j as [|j]; [lia|reflexivity].
  - vm_compute. lia.
Defined.
(** X16. Outside raw mode a request that names no backend it could act on
    is dropped: a failback request for a backend that is already valid, a
    promotion request for a backend that is not valid, and a detach or
    quarantine request whose backends are all neither valid nor quarantined
    change nothing.  The watchdog has been told that a failover starts, and
    that is all.  (In raw mode only the main node counts as valid in the
    source, and nothing is said about that mode here.) *)
Theorem request_without_usable_node_is_dropped (cfg : POOL_CONFIG) (e : IterEnv)
    (r : POOL_REQUEST_NODE) (l : Locals) (st : State) :
  RAW_MODE cfg = false ->
  (kind r = NODE_UP_REQUEST /\ VALID_BACKEND st (first_node e r) = true)
  \/ (kind r = PROMOTE_NODE_REQUEST /\ VALID_BACKEND st (first_node e r) = false)
  \/ ((kind r = NODE_DOWN_REQUEST \/ kind r = NODE_QUARANTINE_REQUEST)
      /\ forall n, In n (take (Z.to_nat (count r)) (node_id r)) ->
                   n = -1 \/ (VALID_BACKEND st n = false /\ quarantine_of st n = false)) ->
  failover_request cfg e r l st = (l, emit EvWdFailoverStart st).
Proof.
  intros Hraw Hcase. unfold failover_request. fold (first_node e r).
  assert (Hdeg : (forall n, In n (take (Z.to_nat (count r)) (node_id r)) ->
                   n = -1 \/ (VALID_BACKEND st n = false /\ quarantine_of st n = false)) ->
                 degenerate_branch cfg r l (emit EvWdFailoverStart st)
                 = inl (l, emit EvWdFailoverStart st)).
  { intros Hall. unfold degenerate_branch.
    assert (Hfold : forall ns acc,
               snd (fst (fst acc)) = emit EvWdFailoverStart st ->
               (forall n, In n ns ->
                  n = -1 \/ (VALID_BACKEND st n = false /\ quarantine_of st n = false)) ->
               fold_left (degenerate_node cfg (kind r)) ns acc = acc).
    { induction ns as [|n ns IH]; intros acc Hst Hns; cbn [fold_left]; [reflexivity|].
      assert (Hstep : degenerate_node cfg (kind r) acc n = acc).
      { destruct acc as [[[l0 st0] sp] cnt]. cbn [fst snd] in Hst. subst st0.
        unfold degenerate_node. rewrite Hraw. cbn [andb orb].
        change (VALID_BACKEND (emit EvWdFailoverStart st) n) with (VALID_BACKEND st n).
        change (quarantine_of (emit EvWdFailoverStart st) n) with (quarantine_of st n).
        destruct (Hns n (or_introl eq_refl)) as [-> | [-> ->]].
        - reflexivity.
        - cbn [orb]. rewrite andb_false_r. reflexivity. }
      rewrite Hstep. apply IH; [exact Hst|]. intros m Hm. apply Hns. right. exact Hm. }
    rewrite Hfold; [reflexivity|reflexivity|exact Hall]. }
  destruct Hcase as [(Hk & Hv)|[(Hk & Hv)|(Hk & Hall)]].
  - rewrite Hk. cbn [bool_decide decide_rel]. rewrite bool_decide_eq_false_2 by discriminate.
    unfold failback_branch. rewrite Hraw. cbn [andb negb].
    change (VALID_BACKEND (emit EvWdFailoverStart st) (first_node e r))
      with (VALID_BACKEND st (first_node e r)).
    rewrite Hv, orb_true_r. reflexivity.
  - rewrite Hk. rewrite bool_decide_eq_false_2 by discriminate.
    unfold promote_branch.
    change (VALID_BACKEND (emit EvWdFailoverStart st) (first_node e r))
      with (VALID_BACKEND st (first_node e r)).
    rewrite Hv, andb_false_r. reflexivity.
  - rewrite (Hdeg Hall).
    destruct Hk as [Hk|Hk]; rewrite Hk; rewrite bool_decide_eq_false_2 by discriminate;
      reflexivity.
Qed.

Lemma request_without_usable_node_is_dropped_witness :
  failover_request cfg2 iter_quiet (mkRequest NODE_UP_REQUEST 0 [1] 1) initial_locals st_up_up
  = (initial_locals, emit EvWdFailoverStart st_up_up).
Proof.
  apply (request_without_usable_node_is_dropped cfg2 iter_quiet
           (mkRequest NODE_UP_REQUEST 0 [1] 1) initial_locals st_up_up).
  - reflexivity.
  - left. split; reflexivity.
Defined.
(** ** The host and the port in a connection string *)

Lemma prefix_app_split (pat t s : string) :
  String.prefix pat (t ++ s) = true ->
  String.prefix pat t = true \/ exists pat2, pat = (t ++ pat2)%string.
Proof.
  revert t. induction pat as [|c pat IH]; intros t Hp.
  - left. destruct t; reflexivity.
  - destruct t as [|d t].
    + right. exists (String c pat). reflexivity.
    + cbn in Hp |- *. destruct (ascii_dec c d) as [->|Hne]; [|discriminate].
      destruct (IH t Hp) as [H|(pat2 & ->)]; [left; exact H|right].
      exists pat2. reflexivity.
Qed.

Lemma has_char_app (c : ascii) (a b : string) :
  has_char c (a ++ b) = has_char c a || has_char c b.
Proof.
  induction a as [|x a IH]; cbn; [reflexivity|].
  rewrite IH, orb_assoc. reflexivity.
Qed.

Lemma strstr_none_suffix (key : string) (a b : string) :
  strstr (a ++ b) key = None -> strstr b key = None.
Proof.
  induction a as [|x a IH]; cbn [append]; [auto|].
  cbn [strstr]. destruct (String.prefix key (String x (a ++ b))); [discriminate|].
  exact IH.
Qed.

Lemma strstr_none_prefix (key : string) (s : string) :
  strstr s key = None -> String.prefix key s = false.
Proof.
  destruct s; cbn [strstr]; destruct (String.prefix key _); congruence.
Qed.

(** A keyword that holds no space and is not empty is found right after
    [pre]. *)
Lemma strstr_after (key pre s : string) :
  has_char " " key = false ->
  key <> EmptyString ->
  before_keyword key pre ->
  strstr (pre ++ key ++ s) key = Some (key ++ s)%string.
Proof.
  intros Hkey Hne (Hnone & Hend).
  assert (Hhere : strstr (key ++ s) key = Some (key ++ s)%string).
  { assert (Hp : String.prefix key (key ++ s) = true).
    { clear. induction key as [|c key IH]; cbn.
      - destruct s; reflexivity.
      - destruct (ascii_dec c c); [exact IH|congruence]. }
    destruct (key ++ s)%string; cbn [strstr]; rewrite Hp; reflexivity. }
  destruct Hend as [->|(pre' & ->)]; [exact Hhere|].
  assert (Hgen : forall a,
             strstr ((a ++ " ") ++ key ++ s) key = None \/ True ->
             strstr (a ++ " ") key = None ->
             strstr ((a ++ " ") ++ key ++ s) key = Some (key ++ s)%string).
  { induction a as [|x a IH]; intros _ Hn.
    - cbn [append]. cbn [strstr].
      assert (Hp : String.prefix key (String " " (key ++ s)) = false).
      { destruct key as [|c key]; [congruence|]. cbn.
        destruct (ascii_dec c " ") as [->|Hc]; [|reflexivity].
        cbn in Hkey. discriminate. }
      rewrite Hp. exact Hhere.
    - cbn [append]. cbn [strstr].
      assert (Hp : String.prefix key (String x ((a ++ " ") ++ key ++ s)) = false).
      { destruct (String.prefix key (String x ((a ++ " ") ++ key ++ s))) eqn:Hp;
          [|reflexivity]. exfalso.
        change (String x ((a ++ " ") ++ key ++ s))
          with ((String x (a ++ " ")) ++ key ++ s)%string in Hp.
        apply prefix_app_split in Hp. destruct Hp as [Hp|(pat2 & Hp)].
        - apply strstr_none_prefix in Hn. cbn [append] in Hn. congruence.
        - rewrite Hp in Hkey. cbn in Hkey.
          rewrite !has_char_app in Hkey. cbn in Hkey.
          rewrite orb_true_r in Hkey. cbn in Hkey.
          destruct (Ascii.eqb x " "); cbn in Hkey; discriminate. }
      rewrite Hp. apply IH; [right; exact I|].
      cbn [append strstr] in Hn.
      destruct (String.prefix key (String x (a ++ " "))); [discriminate|exact Hn]. }
  apply Hgen; [right; exact I|exact Hnone].
Qed.

Lemma copy_value_exact (v rest : string) :
  value_then v rest ->
  forall len, (len < 0 \/ Z.of_nat (String.length v) <= len) ->
  copy_value len (v ++ rest) = v.
Proof.
  intros (Hv & Hrest). induction v as [|c v IH]; intros len Hlen.
  - cbn [append]. destruct Hrest as [->|(rest' & ->)]; [reflexivity|].
    cbn. destruct (len =? 0); reflexivity.
  - cbn [append copy_value]. cbn in Hv. apply orb_false_elim in Hv.
    destruct Hv as (Hc & Hv).
    replace (len =? 0) with false
      by (symmetry; apply Z.eqb_neq; cbn [String.length] in Hlen; lia).
    rewrite Hc. f_equal. apply IH; [exact Hv|].
    cbn [String.length] in Hlen. lia.
Qed.

(** X17. [get_info_from_conninfo()] finds the host and the port of a
    connection string of the usual shape: when [host=] and [port=] each
    stand at the start or after a space, nothing before them contains the
    keyword, the values hold no space and end at a space or at the end of
    the string, and the values fit the lengths given, the two values are
    returned as they stand. *)
Theorem conninfo_host_and_port (pre1 h rest1 pre2 p rest2 : string)
    (hostlen portlen : Z) :
  (pre1 ++ "host=" ++ h ++ rest1 = pre2 ++ "port=" ++ p ++ rest2)%string ->
  before_keyword "host" pre1 ->
  value_then h rest1 ->
  (hostlen < 0 \/ Z.of_nat (String.length h) <= hostlen) ->
  before_keyword "port" pre2 ->
  value_then p rest2 ->
  (portlen < 0 \/ Z.of_nat (String.length p) <= portlen) ->
  get_info_from_conninfo (pre1 ++ "host=" ++ h ++ rest1) hostlen portlen = (h, p).
Proof.
  intros Heq Hpre1 Hh Hhl Hpre2 Hp Hpl.
  unfold get_info_from_conninfo.
  rewrite Heq at 2.
  change ("host=" ++ h ++ rest1)%string with ("host" ++ String "=" (h ++ rest1))%string.
  change ("port=" ++ p ++ rest2)%string with ("port" ++ String "=" (p ++ rest2))%string.
  rewrite (strstr_after "host" pre1) by (try reflexivity; try discriminate; exact Hpre1).
  rewrite (strstr_after "port" pre2) by (try reflexivity; try discriminate; exact Hpre2).
  cbn [append skip_past_equals Ascii.eqb Bool.eqb].
  rewrite (copy_value_exact h rest1 Hh hostlen Hhl).
  rewrite (copy_value_exact p rest2 Hp portlen Hpl).
  reflexivity.
Qed.

Lemma conninfo_host_and_port_witness :
  get_info_from_conninfo
    ("user=repl " ++ "host=" ++ "db1" ++ " port=5432 application_name=walreceiver")
    128 1024
  = ("db1"%string, "5432"%string).
Proof.
  apply (conninfo_host_and_port "user=repl " "db1" " port=5432 application_name=walreceiver"
           "user=repl host=db1 " "5432" " application_name=walreceiver" 128 1024).
  - reflexivity.
  - split; [reflexivity|]. right. exists "user=repl"%string. reflexivity.
  - split; [reflexivity|]. right. eexists. reflexivity.
  - right. simpl. lia.
  - split; [reflexivity|]. right. exists "user=repl host=db1"%string. reflexivity.
  - split; [reflexivity|]. right. eexists. reflexivity.
  - right. simpl. lia.
Defined.

Lemma copy_value_bound (p : string) :
  forall len, 0 <= len ->
    Z.of_nat (String.length (copy_value len p)) <= len
    /\ has_char " " (copy_value len p) = false.
Proof.
  induction p as [|c p IH]; intros len Hlen; cbn [copy_value].
  - cbn. split; [lia|reflexivity].
  - destruct (len =? 0) eqn:H0; [cbn; split; [lia|reflexivity]|].
    apply Z.eqb_neq in H0.
    destruct (Ascii.eqb c " ") eqn:Hc; [cbn; split; [lia|reflexivity]|].
    destruct (IH (len - 1)) as (Hl & Hs); [lia|].
    cbn [String.length has_char]. rewrite Hc, Hs. split; [lia|reflexivity].
Qed.

(** X18. Whatever the connection string, [get_info_from_conninfo()] stores
    at most [hostlen] characters of host and [portlen] characters of port
    (the terminating NUL comes on top), and neither holds a space. *)
Theorem conninfo_values_bounded (conninfo : string) (hostlen portlen : Z) :
  0 <= hostlen ->
  0 <= portlen ->
  let '(host, port) := get_info_from_conninfo conninfo hostlen portlen in
  Z.of_nat (String.length host) <= hostlen
  /\ Z.of_nat (String.length port) <= portlen
  /\ has_char " " host = false
  /\ has_char " " port = false.
Proof.
  intros Hh Hp. unfold get_info_from_conninfo.
  assert (Hval : forall len o, 0 <= len ->
            let v := match o with
                     | Some q => copy_value len (skip_past_equals q)
                     | None => EmptyString
                     end in
            Z.of_nat (String.length v) <= len /\ has_char " " v = false).
  { intros len [q|] Hlen; cbv zeta; [apply copy_value_bound; exact Hlen|].
    cbn. split; [lia|reflexivity]. }
  destruct (Hval hostlen (strstr conninfo "host") Hh) as (H1 & H2).
  destruct (Hval portlen (strstr conninfo "port") Hp) as (H3 & H4).
  auto.
Qed.

Lemma conninfo_values_bounded_witness :
  let '(host, port) := get_info_from_conninfo "host=primary.example.org port=5432" 7 3 in
  Z.of_nat (String.length host) <= 7
  /\ Z.of_nat (String.length port) <= 3
  /\ has_char " " host = false
  /\ has_char " " port = false.
Proof.
  apply (conninfo_values_bounded "host=primary.example.org port=5432" 7 3); lia.
Defined.
(** ** The command line of a failover command *)

Lemma expand_quote_percent (cfg : POOL_CONFIG) (descs : list BackendDesc) (st : State)
    (info : BackendDesc) (node old_main new_main old_primary : Z) (s : string) :
  CommandLine.expand cfg descs st info node old_main new_main old_primary (quote_percent s)
  = s.
Proof.
  induction s as [|c s IH]; [reflexivity|].
  cbn [quote_percent]. destruct (Ascii.eqb c "%") eqn:Hc.
  - apply Ascii.eqb_eq in Hc. subst c.
    cbn [CommandLine.expand Ascii.eqb Bool.eqb andb CommandLine.escape append].
    rewrite IH. reflexivity.
  - cbn [CommandLine.expand]. rewrite Hc, IH. reflexivity.
Qed.

(** X19. Text in which every percent sign is doubled passes through
    [trigger_failover_command()] unchanged: for a configured node and a
    text that is not empty, the command handed to [system()] is the text
    itself, with single percent signs, and the value returned is the one
    [system()] gives. *)
Theorem quoted_command_runs_verbatim (cfg : POOL_CONFIG) (descs : list BackendDesc)
    (system : string -> Z) (st : State) (node old_main new_main old_primary : Z)
    (s : string) :
  s <> EmptyString ->
  0 <= node < num_backends cfg ->
  CommandLine.trigger_failover_command cfg descs system st node (Some (quote_percent s))
    old_main new_main old_primary
  = (system s, Some s).
Proof.
  intros Hs Hnode. unfold CommandLine.trigger_failover_command.
  assert (Hq : exists c q, quote_percent s = String c q).
  { destruct s as [|c s]; [congruence|]. cbn [quote_percent].
    destruct (Ascii.eqb c "%"); eauto. }
  destruct Hq as (c & q & Hq). rewrite Hq, <- Hq.
  unfold CommandLine.pool_get_node_info.
  replace (node <? 0) with false by (symmetry; apply Z.ltb_ge; lia).
  replace (node >=? num_backends cfg) with false
    by (symmetry; rewrite Z.geb_leb; apply Z.leb_gt; lia).
  cbn [orb]. rewrite expand_quote_percent.
  destruct s; [congruence|reflexivity].
Qed.

Lemma quoted_command_runs_verbatim_witness :
  CommandLine.trigger_failover_command cfg2 [] (fun _ => 0) st_up_up 1
    (Some (quote_percent "echo 100% done")) 0 0 0
  = ((fun _ : string => 0) "echo 100% done"%string, Some "echo 100% done"%string).
Proof.
  apply (quoted_command_runs_verbatim cfg2 [] (fun _ => 0) st_up_up 1 0 0 0
           "echo 100% done").
  - discriminate.
  - simpl. lia.
Defined.

(** X20. A command template can be read piece by piece: unless the first
    piece ends in the middle of an escape, the expansion of two pieces put
    together is the expansion of the first followed by the expansion of the
    second. *)
Theorem expansion_of_pieces (cfg : POOL_CONFIG) (descs : list BackendDesc) (st : State)
    (info : BackendDesc) (node old_main new_main old_primary : Z) (a b : string) :
  open_escape a = false ->
  CommandLine.expand cfg descs st info node old_main new_main old_primary (a ++ b)
  = (CommandLine.expand cfg descs st info node old_main new_main old_primary a
     ++ CommandLine.expand cfg descs st info node old_main new_main old_primary b)%string.
Proof.
  assert (Happ : forall x y z : string, ((x ++ y) ++ z = x ++ y ++ z)%string).
  { induction x as [|c x IH]; intros y z; cbn [append]; [reflexivity|].
    rewrite IH. reflexivity. }
  assert (Hgen : forall n a, (String.length a <= n)%nat -> open_escape a = false ->
    CommandLine.expand cfg descs st info node old_main new_main old_primary (a ++ b)
    = (CommandLine.expand cfg descs st info node old_main new_main old_primary a
       ++ CommandLine.expand cfg descs st info node old_main new_main old_primary b)%string).
  { induction n as [|n IH]; intros a0 Hlen Hopen.
    - destruct a0; [reflexivity|cbn in Hlen; lia].
    - destruct a0 as [|c a1]; [reflexivity|].
      cbn [append CommandLine.expand open_escape] in *.
      destruct (Ascii.eqb c "%").
      + destruct a1 as [|val a2]; [discriminate|].
        cbn [append]. rewrite Happ. f_equal.
        apply IH; [cbn [String.length] in Hlen; lia|exact Hopen].
      + cbn [append]. f_equal. apply IH; [cbn [String.length] in Hlen; lia|exact Hopen]. }
  intros Hopen. apply (Hgen (String.length a)); [lia|exact Hopen].
Qed.

Lemma expansion_of_pieces_witness :
  CommandLine.expand cfg2 [] st_up_up (mkBackendDesc "db1" 5432 "/data") 1 0 0 0
    ("failover.sh %d %h " ++ "%p %%")
  = (CommandLine.expand cfg2 [] st_up_up (mkBackendDesc "db1" 5432 "/data") 1 0 0 0
       "failover.sh %d %h "
     ++ CommandLine.expand cfg2 [] st_up_up (mkBackendDesc "db1" 5432 "/data") 1 0 0 0
          "%p %%")%string.
Proof.
  apply (expansion_of_pieces cfg2 [] st_up_up (mkBackendDesc "db1" 5432 "/data") 1 0 0 0
           "failover.sh %d %h " "%p %%").
  reflexivity.
Defined.

(** X21. [trigger_failover_command()] runs nothing when there is nothing to
    run or nobody to run it for: without a template, or with an empty one,
    it returns 0; for a node outside 0 .. NUM_BACKENDS-1 it returns -1; and
    when the template expands to the empty line it returns 0.  In none of
    these cases is [system()] called. *)
Theorem no_command_without_line_or_node (cfg : POOL_CONFIG) (descs : list BackendDesc)
    (system : string -> Z) (st : State) (node old_main new_main old_primary : Z) :
  CommandLine.trigger_failover_command cfg descs system st node None
    old_main new_main old_primary = (0, None)
  /\ CommandLine.trigger_failover_command cfg descs system st node (Some EmptyString)
       old_main new_main old_primary = (0, None)
  /\ (forall template,
        template <> EmptyString ->
        node < 0 \/ num_backends cfg <= node ->
        CommandLine.trigger_failover_command cfg descs system st node (Some template)
          old_main new_main old_primary = (-1, None))
  /\ (forall template info,
        template <> EmptyString ->
        CommandLine.pool_get_node_info cfg descs node = Some info ->
        CommandLine.expand cfg descs st info node old_main new_main old_primary template
        = EmptyString ->
        CommandLine.trigger_failover_command cfg descs system st node (Some template)
          old_main new_main old_primary = (0, None)).
Proof.
  split; [reflexivity|]. split; [reflexivity|]. split.
  - intros template Ht Hnode. unfold CommandLine.trigger_failover_command.
    destruct template; [congruence|].
    assert (Hc : (node <? 0) || (node >=? num_backends cfg) = true).
    { apply orb_true_iff. destruct Hnode as [H|H].
      - left. apply Z.ltb_lt. exact H.
      - right. rewrite Z.geb_leb. apply Z.leb_le. exact H. }
    rewrite Hc. reflexivity.
  - intros template info Ht Hinfo Hexp. unfold CommandLine.trigger_failover_command.
    destruct template as [|c t]; [congruence|].
    rewrite Hinfo, Hexp.
    unfold CommandLine.pool_get_node_info in Hinfo.
    destruct ((node <? 0) || (node >=? num_backends cfg)); [discriminate|reflexivity].
Qed.

Lemma no_command_without_line_or_node_witness :
  CommandLine.trigger_failover_command cfg2 [] (fun _ => 1) st_up_up 5 None 0 0 0 = (0, None)
  /\ CommandLine.trigger_failover_command cfg2 [] (fun _ => 1) st_up_up 5
       (Some EmptyString) 0 0 0 = (0, None)
  /\ (forall template,
        template <> EmptyString ->
        5 < 0 \/ num_backends cfg2 <= 5 ->
        CommandLine.trigger_failover_command cfg2 [] (fun _ => 1) st_up_up 5 (Some template)
          0 0 0 = (-1, None))
  /\ (forall template info,
        template <> EmptyString ->
        CommandLine.pool_get_node_info cfg2 [] 5 = Some info ->
        CommandLine.expand cfg2 [] st_up_up info 5 0 0 0 template = EmptyString ->
        CommandLine.trigger_failover_command cfg2 [] (fun _ => 1) st_up_up 5 (Some template)
          0 0 0 = (0, None)).
Proof.
  apply (no_command_without_line_or_node cfg2 [] (fun _ => 1) st_up_up 5 0 0 0).
Defined.
(** ** Synchronising with the leader watchdog node *)

Lemma sync_node_frame (leader : WDPGBackendStatus) (st : State) (loc : SyncLocals) (k : Z) :
  let st' := fst (sync_node leader (st, loc) k) in
  Req_info st' = Req_info st
  /\ trace st' = trace st
  /\ (forall i, is_Some (BACKEND_INFO st' i) <-> is_Some (BACKEND_INFO st i))
  /\ (forall i, status_of st' i
                = if (k =? i) && bool_decide (is_Some (BACKEND_INFO st i))
                  then synced_status (leader_status leader i) (status_of st i)
                  else status_of st i)
  /\ (forall i, quarantine_of st' i
                = if (k =? i) && bool_decide (is_Some (BACKEND_INFO st i))
                  then false else quarantine_of st i).
Proof.
  unfold sync_node.
  set (st1 := set_quarantine k false st).
  assert (H1 : Req_info st1 = Req_info st) by apply Req_info_update_backend.
  assert (T1 : trace st1 = trace st) by apply trace_update_backend.
  assert (S1 : forall i, is_Some (BACKEND_INFO st1 i) <-> is_Some (BACKEND_INFO st i))
    by (intros i; apply is_Some_BACKEND_INFO_update).
  assert (Q1 : forall i, quarantine_of st1 i
                         = if (k =? i) && bool_decide (is_Some (BACKEND_INFO st i))
                           then false else quarantine_of st i)
    by (intros i; apply quarantine_of_set_quarantine).
  assert (St1 : forall i, status_of st1 i = status_of st i)
    by (intros i; apply status_of_set_quarantine).
  assert (Hset : forall s,
            let st2 := set_status k s st1 in
            Req_info st2 = Req_info st
            /\ trace st2 = trace st
            /\ (forall i, is_Some (BACKEND_INFO st2 i) <-> is_Some (BACKEND_INFO st i))
            /\ (forall i, status_of st2 i
                          = if (k =? i) && bool_decide (is_Some (BACKEND_INFO st i))
                            then s else status_of st i)
            /\ (forall i, quarantine_of st2 i
                          = if (k =? i) && bool_decide (is_Some (BACKEND_INFO st i))
                            then false else quarantine_of st i)).
  { intros s st2. subst st2. unfold set_status at 1 2.
    rewrite Req_info_update_backend, trace_update_backend.
    repeat split; auto.
    - intros H. apply S1. apply is_Some_set_status in H. exact H.
    - intros H. apply is_Some_set_status. apply S1. exact H.
    - intros i. rewrite status_of_set_status, St1.
      rewrite (bool_decide_ext _ _ (S1 i)). reflexivity.
    - intros i. rewrite quarantine_of_set_status. apply Q1. }
  assert (Hkeep : forall s : BACKEND_STATUS,
            status_of st1 k = s ->
            forall i, status_of st1 i
                      = if (k =? i) && bool_decide (is_Some (BACKEND_INFO st i))
                        then s else status_of st i).
  { intros s Hs i. destruct (Z.eqb_spec k i) as [->|Hne]; cbn [andb];
      [|apply St1].
    destruct (bool_decide (is_Some (BACKEND_INFO st i))); [exact Hs|apply St1]. }
  destruct (bool_decide (leader_status leader k = CON_DOWN)) eqn:Hd.
  - apply bool_decide_eq_true in Hd.
    destruct (bool_decide (status_of st1 k = CON_DOWN)) eqn:Hl; cbn [negb fst].
    + apply bool_decide_eq_true in Hl.
      split; [exact H1|]. split; [exact T1|]. split; [exact S1|]. split; [|exact Q1].
      intros i. rewrite (Hkeep CON_DOWN Hl i).
      destruct (Z.eqb_spec k i) as [->|Hne]; cbn [andb]; [|reflexivity].
      rewrite Hd. reflexivity.
    + destruct (Hset CON_DOWN) as (A & B & C & D & E).
      split; [exact A|]. split; [exact B|]. split; [exact C|]. split; [|exact E].
      intros i. rewrite D.
      destruct (Z.eqb_spec k i) as [->|Hne]; cbn [andb]; [|reflexivity].
      rewrite Hd. reflexivity.
  - apply bool_decide_eq_false in Hd.
    destruct (bool_decide (leader_status leader k = CON_CONNECT_WAIT)
              || bool_decide (leader_status leader k = CON_UP)) eqn:Hu.
    + assert (Hsync : forall s, synced_status (leader_status leader k) s = CON_CONNECT_WAIT).
      { intros s. apply orb_true_iff in Hu.
        destruct Hu as [Hu|Hu]; apply bool_decide_eq_true in Hu; rewrite Hu; reflexivity. }
      destruct (bool_decide (status_of st1 k = CON_CONNECT_WAIT)) eqn:Hl; cbn [negb fst].
      * apply bool_decide_eq_true in Hl.
        split; [exact H1|]. split; [exact T1|]. split; [exact S1|]. split; [|exact Q1].
        intros i. rewrite (Hkeep CON_CONNECT_WAIT Hl i).
        destruct (Z.eqb_spec k i) as [->|Hne]; cbn [andb]; [|reflexivity].
        rewrite Hsync. reflexivity.
      * destruct (Hset CON_CONNECT_WAIT) as (A & B & C & D & E).
        split; [exact A|]. split; [exact B|]. split; [exact C|]. split; [|exact E].
        intros i. rewrite D.
        destruct (Z.eqb_spec k i) as [->|Hne]; cbn [andb]; [|reflexivity].
        rewrite Hsync. reflexivity.
    + cbn [fst].
      split; [exact H1|]. split; [exact T1|]. split; [exact S1|]. split; [|exact Q1].
      intros i. rewrite St1.
      destruct (Z.eqb_spec k i) as [->|Hne]; cbn [andb]; [|reflexivity].
      apply orb_false_iff in Hu. destruct Hu as (Hu1 & Hu2).
      apply bool_decide_eq_false in Hu1. apply bool_decide_eq_false in Hu2.
      destruct (leader_status leader i); try congruence.
      destruct (bool_decide _); reflexivity.
Qed.

Lemma synced_status_idem (theirs s : BACKEND_STATUS) :
  synced_status theirs (synced_status theirs s) = synced_status theirs s.
Proof. destruct theirs; reflexivity. Qed.

Lemma sync_fold_frame (leader : WDPGBackendStatus) (idx : list Z) :
  forall (st : State) (loc : SyncLocals),
    let st' := fst (fold_left (sync_node leader) idx (st, loc)) in
    Req_info st' = Req_info st
    /\ trace st' = trace st
    /\ (forall i, is_Some (BACKEND_INFO st' i) <-> is_Some (BACKEND_INFO st i))
    /\ (forall i, status_of st' i
                  = if bool_decide (i ∈ idx) && bool_decide (is_Some (BACKEND_INFO st i))
                    then synced_status (leader_status leader i) (status_of st i)
                    else status_of st i)
    /\ (forall i, quarantine_of st' i
                  = if bool_decide (i ∈ idx) && bool_decide (is_Some (BACKEND_INFO st i))
                    then false else quarantine_of st i).
Proof.
  induction idx as [|k idx IH]; intros st loc; cbn [fold_left].
  - cbn [fst]. repeat split; auto.
  - pose proof (sync_node_frame leader st loc k) as (A & B & C & D & E).
    destruct (sync_node leader (st, loc) k) as [st1 loc1]. cbn [fst] in A, B, C, D, E.
    destruct (IH st1 loc1) as (A' & B' & C' & D' & E').
    split; [congruence|]. split; [congruence|].
    split; [intros i; rewrite C'; apply C|].
    split.
    + intros i. rewrite D', D. rewrite (bool_decide_ext _ _ (C i)).
      destruct (Z.eqb_spec k i) as [->|Hne].
      * rewrite (bool_decide_eq_true_2 (i ∈ i :: idx)) by (left).
        destruct (bool_decide (is_Some (BACKEND_INFO st i))); cbn [andb];
          rewrite ?andb_false_r; [|reflexivity].
        destruct (bool_decide (i ∈ idx)); cbn [andb];
          rewrite ?synced_status_idem; reflexivity.
      * cbn [andb].
        assert (Hin : bool_decide (i ∈ k :: idx) = bool_decide (i ∈ idx)).
        { apply bool_decide_ext. rewrite elem_of_cons. split; [|auto].
          intros [H|H]; [congruence|exact H]. }
        rewrite Hin. reflexivity.
    + intros i. rewrite E', E. rewrite (bool_decide_ext _ _ (C i)).
      destruct (Z.eqb_spec k i) as [->|Hne].
      * rewrite (bool_decide_eq_true_2 (i ∈ i :: idx)) by (left).
        destruct (bool_decide (is_Some (BACKEND_INFO st i))); cbn [andb];
          rewrite ?andb_false_r; [|reflexivity].
        destruct (bool_decide (i ∈ idx)); reflexivity.
      * cbn [andb].
        assert (Hin : bool_decide (i ∈ k :: idx) = bool_decide (i ∈ idx)).
        { apply bool_decide_ext. rewrite elem_of_cons. split; [|auto].
          intros [H|H]; [congruence|exact H]. }
        rewrite Hin. reflexivity.
Qed.
Lemma sync_primary_frame (cfg : POOL_CONFIG) (leader : WDPGBackendStatus) (st : State) :
  backend_info (fst (sync_primary cfg leader st)) = backend_info st
  /\ trace (fst (sync_primary cfg leader st)) = trace st
  /\ main_node_id (Req_info (fst (sync_primary cfg leader st))) = main_node_id (Req_info st).
Proof.
  unfold sync_primary.
  repeat match goal with |- context [if ?c then _ else _] => destruct c end;
    repeat split.
Qed.

(** The state [sync_backend_from_watchdog()] leaves, in terms of its three
    steps. *)
Lemma sync_state (cfg : POOL_CONFIG) (num_init_children max_pool : Z)
    (pool_coninfo : Z -> Z -> Z -> ConnectionInfo) (fork_a_child fork_health_check : Z -> Z)
    (initializing : bool) (leader : WDPGBackendStatus) (st : State) (ch : Children) :
  0 < node_count leader ->
  let folded := fold_left (sync_node leader) (seqZ 0 (node_count leader))
                          (st, mkSyncLocals false false false []) in
  let st2 := fst (sync_primary cfg leader (fst folded)) in
  fst (sync_backend_from_watchdog cfg num_init_children max_pool pool_coninfo fork_a_child
         fork_health_check initializing (Some leader) st ch)
  = if reload_maste_node_id (snd folded)
    then set_Req (with_main_node_id (get_next_main_node cfg st2)) st2
    else st2.
Proof.
  intros Hn. cbv zeta. unfold sync_backend_from_watchdog.
  replace (node_count leader <=? 0) with false by (symmetry; apply Z.leb_gt; lia).
  destruct (fold_left _ _ _) as [st1 loc]. cbn [fst snd].
  destruct (sync_primary cfg leader st1) as [st2 pc]. cbn [fst].
  destruct initializing; [reflexivity|].
  destruct (negb _ && negb _ && negb pc); [reflexivity|].
  repeat match goal with |- context [if ?c then (_, _) else _] => destruct c end;
    reflexivity.
Qed.

Lemma sync_state_status (cfg : POOL_CONFIG) (num_init_children max_pool : Z)
    (pool_coninfo : Z -> Z -> Z -> ConnectionInfo) (fork_a_child fork_health_check : Z -> Z)
    (initializing : bool) (leader : WDPGBackendStatus) (st : State) (ch : Children) :
  0 < node_count leader ->
  let st' := fst (sync_backend_from_watchdog cfg num_init_children max_pool pool_coninfo
                    fork_a_child fork_health_check initializing (Some leader) st ch) in
  (forall i, 0 <= i < node_count leader -> is_Some (BACKEND_INFO st i) ->
     quarantine_of st' i = false
     /\ status_of st' i = synced_status (leader_status leader i) (status_of st i))
  /\ (forall i, node_count leader <= i ->
        quarantine_of st' i = quarantine_of st i /\ status_of st' i = status_of st i).
Proof.
  intros Hn st'. subst st'. rewrite sync_state by exact Hn. cbv zeta.
  pose proof (sync_fold_frame leader (seqZ 0 (node_count leader)) st
                (mkSyncLocals false false false [])) as (_ & _ & _ & Hs & Hq).
  cbv zeta in Hs, Hq.
  destruct (fold_left _ _ _) as [st1 loc]. cbn [fst snd] in *.
  pose proof (sync_primary_frame cfg leader st1) as (Hb & _).
  set (st2 := fst (sync_primary cfg leader st1)) in *.
  assert (Hb3 : backend_info (if reload_maste_node_id loc
                              then set_Req (with_main_node_id (get_next_main_node cfg st2)) st2
                              else st2) = backend_info st1)
    by (destruct (reload_maste_node_id loc); exact Hb).
  split.
  - intros i Hi Hsome.
    rewrite (quarantine_of_ext _ _ i Hb3), (status_of_ext _ _ i Hb3), Hs, Hq.
    rewrite (bool_decide_eq_true_2 (i ∈ seqZ 0 (node_count leader)))
      by (apply elem_of_seqZ; lia).
    rewrite (bool_decide_eq_true_2 _ Hsome). split; reflexivity.
  - intros i Hi.
    rewrite (quarantine_of_ext _ _ i Hb3), (status_of_ext _ _ i Hb3), Hs, Hq.
    rewrite (bool_decide_eq_false_2 (i ∈ seqZ 0 (node_count leader)))
      by (rewrite elem_of_seqZ; lia).
    split; reflexivity.
Qed.

(** X22. After [sync_backend_from_watchdog()] every backend the leader
    reports has the leader's view: it is no longer quarantined, it is DOWN
    if the leader says DOWN and in CONNECT_WAIT (never UP) if the leader
    says CONNECT_WAIT or UP.  Backends the leader does not report keep
    their status and their quarantine flag. *)
Theorem sync_adopts_leader_status (cfg : POOL_CONFIG) (num_init_children max_pool : Z)
    (pool_coninfo : Z -> Z -> Z -> ConnectionInfo) (fork_a_child fork_health_check : Z -> Z)
    (initializing : bool) (leader : WDPGBackendStatus) (st : State) (ch : Children) :
  0 < node_count leader ->
  let st' := fst (sync_backend_from_watchdog cfg num_init_children max_pool pool_coninfo
                    fork_a_child fork_health_check initializing (Some leader) st ch) in
  (forall i, 0 <= i < node_count leader -> is_Some (BACKEND_INFO st i) ->
     quarantine_of st' i = false
     /\ status_of st' i = synced_status (leader_status leader i) (status_of st i))
  /\ (forall i, node_count leader <= i ->
        quarantine_of st' i = quarantine_of st i /\ status_of st' i = status_of st i).
Proof.
  exact (sync_state_status cfg num_init_children max_pool pool_coninfo fork_a_child
           fork_health_check initializing leader st ch).
Qed.

Lemma sync_adopts_leader_status_witness :
  let st' := fst (sync_backend_from_watchdog cfg2 2 4 child1_uses_node1 new_child_pid
                    new_health_check_pid false (Some leader_node1_down) st_up_up children2) in
  (forall i, 0 <= i < node_count leader_node1_down -> is_Some (BACKEND_INFO st_up_up i) ->
     quarantine_of st' i = false
     /\ status_of st' i
        = synced_status (leader_status leader_node1_down i) (status_of st_up_up i))
  /\ (forall i, node_count leader_node1_down <= i ->
        quarantine_of st' i = quarantine_of st_up_up i
        /\ status_of st' i = status_of st_up_up i).
Proof.
  apply (sync_adopts_leader_status cfg2 2 4 child1_uses_node1 new_child_pid
           new_health_check_pid false leader_node1_down st_up_up children2).
  reflexivity.
Defined.

Lemma sync_fold_Req_info (leader : WDPGBackendStatus) (idx : list Z) (st : State)
    (loc : SyncLocals) :
  Req_info (fst (fold_left (sync_node leader) idx (st, loc))) = Req_info st.
Proof. apply (sync_fold_frame leader idx st loc). Qed.

(** X23. How the synchronisation treats the primary node id.  Outside
    streaming and logical replication mode the id is not touched.  In those
    modes a primary the leader reports (any id but -1) is taken over.  When
    the leader reports no primary (-1), the code looks at the local status
    of the local primary as the loop over the statuses has just left it: if
    there is a local primary (id >= 0) and that status is not DOWN, the
    leader is taken to hold the primary in quarantine and the local primary
    is kept; if there is no local primary or its status is DOWN, the id
    becomes -1.  For a local primary in the table that status is DOWN when
    the leader reports the backend DOWN, CONNECT_WAIT when the leader reports
    it CONNECT_WAIT or UP, and the status it had before when the leader
    reports it UNUSED; the status of a backend the leader does not report is
    the one it had before.  So a primary that the leader reports UNUSED is
    kept unless it was DOWN already. *)
Theorem sync_primary_node_id (cfg : POOL_CONFIG) (num_init_children max_pool : Z)
    (pool_coninfo : Z -> Z -> Z -> ConnectionInfo) (fork_a_child fork_health_check : Z -> Z)
    (initializing : bool) (leader : WDPGBackendStatus) (st : State) (ch : Children) :
  0 < node_count leader ->
  let st' := fst (sync_backend_from_watchdog cfg num_init_children max_pool pool_coninfo
                    fork_a_child fork_health_check initializing (Some leader) st ch) in
  let p := primary_node_id (Req_info st) in
  (SL_MODE cfg = false -> primary_node_id (Req_info st') = p)
  /\ (SL_MODE cfg = true -> leader_primary_node_id leader <> -1 ->
      primary_node_id (Req_info st') = leader_primary_node_id leader)
  /\ (SL_MODE cfg = true -> leader_primary_node_id leader = -1 ->
      0 <= p -> status_of st' p <> CON_DOWN ->
      primary_node_id (Req_info st') = p)
  /\ (SL_MODE cfg = true -> leader_primary_node_id leader = -1 ->
      p < 0 \/ status_of st' p = CON_DOWN ->
      primary_node_id (Req_info st') = -1)
  /\ (0 <= p < node_count leader -> is_Some (BACKEND_INFO st p) ->
      status_of st' p = synced_status (leader_status leader p) (status_of st p))
  /\ (node_count leader <= p -> status_of st' p = status_of st p).
Proof.
  intros Hn st' p.
  pose proof (sync_state_status cfg num_init_children max_pool pool_coninfo
                fork_a_child fork_health_check initializing leader st ch Hn) as (Hin & Hout).
  fold st' in Hin, Hout.
  assert (Hstat : exists st1,
            Req_info st1 = Req_info st
            /\ (forall i, status_of st' i = status_of st1 i)
            /\ primary_node_id (Req_info st')
               = primary_node_id (Req_info (fst (sync_primary cfg leader st1)))).
  { subst st'. rewrite sync_state by exact Hn. cbv zeta.
    pose proof (sync_fold_frame leader (seqZ 0 (node_count leader)) st
                  (mkSyncLocals false false false [])) as (Hreq & _).
    cbv zeta in Hreq.
    destruct (fold_left _ _ _) as [st1 loc]. cbn [fst snd] in *.
    exists st1. split; [exact Hreq|].
    pose proof (sync_primary_frame cfg leader st1) as (Hb & _).
    split.
    - intros i. unfold status_of, BACKEND_INFO.
      destruct (reload_maste_node_id loc); cbn; rewrite Hb; reflexivity.
    - destruct (reload_maste_node_id loc); reflexivity. }
  destruct Hstat as (st1 & Hreq & Hst & Hprim).
  assert (Hp : primary_node_id (Req_info st1) = p) by (rewrite Hreq; reflexivity).
  rewrite Hprim. clear Hprim.
  split; [|split; [|split; [|split; [|split]]]].
  - intros Hsl. unfold sync_primary. rewrite Hsl. exact Hp.
  - intros Hsl Hlead. unfold sync_primary. rewrite Hsl, Hp. cbn [andb].
    destruct (p =? leader_primary_node_id leader) eqn:He; cbn [negb].
    + apply Z.eqb_eq in He. cbn. congruence.
    + replace (leader_primary_node_id leader =? -1) with false
        by (symmetry; apply Z.eqb_neq; exact Hlead).
      rewrite andb_false_r. reflexivity.
  - intros Hsl Hlead Hpos Hnd. rewrite Hst in Hnd.
    unfold sync_primary. rewrite Hsl, Hp, Hlead. cbn [andb].
    replace (p =? -1) with false by (symmetry; apply Z.eqb_neq; lia).
    cbn [negb].
    replace (p >=? 0) with true by (symmetry; rewrite Z.geb_leb; apply Z.leb_le; lia).
    rewrite (bool_decide_eq_false_2 _ Hnd). cbn. exact Hp.
  - intros Hsl Hlead Hcase.
    unfold sync_primary. rewrite Hsl, Hp, Hlead. cbn [andb].
    destruct (p =? -1) eqn:He; cbn [negb].
    + apply Z.eqb_eq in He. cbn. lia.
    + destruct Hcase as [Hneg|Hd].
      * replace (p >=? 0) with false by (symmetry; rewrite Z.geb_leb; apply Z.leb_gt; lia).
        reflexivity.
      * rewrite Hst in Hd. rewrite (bool_decide_eq_true_2 _ Hd).
        cbn [negb]. rewrite andb_false_r. reflexivity.
  - intros Hrange Hsome. apply (Hin p Hrange Hsome).
  - intros Hge. apply (Hout p Hge).
Qed.

Lemma sync_primary_node_id_witness :
  let st' := fst (sync_backend_from_watchdog cfg2 2 4 child1_uses_node1 new_child_pid
                    new_health_check_pid false (Some leader_no_primary) st_up_up children2) in
  let p := primary_node_id (Req_info st_up_up) in
  (SL_MODE cfg2 = false -> primary_node_id (Req_info st') = p)
  /\ (SL_MODE cfg2 = true -> leader_primary_node_id leader_no_primary <> -1 ->
      primary_node_id (Req_info st') = leader_primary_node_id leader_no_primary)
  /\ (SL_MODE cfg2 = true -> leader_primary_node_id leader_no_primary = -1 ->
      0 <= p -> status_of st' p <> CON_DOWN ->
      primary_node_id (Req_info st') = p)
  /\ (SL_MODE cfg2 = true -> leader_primary_node_id leader_no_primary = -1 ->
      p < 0 \/ status_of st' p = CON_DOWN ->
      primary_node_id (Req_info st') = -1)
  /\ (0 <= p < node_count leader_no_primary -> is_Some (BACKEND_INFO st_up_up p) ->
      status_of st' p
      = synced_status (leader_status leader_no_primary p) (status_of st_up_up p))
  /\ (node_count leader_no_primary <= p -> status_of st' p = status_of st_up_up p).
Proof.
  apply (sync_primary_node_id cfg2 2 4 child1_uses_node1 new_child_pid
           new_health_check_pid false leader_no_primary st_up_up children2).
  reflexivity.
Defined.

(** With no primary on the leader, a local primary that the leader reports
    UNUSED is kept, and one that the leader reports DOWN is given up. *)
Example sync_primary_unused_or_down :
  primary_node_id
    (Req_info (fst (sync_backend_from_watchdog cfg2 2 4 child1_uses_node1 new_child_pid
                      new_health_check_pid false (Some leader_primary_unused) st_up_up
                      children2))) = 0
  /\ primary_node_id
       (Req_info (fst (sync_backend_from_watchdog cfg2 2 4 child1_uses_node1 new_child_pid
                         new_health_check_pid false (Some leader_primary_down) st_up_up
                         children2))) = -1.
Proof. split; reflexivity. Qed.
Lemma list_alter_same {A : Type} (f : A -> A) (l : list A) (n : nat) :
  (forall x, l !! n = Some x -> f x = x) -> alter f n l = l.
Proof.
  revert n. induction l as [|a l IH]; intros n Hf; [reflexivity|].
  destruct n as [|n]; cbn.
  - rewrite (Hf a eq_refl). reflexivity.
  - f_equal. apply IH. intros x Hx. apply Hf. exact Hx.
Qed.

Lemma set_quarantine_same (i : Z) (st : State) :
  quarantine_of st i = false -> set_quarantine i false st = st.
Proof.
  intros Hq. unfold set_quarantine, update_backend, quarantine_of, BACKEND_INFO in *.
  destruct (i <? 0); [reflexivity|].
  rewrite list_alter_same; [destruct st; reflexivity|].
  intros b Hb. rewrite Hb in Hq. destruct b; cbn in *. subst. reflexivity.
Qed.

Lemma sync_node_fixed (leader : WDPGBackendStatus) (st : State) (loc : SyncLocals) (i : Z) :
  quarantine_of st i = false ->
  status_of st i = synced_status (leader_status leader i) (status_of st i) ->
  sync_node leader (st, loc) i = (st, loc).
Proof.
  intros Hq Hs. unfold sync_node. rewrite (set_quarantine_same i st Hq).
  destruct (leader_status leader i) eqn:Hl; cbn in Hs |- *;
    try rewrite Hs; try reflexivity;
    rewrite ?bool_decide_eq_true_2 by reflexivity; reflexivity.
Qed.

Lemma sync_fold_fixed (leader : WDPGBackendStatus) (idx : list Z) (st : State)
    (loc : SyncLocals) :
  (forall i, i ∈ idx ->
     quarantine_of st i = false
     /\ status_of st i = synced_status (leader_status leader i) (status_of st i)) ->
  fold_left (sync_node leader) idx (st, loc) = (st, loc).
Proof.
  induction idx as [|k idx IH]; intros Hall; cbn [fold_left]; [reflexivity|].
  destruct (Hall k) as (Hq & Hs); [left|].
  rewrite (sync_node_fixed leader st loc k Hq Hs).
  apply IH. intros i Hi. apply Hall. right. exact Hi.
Qed.

Lemma sync_primary_settled (cfg : POOL_CONFIG) (leader : WDPGBackendStatus) (st s' : State) :
  backend_info s' = backend_info (fst (sync_primary cfg leader st)) ->
  primary_node_id (Req_info s') = primary_node_id (Req_info (fst (sync_primary cfg leader st))) ->
  sync_primary cfg leader s' = (s', false).
Proof.
  unfold sync_primary at 1 2.
  destruct (SL_MODE cfg) eqn:Hsl; cbn [andb].
  - destruct (primary_node_id (Req_info st) =? leader_primary_node_id leader) eqn:He;
      cbn [negb fst].
    + intros _ Hp. unfold sync_primary. rewrite Hsl, Hp, He. reflexivity.
    + destruct ((primary_node_id (Req_info st) >=? 0)
                && (leader_primary_node_id leader =? -1)
                && negb (bool_decide (status_of st (primary_node_id (Req_info st))
                                      = CON_DOWN))) eqn:Hex; cbn [fst].
      * intros Hb Hp. unfold sync_primary. rewrite Hsl, Hp, He. cbn [andb negb].
        rewrite (status_of_ext st s' _ Hb), Hex. reflexivity.
      * intros _ Hp. cbn in Hp. unfold sync_primary. rewrite Hsl, Hp, Z.eqb_refl.
        reflexivity.
  - intros _ _. unfold sync_primary. rewrite Hsl. reflexivity.
Qed.

(** X24. The synchronisation is idempotent: run again with the same report
    of the leader on the state it has left, in a table that holds every
    backend the leader reports, [sync_backend_from_watchdog()] changes
    nothing, neither in the backend table and the node ids nor in the
    process table: no child is signalled or restarted a second time. *)
Theorem sync_is_idempotent (cfg : POOL_CONFIG) (num_init_children max_pool : Z)
    (pool_coninfo : Z -> Z -> Z -> ConnectionInfo) (fork_a_child fork_health_check : Z -> Z)
    (initializing again_initializing : bool) (leader : WDPGBackendStatus)
    (st : State) (ch : Children) :
  node_count leader <= Z.of_nat (length (backend_info st)) ->
  let r := sync_backend_from_watchdog cfg num_init_children max_pool pool_coninfo
             fork_a_child fork_health_check initializing (Some leader) st ch in
  sync_backend_from_watchdog cfg num_init_children max_pool pool_coninfo
    fork_a_child fork_health_check again_initializing (Some leader) (fst r) (snd r)
  = r.
Proof.
  intros Hlen r.
  destruct (Z_le_gt_dec (node_count leader) 0) as [Hn|Hn].
  { subst r. unfold sync_backend_from_watchdog.
    replace (node_count leader <=? 0) with true by (symmetry; apply Z.leb_le; lia).
    cbn [fst snd].
    replace (node_count leader <=? 0) with true by (symmetry; apply Z.leb_le; lia).
    reflexivity. }
  assert (Hn' : 0 < node_count leader) by lia.
  pose proof (sync_state_status cfg num_init_children max_pool pool_coninfo fork_a_child
                fork_health_check initializing leader st ch Hn') as (Hin & _).
  pose proof (sync_state cfg num_init_children max_pool pool_coninfo fork_a_child
                fork_health_check initializing leader st ch Hn') as Hst.
  cbv zeta in Hin, Hst. fold r in Hin, Hst.
  destruct r as [st3 ch3]. cbn [fst snd] in *.
  unfold sync_backend_from_watchdog.
  replace (node_count leader <=? 0) with false by (symmetry; apply Z.leb_gt; lia).
  rewrite sync_fold_fixed.
  2:{ intros i Hi. apply elem_of_seqZ in Hi.
      assert (Hsome : is_Some (BACKEND_INFO st i)).
      { unfold BACKEND_INFO.
        replace (i <? 0) with false by (symmetry; apply Z.ltb_ge; lia).
        apply lookup_lt_is_Some. lia. }
      destruct (Hin i ltac:(lia) Hsome) as (Hq & Hs).
      split; [exact Hq|]. rewrite Hs at 1. rewrite Hs, synced_status_idem. reflexivity. }
  assert (Hprim : sync_primary cfg leader st3 = (st3, false)).
  { destruct (fold_left (sync_node leader) (seqZ 0 (node_count leader))
                (st, mkSyncLocals false false false [])) as [st1 loc].
    cbn [fst snd] in Hst.
    apply (sync_primary_settled cfg leader st1); rewrite Hst;
      destruct (reload_maste_node_id loc); reflexivity. }
  rewrite Hprim. cbn [reload_maste_node_id node_status_was_changed_to_up
                      node_status_was_changed_to_down negb andb].
  destruct again_initializing; reflexivity.
Qed.

Lemma sync_is_idempotent_witness :
  let r := sync_backend_from_watchdog cfg2 2 4 child1_uses_node1 new_child_pid
             new_health_check_pid false (Some leader_node1_down) st_up_up children2 in
  sync_backend_from_watchdog cfg2 2 4 child1_uses_node1 new_child_pid
    new_health_check_pid false (Some leader_node1_down) (fst r) (snd r)
  = r.
Proof.
  apply (sync_is_idempotent cfg2 2 4 child1_uses_node1 new_child_pid
           new_health_check_pid false false leader_node1_down st_up_up children2).
  simpl. lia.
Defined.
(** *** The process table during the synchronisation *)

Lemma process_at_update_process (i j : Z) (f : ProcessInfo -> ProcessInfo) (ch : Children) :
  0 <= j < Z.of_nat (length (process_info ch)) ->
  process_at (update_process i f ch) j
  = if i =? j then f (process_at ch j) else process_at ch j.
Proof.
  intros Hj. unfold process_at, update_process.
  replace (j <? 0) with false by (symmetry; apply Z.ltb_ge; lia).
  destruct (lookup_lt_is_Some_2 (process_info ch) (Z.to_nat j)) as (x & Hx); [lia|].
  destruct (i <? 0) eqn:Hi.
  - apply Z.ltb_lt in Hi.
    replace (i =? j) with false by (symmetry; apply Z.eqb_neq; lia). reflexivity.
  - apply Z.ltb_ge in Hi. cbn [process_info].
    destruct (Z.eqb_spec i j) as [->|Hne].
    + rewrite list_lookup_alter_eq, Hx. reflexivity.
    + rewrite list_lookup_alter_ne by lia. reflexivity.
Qed.

Lemma length_update_process (i : Z) (f : ProcessInfo -> ProcessInfo) (ch : Children) :
  length (process_info (update_process i f ch)) = length (process_info ch).
Proof.
  unfold update_process. destruct (i <? 0); [reflexivity|].
  cbn [process_info]. apply length_alter.
Qed.

Lemma pids_update_process (i : Z) (f : ProcessInfo -> ProcessInfo) (ch : Children) :
  (forall p, pid (f p) = pid p) ->
  map pid (process_info (update_process i f ch)) = map pid (process_info ch).
Proof.
  intros Hf. unfold update_process. destruct (i <? 0); [reflexivity|].
  cbn [process_info]. generalize (Z.to_nat i) as n. generalize (process_info ch) as l.
  induction l as [|a l IH]; intros n; [reflexivity|].
  destruct n as [|n]; cbn; [rewrite Hf; reflexivity|].
  f_equal. apply IH.
Qed.

(** The loop that only marks the children. *)
Lemma mark_all_frame (idx : list Z) :
  forall ch,
    let ch' := fold_left (fun ch i => update_process i (fun p => mkProcessInfo (pid p) 1) ch)
                         idx ch in
    map pid (process_info ch') = map pid (process_info ch)
    /\ signals ch' = signals ch
    /\ worker_pid ch' = worker_pid ch.
Proof.
  induction idx as [|k idx IH]; intros ch; cbn [fold_left]; [repeat split|].
  destruct (IH (update_process k (fun p => mkProcessInfo (pid p) 1) ch)) as (A & B & C).
  cbv zeta. rewrite A, B, C.
  split; [apply pids_update_process; reflexivity|].
  unfold update_process. destruct (k <? 0); split; reflexivity.
Qed.

(** The loop that forks the missing health-check processes. *)
Lemma health_check_frame (cfg : POOL_CONFIG) (fork_health_check : Z -> Z) (idx : list Z) :
  forall ch,
    let ch' := fold_left (fun ch i =>
                            if health_check_pid ch i =? 0
                            then set_health_check_pid i (fork_health_check i) ch
                            else ch) idx ch in
    process_info ch' = process_info ch /\ signals ch' = signals ch.
Proof.
  induction idx as [|k idx IH]; intros ch; cbn [fold_left]; [split; reflexivity|].
  match goal with |- context [fold_left ?f idx ?a] => destruct (IH a) as (A & B) end.
  cbv zeta. rewrite A, B.
  destruct (health_check_pid ch k =? 0); [|split; reflexivity].
  unfold set_health_check_pid. destruct (k <? 0); split; reflexivity.
Qed.

Lemma sync_fold_no_detach (leader : WDPGBackendStatus) (idx : list Z) :
  forall (st : State) (loc : SyncLocals),
    node_status_was_changed_to_down loc = false ->
    (forall i, i ∈ idx -> leader_status leader i = CON_DOWN -> status_of st i = CON_DOWN) ->
    node_status_was_changed_to_down (snd (fold_left (sync_node leader) idx (st, loc))) = false.
Proof.
  induction idx as [|k idx IH]; intros st loc Hloc Hall; cbn [fold_left]; [exact Hloc|].
  pose proof (sync_node_frame leader st loc k) as (_ & _ & _ & Hs & _).
  assert (Hstep : node_status_was_changed_to_down (snd (sync_node leader (st, loc) k)) = false).
  { unfold sync_node.
    destruct (bool_decide (leader_status leader k = CON_DOWN)) eqn:Hd.
    - apply bool_decide_eq_true in Hd.
      rewrite status_of_set_quarantine, (Hall k (ltac:(left)) Hd).
      rewrite bool_decide_eq_true_2 by reflexivity. exact Hloc.
    - repeat match goal with |- context [if ?c then _ else _] => destruct c end;
        exact Hloc. }
  destruct (sync_node leader (st, loc) k) as [st1 loc1]. cbn [fst snd] in Hs, Hstep.
  apply IH; [exact Hstep|].
  intros i Hi Hd. rewrite Hs.
  destruct ((k =? i) && bool_decide (is_Some (BACKEND_INFO st i))).
  - rewrite Hd. reflexivity.
  - apply Hall; [right; exact Hi|exact Hd].
Qed.

Lemma health_check_fold (fork_health_check : Z -> Z) (n : nat) (ch : Children) :
  let ch' := fold_left (fun ch i =>
                          if health_check_pid ch i =? 0
                          then set_health_check_pid i (fork_health_check i) ch
                          else ch) (seqZ 0 (Z.of_nat n)) ch in
  forall j : nat,
    health_check_pids ch' !! j
    = (fun p => if (Z.of_nat j <? Z.of_nat n) && (p =? 0)
                then fork_health_check (Z.of_nat j) else p) <$> health_check_pids ch !! j.
Proof.
  induction n as [|n IH]; intros ch' j; subst ch'.
  - change (seqZ 0 (Z.of_nat 0)) with (@nil Z). cbn [fold_left].
    replace (Z.of_nat j <? Z.of_nat 0) with false by (symmetry; apply Z.ltb_ge; lia).
    cbn [andb]. destruct (health_check_pids ch !! j); reflexivity.
  - replace (Z.of_nat (S n)) with (Z.of_nat n + 1) by lia.
    rewrite seqZ_app by lia. cbn [seqZ]. rewrite fold_left_app.
    replace (seqZ (0 + Z.of_nat n) 1) with [Z.of_nat n] by reflexivity.
    cbn [fold_left]. cbv zeta in IH.
    set (chn := fold_left _ (seqZ 0 (Z.of_nat n)) ch) in *.
    assert (Hn : health_check_pids chn !! n = health_check_pids ch !! n).
    { rewrite IH. replace (Z.of_nat n <? Z.of_nat n) with false
        by (symmetry; apply Z.ltb_ge; lia).
      cbn. destruct (health_check_pids ch !! n); reflexivity. }
    assert (Hat : health_check_pid chn (Z.of_nat n)
                  = default 0 (health_check_pids ch !! n)).
    { unfold health_check_pid.
      replace (Z.of_nat n <? 0) with false by (symmetry; apply Z.ltb_ge; lia).
      rewrite Nat2Z.id, Hn. reflexivity. }
    rewrite Hat.
    destruct (Nat.eq_dec j n) as [->|Hne].
    + replace (Z.of_nat n <? Z.of_nat n + 1) with true by (symmetry; apply Z.ltb_lt; lia).
      cbn [andb].
      destruct (health_check_pids ch !! n) as [p|] eqn:Hp; cbn [default from_option id fmap option_fmap option_map].
      * destruct (p =? 0) eqn:H0.
        -- unfold set_health_check_pid.
           replace (Z.of_nat n <? 0) with false by (symmetry; apply Z.ltb_ge; lia).
           cbn [health_check_pids]. rewrite Nat2Z.id.
           apply list_lookup_insert_eq. apply lookup_lt_is_Some. rewrite Hn. eauto.
        -- rewrite Hn. reflexivity.
      * cbn. unfold set_health_check_pid.
        replace (Z.of_nat n <? 0) with false by (symmetry; apply Z.ltb_ge; lia).
        cbn [health_check_pids]. rewrite Nat2Z.id.
        rewrite list_insert_ge; [exact Hn|].
        apply lookup_ge_None. exact Hn.
    + transitivity (health_check_pids chn !! j).
      * destruct (_ =? 0); [|reflexivity].
        unfold set_health_check_pid.
        replace (Z.of_nat n <? 0) with false by (symmetry; apply Z.ltb_ge; lia).
        cbn [health_check_pids]. rewrite Nat2Z.id.
        apply list_lookup_insert_ne. congruence.
      * rewrite IH. destruct (health_check_pids ch !! j) as [p|]; [|reflexivity].
        cbn. f_equal.
        replace (Z.of_nat j <? Z.of_nat n + 1) with (Z.of_nat j <? Z.of_nat n); [reflexivity|].
        destruct (Z.ltb_spec (Z.of_nat j) (Z.of_nat n));
          destruct (Z.ltb_spec (Z.of_nat j) (Z.of_nat n + 1)); try reflexivity; lia.
Qed.

Lemma health_check_fold_worker (fork_health_check : Z -> Z) (idx : list Z) :
  forall ch,
    worker_pid (fold_left (fun ch i =>
                             if health_check_pid ch i =? 0
                             then set_health_check_pid i (fork_health_check i) ch
                             else ch) idx ch) = worker_pid ch.
Proof.
  induction idx as [|k idx IH]; intros ch; cbn [fold_left]; [reflexivity|].
  rewrite IH. destruct (health_check_pid ch k =? 0); [|reflexivity].
  unfold set_health_check_pid. destruct (k <? 0); reflexivity.
Qed.

Lemma health_check_fold_started (cfg : POOL_CONFIG) (fork_health_check : Z -> Z)
    (ch : Children) :
  health_check_pids
    (fold_left (fun ch i =>
                  if health_check_pid ch i =? 0
                  then set_health_check_pid i (fork_health_check i) ch
                  else ch) (seqZ 0 (num_backends cfg)) ch)
  = started_health_checks cfg fork_health_check (health_check_pids ch).
Proof.
  replace (seqZ 0 (num_backends cfg))
    with (seqZ 0 (Z.of_nat (Z.to_nat (num_backends cfg))))
    by (unfold seqZ; rewrite Nat2Z.id; reflexivity).
  apply list_eq. intros j.
  rewrite (health_check_fold fork_health_check (Z.to_nat (num_backends cfg)) ch j).
  unfold started_health_checks. rewrite list_lookup_imap.
  destruct (health_check_pids ch !! j) as [p|]; [|reflexivity].
  cbn. f_equal.
  replace (Z.of_nat j <? Z.of_nat (Z.to_nat (num_backends cfg)))
    with (Z.of_nat j <? num_backends cfg); [reflexivity|].
  destruct (Z.ltb_spec (Z.of_nat j) (num_backends cfg));
    destruct (Z.ltb_spec (Z.of_nat j) (Z.of_nat (Z.to_nat (num_backends cfg))));
    try reflexivity; lia.
Qed.

(** X25. A synchronisation that detaches nothing kills no child process: in
    streaming replication mode, when the primary node id agrees with the
    leader's (or the mode has no primary) and every backend the leader
    reports DOWN is DOWN locally already, [sync_backend_from_watchdog()]
    leaves the pids of the process table as they are.  Either it leaves the
    children alone altogether (always so while the supervisor is starting
    up), or it sends one signal, SIGUSR1 to the worker, and forks a
    health-check process for exactly the backends below NUM_BACKENDS whose
    entry in [health_check_pids[]] is 0, the other entries staying as they
    are. *)
Theorem sync_without_detach_keeps_children (cfg : POOL_CONFIG)
    (num_init_children max_pool : Z)
    (pool_coninfo : Z -> Z -> Z -> ConnectionInfo) (fork_a_child fork_health_check : Z -> Z)
    (initializing : bool) (leader : WDPGBackendStatus) (st : State) (ch : Children) :
  STREAM cfg = true ->
  SL_MODE cfg = false \/ primary_node_id (Req_info st) = leader_primary_node_id leader ->
  (forall i, 0 <= i < node_count leader ->
             leader_status leader i = CON_DOWN -> status_of st i = CON_DOWN) ->
  let ch' := snd (sync_backend_from_watchdog cfg num_init_children max_pool pool_coninfo
                    fork_a_child fork_health_check initializing (Some leader) st ch) in
  map pid (process_info ch') = map pid (process_info ch)
  /\ (initializing = true -> ch' = ch)
  /\ (ch' = ch
      \/ (signals ch' = signals ch ++ [(worker_pid ch, SIGUSR1)]
          /\ worker_pid ch' = worker_pid ch
          /\ health_check_pids ch'
             = started_health_checks cfg fork_health_check (health_check_pids ch))).
Proof.
  intros Hstream Hprim Hdown ch'. subst ch'. unfold sync_backend_from_watchdog.
  assert (Hsame : map pid (process_info ch) = map pid (process_info ch)
                  /\ (initializing = true -> ch = ch)
                  /\ (ch = ch
                      \/ (signals ch = signals ch ++ [(worker_pid ch, SIGUSR1)]
                          /\ worker_pid ch = worker_pid ch
                          /\ health_check_pids ch
                             = started_health_checks cfg fork_health_check
                                 (health_check_pids ch))))
    by (split; [reflexivity|split; [reflexivity|left; reflexivity]]).
  destruct (node_count leader <=? 0); [exact Hsame|].
  pose proof (sync_fold_no_detach leader (seqZ 0 (node_count leader)) st
                (mkSyncLocals false false false []) eq_refl) as Hno.
  pose proof (sync_fold_Req_info leader (seqZ 0 (node_count leader)) st
                (mkSyncLocals false false false [])) as Hreq.
  destruct (fold_left _ _ _) as [st1 loc]. cbn [fst snd] in Hno, Hreq.
  rewrite Hno by (intros i Hi; apply Hdown; apply elem_of_seqZ in Hi; lia).
  assert (Hpc : sync_primary cfg leader st1 = (st1, false)).
  { unfold sync_primary. destruct Hprim as [Hsl|Heq].
    - rewrite Hsl. reflexivity.
    - rewrite Hreq, Heq, Z.eqb_refl. rewrite andb_false_r. reflexivity. }
  rewrite Hpc. destruct initializing; [exact Hsame|].
  destruct (negb (node_status_was_changed_to_up loc) && negb false && negb false);
    [exact Hsame|].
  clear Hsame.
  rewrite Hstream. cbn [negb snd]. unfold sync_children.
  match goal with |- context [fold_left ?f (seqZ 0 num_init_children) ch] =>
    pose proof (mark_all_frame (seqZ 0 num_init_children) ch) as (A & B & C);
    cbv zeta in A, B, C;
    set (ch1 := fold_left f (seqZ 0 num_init_children) ch) in *
  end.
  assert (Hh : health_check_pids ch1 = health_check_pids ch).
  { subst ch1. clear. generalize (seqZ 0 num_init_children). intros idx. revert ch.
    induction idx as [|k idx IH]; intros ch; cbn [fold_left]; [reflexivity|].
    rewrite IH. unfold update_process. destruct (k <? 0); reflexivity. }
  match goal with |- context [fold_left ?f (seqZ 0 (num_backends cfg)) ?a] =>
    pose proof (health_check_frame cfg fork_health_check (seqZ 0 (num_backends cfg)) a)
      as (D & E); cbv zeta in D, E;
    pose proof (health_check_fold_worker fork_health_check (seqZ 0 (num_backends cfg)) a)
      as F;
    pose proof (health_check_fold_started cfg fork_health_check a) as G
  end.
  rewrite D, E, F, G. cbn [kill process_info signals worker_pid health_check_pids].
  rewrite A, B, C, Hh.
  split; [reflexivity|]. split; [discriminate|]. right. repeat split.
Qed.

Lemma sync_without_detach_keeps_children_witness :
  let ch' := snd (sync_backend_from_watchdog cfg2 2 4 child1_uses_node1 new_child_pid
                    new_health_check_pid false (Some leader_all_up) st_up_down
                    children_health_check1_missing) in
  map pid (process_info ch') = map pid (process_info children_health_check1_missing)
  /\ (false = true -> ch' = children_health_check1_missing)
  /\ (ch' = children_health_check1_missing
      \/ (signals ch'
          = signals children_health_check1_missing
            ++ [(worker_pid children_health_check1_missing, SIGUSR1)]
          /\ worker_pid ch' = worker_pid children_health_check1_missing
          /\ health_check_pids ch'
             = started_health_checks cfg2 new_health_check_pid
                 (health_check_pids children_health_check1_missing))).
Proof.
  apply (sync_without_detach_keeps_children cfg2 2 4 child1_uses_node1 new_child_pid
           new_health_check_pid false leader_all_up st_up_down
           children_health_check1_missing).
  - reflexivity.
  - right. reflexivity.
  - intros i Hi. assert (Hc : i = 0 \/ i = 1) by (simpl in Hi; lia).
    destruct Hc as [-> | ->]; discriminate.
Defined.

(** On that input node 1 comes up, the worker is signalled and the missing
    health-check process of node 1 is forked. *)
Example sync_forks_missing_health_check :
  snd (sync_backend_from_watchdog cfg2 2 4 child1_uses_node1 new_child_pid
         new_health_check_pid false (Some leader_all_up) st_up_down
         children_health_check1_missing)
  = mkChildren [mkProcessInfo 101 1; mkProcessInfo 102 1] 90 [201; 401] [(90, SIGUSR1)].
Proof. reflexivity. Qed.
Lemma restart_child_full (cfg : POOL_CONFIG) (max_pool : Z)
    (pool_coninfo : Z -> Z -> Z -> ConnectionInfo) (fork_a_child : Z -> Z)
    (down : list Z) (ch : Children) (k : Z) :
  let ch' := restart_child cfg max_pool pool_coninfo fork_a_child false down ch k in
  length (process_info ch') = length (process_info ch)
  /\ (exists more, signals ch' = signals ch ++ more)
  /\ (pid (process_at ch k) <> 0 -> In (pid (process_at ch k), SIGQUIT) (signals ch'))
  /\ (forall j, 0 <= j < Z.of_nat (length (process_info ch)) ->
        process_at ch' j
        = if (k =? j) && negb (pid (process_at ch j) =? 0)
          then mkProcessInfo (fork_a_child j) (need_to_restart (process_at ch j))
          else process_at ch j).
Proof.
  unfold restart_child. cbv zeta.
  destruct (pid (process_at ch k) =? 0) eqn:Hp; cbn [negb].
  - apply Z.eqb_eq in Hp. split; [reflexivity|]. split; [exists []; symmetry; apply app_nil_r|].
    split; [congruence|]. intros j Hj.
    destruct (Z.eqb_spec k j) as [->|Hne]; cbn [andb]; [|reflexivity].
    rewrite Hp. reflexivity.
  - apply Z.eqb_neq in Hp.
    split; [rewrite length_update_process; reflexivity|].
    assert (Hsig : signals (update_process k
                     (fun p => mkProcessInfo (fork_a_child k) (need_to_restart p))
                     (kill (pid (process_at ch k)) SIGQUIT ch))
                   = signals ch ++ [(pid (process_at ch k), SIGQUIT)]).
    { unfold update_process. destruct (k <? 0); reflexivity. }
    split; [eexists; exact Hsig|].
    split; [intros _; rewrite Hsig; apply in_or_app; right; left; reflexivity|].
    intros j Hj. rewrite process_at_update_process by exact Hj.
    change (process_at (kill ?p ?s ch) j) with (process_at ch j).
    destruct (Z.eqb_spec k j) as [->|Hne]; cbn [andb]; [|reflexivity].
    replace (pid (process_at ch j) =? 0) with false by (symmetry; apply Z.eqb_neq; exact Hp).
    reflexivity.
Qed.

Lemma restart_all_fold (cfg : POOL_CONFIG) (max_pool : Z)
    (pool_coninfo : Z -> Z -> Z -> ConnectionInfo) (fork_a_child : Z -> Z)
    (down : list Z) (idx : list Z) :
  forall ch,
    let ch' := fold_left (restart_child cfg max_pool pool_coninfo fork_a_child false down)
                         idx ch in
    length (process_info ch') = length (process_info ch)
    /\ (exists more, signals ch' = signals ch ++ more)
    /\ (forall j, 0 <= j < Z.of_nat (length (process_info ch)) ->
          (j ∈ idx -> pid (process_at ch j) <> 0 ->
           In (pid (process_at ch j), SIGQUIT) (signals ch')
           /\ pid (process_at ch' j) = fork_a_child j)
          /\ (pid (process_at ch j) = 0 -> process_at ch' j = process_at ch j)
          /\ (j ∉ idx -> process_at ch' j = process_at ch j)).
Proof.
  induction idx as [|k idx IH]; intros ch; cbn [fold_left].
  - cbv zeta. split; [reflexivity|]. split; [exists []; symmetry; apply app_nil_r|].
    intros j Hj. split; [intros Hin; inversion Hin|]. split; reflexivity.
  - destruct (restart_child_full cfg max_pool pool_coninfo fork_a_child down ch k)
      as (L1 & (more1 & S1) & K1 & P1).
    set (ch1 := restart_child cfg max_pool pool_coninfo fork_a_child false down ch k) in *.
    destruct (IH ch1) as (L2 & (more2 & S2) & P2). cbv zeta in *.
    split; [congruence|].
    split; [exists (more1 ++ more2); rewrite S2, S1, app_assoc; reflexivity|].
    intros j Hj.
    destruct (P2 j ltac:(lia)) as (Q1 & Q2 & Q3).
    specialize (P1 j Hj).
    split; [|split].
    + intros Hin Hpid.
      destruct (Z.eqb_spec k j) as [->|Hne].
      * cbn [andb] in P1.
        replace (pid (process_at ch j) =? 0) with false in P1
          by (symmetry; apply Z.eqb_neq; exact Hpid).
        cbn [negb] in P1.
        split.
        -- rewrite S2. apply in_or_app. left. apply K1. exact Hpid.
        -- destruct (decide (j ∈ idx)) as [Hj'|Hj'].
           ++ destruct (Z.eq_dec (fork_a_child j) 0) as [H0|H0].
              ** rewrite Q2 by (rewrite P1; exact H0). rewrite P1. reflexivity.
              ** apply Q1; [exact Hj'|rewrite P1; exact H0].
           ++ rewrite Q3 by exact Hj'. rewrite P1. reflexivity.
      * cbn [andb] in P1.
        assert (Hj' : j ∈ idx).
        { apply elem_of_cons in Hin. destruct Hin as [Hin|Hin]; [congruence|exact Hin]. }
        rewrite <- P1. apply Q1; [exact Hj'|rewrite P1; exact Hpid].
    + intros H0. rewrite Q2; rewrite P1.
      * rewrite H0. cbn. rewrite andb_false_r. reflexivity.
      * rewrite H0. cbn. rewrite andb_false_r. exact H0.
    + intros Hnin. rewrite Q3 by (intros H; apply Hnin; right; exact H).
      rewrite P1.
      destruct (Z.eqb_spec k j) as [->|Hne]; [exfalso; apply Hnin; left|reflexivity].
Qed.

(** X26. A change of the primary during the synchronisation restarts every
    child: in streaming or logical replication mode, when the leader names
    a primary other than the local one, [sync_backend_from_watchdog()]
    (outside the start-up phase) sends SIGQUIT to every child process of the
    table and puts a newly forked process in its slot.  A slot that holds no
    process (pid 0) is left empty. *)
Theorem sync_primary_change_restarts_all (cfg : POOL_CONFIG)
    (num_init_children max_pool : Z)
    (pool_coninfo : Z -> Z -> Z -> ConnectionInfo) (fork_a_child fork_health_check : Z -> Z)
    (leader : WDPGBackendStatus) (st : State) (ch : Children) :
  SL_MODE cfg = true ->
  0 < node_count leader ->
  leader_primary_node_id leader <> -1 ->
  leader_primary_node_id leader <> primary_node_id (Req_info st) ->
  num_init_children <= Z.of_nat (length (process_info ch)) ->
  let ch' := snd (sync_backend_from_watchdog cfg num_init_children max_pool pool_coninfo
                    fork_a_child fork_health_check false (Some leader) st ch) in
  forall i, 0 <= i < num_init_children ->
    (pid (process_at ch i) <> 0 ->
     In (pid (process_at ch i), SIGQUIT) (signals ch')
     /\ pid (process_at ch' i) = fork_a_child i)
    /\ (pid (process_at ch i) = 0 -> process_at ch' i = process_at ch i).
Proof.
  intros Hsl Hn Hlead Hdiff Hlen ch' i Hi. subst ch'.
  unfold sync_backend_from_watchdog.
  replace (node_count leader <=? 0) with false by (symmetry; apply Z.leb_gt; lia).
  pose proof (sync_fold_Req_info leader (seqZ 0 (node_count leader)) st
                (mkSyncLocals false false false [])) as Hreq.
  destruct (fold_left _ _ _) as [st1 loc]. cbn [fst] in Hreq.
  assert (Hpc : sync_primary cfg leader st1
                = (set_Req (with_primary_node_id (leader_primary_node_id leader)) st1, true)).
  { unfold sync_primary. rewrite Hsl, Hreq. cbn [andb].
    replace (primary_node_id (Req_info st) =? leader_primary_node_id leader) with false
      by (symmetry; apply Z.eqb_neq; congruence).
    replace (leader_primary_node_id leader =? -1) with false
      by (symmetry; apply Z.eqb_neq; exact Hlead).
    cbn [negb]. rewrite andb_false_r. reflexivity. }
  rewrite Hpc. cbn [negb]. rewrite andb_false_r.
  assert (Hdec : (if negb (STREAM cfg) then (true, false)
                  else if true then (true, false)
                  else if negb (node_status_was_changed_to_down loc) then (false, false)
                  else (true, negb (check_all_backend_down cfg
                         (if reload_maste_node_id loc
                          then set_Req (with_main_node_id
                                 (get_next_main_node cfg
                                    (set_Req (with_primary_node_id
                                       (leader_primary_node_id leader)) st1)))
                                 (set_Req (with_primary_node_id
                                    (leader_primary_node_id leader)) st1)
                          else set_Req (with_primary_node_id
                                 (leader_primary_node_id leader)) st1))))
                 = (true, false))
    by (destruct (negb (STREAM cfg)); reflexivity).
  rewrite Hdec. cbn [snd]. unfold sync_children.
  destruct (restart_all_fold cfg max_pool pool_coninfo fork_a_child (down_node_ids loc)
              (seqZ 0 num_init_children) ch) as (L & (more & S) & P).
  set (ch1 := fold_left _ (seqZ 0 num_init_children) ch) in *.
  match goal with |- context [fold_left ?f (seqZ 0 (num_backends cfg)) ?a] =>
    pose proof (health_check_frame cfg fork_health_check (seqZ 0 (num_backends cfg)) a)
      as (D & E); cbv zeta in D, E;
    set (ch3 := fold_left f (seqZ 0 (num_backends cfg)) a) in *
  end.
  assert (Hproc : process_at ch3 i = process_at ch1 i).
  { unfold process_at. rewrite D. reflexivity. }
  destruct (P i ltac:(lia)) as (P1 & P2 & _).
  split.
  - intros Hpid. destruct P1 as (P1a & P1b); [apply elem_of_seqZ; lia|exact Hpid|].
    split; [|rewrite Hproc; exact P1b].
    rewrite E. cbn [kill signals]. apply in_or_app. left. exact P1a.
  - intros H0. rewrite Hproc. apply P2. exact H0.
Qed.

Lemma sync_primary_change_restarts_all_witness :
  let ch' := snd (sync_backend_from_watchdog cfg2 2 4 child1_uses_node1 new_child_pid
                    new_health_check_pid false (Some leader_primary1) st_up_up children2) in
  (pid (process_at children2 1) <> 0 ->
   In (pid (process_at children2 1), SIGQUIT) (signals ch')
   /\ pid (process_at ch' 1) = new_child_pid 1)
  /\ (pid (process_at children2 1) = 0 -> process_at ch' 1 = process_at children2 1).
Proof.
  refine (sync_primary_change_restarts_all cfg2 2 4 child1_uses_node1 new_child_pid
            new_health_check_pid leader_primary1 st_up_up children2 _ _ _ _ _ 1 _).
  - reflexivity.
  - reflexivity.
  - discriminate.
  - discriminate.
  - simpl. lia.
  - lia.
Defined.
(** ** The whole SIGUSR1 processor *)

Lemma sync_frame (cfg : POOL_CONFIG) (num_init_children max_pool : Z)
    (pool_coninfo : Z -> Z -> Z -> ConnectionInfo) (fork_a_child fork_health_check : Z -> Z)
    (initializing : bool) (backendStatus : option WDPGBackendStatus)
    (st : State) (ch : Children) :
  let st' := fst (sync_backend_from_watchdog cfg num_init_children max_pool pool_coninfo
                    fork_a_child fork_health_check initializing backendStatus st ch) in
  same_queue st st' /\ same_lock st st' /\ trace st' = trace st.
Proof.
  destruct backendStatus as [leader|]; [|cbn; repeat split].
  destruct (Z_le_gt_dec (node_count leader) 0) as [Hn|Hn].
  { unfold sync_backend_from_watchdog.
    replace (node_count leader <=? 0) with true by (symmetry; apply Z.leb_le; lia).
    cbn. repeat split. }
  cbv zeta. rewrite sync_state by lia. cbv zeta.
  pose proof (sync_fold_frame leader (seqZ 0 (node_count leader)) st
                (mkSyncLocals false false false [])) as (Hreq & Htr & _).
  cbv zeta in Hreq, Htr.
  assert (Hflags : forall idx acc,
            signalFlags (fst (fold_left (sync_node leader) idx acc)) = signalFlags (fst acc)).
  { induction idx as [|k idx IH]; intros acc; cbn [fold_left]; [reflexivity|].
    rewrite IH. destruct acc as [s loc]. unfold sync_node. cbn [fst].
    assert (Hq : forall i q s0, signalFlags (set_quarantine i q s0) = signalFlags s0)
      by (intros i q s0; unfold set_quarantine, update_backend; destruct (i <? 0); reflexivity).
    assert (Hs : forall i v s0, signalFlags (set_status i v s0) = signalFlags s0)
      by (intros i v s0; unfold set_status, update_backend; destruct (i <? 0); reflexivity).
    repeat match goal with |- context [if ?c then _ else _] => destruct c end;
      cbn [fst]; rewrite ?Hs, ?Hq; reflexivity. }
  specialize (Hflags (seqZ 0 (node_count leader)) (st, mkSyncLocals false false false [])).
  destruct (fold_left _ _ _) as [st1 loc]. cbn [fst snd] in *.
  assert (Hprim : forall s,
            let s' := fst (sync_primary cfg leader s) in
            same_queue s s' /\ same_lock s s' /\ trace s' = trace s).
  { intros s. unfold sync_primary.
    repeat match goal with |- context [if ?c then _ else _] => destruct c end;
      cbn; repeat split. }
  destruct (Hprim st1) as ((A1 & A2 & A3 & A4) & (B1 & B2 & B3) & C).
  set (st2 := fst (sync_primary cfg leader st1)) in *.
  destruct (reload_maste_node_id loc); cbn;
    unfold same_queue, same_lock; cbn;
    rewrite ?A1, ?A2, ?A3, ?A4, ?B1, ?B2, ?B3, ?C, ?Hreq, ?Htr, ?Hflags; repeat split.
Qed.

Lemma quorum_changed_frame (cfg : POOL_CONFIG) (quorum_state : Z) (wd : WD_STATES)
    (st : State) :
  let st' := sigusr1_quorum_changed cfg quorum_state wd st in
  Req_info st' = Req_info st
  /\ backend_info st' = backend_info st
  /\ (forall r, r <> SIG_WATCHDOG_QUORUM_CHANGED -> signalFlags st' r = signalFlags st r)
  /\ signalFlags st' SIG_WATCHDOG_QUORUM_CHANGED = false.
Proof.
  unfold sigusr1_quorum_changed.
  destruct (signalFlags st SIG_WATCHDOG_QUORUM_CHANGED) eqn:Hf; [|repeat split; exact Hf].
  set (st1 := set_signalFlags _ st).
  assert (H1 : Req_info st1 = Req_info st /\ backend_info st1 = backend_info st
               /\ (forall r, r <> SIG_WATCHDOG_QUORUM_CHANGED ->
                             signalFlags st1 r = signalFlags st r)
               /\ signalFlags st1 SIG_WATCHDOG_QUORUM_CHANGED = false).
  { subst st1. cbn. repeat split.
    intros r Hr. destruct (decide (r = SIG_WATCHDOG_QUORUM_CHANGED)); [contradiction|reflexivity]. }
  destruct (quorum_state >=? 0); [|exact H1].
  unfold update_backend_quarantine_status.
  pose proof (update_backend_quarantine_status_fold cfg
                (bool_decide (wd = WD_COORDINATOR)) (seqZ 0 (num_backends cfg)) st1)
    as (A & B & C & _).
  cbv zeta in A, B, C. unfold failback_flags in A, B, C.
  destruct H1 as (R1 & R2 & R3 & R4).
  rewrite C, A, B. repeat split; assumption.
Qed.

Lemma clear_signal_flags (reason r : User1SignalReason) (st : State) :
  signalFlags (clear_signal reason st) r
  = if decide (r = reason) then false else signalFlags st r.
Proof. reflexivity. Qed.

(** The queue, the lock and the later signal slots after a block of the
    processor that clears the slot [reason] and then may synchronise. *)
Lemma sync_block_frame (cfg : POOL_CONFIG) (num_init_children max_pool : Z)
    (pool_coninfo : Z -> Z -> Z -> ConnectionInfo) (fork_a_child fork_health_check : Z -> Z)
    (initializing : bool) (leader : option WDPGBackendStatus) (reason : User1SignalReason)
    (do_sync : bool) (st : State) (ch : Children) :
  let res :=
    if signalFlags st reason then
      if do_sync
      then sync_backend_from_watchdog cfg num_init_children max_pool pool_coninfo
             fork_a_child fork_health_check initializing leader (clear_signal reason st) ch
      else (clear_signal reason st, ch)
    else (st, ch) in
  request_queue_head (Req_info (fst res)) = request_queue_head (Req_info st)
  /\ request_queue_tail (Req_info (fst res)) = request_queue_tail (Req_info st)
  /\ request (Req_info (fst res)) = request (Req_info st)
  /\ same_lock st (fst res)
  /\ (forall r, r <> reason -> signalFlags (fst res) r = signalFlags st r)
  /\ signalFlags (fst res) reason = false
  /\ (initializing = true -> snd res = ch).
Proof.
  cbv zeta. destruct (signalFlags st reason) eqn:Hf.
  - assert (Hclear : forall r, r <> reason ->
                       signalFlags (clear_signal reason st) r = signalFlags st r).
    { intros r Hr. rewrite clear_signal_flags. destruct (decide (r = reason)); congruence. }
    assert (Hself : signalFlags (clear_signal reason st) reason = false).
    { rewrite clear_signal_flags. destruct (decide (reason = reason)); congruence. }
    destruct do_sync.
    + pose proof (sync_frame cfg num_init_children max_pool pool_coninfo fork_a_child
                    fork_health_check initializing leader (clear_signal reason st) ch)
        as ((A1 & A2 & A3 & A4) & B & _).
      cbv zeta in A1, A2, A3, A4, B.
      split; [exact A1|]. split; [exact A2|]. split; [exact A3|]. split; [exact B|].
      split; [intros r Hr; rewrite A4; apply Hclear; exact Hr|].
      split; [rewrite A4; exact Hself|].
      intros ->. unfold sync_backend_from_watchdog.
      destruct leader as [l|]; [|reflexivity].
      destruct (node_count l <=? 0); [reflexivity|].
      destruct (fold_left _ _ _) as [s1 loc].
      destruct (sync_primary cfg l s1) as [s2 pc]. reflexivity.
    + cbn [fst snd]. repeat split; auto.
  - cbn [fst snd]. repeat split; auto.
Qed.

Lemma dequeued_failback_requests (flags : Z) (l : list Z) :
  dequeued (map (fun i => EvSendFailbackRequest i flags) l) = [].
Proof. induction l as [|a l IH]; [reflexivity|exact IH]. Qed.

(** X27. A failover request that reaches the supervisor while it is still
    starting up is ignored: when neither the slot SIG_WATCHDOG_QUORUM_CHANGED
    nor the slot SIG_INFORM_QURANTINE_NODES is raised (the two blocks that
    can themselves issue requests are not entered),
    [sigusr1_interupt_processor()] clears the failover slot without calling
    [failover()].  The request stays in the queue as it was (nothing signals
    the supervisor about it again), and no child process is touched. *)
Theorem failover_interrupt_ignored_at_startup (cfg : POOL_CONFIG)
    (num_init_children max_pool : Z)
    (pool_coninfo : Z -> Z -> Z -> ConnectionInfo) (fork_a_child fork_health_check : Z -> Z)
    (degenerate_all_quarantine_nodes : State -> State)
    (env : Env) (fuel : nat) (is_parent : bool)
    (quorum_state : Z) (wd_quorum wd_sync wd_changed : WD_STATES)
    (leader_sync leader_changed : option WDPGBackendStatus)
    (st : State) (ch : Children) :
  signalFlags st SIG_WATCHDOG_QUORUM_CHANGED = false ->
  signalFlags st SIG_INFORM_QURANTINE_NODES = false ->
  exists st',
    sigusr1_interupt_processor cfg num_init_children max_pool pool_coninfo fork_a_child
      fork_health_check degenerate_all_quarantine_nodes env fuel is_parent quorum_state
      wd_quorum wd_sync wd_changed leader_sync leader_changed true st ch
    = Done (st', ch)
    /\ signalFlags st' SIG_FAILOVER_INTERRUPT = false
    /\ queue_size st' = queue_size st
    /\ pending cfg st' = pending cfg st
    /\ dequeued (trace st') = dequeued (trace st).
Proof.
  intros Hquorum Hinform. unfold sigusr1_interupt_processor.
  assert (Hst1 : sigusr1_quorum_changed cfg quorum_state wd_quorum st = st)
    by (unfold sigusr1_quorum_changed; rewrite Hquorum; reflexivity).
  rewrite Hst1, Hinform. clear Hst1.
  pose proof (sync_block_frame cfg num_init_children max_pool pool_coninfo fork_a_child
                fork_health_check true leader_sync SIG_BACKEND_SYNC_REQUIRED
                (bool_decide (wd_sync = WD_STANDBY)) st ch) as F3.
  pose proof (sync_frame cfg num_init_children max_pool pool_coninfo fork_a_child
                fork_health_check true leader_sync
                (clear_signal SIG_BACKEND_SYNC_REQUIRED st) ch) as (_ & _ & G3).
  cbv zeta in F3, G3.
  match type of F3 with context [fst ?res] =>
    assert (T3 : trace (fst res) = trace st)
      by (destruct (signalFlags st SIG_BACKEND_SYNC_REQUIRED); [|reflexivity];
          destruct (bool_decide (wd_sync = WD_STANDBY)); [exact G3|reflexivity]);
    destruct res as [st3 ch3]
  end.
  cbn [fst snd] in F3, T3. destruct F3 as (A1 & A2 & A3 & _ & _ & _ & A7).
  rewrite (A7 eq_refl) in *. clear A7.
  assert (F4 : exists st4,
    (if signalFlags st3 SIG_WATCHDOG_STATE_CHANGED
     then
       if bool_decide (wd_changed = WD_STANDBY)
       then
         let '(s, c) :=
           sync_backend_from_watchdog cfg num_init_children max_pool pool_coninfo
             fork_a_child fork_health_check true leader_changed
             (clear_signal SIG_WATCHDOG_STATE_CHANGED st3) ch in
         (set_Req (pool_release_follow_primary_lock true) s, c)
       else (clear_signal SIG_WATCHDOG_STATE_CHANGED st3, ch)
     else (st3, ch)) = (st4, ch)
    /\ request_queue_head (Req_info st4) = request_queue_head (Req_info st3)
    /\ request_queue_tail (Req_info st4) = request_queue_tail (Req_info st3)
    /\ request (Req_info st4) = request (Req_info st3)
    /\ trace st4 = trace st3).
  { destruct (signalFlags st3 SIG_WATCHDOG_STATE_CHANGED); [|exists st3; repeat split].
    destruct (bool_decide (wd_changed = WD_STANDBY)); [|eexists; repeat split].
    pose proof (sync_frame cfg num_init_children max_pool pool_coninfo fork_a_child
                  fork_health_check true leader_changed
                  (clear_signal SIG_WATCHDOG_STATE_CHANGED st3) ch)
      as ((B1 & B2 & B3 & _) & _ & B5).
    cbv zeta in B1, B2, B3, B5.
    assert (Hch : snd (sync_backend_from_watchdog cfg num_init_children max_pool
                         pool_coninfo fork_a_child fork_health_check true leader_changed
                         (clear_signal SIG_WATCHDOG_STATE_CHANGED st3) ch) = ch).
    { clear. unfold sync_backend_from_watchdog.
      destruct leader_changed as [l|]; [|reflexivity].
      destruct (node_count l <=? 0); [reflexivity|].
      destruct (fold_left _ _ _) as [s1 loc].
      destruct (sync_primary cfg l s1) as [s2 pc]. reflexivity. }
    change (Req_info (clear_signal SIG_WATCHDOG_STATE_CHANGED st3))
      with (Req_info st3) in B1, B2, B3.
    change (trace (clear_signal SIG_WATCHDOG_STATE_CHANGED st3)) with (trace st3) in B5.
    destruct (sync_backend_from_watchdog cfg num_init_children max_pool pool_coninfo
                fork_a_child fork_health_check true leader_changed
                (clear_signal SIG_WATCHDOG_STATE_CHANGED st3) ch) as [s c].
    cbn [fst snd] in *. subst c. eexists. split; [reflexivity|].
    unfold pool_release_follow_primary_lock. cbn.
    destruct (follow_primary_lock_held_remotely (Req_info s));
      cbn; repeat split; assumption. }
  destruct F4 as (st4 & -> & C1 & C2 & C3 & C4).
  assert (Hsize : forall s, request_queue_head (Req_info s) = request_queue_head (Req_info st) ->
                            request_queue_tail (Req_info s) = request_queue_tail (Req_info st) ->
                            request (Req_info s) = request (Req_info st) ->
                            queue_size s = queue_size st /\ pending cfg s = pending cfg st).
  { intros s H1 H2 H3. unfold pending, queue_size, request_at. rewrite H1, H2, H3.
    split; reflexivity. }
  assert (Hq4 : queue_size st4 = queue_size st /\ pending cfg st4 = pending cfg st)
    by (apply Hsize; congruence).
  assert (Hd4 : dequeued (trace st4) = dequeued (trace st)) by congruence.
  destruct (signalFlags st4 SIG_FAILOVER_INTERRUPT) eqn:Hf.
  - eexists. split; [reflexivity|].
    split; [rewrite clear_signal_flags;
            destruct (decide (SIG_FAILOVER_INTERRUPT = SIG_FAILOVER_INTERRUPT)); congruence|].
    destruct Hq4 as (E1 & E2). auto.
  - exists st4. split; [reflexivity|]. destruct Hq4 as (E1 & E2). auto.
Qed.

Lemma failover_interrupt_ignored_at_startup_witness :
  exists st',
    sigusr1_interupt_processor cfg2 2 4 child1_uses_node1 new_child_pid
      new_health_check_pid (fun s => s) env_idle 0 true 0
      WD_STANDBY WD_STANDBY WD_STANDBY None None true st_pending_signalled children2
    = Done (st', children2)
    /\ signalFlags st' SIG_FAILOVER_INTERRUPT = false
    /\ queue_size st' = queue_size st_pending_signalled
    /\ pending cfg2 st' = pending cfg2 st_pending_signalled
    /\ dequeued (trace st') = dequeued (trace st_pending_signalled).
Proof.
  apply (failover_interrupt_ignored_at_startup cfg2 2 4 child1_uses_node1 new_child_pid
           new_health_check_pid (fun s => s) env_idle 0 true 0
           WD_STANDBY WD_STANDBY WD_STANDBY None None st_pending_signalled children2).
  - reflexivity.
  - reflexivity.
Defined.

(** X28. A supervisor that joins the watchdog cluster as a standby lets go
    of a follow-primary lock held for a remote node: when the slot for a
    change of the watchdog state is raised and the local node has become a
    standby, [sigusr1_interupt_processor()] leaves the lock free if it was
    held remotely; a lock held by a local process stays held, and a pending
    remote request is withdrawn in both cases. *)
Theorem joining_standby_releases_remote_lock (cfg : POOL_CONFIG)
    (num_init_children max_pool : Z)
    (pool_coninfo : Z -> Z -> Z -> ConnectionInfo) (fork_a_child fork_health_check : Z -> Z)
    (degenerate_all_quarantine_nodes : State -> State)
    (env : Env) (fuel : nat) (is_parent : bool)
    (quorum_state : Z) (wd_quorum wd_sync : WD_STATES)
    (leader_sync leader_changed : option WDPGBackendStatus) (initializing : bool)
    (st : State) (ch : Children) :
  signalFlags st SIG_WATCHDOG_STATE_CHANGED = true ->
  signalFlags st SIG_INFORM_QURANTINE_NODES = false ->
  signalFlags st SIG_FAILOVER_INTERRUPT = false ->
  exists st' ch',
    sigusr1_interupt_processor cfg num_init_children max_pool pool_coninfo fork_a_child
      fork_health_check degenerate_all_quarantine_nodes env fuel is_parent quorum_state
      wd_quorum wd_sync WD_STANDBY leader_sync leader_changed initializing st ch
    = Done (st', ch')
    /\ signalFlags st' SIG_WATCHDOG_STATE_CHANGED = false
    /\ follow_primary_lock_pending (Req_info st') = false
    /\ follow_primary_lock_held_remotely (Req_info st') = false
    /\ follow_primary_count (Req_info st')
       = if follow_primary_lock_held_remotely (Req_info st) then 0
         else follow_primary_count (Req_info st).
Proof.
  intros Hchanged Hinform Hfail. unfold sigusr1_interupt_processor.
  pose proof (quorum_changed_frame cfg quorum_state wd_quorum st) as (Q1 & _ & Q3 & _).
  cbv zeta in Q1, Q3.
  set (st1 := sigusr1_quorum_changed cfg quorum_state wd_quorum st) in *.
  rewrite (Q3 SIG_INFORM_QURANTINE_NODES) by discriminate. rewrite Hinform.
  pose proof (sync_block_frame cfg num_init_children max_pool pool_coninfo fork_a_child
                fork_health_check initializing leader_sync SIG_BACKEND_SYNC_REQUIRED
                (bool_decide (wd_sync = WD_STANDBY)) st1 ch) as F3.
  cbv zeta in F3.
  match type of F3 with context [fst ?res] => destruct res as [st3 ch3] end.
  cbn [fst snd] in F3. destruct F3 as (_ & _ & _ & (L1 & L2 & L3) & A5 & _ & _).
  rewrite (A5 SIG_WATCHDOG_STATE_CHANGED) by discriminate.
  rewrite (Q3 SIG_WATCHDOG_STATE_CHANGED) by discriminate.
  rewrite Hchanged. rewrite bool_decide_eq_true_2 by reflexivity.
  pose proof (sync_frame cfg num_init_children max_pool pool_coninfo fork_a_child
                fork_health_check initializing leader_changed
                (clear_signal SIG_WATCHDOG_STATE_CHANGED st3) ch3)
    as ((_ & _ & _ & B4) & (M1 & M2 & M3) & _).
  cbv zeta in B4, M1, M2, M3.
  change (Req_info (clear_signal SIG_WATCHDOG_STATE_CHANGED st3))
    with (Req_info st3) in M1, M2, M3.
  destruct (sync_backend_from_watchdog cfg num_init_children max_pool pool_coninfo
              fork_a_child fork_health_check initializing leader_changed
              (clear_signal SIG_WATCHDOG_STATE_CHANGED st3) ch3) as [s c].
  cbn [fst snd] in B4, M1, M2, M3.
  assert (Hf1 : signalFlags (set_Req (pool_release_follow_primary_lock true) s)
                   SIG_FAILOVER_INTERRUPT = false).
  { change (signalFlags (set_Req ?f s) ?r) with (signalFlags s r).
    rewrite B4, clear_signal_flags.
    destruct (decide (SIG_FAILOVER_INTERRUPT = SIG_WATCHDOG_STATE_CHANGED));
      [reflexivity|].
    rewrite (A5 SIG_FAILOVER_INTERRUPT) by discriminate.
    rewrite (Q3 SIG_FAILOVER_INTERRUPT) by discriminate. exact Hfail. }
  assert (Hf2 : signalFlags (set_Req (pool_release_follow_primary_lock true) s)
                   SIG_WATCHDOG_STATE_CHANGED = false).
  { change (signalFlags (set_Req ?f s) ?r) with (signalFlags s r).
    rewrite B4, clear_signal_flags.
    destruct (decide (SIG_WATCHDOG_STATE_CHANGED = SIG_WATCHDOG_STATE_CHANGED));
      congruence. }
  rewrite Hf1.
  eexists. eexists. split; [reflexivity|]. split; [exact Hf2|].
  change (Req_info (set_Req (pool_release_follow_primary_lock true) s))
    with (pool_release_follow_primary_lock true (Req_info s)).
  unfold pool_release_follow_primary_lock.
  rewrite M1, M2, L1, L2, Q1.
  destruct (follow_primary_lock_held_remotely (Req_info st)); cbn; repeat split.
Qed.

Lemma joining_standby_releases_remote_lock_witness :
  exists st' ch',
    sigusr1_interupt_processor cfg2 2 4 child1_uses_node1 new_child_pid
      new_health_check_pid (fun s => s) env_idle 0 true 0
      WD_STANDBY WD_STANDBY WD_STANDBY None (Some leader_all_up) false st_remote_lock children2
    = Done (st', ch')
    /\ signalFlags st' SIG_WATCHDOG_STATE_CHANGED = false
    /\ follow_primary_lock_pending (Req_info st') = false
    /\ follow_primary_lock_held_remotely (Req_info st') = false
    /\ follow_primary_count (Req_info st')
       = if follow_primary_lock_held_remotely (Req_info st_remote_lock) then 0
         else follow_primary_count (Req_info st_remote_lock).
Proof.
  apply (joining_standby_releases_remote_lock cfg2 2 4 child1_uses_node1 new_child_pid
           new_health_check_pid (fun s => s) env_idle 0 true 0
           WD_STANDBY WD_STANDBY None (Some leader_all_up) false st_remote_lock children2);
    reflexivity.
Defined.

(** ** When no backend is left *)

(** X29. When [check_all_backend_down()] says that every backend is down
    (or unused), there is no main node and no search for a primary:
    [get_next_main_node()] returns -1, and [find_primary_node_repeatedly()]
    returns -1 without probing any backend, unless a follow-primary command
    is going on in streaming or logical replication mode, in which case it
    returns the current primary node id. *)
Theorem no_backend_left_no_search (cfg : POOL_CONFIG) (e : IterEnv) (st : State) :
  0 <= num_backends cfg ->
  check_all_backend_down cfg st = true ->
  get_next_main_node cfg st = -1
  /\ fst (find_primary_node_repeatedly cfg e st)
     = (if SL_MODE cfg && follow_primary_ongoing (Req_info st)
        then primary_node_id (Req_info st) else -1).
Proof.
  intros Hn Hall.
  assert (Hinvalid : forall i, 0 <= i < num_backends cfg -> VALID_BACKEND st i = false).
  { intros i Hi. unfold check_all_backend_down in Hall.
    rewrite forallb_forall in Hall.
    specialize (Hall i). rewrite VALID_BACKEND_eq.
    assert (Hin : In i (seqZ 0 (num_backends cfg)))
      by (apply list_elem_of_In, elem_of_seqZ; lia).
    specialize (Hall Hin). apply orb_true_iff in Hall.
    destruct Hall as [H|H]; apply bool_decide_eq_true in H; rewrite H; reflexivity. }
  split.
  - unfold get_next_main_node. rewrite for_break_none; [|exact Hn|].
    + rewrite Z.eqb_refl. reflexivity.
    + intros i Hi. unfold VALID_BACKEND_RAW. rewrite (Hinvalid i Hi).
      destruct (RAW_MODE cfg); reflexivity.
  - unfold find_primary_node_repeatedly. cbn [fst].
    destruct (SL_MODE cfg); cbn [negb andb]; [|reflexivity].
    destruct (follow_primary_ongoing (Req_info st)); [reflexivity|].
    rewrite for_break_none by assumption. rewrite Z.eqb_refl. reflexivity.
Qed.

Lemma no_backend_left_no_search_witness :
  get_next_main_node cfg2 st_down_down = -1
  /\ fst (find_primary_node_repeatedly cfg2 iter_quiet st_down_down)
     = (if SL_MODE cfg2 && follow_primary_ongoing (Req_info st_down_down)
        then primary_node_id (Req_info st_down_down) else -1).
Proof.
  apply (no_backend_left_no_search cfg2 iter_quiet st_down_down).
  - simpl. lia.
  - reflexivity.
Defined.

(** ** A run of the drain with nothing to do *)

(** X30. A call of [failover()] that finds the queue empty changes nothing
    in the cluster: the supervisor raises and lowers the switching flags,
    wakes the PCP process with SIGUSR2 and returns; the backend table, the
    main and primary node ids and the queue are as before, no child is
    signalled and the PCP process is not restarted. *)
Theorem idle_failover_changes_nothing (cfg : POOL_CONFIG) (env : Env) (fuel : nat)
    (st : State) :
  (0 < fuel)%nat ->
  switching st = false ->
  exiting st = false ->
  queue_size st = 0 ->
  arrivals (iter env 0) = [] ->
  late_arrivals env = [] ->
  exists st',
    failover cfg env fuel true st = Done st'
    /\ backend_info st' = backend_info st
    /\ Req_info st' = with_Req_switching false (Req_info st)
    /\ switching st' = false
    /\ trace st'
       = trace st
         ++ [EvSwitching (Req_switching (Req_info st)) true
                         (request_queue_head (Req_info st)) (request_queue_tail (Req_info st));
             EvSwitching true false
                         (request_queue_head (Req_info st)) (request_queue_tail (Req_info st));
             EvSwitching false false
                         (request_queue_head (Req_info st)) (request_queue_tail (Req_info st));
             EvKillPcp SIGUSR2].
Proof.
  intros Hfuel Hsw Hex Hempty Harr Hlate.
  destruct fuel as [|fuel]; [lia|].
  unfold failover. rewrite Hsw, Hex. cbn [negb].
  cbn [failover_loop]. rewrite Harr. cbn [producers fold_left].
  rewrite dequeue_empty by exact Hempty.
  rewrite Hlate. cbn [producers fold_left initial_locals need_to_restart_pcp].
  eexists. split; [reflexivity|].
  cbn. rewrite <- !app_assoc. cbn. repeat split.
Qed.

Lemma idle_failover_changes_nothing_witness :
  exists st',
    failover cfg2 env_idle 1 true st_up_up = Done st'
    /\ backend_info st' = backend_info st_up_up
    /\ Req_info st' = with_Req_switching false (Req_info st_up_up)
    /\ switching st' = false
    /\ trace st'
       = trace st_up_up
         ++ [EvSwitching (Req_switching (Req_info st_up_up)) true
                         (request_queue_head (Req_info st_up_up))
                         (request_queue_tail (Req_info st_up_up));
             EvSwitching true false
                         (request_queue_head (Req_info st_up_up))
                         (request_queue_tail (Req_info st_up_up));
             EvSwitching false false
                         (request_queue_head (Req_info st_up_up))
                         (request_queue_tail (Req_info st_up_up));
             EvKillPcp SIGUSR2].
Proof.
  apply (idle_failover_changes_nothing cfg2 env_idle 1 st_up_up);
    [lia|reflexivity|reflexivity|reflexivity|reflexivity|reflexivity].
Defined.
